(** * Watchdog coordination core of pgpool-II: a shallow embedding

    This development embeds the parts of [src/watchdog/watchdog.c] that
    decide the failover consensus, the quorum arithmetic, the split-brain
    tiebreaker, the election reply, the reply accounting of cluster
    commands, the expiry of failover proposals, the IPC authentication
    and the escalation entry points; the cluster service messages, the
    joining, initializing and voting states of the election, the failover
    commands and indications and their forwarding by a standby, and the
    packets on the wire; and proves properties of them.

    Conventions.
    - C [int] values are [Z]; [unsigned int] counters wrap modulo 2^32
      where the source increments them.
    - [WatchdogNode *] is a [node_ptr]: the local node or the i-th slot of
      [g_cluster.remoteNodes]; a possibly-NULL pointer is an [option].
    - [g_cluster] is the record [wd_cluster], threaded explicitly.
    - The file-level timer globals [g_timeout_sec] and [g_tm_set_time] are
      two more fields of that record.
    - Calls that leave the process (socket writes, forks, shared-memory
      flags) are appended to the [trace] field, in program order.
    - Values supplied by the operating system (the clock, fork results,
      reaped children, socket write results) are explicit arguments; one
      reading of the clock, [now], serves a whole call.
    - Signed counters are not wrapped: their overflow is undefined in C.
    - Logging ([ereport] below FATAL) and [sleep] are left out. *)

From stdpp Require Import prelude strings.
From Stdlib Require Import ZArith Lia Ascii.

Local Open Scope Z_scope.

(** ** Constants of watchdog.c and pool.h *)

Definition MAX_SECS_ESC_PROC_EXIT_WAIT : nat := 5.
Definition BEACON_MESSAGE_INTERVAL_SECONDS : Z := 10.
Definition MAX_SECS_WAIT_FOR_REPLY_FROM_NODE : Z := 5.
Definition FAILOVER_COMMAND_FINISH_TIMEOUT : Z := 15.

Definition WD_NO_MESSAGE : ascii := "000"%char.
Definition WD_ADD_NODE_MESSAGE : ascii := "A"%char.
Definition WD_REQ_INFO_MESSAGE : ascii := "B"%char.
Definition WD_DECLARE_COORDINATOR_MESSAGE : ascii := "C"%char.
Definition WD_DATA_MESSAGE : ascii := "D"%char.
Definition WD_ERROR_MESSAGE : ascii := "E"%char.
Definition WD_ACCEPT_MESSAGE : ascii := "G"%char.
Definition WD_INFO_MESSAGE : ascii := "I"%char.
Definition WD_JOIN_COORDINATOR_MESSAGE : ascii := "J"%char.
Definition WD_IAM_COORDINATOR_MESSAGE : ascii := "M"%char.
Definition WD_IAM_IN_NW_TROUBLE_MESSAGE : ascii := "N"%char.
Definition WD_QUORUM_IS_LOST : ascii := "Q"%char.
Definition WD_REJECT_MESSAGE : ascii := "R"%char.
Definition WD_STAND_FOR_COORDINATOR_MESSAGE : ascii := "S"%char.
Definition WD_REMOTE_FAILOVER_REQUEST : ascii := "V"%char.
Definition WD_INFORM_I_AM_GOING_DOWN : ascii := "X"%char.
Definition WD_ASK_FOR_POOL_CONFIG : ascii := "Y"%char.
Definition WD_POOL_CONFIG_DATA : ascii := "Z"%char.
Definition WD_CMD_REPLY_IN_DATA : ascii := "-"%char.
Definition WD_CLUSTER_SERVICE_MESSAGE : ascii := "#"%char.
Definition WD_FAILOVER_START : ascii := "F"%char.
Definition WD_FAILOVER_END : ascii := "H"%char.
Definition WD_FAILOVER_WAITING_FOR_CONSENSUS : ascii := "K"%char.

Definition CLUSTER_QUORUM_LOST : ascii := "L"%char.
Definition CLUSTER_QUORUM_FOUND : ascii := "F"%char.
Definition CLUSTER_IN_SPLIT_BRAIN : ascii := "B"%char.
Definition CLUSTER_NEEDS_ELECTION : ascii := "E"%char.
Definition CLUSTER_IAM_TRUE_MASTER : ascii := "M"%char.
Definition CLUSTER_IAM_NOT_TRUE_MASTER : ascii := "X"%char.
Definition CLUSTER_IAM_RESIGNING_FROM_MASTER : ascii := "R"%char.
Definition CLUSTER_NODE_INVALID_VERSION : ascii := "V"%char.

Definition REQ_DETAIL_SWITCHOVER : Z := 1.
Definition REQ_DETAIL_WATCHDOG : Z := 2.
Definition REQ_DETAIL_CONFIRMED : Z := 4.
Definition REQ_DETAIL_UPDATE : Z := 8.

(** ** Enumerations *)

Inductive WD_STATES :=
| WD_DEAD | WD_LOADING | WD_JOINING | WD_INITIALIZING | WD_COORDINATOR
| WD_PARTICIPATE_IN_ELECTION | WD_STAND_FOR_COORDINATOR | WD_STANDBY
| WD_LOST | WD_IN_NW_TROUBLE | WD_SHUTDOWN | WD_ADD_MESSAGE_SENT.

Inductive POOL_REQUEST_KIND :=
| NODE_UP_REQUEST | NODE_DOWN_REQUEST | NODE_RECOVERY_REQUEST
| CLOSE_IDLE_REQUEST | PROMOTE_NODE_REQUEST | NODE_QUARANTINE_REQUEST.

Inductive WDFailoverCMDResults :=
| FAILOVER_RES_ERROR | FAILOVER_RES_TRANSITION | FAILOVER_RES_PROCEED
| FAILOVER_RES_WILL_BE_DONE | FAILOVER_RES_NOT_ALLOWED
| FAILOVER_RES_INVALID_FUNCTION | FAILOVER_RES_MASTER_REJECTED
| FAILOVER_RES_BUILDING_CONSENSUS | FAILOVER_RES_CONSENSUS_MAY_FAIL
| FAILOVER_RES_NO_QUORUM | FAILOVER_RES_TIMEOUT.

Inductive WDNodeCommandState :=
| COMMAMD_STATE_INIT | COMMAND_STATE_SENT | COMMAND_STATE_REPLIED
| COMMAND_STATE_SEND_ERROR | COMMAND_STATE_DO_NOT_SEND.

Inductive WDCommandSource :=
| COMMAND_SOURCE_IPC | COMMAND_SOURCE_LOCAL | COMMAND_SOURCE_REMOTE
| COMMAND_SOURCE_INTERNAL.

Inductive WDCommandStatus :=
| COMMAND_EMPTY | COMMAND_IN_PROGRESS | COMMAND_FINISHED_TIMEOUT
| COMMAND_FINISHED_ALL_REPLIED | COMMAND_FINISHED_NODE_REJECTED
| COMMAND_FINISHED_SEND_FAILED.

Inductive IPC_CMD_PREOCESS_RES :=
| IPC_CMD_COMPLETE | IPC_CMD_PROCESSING | IPC_CMD_ERROR | IPC_CMD_OK
| IPC_CMD_TRY_AGAIN.

Inductive BACKEND_ROLE := ROLE_MASTER | ROLE_REPLICA | ROLE_PRIMARY | ROLE_STANDBY.

Inductive node_ptr := LocalNode | RemoteNode (i : nat).

#[global] Instance WD_STATES_eq_dec : EqDecision WD_STATES.
Proof. solve_decision. Defined.
#[global] Instance POOL_REQUEST_KIND_eq_dec : EqDecision POOL_REQUEST_KIND.
Proof. solve_decision. Defined.
#[global] Instance WDFailoverCMDResults_eq_dec : EqDecision WDFailoverCMDResults.
Proof. solve_decision. Defined.
#[global] Instance WDNodeCommandState_eq_dec : EqDecision WDNodeCommandState.
Proof. solve_decision. Defined.
#[global] Instance WDCommandStatus_eq_dec : EqDecision WDCommandStatus.
Proof. solve_decision. Defined.
#[global] Instance WDCommandSource_eq_dec : EqDecision WDCommandSource.
Proof. solve_decision. Defined.
#[global] Instance BACKEND_ROLE_eq_dec : EqDecision BACKEND_ROLE.
Proof. solve_decision. Defined.
#[global] Instance node_ptr_eq_dec : EqDecision node_ptr.
Proof. solve_decision. Defined.
#[global] Instance IPC_CMD_PREOCESS_RES_eq_dec : EqDecision IPC_CMD_PREOCESS_RES.
Proof. solve_decision. Defined.

(** ** Data *)

Record timeval := { tv_sec : Z; tv_usec : Z }.

(** The fields of [WatchdogNode] (watchdog.h) that watchdog.c reads or
    writes in the embedded functions.  [node_quorum_status] and
    [node_standby_nodes_count] are the C fields [quorum_status] and
    [standby_nodes_count] of the node. *)
Record WatchdogNode := {
  state : WD_STATES;
  wd_priority : Z;
  startup_time : timeval;
  current_state_time : timeval;
  escalated : bool;
  node_quorum_status : Z;
  node_standby_nodes_count : Z;
  delegate_ip : string
}.

Record WDPacketData := {
  type : ascii;
  command_id : Z;
  data : option string
}.

(** [len] is not stored: it is the length of [data], 0 for NULL. *)
Definition len (pkt : WDPacketData) : Z :=
  match data pkt with
  | None => 0
  | Some s => Z.of_nat (String.length s)
  end.

Record WDCommandNodeResult := {
  wdNode : node_ptr;
  cmdState : WDNodeCommandState;
  result_type : ascii;
  result_data : option string
}.

(** [cmd_addr] stands for the address of the heap object: commands are
    handled through [WDCommandData *] and removed with [list_delete_ptr]. *)
Record WDCommandData := {
  cmd_addr : nat;
  sourcePacket : WDPacketData;
  commandPacket : WDPacketData;
  nodeResults : list WDCommandNodeResult;
  sendToNode : option node_ptr;
  commandStatus : WDCommandStatus;
  commandTimeoutSecs : Z;
  commandTime : timeval;
  commandSendToCount : Z;
  commandReplyFromCount : Z;
  commandSource : WDCommandSource;
  sourceIPCSocket : Z;
  sourceWdNode : option node_ptr;
  errorMessage : option string
}.

(** [nodeList] is the C array [nodeList] of [nodesCount] entries; the
    count is the length of the list. *)
Record WDFailoverObject := {
  reqKind : POOL_REQUEST_KIND;
  reqFlags : Z;
  failoverID : Z;
  nodeList : list Z;
  requestingNodes : list node_ptr;
  request_count : Z;
  startTime : timeval
}.

Record WDClusterMasterInfo := {
  masterNode : option node_ptr;
  standbyNodes : list (option node_ptr);
  standby_nodes_count : Z;
  holding_vip : bool
}.

(** What leaves the modelled core, recorded in program order. *)
Inductive wd_action :=
| act_send_message (dst : option node_ptr) (pkt : WDPacketData)
| act_send_message_to_node (i : nat) (pkt : WDPacketData) (ok : bool)
| act_fork_escalation_process (pid : Z)
| act_fork_plunging_process (pid : Z)
| act_set_watchdog_node_escalated
| act_reset_watchdog_node_escalated
| act_connect_to_unreachable_nodes
| act_register_watchdog_quorum_change_interupt
| act_register_watchdog_state_change_interupt
| act_write_packet_to_socket (sock : Z) (pkt : WDPacketData).

Record wd_cluster := {
  localNode : WatchdogNode;
  remoteNodes : list WatchdogNode;
  clusterMasterInfo : WDClusterMasterInfo;
  remoteNodeCount : Z;
  quorum_status : Z;
  nextCommandID : Z;
  escalation_pid : Z;
  de_escalation_pid : Z;
  ipc_auth_needed : bool;
  ipc_commands : list WDCommandData;
  clusterCommands : list WDCommandData;
  wdCurrentFailovers : list WDFailoverObject;
  g_timeout_sec : Z;
  g_tm_set_time : timeval;
  trace : list wd_action
}.

(** The configuration values of [pool_config] read by the embedded code. *)
Record POOL_CONFIG := {
  failover_when_quorum_exists : bool;
  failover_require_consensus : bool;
  allow_multiple_failover_requests_from_node : bool;
  enable_consensus_with_half_votes : bool;
  cfg_wd_priority : Z;
  wd_authkey : string
}.

(** ** Field updates

    [with_f v x] is [x] with its field [f] set to [v]. *)

Definition with_state v (x : WatchdogNode) : WatchdogNode :=
  {| state := v; wd_priority := wd_priority x;
     startup_time := startup_time x;
     current_state_time := current_state_time x; escalated := escalated x;
     node_quorum_status := node_quorum_status x;
     node_standby_nodes_count := node_standby_nodes_count x;
     delegate_ip := delegate_ip x |}.

Definition with_wd_priority v (x : WatchdogNode) : WatchdogNode :=
  {| state := state x; wd_priority := v; startup_time := startup_time x;
     current_state_time := current_state_time x; escalated := escalated x;
     node_quorum_status := node_quorum_status x;
     node_standby_nodes_count := node_standby_nodes_count x;
     delegate_ip := delegate_ip x |}.

Definition with_startup_time v (x : WatchdogNode) : WatchdogNode :=
  {| state := state x; wd_priority := wd_priority x; startup_time := v;
     current_state_time := current_state_time x; escalated := escalated x;
     node_quorum_status := node_quorum_status x;
     node_standby_nodes_count := node_standby_nodes_count x;
     delegate_ip := delegate_ip x |}.

Definition with_current_state_time v (x : WatchdogNode) : WatchdogNode :=
  {| state := state x; wd_priority := wd_priority x;
     startup_time := startup_time x; current_state_time := v;
     escalated := escalated x; node_quorum_status := node_quorum_status x;
     node_standby_nodes_count := node_standby_nodes_count x;
     delegate_ip := delegate_ip x |}.

Definition with_escalated v (x : WatchdogNode) : WatchdogNode :=
  {| state := state x; wd_priority := wd_priority x;
     startup_time := startup_time x;
     current_state_time := current_state_time x; escalated := v;
     node_quorum_status := node_quorum_status x;
     node_standby_nodes_count := node_standby_nodes_count x;
     delegate_ip := delegate_ip x |}.

Definition with_node_quorum_status v (x : WatchdogNode) : WatchdogNode :=
  {| state := state x; wd_priority := wd_priority x;
     startup_time := startup_time x;
     current_state_time := current_state_time x; escalated := escalated x;
     node_quorum_status := v;
     node_standby_nodes_count := node_standby_nodes_count x;
     delegate_ip := delegate_ip x |}.

Definition with_node_standby_nodes_count v (x : WatchdogNode) : WatchdogNode :=
  {| state := state x; wd_priority := wd_priority x;
     startup_time := startup_time x;
     current_state_time := current_state_time x; escalated := escalated x;
     node_quorum_status := node_quorum_status x;
     node_standby_nodes_count := v; delegate_ip := delegate_ip x |}.

Definition with_delegate_ip v (x : WatchdogNode) : WatchdogNode :=
  {| state := state x; wd_priority := wd_priority x;
     startup_time := startup_time x;
     current_state_time := current_state_time x; escalated := escalated x;
     node_quorum_status := node_quorum_status x;
     node_standby_nodes_count := node_standby_nodes_count x;
     delegate_ip := v |}.

Definition with_wdNode v (x : WDCommandNodeResult) : WDCommandNodeResult :=
  {| wdNode := v; cmdState := cmdState x; result_type := result_type x;
     result_data := result_data x |}.

Definition with_cmdState v (x : WDCommandNodeResult) : WDCommandNodeResult :=
  {| wdNode := wdNode x; cmdState := v; result_type := result_type x;
     result_data := result_data x |}.

Definition with_result_type v (x : WDCommandNodeResult) : WDCommandNodeResult :=
  {| wdNode := wdNode x; cmdState := cmdState x; result_type := v;
     result_data := result_data x |}.

Definition with_result_data v (x : WDCommandNodeResult) : WDCommandNodeResult :=
  {| wdNode := wdNode x; cmdState := cmdState x;
     result_type := result_type x; result_data := v |}.

Definition with_cmd_addr v (x : WDCommandData) : WDCommandData :=
  {| cmd_addr := v; sourcePacket := sourcePacket x;
     commandPacket := commandPacket x; nodeResults := nodeResults x;
     sendToNode := sendToNode x; commandStatus := commandStatus x;
     commandTimeoutSecs := commandTimeoutSecs x;
     commandTime := commandTime x;
     commandSendToCount := commandSendToCount x;
     commandReplyFromCount := commandReplyFromCount x;
     commandSource := commandSource x; sourceIPCSocket := sourceIPCSocket x;
     sourceWdNode := sourceWdNode x; errorMessage := errorMessage x |}.

Definition with_sourcePacket v (x : WDCommandData) : WDCommandData :=
  {| cmd_addr := cmd_addr x; sourcePacket := v;
     commandPacket := commandPacket x; nodeResults := nodeResults x;
     sendToNode := sendToNode x; commandStatus := commandStatus x;
     commandTimeoutSecs := commandTimeoutSecs x;
     commandTime := commandTime x;
     commandSendToCount := commandSendToCount x;
     commandReplyFromCount := commandReplyFromCount x;
     commandSource := commandSource x; sourceIPCSocket := sourceIPCSocket x;
     sourceWdNode := sourceWdNode x; errorMessage := errorMessage x |}.

Definition with_commandPacket v (x : WDCommandData) : WDCommandData :=
  {| cmd_addr := cmd_addr x; sourcePacket := sourcePacket x;
     commandPacket := v; nodeResults := nodeResults x;
     sendToNode := sendToNode x; commandStatus := commandStatus x;
     commandTimeoutSecs := commandTimeoutSecs x;
     commandTime := commandTime x;
     commandSendToCount := commandSendToCount x;
     commandReplyFromCount := commandReplyFromCount x;
     commandSource := commandSource x; sourceIPCSocket := sourceIPCSocket x;
     sourceWdNode := sourceWdNode x; errorMessage := errorMessage x |}.

Definition with_nodeResults v (x : WDCommandData) : WDCommandData :=
  {| cmd_addr := cmd_addr x; sourcePacket := sourcePacket x;
     commandPacket := commandPacket x; nodeResults := v;
     sendToNode := sendToNode x; commandStatus := commandStatus x;
     commandTimeoutSecs := commandTimeoutSecs x;
     commandTime := commandTime x;
     commandSendToCount := commandSendToCount x;
     commandReplyFromCount := commandReplyFromCount x;
     commandSource := commandSource x; sourceIPCSocket := sourceIPCSocket x;
     sourceWdNode := sourceWdNode x; errorMessage := errorMessage x |}.

Definition with_sendToNode v (x : WDCommandData) : WDCommandData :=
  {| cmd_addr := cmd_addr x; sourcePacket := sourcePacket x;
     commandPacket := commandPacket x; nodeResults := nodeResults x;
     sendToNode := v; commandStatus := commandStatus x;
     commandTimeoutSecs := commandTimeoutSecs x;
     commandTime := commandTime x;
     commandSendToCount := commandSendToCount x;
     commandReplyFromCount := commandReplyFromCount x;
     commandSource := commandSource x; sourceIPCSocket := sourceIPCSocket x;
     sourceWdNode := sourceWdNode x; errorMessage := errorMessage x |}.

Definition with_commandStatus v (x : WDCommandData) : WDCommandData :=
  {| cmd_addr := cmd_addr x; sourcePacket := sourcePacket x;
     commandPacket := commandPacket x; nodeResults := nodeResults x;
     sendToNode := sendToNode x; commandStatus := v;
     commandTimeoutSecs := commandTimeoutSecs x;
     commandTime := commandTime x;
     commandSendToCount := commandSendToCount x;
     commandReplyFromCount := commandReplyFromCount x;
     commandSource := commandSource x; sourceIPCSocket := sourceIPCSocket x;
     sourceWdNode := sourceWdNode x; errorMessage := errorMessage x |}.

Definition with_commandTimeoutSecs v (x : WDCommandData) : WDCommandData :=
  {| cmd_addr := cmd_addr x; sourcePacket := sourcePacket x;
     commandPacket := commandPacket x; nodeResults := nodeResults x;
     sendToNode := sendToNode x; commandStatus := commandStatus x;
     commandTimeoutSecs := v; commandTime := commandTime x;
     commandSendToCount := commandSendToCount x;
     commandReplyFromCount := commandReplyFromCount x;
     commandSource := commandSource x; sourceIPCSocket := sourceIPCSocket x;
     sourceWdNode := sourceWdNode x; errorMessage := errorMessage x |}.

Definition with_commandTime v (x : WDCommandData) : WDCommandData :=
  {| cmd_addr := cmd_addr x; sourcePacket := sourcePacket x;
     commandPacket := commandPacket x; nodeResults := nodeResults x;
     sendToNode := sendToNode x; commandStatus := commandStatus x;
     commandTimeoutSecs := commandTimeoutSecs x; commandTime := v;
     commandSendToCount := commandSendToCount x;
     commandReplyFromCount := commandReplyFromCount x;
     commandSource := commandSource x; sourceIPCSocket := sourceIPCSocket x;
     sourceWdNode := sourceWdNode x; errorMessage := errorMessage x |}.

Definition with_commandSendToCount v (x : WDCommandData) : WDCommandData :=
  {| cmd_addr := cmd_addr x; sourcePacket := sourcePacket x;
     commandPacket := commandPacket x; nodeResults := nodeResults x;
     sendToNode := sendToNode x; commandStatus := commandStatus x;
     commandTimeoutSecs := commandTimeoutSecs x;
     commandTime := commandTime x; commandSendToCount := v;
     commandReplyFromCount := commandReplyFromCount x;
     commandSource := commandSource x; sourceIPCSocket := sourceIPCSocket x;
     sourceWdNode := sourceWdNode x; errorMessage := errorMessage x |}.

Definition with_commandReplyFromCount v (x : WDCommandData) : WDCommandData :=
  {| cmd_addr := cmd_addr x; sourcePacket := sourcePacket x;
     commandPacket := commandPacket x; nodeResults := nodeResults x;
     sendToNode := sendToNode x; commandStatus := commandStatus x;
     commandTimeoutSecs := commandTimeoutSecs x;
     commandTime := commandTime x;
     commandSendToCount := commandSendToCount x; commandReplyFromCount := v;
     commandSource := commandSource x; sourceIPCSocket := sourceIPCSocket x;
     sourceWdNode := sourceWdNode x; errorMessage := errorMessage x |}.

Definition with_commandSource v (x : WDCommandData) : WDCommandData :=
  {| cmd_addr := cmd_addr x; sourcePacket := sourcePacket x;
     commandPacket := commandPacket x; nodeResults := nodeResults x;
     sendToNode := sendToNode x; commandStatus := commandStatus x;
     commandTimeoutSecs := commandTimeoutSecs x;
     commandTime := commandTime x;
     commandSendToCount := commandSendToCount x;
     commandReplyFromCount := commandReplyFromCount x; commandSource := v;
     sourceIPCSocket := sourceIPCSocket x; sourceWdNode := sourceWdNode x;
     errorMessage := errorMessage x |}.

Definition with_sourceIPCSocket v (x : WDCommandData) : WDCommandData :=
  {| cmd_addr := cmd_addr x; sourcePacket := sourcePacket x;
     commandPacket := commandPacket x; nodeResults := nodeResults x;
     sendToNode := sendToNode x; commandStatus := commandStatus x;
     commandTimeoutSecs := commandTimeoutSecs x;
     commandTime := commandTime x;
     commandSendToCount := commandSendToCount x;
     commandReplyFromCount := commandReplyFromCount x;
     commandSource := commandSource x; sourceIPCSocket := v;
     sourceWdNode := sourceWdNode x; errorMessage := errorMessage x |}.

Definition with_sourceWdNode v (x : WDCommandData) : WDCommandData :=
  {| cmd_addr := cmd_addr x; sourcePacket := sourcePacket x;
     commandPacket := commandPacket x; nodeResults := nodeResults x;
     sendToNode := sendToNode x; commandStatus := commandStatus x;
     commandTimeoutSecs := commandTimeoutSecs x;
     commandTime := commandTime x;
     commandSendToCount := commandSendToCount x;
     commandReplyFromCount := commandReplyFromCount x;
     commandSource := commandSource x; sourceIPCSocket := sourceIPCSocket x;
     sourceWdNode := v; errorMessage := errorMessage x |}.

Definition with_errorMessage v (x : WDCommandData) : WDCommandData :=
  {| cmd_addr := cmd_addr x; sourcePacket := sourcePacket x;
     commandPacket := commandPacket x; nodeResults := nodeResults x;
     sendToNode := sendToNode x; commandStatus := commandStatus x;
     commandTimeoutSecs := commandTimeoutSecs x;
     commandTime := commandTime x;
     commandSendToCount := commandSendToCount x;
     commandReplyFromCount := commandReplyFromCount x;
     commandSource := commandSource x; sourceIPCSocket := sourceIPCSocket x;
     sourceWdNode := sourceWdNode x; errorMessage := v |}.

Definition with_reqKind v (x : WDFailoverObject) : WDFailoverObject :=
  {| reqKind := v; reqFlags := reqFlags x; failoverID := failoverID x;
     nodeList := nodeList x; requestingNodes := requestingNodes x;
     request_count := request_count x; startTime := startTime x |}.

Definition with_reqFlags v (x : WDFailoverObject) : WDFailoverObject :=
  {| reqKind := reqKind x; reqFlags := v; failoverID := failoverID x;
     nodeList := nodeList x; requestingNodes := requestingNodes x;
     request_count := request_count x; startTime := startTime x |}.

Definition with_failoverID v (x : WDFailoverObject) : WDFailoverObject :=
  {| reqKind := reqKind x; reqFlags := reqFlags x; failoverID := v;
     nodeList := nodeList x; requestingNodes := requestingNodes x;
     request_count := request_count x; startTime := startTime x |}.

Definition with_nodeList v (x : WDFailoverObject) : WDFailoverObject :=
  {| reqKind := reqKind x; reqFlags := reqFlags x;
     failoverID := failoverID x; nodeList := v;
     requestingNodes := requestingNodes x; request_count := request_count x;
     startTime := startTime x |}.

Definition with_requestingNodes v (x : WDFailoverObject) : WDFailoverObject :=
  {| reqKind := reqKind x; reqFlags := reqFlags x;
     failoverID := failoverID x; nodeList := nodeList x;
     requestingNodes := v; request_count := request_count x;
     startTime := startTime x |}.

Definition with_request_count v (x : WDFailoverObject) : WDFailoverObject :=
  {| reqKind := reqKind x; reqFlags := reqFlags x;
     failoverID := failoverID x; nodeList := nodeList x;
     requestingNodes := requestingNodes x; request_count := v;
     startTime := startTime x |}.

Definition with_startTime v (x : WDFailoverObject) : WDFailoverObject :=
  {| reqKind := reqKind x; reqFlags := reqFlags x;
     failoverID := failoverID x; nodeList := nodeList x;
     requestingNodes := requestingNodes x; request_count := request_count x;
     startTime := v |}.

Definition with_masterNode v (x : WDClusterMasterInfo) : WDClusterMasterInfo :=
  {| masterNode := v; standbyNodes := standbyNodes x;
     standby_nodes_count := standby_nodes_count x;
     holding_vip := holding_vip x |}.

Definition with_standbyNodes v (x : WDClusterMasterInfo) : WDClusterMasterInfo :=
  {| masterNode := masterNode x; standbyNodes := v;
     standby_nodes_count := standby_nodes_count x;
     holding_vip := holding_vip x |}.

Definition with_standby_nodes_count v (x : WDClusterMasterInfo) : WDClusterMasterInfo :=
  {| masterNode := masterNode x; standbyNodes := standbyNodes x;
     standby_nodes_count := v; holding_vip := holding_vip x |}.

Definition with_holding_vip v (x : WDClusterMasterInfo) : WDClusterMasterInfo :=
  {| masterNode := masterNode x; standbyNodes := standbyNodes x;
     standby_nodes_count := standby_nodes_count x; holding_vip := v |}.

Definition with_localNode v (x : wd_cluster) : wd_cluster :=
  {| localNode := v; remoteNodes := remoteNodes x;
     clusterMasterInfo := clusterMasterInfo x;
     remoteNodeCount := remoteNodeCount x; quorum_status := quorum_status x;
     nextCommandID := nextCommandID x; escalation_pid := escalation_pid x;
     de_escalation_pid := de_escalation_pid x;
     ipc_auth_needed := ipc_auth_needed x; ipc_commands := ipc_commands x;
     clusterCommands := clusterCommands x;
     wdCurrentFailovers := wdCurrentFailovers x;
     g_timeout_sec := g_timeout_sec x; g_tm_set_time := g_tm_set_time x;
     trace := trace x |}.

Definition with_remoteNodes v (x : wd_cluster) : wd_cluster :=
  {| localNode := localNode x; remoteNodes := v;
     clusterMasterInfo := clusterMasterInfo x;
     remoteNodeCount := remoteNodeCount x; quorum_status := quorum_status x;
     nextCommandID := nextCommandID x; escalation_pid := escalation_pid x;
     de_escalation_pid := de_escalation_pid x;
     ipc_auth_needed := ipc_auth_needed x; ipc_commands := ipc_commands x;
     clusterCommands := clusterCommands x;
     wdCurrentFailovers := wdCurrentFailovers x;
     g_timeout_sec := g_timeout_sec x; g_tm_set_time := g_tm_set_time x;
     trace := trace x |}.

Definition with_clusterMasterInfo v (x : wd_cluster) : wd_cluster :=
  {| localNode := localNode x; remoteNodes := remoteNodes x;
     clusterMasterInfo := v; remoteNodeCount := remoteNodeCount x;
     quorum_status := quorum_status x; nextCommandID := nextCommandID x;
     escalation_pid := escalation_pid x;
     de_escalation_pid := de_escalation_pid x;
     ipc_auth_needed := ipc_auth_needed x; ipc_commands := ipc_commands x;
     clusterCommands := clusterCommands x;
     wdCurrentFailovers := wdCurrentFailovers x;
     g_timeout_sec := g_timeout_sec x; g_tm_set_time := g_tm_set_time x;
     trace := trace x |}.

Definition with_remoteNodeCount v (x : wd_cluster) : wd_cluster :=
  {| localNode := localNode x; remoteNodes := remoteNodes x;
     clusterMasterInfo := clusterMasterInfo x; remoteNodeCount := v;
     quorum_status := quorum_status x; nextCommandID := nextCommandID x;
     escalation_pid := escalation_pid x;
     de_escalation_pid := de_escalation_pid x;
     ipc_auth_needed := ipc_auth_needed x; ipc_commands := ipc_commands x;
     clusterCommands := clusterCommands x;
     wdCurrentFailovers := wdCurrentFailovers x;
     g_timeout_sec := g_timeout_sec x; g_tm_set_time := g_tm_set_time x;
     trace := trace x |}.

Definition with_quorum_status v (x : wd_cluster) : wd_cluster :=
  {| localNode := localNode x; remoteNodes := remoteNodes x;
     clusterMasterInfo := clusterMasterInfo x;
     remoteNodeCount := remoteNodeCount x; quorum_status := v;
     nextCommandID := nextCommandID x; escalation_pid := escalation_pid x;
     de_escalation_pid := de_escalation_pid x;
     ipc_auth_needed := ipc_auth_needed x; ipc_commands := ipc_commands x;
     clusterCommands := clusterCommands x;
     wdCurrentFailovers := wdCurrentFailovers x;
     g_timeout_sec := g_timeout_sec x; g_tm_set_time := g_tm_set_time x;
     trace := trace x |}.

Definition with_nextCommandID v (x : wd_cluster) : wd_cluster :=
  {| localNode := localNode x; remoteNodes := remoteNodes x;
     clusterMasterInfo := clusterMasterInfo x;
     remoteNodeCount := remoteNodeCount x; quorum_status := quorum_status x;
     nextCommandID := v; escalation_pid := escalation_pid x;
     de_escalation_pid := de_escalation_pid x;
     ipc_auth_needed := ipc_auth_needed x; ipc_commands := ipc_commands x;
     clusterCommands := clusterCommands x;
     wdCurrentFailovers := wdCurrentFailovers x;
     g_timeout_sec := g_timeout_sec x; g_tm_set_time := g_tm_set_time x;
     trace := trace x |}.

Definition with_escalation_pid v (x : wd_cluster) : wd_cluster :=
  {| localNode := localNode x; remoteNodes := remoteNodes x;
     clusterMasterInfo := clusterMasterInfo x;
     remoteNodeCount := remoteNodeCount x; quorum_status := quorum_status x;
     nextCommandID := nextCommandID x; escalation_pid := v;
     de_escalation_pid := de_escalation_pid x;
     ipc_auth_needed := ipc_auth_needed x; ipc_commands := ipc_commands x;
     clusterCommands := clusterCommands x;
     wdCurrentFailovers := wdCurrentFailovers x;
     g_timeout_sec := g_timeout_sec x; g_tm_set_time := g_tm_set_time x;
     trace := trace x |}.

Definition with_de_escalation_pid v (x : wd_cluster) : wd_cluster :=
  {| localNode := localNode x; remoteNodes := remoteNodes x;
     clusterMasterInfo := clusterMasterInfo x;
     remoteNodeCount := remoteNodeCount x; quorum_status := quorum_status x;
     nextCommandID := nextCommandID x; escalation_pid := escalation_pid x;
     de_escalation_pid := v; ipc_auth_needed := ipc_auth_needed x;
     ipc_commands := ipc_commands x; clusterCommands := clusterCommands x;
     wdCurrentFailovers := wdCurrentFailovers x;
     g_timeout_sec := g_timeout_sec x; g_tm_set_time := g_tm_set_time x;
     trace := trace x |}.

Definition with_ipc_auth_needed v (x : wd_cluster) : wd_cluster :=
  {| localNode := localNode x; remoteNodes := remoteNodes x;
     clusterMasterInfo := clusterMasterInfo x;
     remoteNodeCount := remoteNodeCount x; quorum_status := quorum_status x;
     nextCommandID := nextCommandID x; escalation_pid := escalation_pid x;
     de_escalation_pid := de_escalation_pid x; ipc_auth_needed := v;
     ipc_commands := ipc_commands x; clusterCommands := clusterCommands x;
     wdCurrentFailovers := wdCurrentFailovers x;
     g_timeout_sec := g_timeout_sec x; g_tm_set_time := g_tm_set_time x;
     trace := trace x |}.

Definition with_ipc_commands v (x : wd_cluster) : wd_cluster :=
  {| localNode := localNode x; remoteNodes := remoteNodes x;
     clusterMasterInfo := clusterMasterInfo x;
     remoteNodeCount := remoteNodeCount x; quorum_status := quorum_status x;
     nextCommandID := nextCommandID x; escalation_pid := escalation_pid x;
     de_escalation_pid := de_escalation_pid x;
     ipc_auth_needed := ipc_auth_needed x; ipc_commands := v;
     clusterCommands := clusterCommands x;
     wdCurrentFailovers := wdCurrentFailovers x;
     g_timeout_sec := g_timeout_sec x; g_tm_set_time := g_tm_set_time x;
     trace := trace x |}.

Definition with_clusterCommands v (x : wd_cluster) : wd_cluster :=
  {| localNode := localNode x; remoteNodes := remoteNodes x;
     clusterMasterInfo := clusterMasterInfo x;
     remoteNodeCount := remoteNodeCount x; quorum_status := quorum_status x;
     nextCommandID := nextCommandID x; escalation_pid := escalation_pid x;
     de_escalation_pid := de_escalation_pid x;
     ipc_auth_needed := ipc_auth_needed x; ipc_commands := ipc_commands x;
     clusterCommands := v; wdCurrentFailovers := wdCurrentFailovers x;
     g_timeout_sec := g_timeout_sec x; g_tm_set_time := g_tm_set_time x;
     trace := trace x |}.

Definition with_wdCurrentFailovers v (x : wd_cluster) : wd_cluster :=
  {| localNode := localNode x; remoteNodes := remoteNodes x;
     clusterMasterInfo := clusterMasterInfo x;
     remoteNodeCount := remoteNodeCount x; quorum_status := quorum_status x;
     nextCommandID := nextCommandID x; escalation_pid := escalation_pid x;
     de_escalation_pid := de_escalation_pid x;
     ipc_auth_needed := ipc_auth_needed x; ipc_commands := ipc_commands x;
     clusterCommands := clusterCommands x; wdCurrentFailovers := v;
     g_timeout_sec := g_timeout_sec x; g_tm_set_time := g_tm_set_time x;
     trace := trace x |}.

Definition with_g_timeout_sec v (x : wd_cluster) : wd_cluster :=
  {| localNode := localNode x; remoteNodes := remoteNodes x;
     clusterMasterInfo := clusterMasterInfo x;
     remoteNodeCount := remoteNodeCount x; quorum_status := quorum_status x;
     nextCommandID := nextCommandID x; escalation_pid := escalation_pid x;
     de_escalation_pid := de_escalation_pid x;
     ipc_auth_needed := ipc_auth_needed x; ipc_commands := ipc_commands x;
     clusterCommands := clusterCommands x;
     wdCurrentFailovers := wdCurrentFailovers x; g_timeout_sec := v;
     g_tm_set_time := g_tm_set_time x; trace := trace x |}.

Definition with_g_tm_set_time v (x : wd_cluster) : wd_cluster :=
  {| localNode := localNode x; remoteNodes := remoteNodes x;
     clusterMasterInfo := clusterMasterInfo x;
     remoteNodeCount := remoteNodeCount x; quorum_status := quorum_status x;
     nextCommandID := nextCommandID x; escalation_pid := escalation_pid x;
     de_escalation_pid := de_escalation_pid x;
     ipc_auth_needed := ipc_auth_needed x; ipc_commands := ipc_commands x;
     clusterCommands := clusterCommands x;
     wdCurrentFailovers := wdCurrentFailovers x;
     g_timeout_sec := g_timeout_sec x; g_tm_set_time := v;
     trace := trace x |}.

Definition with_trace v (x : wd_cluster) : wd_cluster :=
  {| localNode := localNode x; remoteNodes := remoteNodes x;
     clusterMasterInfo := clusterMasterInfo x;
     remoteNodeCount := remoteNodeCount x; quorum_status := quorum_status x;
     nextCommandID := nextCommandID x; escalation_pid := escalation_pid x;
     de_escalation_pid := de_escalation_pid x;
     ipc_auth_needed := ipc_auth_needed x; ipc_commands := ipc_commands x;
     clusterCommands := clusterCommands x;
     wdCurrentFailovers := wdCurrentFailovers x;
     g_timeout_sec := g_timeout_sec x; g_tm_set_time := g_tm_set_time x;
     trace := v |}.

Definition log_action (a : wd_action) (g : wd_cluster) : wd_cluster :=
  with_trace (trace g ++ [a]) g.

Definition get_local_node_state (g : wd_cluster) : WD_STATES :=
  state (localNode g).

Definition getMasterWatchdogNode (g : wd_cluster) : option node_ptr :=
  masterNode (clusterMasterInfo g).

Definition nodesCount (f : WDFailoverObject) : Z :=
  Z.of_nat (length (nodeList f)).

(** ** Quorum arithmetic *)

(** C's [%] and [/] on [int] truncate toward zero: [Z.rem] and [Z.quot]. *)
Definition get_mimimum_remote_nodes_required_for_quorum (g : wd_cluster) : Z :=
  if decide (Z.rem (remoteNodeCount g) 2 = 0)
  then Z.quot (remoteNodeCount g) 2
  else Z.quot (remoteNodeCount g - 1) 2.

Definition get_minimum_votes_to_resolve_consensus
    (pool_config : POOL_CONFIG) (g : wd_cluster) : Z :=
  let required_node_count := get_mimimum_remote_nodes_required_for_quorum g + 1 in
  if decide (Z.rem (remoteNodeCount g) 2 <> 0)
  then if decide (enable_consensus_with_half_votes pool_config = false)
       then required_node_count + 1
       else required_node_count
  else required_node_count.

(** ** Escalation and de-escalation *)

(** What the operating system supplies to one call of an escalation
    entry point: for each pass of the wait loop whether [sigchld_request]
    is set and, if so, the children [pool_waitpid] then reaps; and the
    value returned by the fork helper. *)
Record esc_env := {
  sigchld : list (option (list Z));
  fork_pid : Z
}.

(** The reaping loop of [wd_child_signal_handler]: [pool_waitpid] returns
    the listed pids in turn; the loop stops at the first one that is not
    positive. *)
Fixpoint wd_child_signal_handler (pids : list Z) (g : wd_cluster) : wd_cluster :=
  match pids with
  | [] => g
  | pid :: rest =>
      if decide (0 < pid) then
        wd_child_signal_handler rest
          (if decide (de_escalation_pid g = pid) then with_de_escalation_pid 0 g
           else if decide (escalation_pid g = pid) then with_escalation_pid 0 g
           else g)
      else g
  end.

Definition check_sigchld (s : option (option (list Z))) (g : wd_cluster) : wd_cluster :=
  match s with
  | Some (Some pids) => wd_child_signal_handler pids g
  | _ => g
  end.

(** [while (g_cluster.de_escalation_pid > 0 && wait_secs-- > 0)] *)
Fixpoint wait_de_escalation_exit (wait_secs : nat) (sig : list (option (list Z)))
    (g : wd_cluster) : wd_cluster :=
  if decide (0 < de_escalation_pid g) then
    match wait_secs with
    | O => g
    | S n => wait_de_escalation_exit n (tail sig) (check_sigchld (head sig) g)
    end
  else g.

(** [while (g_cluster.escalation_pid > 0 && wait_secs-- > 0)] *)
Fixpoint wait_escalation_exit (wait_secs : nat) (sig : list (option (list Z)))
    (g : wd_cluster) : wd_cluster :=
  if decide (0 < escalation_pid g) then
    match wait_secs with
    | O => g
    | S n => wait_escalation_exit n (tail sig) (check_sigchld (head sig) g)
    end
  else g.

Definition start_escalated_node (e : esc_env) (g : wd_cluster) : wd_cluster :=
  if escalated (localNode g) then g
  else
    let g1 := wait_de_escalation_exit MAX_SECS_ESC_PROC_EXIT_WAIT (sigchld e) g in
    let g2 := with_escalation_pid (fork_pid e)
                (log_action (act_fork_escalation_process (fork_pid e)) g1) in
    if decide (0 < escalation_pid g2) then
      let g3 := log_action act_set_watchdog_node_escalated
                  (with_localNode (with_escalated true (localNode g2)) g2) in
      if decide (0 < Z.of_nat (String.length (delegate_ip (localNode g3))))
      then with_clusterMasterInfo (with_holding_vip true (clusterMasterInfo g3)) g3
      else g3
    else g2.

Definition resign_from_escalated_node (e : esc_env) (g : wd_cluster) : wd_cluster :=
  if escalated (localNode g) then
    let g1 := wait_escalation_exit MAX_SECS_ESC_PROC_EXIT_WAIT (sigchld e) g in
    let g2 := with_de_escalation_pid (fork_pid e)
                (log_action (act_fork_plunging_process (fork_pid e)) g1) in
    let g3 := with_clusterMasterInfo (with_holding_vip false (clusterMasterInfo g2)) g2 in
    log_action act_reset_watchdog_node_escalated
      (with_localNode (with_escalated false (localNode g3)) g3)
  else g.

(** ** Events, and what the embedding takes from outside watchdog.c *)

Inductive WD_EVENTS :=
| WD_EVENT_WD_STATE_CHANGED | WD_EVENT_TIMEOUT | WD_EVENT_PACKET_RCV
| WD_EVENT_COMMAND_FINISHED | WD_EVENT_NEW_OUTBOUND_CONNECTION
| WD_EVENT_NW_IP_IS_REMOVED | WD_EVENT_NW_IP_IS_ASSIGNED
| WD_EVENT_NW_LINK_IS_INACTIVE | WD_EVENT_NW_LINK_IS_ACTIVE
| WD_EVENT_LOCAL_NODE_LOST | WD_EVENT_REMOTE_NODE_LOST
| WD_EVENT_REMOTE_NODE_FOUND | WD_EVENT_LOCAL_NODE_FOUND
| WD_EVENT_NODE_CON_LOST | WD_EVENT_NODE_CON_FOUND
| WD_EVENT_CLUSTER_QUORUM_CHANGED.

(** What [parse_beacon_message_json] extracts from a beacon. *)
Record beacon_data := {
  beacon_state : WD_STATES;
  seconds_since_node_startup : Z;
  seconds_since_current_state : Z;
  beacon_quorum_status : Z;
  beacon_standby_nodes_count : Z;
  beacon_escalated : bool
}.

(** - [WD_TIME_DIFF_SEC] is a macro of watchdog.h.
    - [socket_write i pkt] is the outcome of [send_message_to_node] for the
      i-th remote node (the sockets are not part of [wd_cluster]).
    - [node_info_json] and [beacon_message_json] are the JSON documents of
      wd_json_data.c for the local node, and [parse_beacon_message_json]
      is its beacon parser.
    - [reconnected] lists the remote nodes whose outbound connection
      [connect_to_node] restores at once when it is retried.
    - [other_states] stands for the state functions that are not embedded
      (loading, standby, network trouble, and the default branch of the
      dispatcher), at the events where the embedded code reaches them.
    - [standard_packet_processor] is the generic packet handler. *)
Record wd_externals := {
  WD_TIME_DIFF_SEC : timeval -> timeval -> Z;
  socket_write : nat -> WDPacketData -> bool;
  node_info_json : POOL_CONFIG -> WatchdogNode -> string;
  beacon_message_json : WatchdogNode -> string;
  reconnected : list nat;
  parse_beacon_message_json : string -> option beacon_data;
  other_states : WD_STATES -> WD_EVENTS -> option node_ptr ->
                 option WDPacketData -> option WDCommandData ->
                 wd_cluster -> wd_cluster;
  standard_packet_processor : node_ptr -> WDPacketData -> wd_cluster -> wd_cluster
}.

(** ** Packets and sending *)

Definition get_next_commandID (g : wd_cluster) : Z * wd_cluster :=
  let id := (nextCommandID g + 1) mod 2 ^ 32 in
  (id, with_nextCommandID id g).

(** The command id of an outgoing packet: that of the packet replied to,
    or the next command id. *)
Definition reply_commandID (replyFor : option WDPacketData) (g : wd_cluster)
    : Z * wd_cluster :=
  match replyFor with
  | None => get_next_commandID g
  | Some r => (command_id r, g)
  end.

Definition get_minimum_message (ty : ascii) (replyFor : option WDPacketData)
    (g : wd_cluster) : WDPacketData * wd_cluster :=
  let '(id, g1) := reply_commandID replyFor g in
  ({| type := ty; command_id := id; data := None |}, g1).

Definition is_node_active (n : WatchdogNode) : bool :=
  if decide (state n = WD_DEAD \/ state n = WD_LOST \/ state n = WD_SHUTDOWN)
  then false else true.

(** [send_message]: nothing is written when the local node is the
    receiver; NULL addresses all reachable nodes. *)
Definition send_message (dst : option node_ptr) (pkt : WDPacketData)
    (g : wd_cluster) : wd_cluster :=
  match dst with
  | Some LocalNode => g
  | _ => log_action (act_send_message dst pkt) g
  end.

Definition reply_with_minimal_message (dst : option node_ptr) (ty : ascii)
    (replyFor : option WDPacketData) (g : wd_cluster) : wd_cluster :=
  let '(pkt, g1) := get_minimum_message ty replyFor g in
  send_message dst pkt g1.

Definition reply_with_message (dst : option node_ptr) (ty : ascii)
    (d : option string) (replyFor : option WDPacketData) (g : wd_cluster)
    : wd_cluster :=
  let '(id, g1) := reply_commandID replyFor g in
  send_message dst {| type := ty; command_id := id; data := d |} g1.

Definition send_cluster_service_message (dst : option node_ptr)
    (replyFor : option WDPacketData) (message : ascii) (g : wd_cluster)
    : wd_cluster :=
  reply_with_message dst WD_CLUSTER_SERVICE_MESSAGE
    (Some (String message EmptyString)) replyFor g.

Section Embedding.

Variable X : wd_externals.
Variable pool_config : POOL_CONFIG.

Definition get_mynode_info_message (replyFor : option WDPacketData)
    (g : wd_cluster) : WDPacketData * wd_cluster :=
  let json_data := node_info_json X pool_config (localNode g) in
  let '(id, g1) := reply_commandID replyFor g in
  ({| type := WD_INFO_MESSAGE; command_id := id; data := Some json_data |}, g1).

Definition get_addnode_message (g : wd_cluster) : WDPacketData * wd_cluster :=
  let json_data := node_info_json X pool_config (localNode g) in
  let '(id, g1) := get_next_commandID g in
  ({| type := WD_ADD_NODE_MESSAGE; command_id := id; data := Some json_data |}, g1).

Definition get_beacon_message (ty : ascii) (replyFor : option WDPacketData)
    (g : wd_cluster) : WDPacketData * wd_cluster :=
  let json_data := beacon_message_json X (localNode g) in
  let '(id, g1) := reply_commandID replyFor g in
  ({| type := ty; command_id := id; data := Some json_data |}, g1).

Definition minimum_message_types : list ascii :=
  [ WD_FAILOVER_START; WD_FAILOVER_END; WD_REQ_INFO_MESSAGE;
    WD_STAND_FOR_COORDINATOR_MESSAGE; WD_DECLARE_COORDINATOR_MESSAGE;
    WD_JOIN_COORDINATOR_MESSAGE; WD_QUORUM_IS_LOST;
    WD_INFORM_I_AM_GOING_DOWN; WD_ASK_FOR_POOL_CONFIG;
    WD_FAILOVER_WAITING_FOR_CONSENSUS ].

Definition get_message_of_type (ty : ascii) (replyFor : option WDPacketData)
    (g : wd_cluster) : option WDPacketData * wd_cluster :=
  if decide (ty = WD_INFO_MESSAGE) then
    let '(p, g1) := get_mynode_info_message replyFor g in (Some p, g1)
  else if decide (ty = WD_ADD_NODE_MESSAGE) then
    let '(p, g1) := get_addnode_message g in (Some p, g1)
  else if decide (ty = WD_IAM_COORDINATOR_MESSAGE) then
    let '(p, g1) := get_beacon_message WD_IAM_COORDINATOR_MESSAGE replyFor g in (Some p, g1)
  else if decide (ty ∈ minimum_message_types) then
    let '(p, g1) := get_minimum_message ty replyFor g in (Some p, g1)
  else (None, g).

Definition send_message_of_type (dst : option node_ptr) (ty : ascii)
    (replyFor : option WDPacketData) (g : wd_cluster) : wd_cluster :=
  match get_message_of_type ty replyFor g with
  | (Some pkt, g1) => send_message dst pkt g1
  | (None, g1) => g1
  end.

(** ** Cluster commands *)

Definition clear_command_node_result (r : WDCommandNodeResult) : WDCommandNodeResult :=
  {| wdNode := wdNode r; cmdState := COMMAMD_STATE_INIT;
     result_type := WD_NO_MESSAGE; result_data := None |}.

(** [allocate_resultNodes_in_command]: one zeroed slot per remote node. *)
Definition allocate_resultNodes (g : wd_cluster) : list WDCommandNodeResult :=
  map (fun i => {| wdNode := RemoteNode i; cmdState := COMMAMD_STATE_INIT;
                   result_type := WD_NO_MESSAGE; result_data := None |})
      (seq 0 (Z.to_nat (remoteNodeCount g))).

(** The address of a new command object: any address not in use. *)
Definition fresh_cmd_addr (g : wd_cluster) : nat :=
  S (foldr Nat.max 0%nat (map cmd_addr (clusterCommands g))).

(** One pass of the send-to-all loop of [issue_watchdog_internal_command]
    over the slots; the accumulator is (slots done, sent count,
    save_message, trace so far). *)
Fixpoint issue_to_all (pkt : WDPacketData) (nodes : list WatchdogNode)
    (slots : list WDCommandNodeResult) (i : nat)
    : list WDCommandNodeResult * Z * bool * list wd_action :=
  match slots with
  | [] => ([], 0, false, [])
  | r :: rest =>
      let '(rs, cnt, save, tr) := issue_to_all pkt nodes rest (S i) in
      let r0 := clear_command_node_result r in
      match nodes !! i with
      | Some n =>
          if is_node_active n then
            if socket_write X i pkt
            then (with_cmdState COMMAND_STATE_SENT r0 :: rs, cnt + 1, save,
                  act_send_message_to_node i pkt true :: tr)
            else (with_cmdState COMMAND_STATE_SEND_ERROR r0 :: rs, cnt, true,
                  act_send_message_to_node i pkt false :: tr)
          else (with_cmdState COMMAND_STATE_DO_NOT_SEND r0 :: rs, cnt, save, tr)
      | None => (with_cmdState COMMAND_STATE_DO_NOT_SEND r0 :: rs, cnt, save, tr)
      end
  end.

Definition new_command (addr : nat) (pkt : WDPacketData) (dst : option node_ptr)
    (timeout_sec : Z) (now : timeval) (slots : list WDCommandNodeResult)
    (sent : Z) (save_message : bool) : WDCommandData :=
  {| cmd_addr := addr;
     sourcePacket := {| type := WD_NO_MESSAGE; command_id := 0; data := None |};
     commandPacket :=
       {| type := type pkt; command_id := command_id pkt;
          data := if save_message && bool_decide (0 < len pkt)
                  then data pkt else None |};
     nodeResults := slots;
     sendToNode := dst;
     commandStatus := COMMAND_IN_PROGRESS;
     commandTimeoutSecs := timeout_sec;
     commandTime := now;
     commandSendToCount := sent;
     commandReplyFromCount := 0;
     commandSource := COMMAND_SOURCE_LOCAL;
     sourceIPCSocket := 0;
     sourceWdNode := Some LocalNode;
     errorMessage := None |}.

Definition issue_watchdog_internal_command (dst : option node_ptr)
    (pkt : WDPacketData) (timeout_sec : Z) (now : timeval) (g : wd_cluster)
    : Z * wd_cluster :=
  let slots := allocate_resultNodes g in
  let addr := fresh_cmd_addr g in
  match dst with
  | None =>
      let '(rs, cnt, save, tr) := issue_to_all pkt (remoteNodes g) slots 0 in
      let c := new_command addr pkt None timeout_sec now rs cnt save in
      (cnt, with_clusterCommands (clusterCommands g ++ [c])
              (with_trace (trace g ++ tr) g))
  | Some (RemoteNode i) =>
      let cleared := map clear_command_node_result slots in
      if decide (i < length cleared)%nat then
        let ok := socket_write X i pkt in
        let rs := alter (with_cmdState (if ok then COMMAND_STATE_SENT
                                       else COMMAND_STATE_SEND_ERROR)) i cleared in
        let cnt := if ok then 1 else 0 in
        let c := new_command addr pkt dst timeout_sec now rs cnt (negb ok) in
        (cnt, with_clusterCommands (clusterCommands g ++ [c])
                (log_action (act_send_message_to_node i pkt ok) g))
      else (-1, g)
  | Some LocalNode => (-1, g)
  end.

Definition send_cluster_command (dst : option node_ptr) (ty : ascii)
    (timeout_sec : Z) (now : timeval) (g : wd_cluster) : wd_cluster :=
  match get_message_of_type ty None g with
  | (Some pkt, g1) => snd (issue_watchdog_internal_command dst pkt timeout_sec now g1)
  | (None, g1) => g1
  end.

Definition set_timeout (sec : Z) (now : timeval) (g : wd_cluster) : wd_cluster :=
  with_g_tm_set_time now (with_g_timeout_sec sec g).

(** ** The state machine: state changes *)

Definition set_cluster_master_node (p : option node_ptr) (g : wd_cluster) : wd_cluster :=
  with_clusterMasterInfo (with_masterNode p (clusterMasterInfo g)) g.

Definition clear_standby_nodes_list (g : wd_cluster) : wd_cluster :=
  let n := Z.to_nat (remoteNodeCount g) in
  let old := standbyNodes (clusterMasterInfo g) in
  let cleared := replicate (Nat.min n (length old)) None ++ drop n old in
  with_localNode (with_node_standby_nodes_count 0 (localNode g))
    (with_clusterMasterInfo
       (with_standby_nodes_count 0 (with_standbyNodes cleared (clusterMasterInfo g))) g).

Definition clear_all_failovers (g : wd_cluster) : wd_cluster :=
  with_wdCurrentFailovers [] g.

(** [watchdog_state_machine (WD_EVENT_NEW_OUTBOUND_CONNECTION, wdNode, NULL,
    NULL)] while the local node is joining: the add-node message is sent
    and the joining state function ignores the event. *)
Definition new_outbound_connection_when_joining (i : nat) (g : wd_cluster) : wd_cluster :=
  let '(addPkt, g1) := get_addnode_message g in
  send_message (Some (RemoteNode i)) addPkt g1.

Definition try_connecting_with_all_unreachable_nodes (g : wd_cluster) : wd_cluster :=
  foldl (fun acc i => new_outbound_connection_when_joining i acc)
        (log_action act_connect_to_unreachable_nodes g) (reconnected X).

(** The state functions at [WD_EVENT_WD_STATE_CHANGED]. *)
Definition watchdog_state_machine_joining_state_changed (now : timeval)
    (g : wd_cluster) : wd_cluster :=
  let g1 := set_cluster_master_node None g in
  let g2 := try_connecting_with_all_unreachable_nodes g1 in
  let g3 := send_cluster_command None WD_REQ_INFO_MESSAGE 4 now g2 in
  set_timeout MAX_SECS_WAIT_FOR_REPLY_FROM_NODE now g3.

Definition watchdog_state_machine_initializing_state_changed (now : timeval)
    (g : wd_cluster) : wd_cluster :=
  set_timeout 1 now g.

Definition watchdog_state_machine_standForCord_state_changed (now : timeval)
    (g : wd_cluster) : wd_cluster :=
  let g1 := send_cluster_command None WD_STAND_FOR_COORDINATOR_MESSAGE 4 now g in
  set_timeout MAX_SECS_WAIT_FOR_REPLY_FROM_NODE now g1.

Definition watchdog_state_machine_coordinator_state_changed (now : timeval)
    (g : wd_cluster) : wd_cluster :=
  let g1 := send_cluster_command None WD_DECLARE_COORDINATOR_MESSAGE 4 now g in
  let g2 := set_timeout MAX_SECS_WAIT_FOR_REPLY_FROM_NODE now g1 in
  with_localNode (with_wd_priority (cfg_wd_priority pool_config) (localNode g2)) g2.

Definition watchdog_state_machine_voting_state_changed (now : timeval)
    (g : wd_cluster) : wd_cluster :=
  set_timeout MAX_SECS_WAIT_FOR_REPLY_FROM_NODE now g.

(** [watchdog_state_machine (WD_EVENT_WD_STATE_CHANGED, NULL, NULL, NULL)]:
    none of the event-specific preambles applies and the packet processor
    declines, so the call is the dispatch on the local state. *)
Definition watchdog_state_machine_state_changed (now : timeval)
    (g : wd_cluster) : wd_cluster :=
  match get_local_node_state g with
  | WD_JOINING => watchdog_state_machine_joining_state_changed now g
  | WD_INITIALIZING => watchdog_state_machine_initializing_state_changed now g
  | WD_COORDINATOR => watchdog_state_machine_coordinator_state_changed now g
  | WD_PARTICIPATE_IN_ELECTION => watchdog_state_machine_voting_state_changed now g
  | WD_STAND_FOR_COORDINATOR => watchdog_state_machine_standForCord_state_changed now g
  | s => other_states X s WD_EVENT_WD_STATE_CHANGED None None None g
  end.

Definition set_state (now : timeval) (e : esc_env) (newState : WD_STATES)
    (g : wd_cluster) : wd_cluster :=
  let oldState := get_local_node_state g in
  let g1 := with_localNode (with_state newState (localNode g)) g in
  if decide (oldState <> newState) then
    let g2 := with_localNode (with_current_state_time now (localNode g1)) g1 in
    let g3 := if decide (oldState = WD_COORDINATOR)
              then clear_all_failovers
                     (clear_standby_nodes_list (resign_from_escalated_node e g2))
              else g2 in
    let g4 := watchdog_state_machine_state_changed now g3 in
    send_message_of_type None WD_INFO_MESSAGE None g4
  else g1.

(** ** Quorum *)

Definition watchdog_state_machine_coordinator_quorum_changed (e : esc_env)
    (g : wd_cluster) : wd_cluster :=
  if decide (getMasterWatchdogNode g = Some LocalNode) then
    let g1 :=
      if decide (quorum_status g = -1) then resign_from_escalated_node e g
      else if decide (0 <= quorum_status g) then
        (if escalated (localNode g) then g else start_escalated_node e g)
      else g in
    let g2 := send_message_of_type None WD_INFO_MESSAGE None g1 in
    log_action act_register_watchdog_quorum_change_interupt g2
  else g.

(** [watchdog_state_machine (WD_EVENT_CLUSTER_QUORUM_CHANGED, NULL, NULL,
    NULL)]: the joining, initializing, stand-for-coordinator and voting
    state functions ignore the event. *)
Definition watchdog_state_machine_quorum_changed (e : esc_env)
    (g : wd_cluster) : wd_cluster :=
  match get_local_node_state g with
  | WD_COORDINATOR => watchdog_state_machine_coordinator_quorum_changed e g
  | WD_JOINING | WD_INITIALIZING | WD_PARTICIPATE_IN_ELECTION
  | WD_STAND_FOR_COORDINATOR => g
  | s => other_states X s WD_EVENT_CLUSTER_QUORUM_CHANGED None None None g
  end.

Definition update_quorum_status (e : esc_env) (g : wd_cluster) : wd_cluster :=
  let old_quorum_status := quorum_status g in
  let standby := standby_nodes_count (clusterMasterInfo g) in
  let needed := get_mimimum_remote_nodes_required_for_quorum g in
  let q :=
    if decide (needed < standby) then 1
    else if decide (standby = needed) then
      (if decide (Z.rem (remoteNodeCount g) 2 <> 0)
       then (if enable_consensus_with_half_votes pool_config then 0 else -1)
       else 1)
    else -1 in
  let g1 := with_localNode (with_node_quorum_status q (localNode g))
              (with_quorum_status q g) in
  if decide (q <> old_quorum_status)
  then watchdog_state_machine_quorum_changed e g1
  else g1.

(** ** Failover proposals

    A [WDFailoverObject *] is the position of the object in
    [g_cluster.wdCurrentFailovers]. *)

Fixpoint does_int_array_contains_value (intArray : list Z) (value : Z) : bool :=
  match intArray with
  | [] => false
  | v :: rest => if decide (v = value) then true
                 else does_int_array_contains_value rest value
  end.

(** The test of [get_failover_object] on one object: same kind, same
    count, and every node id of the object occurs in the request. *)
Definition failover_object_matches (k : POOL_REQUEST_KIND) (node_id_list : list Z)
    (f : WDFailoverObject) : bool :=
  bool_decide (reqKind f = k)
  && bool_decide (nodesCount f = Z.of_nat (length node_id_list))
  && forallb (does_int_array_contains_value node_id_list) (nodeList f).

Fixpoint get_failover_object_from (k : POOL_REQUEST_KIND) (node_id_list : list Z)
    (l : list WDFailoverObject) (i : nat) : option nat :=
  match l with
  | [] => None
  | f :: rest =>
      if failover_object_matches k node_id_list f then Some i
      else get_failover_object_from k node_id_list rest (S i)
  end.

Definition get_failover_object (k : POOL_REQUEST_KIND) (node_id_list : list Z)
    (g : wd_cluster) : option nat :=
  get_failover_object_from k node_id_list (wdCurrentFailovers g) 0.

Definition remove_failover_object (i : nat) (g : wd_cluster) : wd_cluster :=
  with_wdCurrentFailovers (delete i (wdCurrentFailovers g)) g.

(** The result is the object voted on (its position), the [duplicate]
    flag and the new cluster. *)
Definition add_failover (k : POOL_REQUEST_KIND) (node_id_list : list Z)
    (wdNode : node_ptr) (flags : Z) (now : timeval) (g : wd_cluster)
    : nat * bool * wd_cluster :=
  match get_failover_object k node_id_list g with
  | Some i =>
      match wdCurrentFailovers g !! i with
      | Some f =>
          if decide (wdNode ∈ requestingNodes f) then
            if allow_multiple_failover_requests_from_node pool_config then
              (i, true,
               with_wdCurrentFailovers
                 (<[i := with_request_count (request_count f + 1) f]>
                    (wdCurrentFailovers g)) g)
            else (i, true, g)
          else
            (i, false,
             with_wdCurrentFailovers
               (<[i := with_requestingNodes (requestingNodes f ++ [wdNode])
                         (with_request_count (request_count f + 1) f)]>
                  (wdCurrentFailovers g)) g)
      | None => (i, false, g)
      end
  | None =>
      let '(id, g1) := get_next_commandID g in
      let f := {| reqKind := k; reqFlags := flags; failoverID := id;
                  nodeList := node_id_list; requestingNodes := [wdNode];
                  request_count := 1; startTime := now |} in
      (length (wdCurrentFailovers g1), false,
       with_wdCurrentFailovers (wdCurrentFailovers g1 ++ [f]) g1)
  end.

(** [NODE_UP_REQUIRE_CONSENSUS], [NODE_DOWN_REQUIRE_CONSENSUS] and
    [NODE_PROMOTE_REQUIRE_CONSENSUS] are defined in watchdog.c, so the three
    [#ifndef] shortcuts are compiled out.  The result carries the value
    left in [*flags]. *)
Definition compute_failover_consensus (k : POOL_REQUEST_KIND)
    (node_id_list : list Z) (flags : Z) (wdNode : node_ptr) (now : timeval)
    (e : esc_env) (g : wd_cluster) : WDFailoverCMDResults * Z * wd_cluster :=
  if decide (failover_when_quorum_exists pool_config = false) then
    (FAILOVER_RES_PROCEED, flags, g)
  else if decide (Z.land flags REQ_DETAIL_CONFIRMED <> 0) then
    (FAILOVER_RES_PROCEED, flags, g)
  else
    let g1 := update_quorum_status e g in
    if decide (quorum_status g1 < 0) then (FAILOVER_RES_NO_QUORUM, flags, g1)
    else if decide (failover_require_consensus pool_config = true) then
      let '(i, duplicate, g2) := add_failover k node_id_list wdNode flags now g1 in
      match wdCurrentFailovers g2 !! i with
      | Some failoverObj =>
          if decide (request_count failoverObj
                     < get_minimum_votes_to_resolve_consensus pool_config g2) then
            if duplicate
               && negb (allow_multiple_failover_requests_from_node pool_config)
            then (FAILOVER_RES_CONSENSUS_MAY_FAIL, flags, g2)
            else (FAILOVER_RES_BUILDING_CONSENSUS, flags, g2)
          else
            (FAILOVER_RES_PROCEED, reqFlags failoverObj,
             remove_failover_object i g2)
      | None => (FAILOVER_RES_ERROR, flags, g2)
      end
    else (FAILOVER_RES_PROCEED, flags, g1).

(** The shared memory of the middleware that the expiry pass reads:
    [Req_info->primary_node_id] and, per backend, [BACKEND_INFO(id)]. *)
Record POOL_SHARED := {
  primary_node_id : Z;
  backend_quarantine : Z -> bool;
  backend_role : Z -> BACKEND_ROLE
}.

Definition quarantined_primary (shm : POOL_SHARED) (node_id : Z) : bool :=
  bool_decide (node_id <> -1)
  && bool_decide (primary_node_id shm = -1)
  && backend_quarantine shm node_id
  && bool_decide (backend_role shm node_id = ROLE_PRIMARY).

(** The two inner loops of [service_expired_failovers] on one expired
    node-down object: for each requestor that is the local node, for each
    node id of the object. *)
Definition local_vote_for_quarantined_primary (shm : POOL_SHARED)
    (f : WDFailoverObject) : bool :=
  existsb (fun reqWdNode =>
             bool_decide (reqWdNode = LocalNode)
             && existsb (quarantined_primary shm) (nodeList f))
          (requestingNodes f).

Definition failover_expired (now : timeval) (f : WDFailoverObject) : bool :=
  bool_decide (FAILOVER_COMMAND_FINISH_TIMEOUT
               <= WD_TIME_DIFF_SEC X now (startTime f)).

(** The marking loop: the positions to delete and [need_to_resign]. *)
Fixpoint mark_expired_failovers (shm : POOL_SHARED) (now : timeval)
    (l : list WDFailoverObject) (need_to_resign : bool)
    : list WDFailoverObject * bool :=
  match l with
  | [] => ([], need_to_resign)
  | f :: rest =>
      if failover_expired now f then
        let need :=
          if negb need_to_resign && bool_decide (reqKind f = NODE_DOWN_REQUEST)
          then (if local_vote_for_quarantined_primary shm f then true
                else need_to_resign)
          else need_to_resign in
        mark_expired_failovers shm now rest need
      else
        let '(kept, need) := mark_expired_failovers shm now rest need_to_resign in
        (f :: kept, need)
  end.

Definition service_expired_failovers (shm : POOL_SHARED) (now : timeval)
    (e : esc_env) (g : wd_cluster) : wd_cluster :=
  if decide (get_local_node_state g <> WD_COORDINATOR) then g
  else
    let '(kept, need_to_resign) :=
      mark_expired_failovers shm now (wdCurrentFailovers g) false in
    let g1 := with_wdCurrentFailovers kept g in
    if need_to_resign then
      let g2 := with_localNode (with_wd_priority (-1) (localNode g1)) g1 in
      let g3 := send_cluster_service_message None None
                  CLUSTER_IAM_RESIGNING_FROM_MASTER g2 in
      set_state now e WD_JOINING g3
    else g1.

(** ** Split brain *)

(** The fields that [beacon_message_received_from_node] writes into the
    sender's node from the beacon [b] received at [now]. *)
Definition apply_beacon (b : beacon_data) (now : timeval) (n : WatchdogNode)
    : WatchdogNode :=
  {| state := beacon_state b;
     wd_priority := wd_priority n;
     startup_time :=
       {| tv_sec := tv_sec now - seconds_since_node_startup b; tv_usec := 0 |};
     current_state_time :=
       {| tv_sec := tv_sec now - seconds_since_current_state b; tv_usec := 0 |};
     escalated := beacon_escalated b;
     node_quorum_status := beacon_quorum_status b;
     node_standby_nodes_count := beacon_standby_nodes_count b;
     delegate_ip := delegate_ip n |}.

Definition beacon_message_received_from_node (i : nat) (pkt : WDPacketData)
    (now : timeval) (g : wd_cluster) : bool * wd_cluster :=
  match data pkt with
  | None => (false, g)
  | Some d =>
      if decide (len pkt <= 0) then (false, g)
      else
        match parse_beacon_message_json X d with
        | None => (false, g)
        | Some b =>
            (true, with_remoteNodes (alter (apply_beacon b now) i (remoteNodes g)) g)
        end
  end.

(** -1: the remote node stays master; 1: the local node stays master;
    0: no decision. *)
Definition I_am_master_and_cluser_in_split_brain (otherMasterNode : WatchdogNode)
    (g : wd_cluster) : Z :=
  if decide (get_local_node_state g <> WD_COORDINATOR) then 0
  else if decide (state otherMasterNode <> WD_COORDINATOR) then 0
  else if decide (tv_sec (current_state_time otherMasterNode) = 0) then 0
  else if decide (escalated otherMasterNode <> escalated (localNode g)) then
    (if escalated otherMasterNode && negb (escalated (localNode g))
     then -1 else 1)
  else if decide (node_quorum_status otherMasterNode <> quorum_status g) then
    (if decide (quorum_status g < node_quorum_status otherMasterNode)
     then -1 else 1)
  else if decide (node_standby_nodes_count otherMasterNode
                  <> standby_nodes_count (clusterMasterInfo g)) then
    (if decide (standby_nodes_count (clusterMasterInfo g)
                < node_standby_nodes_count otherMasterNode)
     then -1 else 1)
  else
    (if decide (tv_sec (current_state_time otherMasterNode)
                < tv_sec (current_state_time (localNode g)))
     then -1 else 1).

Definition handle_split_brain (i : nat) (pkt : WDPacketData) (now : timeval)
    (e : esc_env) (g : wd_cluster) : wd_cluster :=
  match remoteNodes g !! i with
  | None => g
  | Some otherMasterNode =>
      let decide_master := I_am_master_and_cluser_in_split_brain otherMasterNode g in
      if decide (decide_master = 0) then
        set_state now e WD_JOINING
          (send_cluster_service_message (Some (RemoteNode i)) (Some pkt)
             CLUSTER_NEEDS_ELECTION g)
      else if decide (decide_master = -1) then
        set_state now e WD_JOINING
          (send_cluster_service_message None (Some pkt)
             CLUSTER_IAM_NOT_TRUE_MASTER g)
      else
        send_cluster_service_message (Some (RemoteNode i)) (Some pkt)
          CLUSTER_IAM_TRUE_MASTER g
  end.

(** ** The standby list of the coordinator *)

Definition sync_local_standby_nodes_count (g : wd_cluster) : wd_cluster :=
  with_localNode
    (with_node_standby_nodes_count (standby_nodes_count (clusterMasterInfo g))
       (localNode g)) g.

(** When the node is already listed the function returns at once, before
    the count of the local node is refreshed. *)
Definition standby_node_join_cluster (p : node_ptr) (g : wd_cluster) : wd_cluster :=
  let mi := clusterMasterInfo g in
  if decide (get_local_node_state g = WD_COORDINATOR) then
    if decide (Some p ∈ take (Z.to_nat (standby_nodes_count mi)) (standbyNodes mi))
    then g
    else
      sync_local_standby_nodes_count
        (with_clusterMasterInfo
           (with_standby_nodes_count (standby_nodes_count mi + 1)
              (with_standbyNodes
                 (<[Z.to_nat (standby_nodes_count mi) := Some p]> (standbyNodes mi))
                 mi)) g)
  else sync_local_standby_nodes_count g.

(** The compaction loop of [standby_node_left_cluster]. *)
Fixpoint standby_left_loop (p : node_ptr) (idx : list nat) (removed : bool)
    (arr : list (option node_ptr)) (cnt : Z) : list (option node_ptr) * Z :=
  match idx with
  | [] => (arr, cnt)
  | i :: rest =>
      match arr !! i with
      | Some (Some node) =>
          if removed then
            standby_left_loop p rest true
              (<[i := None]> (<[pred i := Some node]> arr)) cnt
          else if decide (node = p) then
            standby_left_loop p rest true (<[i := None]> arr) (cnt - 1)
          else standby_left_loop p rest false arr cnt
      | _ => standby_left_loop p rest removed arr cnt
      end
  end.

Definition standby_node_left_cluster (p : node_ptr) (g : wd_cluster) : wd_cluster :=
  let mi := clusterMasterInfo g in
  let g1 :=
    if decide (get_local_node_state g = WD_COORDINATOR) then
      let '(arr, cnt) :=
        standby_left_loop p (seq 0 (Z.to_nat (standby_nodes_count mi))) false
          (standbyNodes mi) (standby_nodes_count mi) in
      with_clusterMasterInfo
        (with_standby_nodes_count cnt (with_standbyNodes arr mi)) g
    else g in
  sync_local_standby_nodes_count g1.

(** ** State functions at [WD_EVENT_PACKET_RCV]

    The packet comes from the i-th remote node. *)


Definition watchdog_state_machine_coordinator_packet_rcv (i : nat)
    (pkt : WDPacketData) (now : timeval) (e : esc_env) (g : wd_cluster)
    : wd_cluster :=
  let dst := Some (RemoteNode i) in
  if decide (type pkt = WD_STAND_FOR_COORDINATOR_MESSAGE) then
    reply_with_minimal_message dst WD_REJECT_MESSAGE (Some pkt) g
  else if decide (type pkt = WD_DECLARE_COORDINATOR_MESSAGE) then
    reply_with_minimal_message dst WD_ERROR_MESSAGE (Some pkt) g
  else if decide (type pkt = WD_IAM_COORDINATOR_MESSAGE) then
    match beacon_message_received_from_node i pkt now g with
    | (true, g1) => handle_split_brain i pkt now e g1
    | (false, g1) =>
        set_state now e WD_JOINING
          (send_cluster_service_message dst (Some pkt) CLUSTER_NEEDS_ELECTION g1)
    end
  else if decide (type pkt = WD_JOIN_COORDINATOR_MESSAGE) then
    let g1 := reply_with_minimal_message dst WD_ACCEPT_MESSAGE (Some pkt) g in
    let g2 := send_message_of_type dst WD_ASK_FOR_POOL_CONFIG None g1 in
    standby_node_join_cluster (RemoteNode i) g2
  else standard_packet_processor X (RemoteNode i) pkt g.

(** ** Replies to cluster commands *)

Definition get_wd_command_from_reply (commands : list WDCommandData)
    (pkt : WDPacketData) : option WDCommandData :=
  List.find (fun c => bool_decide (command_id (commandPacket c) = command_id pkt))
            commands.

Definition get_wd_cluster_command_from_reply (pkt : WDPacketData)
    (g : wd_cluster) : option WDCommandData :=
  get_wd_command_from_reply (clusterCommands g) pkt.

(** Writing through a [WDCommandData *]: the object at that address takes
    the new contents. *)
Definition store_command (c : WDCommandData) (g : wd_cluster) : wd_cluster :=
  with_clusterCommands
    (map (fun c0 => if decide (cmd_addr c0 = cmd_addr c) then c else c0)
         (clusterCommands g)) g.

Definition load_command (addr : nat) (g : wd_cluster) : option WDCommandData :=
  List.find (fun c => bool_decide (cmd_addr c = addr)) (clusterCommands g).

Fixpoint list_delete_ptr (l : list WDCommandData) (addr : nat) : list WDCommandData :=
  match l with
  | [] => []
  | c :: rest => if decide (cmd_addr c = addr) then rest
                 else c :: list_delete_ptr rest addr
  end.

Definition delete_command (addr : nat) (g : wd_cluster) : wd_cluster :=
  with_clusterCommands (list_delete_ptr (clusterCommands g) addr) g.

(** The state functions at [WD_EVENT_COMMAND_FINISHED]. *)
Definition watchdog_state_machine_joining_command_finished
    (clusterCommand : WDCommandData) (now : timeval) (e : esc_env)
    (g : wd_cluster) : wd_cluster :=
  if decide (type (commandPacket clusterCommand) = WD_REQ_INFO_MESSAGE)
  then set_state now e WD_INITIALIZING g
  else g.

Definition watchdog_state_machine_standForCord_command_finished
    (pkt : option WDPacketData) (clusterCommand : WDCommandData)
    (now : timeval) (e : esc_env) (g : wd_cluster) : wd_cluster :=
  if decide (type (commandPacket clusterCommand) = WD_STAND_FOR_COORDINATOR_MESSAGE)
  then
    if decide (commandStatus clusterCommand = COMMAND_FINISHED_ALL_REPLIED
               \/ commandStatus clusterCommand = COMMAND_FINISHED_TIMEOUT)
    then set_state now e WD_COORDINATOR g
    else
      match pkt with
      | Some p =>
          if decide (type p = WD_ERROR_MESSAGE) then set_state now e WD_JOINING g
          else if decide (type p = WD_REJECT_MESSAGE)
               then set_state now e WD_PARTICIPATE_IN_ELECTION g
               else g
      | None => set_state now e WD_JOINING g
      end
  else g.

Definition watchdog_state_machine_coordinator_command_finished
    (node : option node_ptr) (clusterCommand : WDCommandData)
    (now : timeval) (e : esc_env) (g : wd_cluster) : wd_cluster :=
  if decide (type (commandPacket clusterCommand) = WD_DECLARE_COORDINATOR_MESSAGE)
  then
    if decide (commandStatus clusterCommand = COMMAND_FINISHED_ALL_REPLIED
               \/ commandStatus clusterCommand = COMMAND_FINISHED_TIMEOUT)
    then
      let g1 := update_quorum_status e g in
      let g2 := set_cluster_master_node (Some LocalNode) g1 in
      let g3 := log_action act_register_watchdog_state_change_interupt g2 in
      if decide (quorum_status g3 = -1) then g3 else start_escalated_node e g3
    else set_state now e WD_JOINING g
  else if decide (type (commandPacket clusterCommand) = WD_IAM_COORDINATOR_MESSAGE)
  then
    if decide (commandStatus clusterCommand = COMMAND_FINISHED_NODE_REJECTED)
    then match node with
         | Some p => standby_node_left_cluster p g
         | None => g
         end
    else g
  else g.

(** [watchdog_state_machine (WD_EVENT_COMMAND_FINISHED, wdNode, pkt,
    clusterCommand)]: again only the dispatch on the local state acts. *)
Definition watchdog_state_machine_command_finished (node : option node_ptr)
    (pkt : option WDPacketData) (clusterCommand : WDCommandData)
    (now : timeval) (e : esc_env) (g : wd_cluster) : wd_cluster :=
  match get_local_node_state g with
  | WD_JOINING =>
      watchdog_state_machine_joining_command_finished clusterCommand now e g
  | WD_INITIALIZING | WD_PARTICIPATE_IN_ELECTION => g
  | WD_STAND_FOR_COORDINATOR =>
      watchdog_state_machine_standForCord_command_finished pkt clusterCommand now e g
  | WD_COORDINATOR =>
      watchdog_state_machine_coordinator_command_finished node clusterCommand now e g
  | s => other_states X s WD_EVENT_COMMAND_FINISHED node pkt (Some clusterCommand) g
  end.

(** The search loop of [watchdog_internal_command_packet_processor]: every
    slot visited is cleared, the matching one included. *)
Fixpoint find_node_result (node : node_ptr) (count : nat)
    (slots : list WDCommandNodeResult) (i : nat)
    : list WDCommandNodeResult * option nat :=
  match count, slots with
  | S c, r :: rest =>
      let r0 := clear_command_node_result r in
      if decide (wdNode r0 = node) then (r0 :: rest, Some i)
      else let '(rs, found) := find_node_result node c rest (S i) in
           (r0 :: rs, found)
  | _, _ => (slots, None)
  end.

Definition reply_message_types : list ascii :=
  [ WD_ERROR_MESSAGE; WD_ACCEPT_MESSAGE; WD_REJECT_MESSAGE; WD_INFO_MESSAGE ].

Definition is_reject_or_error (pkt : WDPacketData) : bool :=
  bool_decide (type pkt = WD_REJECT_MESSAGE \/ type pkt = WD_ERROR_MESSAGE).

(** The reply is written into the slot found and counted:
    [nodeResult->result_type = pkt->type], [nodeResult->cmdState =
    COMMAND_STATE_REPLIED], [clusterCommand->commandReplyFromCount++]
    (an [unsigned int]). *)
Definition count_reply (pkt : WDPacketData) (j : nat)
    (slots : list WDCommandNodeResult) (clusterCommand : WDCommandData)
    : WDCommandData :=
  let replied r :=
    with_cmdState COMMAND_STATE_REPLIED (with_result_type (type pkt) r) in
  with_commandReplyFromCount
    ((commandReplyFromCount clusterCommand + 1) mod 2 ^ 32)
    (with_nodeResults (alter replied j slots) clusterCommand).

Definition watchdog_internal_command_packet_processor (node : node_ptr)
    (pkt : WDPacketData) (now : timeval) (e : esc_env) (g : wd_cluster)
    : bool * wd_cluster :=
  match get_wd_cluster_command_from_reply pkt g with
  | None => (false, g)
  | Some found =>
      if decide (commandStatus found <> COMMAND_IN_PROGRESS) then (false, g)
      else if decide (type pkt ∉ reply_message_types) then (false, g)
      else
        let g0 := if decide (type pkt = WD_INFO_MESSAGE)
                  then standard_packet_processor X node pkt g else g in
        let clusterCommand := default found (load_command (cmd_addr found) g0) in
        let '(slots, nodeResult) :=
          find_node_result node (Z.to_nat (remoteNodeCount g0))
            (nodeResults clusterCommand) 0 in
        match nodeResult with
        | None => (true, store_command (with_nodeResults slots clusterCommand) g0)
        | Some j =>
            let c1 := count_reply pkt j slots clusterCommand in
            if decide (commandSendToCount c1 <= commandReplyFromCount c1) then
              let c2 :=
                with_commandStatus
                  (if is_reject_or_error pkt then COMMAND_FINISHED_NODE_REJECTED
                   else COMMAND_FINISHED_ALL_REPLIED) c1 in
              let g1 := watchdog_state_machine_command_finished (Some node)
                          (Some pkt) c2 now e (store_command c2 g0) in
              (true, delete_command (cmd_addr c2) g1)
            else if is_reject_or_error pkt then
              let c2 := with_commandStatus COMMAND_FINISHED_NODE_REJECTED c1 in
              let g1 := watchdog_state_machine_command_finished (Some node)
                          (Some pkt) c2 now e (store_command c2 g0) in
              (true, delete_command (cmd_addr c2) g1)
            else (true, store_command c1 g0)
        end
  end.

(** ** The IPC surface: authentication *)

(** The type codes and JSON keys of wd_ipc_defines.h. *)
Record wd_ipc_defines := {
  WD_REGISTER_FOR_NOTIFICATION : ascii;
  WD_NODE_STATUS_CHANGE_COMMAND : ascii;
  WD_GET_NODES_LIST_COMMAND : ascii;
  WD_GET_RUNTIME_VARIABLE_VALUE : ascii;
  WD_IPC_FAILOVER_COMMAND : ascii;
  WD_IPC_ONLINE_RECOVERY_COMMAND : ascii;
  WD_GET_MASTER_DATA_REQUEST : ascii;
  WD_FAILOVER_INDICATION : ascii;
  WD_IPC_CMD_CLUSTER_IN_TRAN : ascii;
  WD_IPC_CMD_RESULT_BAD : ascii;
  WD_IPC_CMD_RESULT_OK : ascii;
  WD_IPC_CMD_TIMEOUT : ascii;
  WD_IPC_SHARED_KEY : string;
  WD_IPC_AUTH_KEY : string
}.

(** The [case] labels of the switch in
    [check_and_report_IPC_authentication]; C requires them distinct. *)
Definition ipc_authenticated_types (D : wd_ipc_defines) : list ascii :=
  [ WD_NODE_STATUS_CHANGE_COMMAND D; WD_REGISTER_FOR_NOTIFICATION D;
    WD_GET_NODES_LIST_COMMAND D; WD_GET_RUNTIME_VARIABLE_VALUE D;
    WD_IPC_FAILOVER_COMMAND D; WD_IPC_ONLINE_RECOVERY_COMMAND D;
    WD_GET_MASTER_DATA_REQUEST D ].

(** The JSON library (json.c), the shared key of the pgpool-II processes
    ([get_ipc_shared_key], NULL when not initialized), the JSON wrapping of
    an error text, and the handlers behind the switch of
    [process_IPC_command]. *)
Record ipc_externals := {
  json_value : Type;
  json_parse : string -> option json_value;
  json_is_object : json_value -> bool;
  json_get_int_value_for_key : json_value -> string -> option Z;
  json_get_string_value_for_key : json_value -> string -> option string;
  get_ipc_shared_key : option Z;
  get_wd_simple_message_json : string -> string;
  ipc_command_handler :
    ascii -> WDCommandData -> wd_cluster ->
    IPC_CMD_PREOCESS_RES * WDCommandData * wd_cluster
}.

Variable D : wd_ipc_defines.
Variable J : ipc_externals.

(** [packet_key] is an [unsigned int] filled through an [int *].  The
    result is [None] where the C function reads through a NULL pointer:
    for a command open to external clients, with authentication needed
    and a shared key in the payload, [*shared_key] is evaluated without
    the NULL test that the internal path makes first, so with
    [get_ipc_shared_key ()] NULL the behaviour is undefined. *)
Definition check_IPC_client_authentication (rootObj : json_value J)
    (internal_client_only : bool) (g : wd_cluster) : option bool :=
  let packet_key :=
    (fun k => k mod 2 ^ 32) <$> json_get_int_value_for_key J rootObj (WD_IPC_SHARED_KEY D) in
  let shared_key := get_ipc_shared_key J in
  let check_auth_key :=
    match json_get_string_value_for_key J rootObj (WD_IPC_AUTH_KEY D) with
    | None => false
    | Some packet_auth_key => bool_decide (wd_authkey pool_config = packet_auth_key)
    end in
  if internal_client_only then
    match shared_key with
    | None => Some false
    | Some sk =>
        match packet_key with
        | None => Some false
        | Some pk => Some (bool_decide (sk = pk))
        end
    end
  else if negb (ipc_auth_needed g) then Some true
  else
    match packet_key with
    | None => Some check_auth_key
    | Some pk =>
        match shared_key with
        | None => None
        | Some sk => if decide (sk = pk) then Some true else Some check_auth_key
        end
    end.

(** The result is [None] where [check_IPC_client_authentication] is. *)
Definition check_and_report_IPC_authentication (ipcCommand : WDCommandData)
    (g : wd_cluster) : option (bool * WDCommandData) :=
  let ty := type (sourcePacket ipcCommand) in
  let invalid_data :=
    Some (false,
          with_errorMessage (Some "authentication failed: invalid data"%string)
            ipcCommand) in
  let authenticate (internal_client_only : bool) :=
    if negb internal_client_only && negb (ipc_auth_needed g)
    then Some (true, ipcCommand)
    else
      match data (sourcePacket ipcCommand) with
      | None => invalid_data
      | Some d =>
          if decide (len (sourcePacket ipcCommand) <= 0) then invalid_data
          else
            match json_parse J d with
            | None => invalid_data
            | Some root =>
                if json_is_object J root then
                  match check_IPC_client_authentication root internal_client_only g with
                  | None => None
                  | Some true => Some (true, ipcCommand)
                  | Some false =>
                      Some (false,
                            with_errorMessage
                              (Some "authentication failed: invalid KEY"%string)
                              ipcCommand)
                  end
                else invalid_data
            end
      end in
  if decide (ty ∈ [ WD_NODE_STATUS_CHANGE_COMMAND D; WD_REGISTER_FOR_NOTIFICATION D;
                    WD_GET_NODES_LIST_COMMAND D; WD_GET_RUNTIME_VARIABLE_VALUE D ])
  then authenticate false
  else if decide (ty ∈ [ WD_IPC_FAILOVER_COMMAND D; WD_IPC_ONLINE_RECOVERY_COMMAND D;
                         WD_GET_MASTER_DATA_REQUEST D ])
  then authenticate true
  else Some (true, ipcCommand).

Definition ipc_handled_types : list ascii :=
  [ WD_NODE_STATUS_CHANGE_COMMAND D; WD_REGISTER_FOR_NOTIFICATION D;
    WD_GET_NODES_LIST_COMMAND D; WD_IPC_FAILOVER_COMMAND D;
    WD_IPC_ONLINE_RECOVERY_COMMAND D; WD_FAILOVER_INDICATION D;
    WD_GET_MASTER_DATA_REQUEST D; WD_GET_RUNTIME_VARIABLE_VALUE D ].

Definition process_IPC_command (ipcCommand : WDCommandData) (g : wd_cluster)
    : option (IPC_CMD_PREOCESS_RES * WDCommandData * wd_cluster) :=
  match check_and_report_IPC_authentication ipcCommand g with
  | None => None
  | Some (false, c) => Some (IPC_CMD_ERROR, c, g)
  | Some (true, c) =>
      if decide (type (sourcePacket c) ∈ ipc_handled_types)
      then Some (ipc_command_handler J (type (sourcePacket c)) c g)
      else Some (IPC_CMD_ERROR,
                 with_errorMessage (Some "unknown IPC command type"%string) c, g)
  end.

Definition write_ipc_command_with_result_data (ipcCommand : WDCommandData)
    (ty : ascii) (d : option string) (g : wd_cluster) : wd_cluster :=
  if decide (commandSource ipcCommand <> COMMAND_SOURCE_IPC
             \/ sourceIPCSocket ipcCommand <= 0)
  then g
  else log_action
         (act_write_packet_to_socket (sourceIPCSocket ipcCommand)
            {| type := ty; command_id := 0; data := d |}) g.

(** The data of the reply that reports [errorMessage]: the JSON text
    with its terminating NUL ([data_len = strlen(data) + 1]). *)
Definition error_reply_data (msg : string) : string :=
  get_wd_simple_message_json J msg ++ String "000" EmptyString.

(** [read_ipc_socket_and_process] from the point where the frame (type,
    length, payload) has been read from [sock]; [payload] is [None] when
    the length is not positive.  The result is the return value,
    [*remove_socket] and the new cluster; it is [None] where
    [process_IPC_command] is. *)
Definition read_ipc_socket_and_process (sock : Z) (ty : ascii)
    (payload : option string) (now : timeval) (g : wd_cluster)
    : option (bool * bool * wd_cluster) :=
  let ipcCommand :=
    {| cmd_addr := fresh_cmd_addr g;
       sourcePacket := {| type := ty; command_id := 0; data := payload |};
       commandPacket := {| type := WD_NO_MESSAGE; command_id := 0; data := None |};
       nodeResults := [];
       sendToNode := None;
       commandStatus := COMMAND_EMPTY;
       commandTimeoutSecs := 0;
       commandTime := now;
       commandSendToCount := 0;
       commandReplyFromCount := 0;
       commandSource := COMMAND_SOURCE_IPC;
       sourceIPCSocket := sock;
       sourceWdNode := Some LocalNode;
       errorMessage := None |} in
  match process_IPC_command ipcCommand g with
  | None => None
  | Some (res, c, g1) =>
      match res with
      | IPC_CMD_PROCESSING =>
          Some (true, false, with_ipc_commands (ipc_commands g1 ++ [c]) g1)
      | IPC_CMD_COMPLETE => Some (true, true, g1)
      | _ =>
          let res_type :=
            match res with
            | IPC_CMD_TRY_AGAIN => WD_IPC_CMD_CLUSTER_IN_TRAN D
            | IPC_CMD_ERROR => WD_IPC_CMD_RESULT_BAD D
            | IPC_CMD_OK => WD_IPC_CMD_RESULT_OK D
            | _ => WD_IPC_CMD_RESULT_BAD D
            end in
          let d := error_reply_data <$> errorMessage c in
          Some (bool_decide (res <> IPC_CMD_ERROR), true,
                write_ipc_command_with_result_data c res_type d g1)
      end
  end.

End Embedding.

(** ** Cluster service messages and the election states at a timeout *)

Section Handlers.

Variable X : wd_externals.
Variable pool_config : POOL_CONFIG.

(** [watchdog_state_machine (WD_EVENT_NEW_OUTBOUND_CONNECTION, wdNode, NULL,
    NULL)] in any local state: the add-node message is sent, there is no
    packet for the packet processors, and none of the embedded state
    functions has a case for this event. *)
Definition new_outbound_connection (i : nat) (g : wd_cluster) : wd_cluster :=
  let g1 := new_outbound_connection_when_joining X pool_config i g in
  match get_local_node_state g1 with
  | WD_JOINING | WD_INITIALIZING | WD_COORDINATOR | WD_PARTICIPATE_IN_ELECTION
  | WD_STAND_FOR_COORDINATOR => g1
  | s => other_states X s WD_EVENT_NEW_OUTBOUND_CONNECTION (Some (RemoteNode i))
           None None g1
  end.

(** [try_connecting_with_all_unreachable_nodes] called in any local
    state. *)
Definition try_connecting_in_any_state (g : wd_cluster) : wd_cluster :=
  foldl (fun acc i => new_outbound_connection i acc)
        (log_action act_connect_to_unreachable_nodes g) (reconnected X).

(** [None] is the exit of the process at [ereport (FATAL, ...)].  The
    message is the single byte of the packet data. *)
Definition cluster_service_message_processor (node : node_ptr) (pkt : WDPacketData)
    (now : timeval) (e : esc_env) (g : wd_cluster) : option wd_cluster :=
  if decide (type pkt <> WD_CLUSTER_SERVICE_MESSAGE) then Some g
  else
    match data pkt with
    | Some (String message EmptyString) =>
        if decide (message = CLUSTER_IAM_TRUE_MASTER) then
          if decide (get_local_node_state g = WD_COORDINATOR) then
            Some (set_state X pool_config now e WD_JOINING
                    (send_cluster_service_message None (Some pkt)
                       CLUSTER_IAM_RESIGNING_FROM_MASTER g))
          else if decide (getMasterWatchdogNode g <> None
                          /\ getMasterWatchdogNode g <> Some node) then
            Some (set_state X pool_config now e WD_JOINING
                    (send_cluster_service_message None (Some pkt)
                       CLUSTER_NEEDS_ELECTION g))
          else Some g
        else if decide (message = CLUSTER_IAM_RESIGNING_FROM_MASTER) then
          if decide (getMasterWatchdogNode g = Some node)
          then Some (set_state X pool_config now e WD_JOINING g)
          else Some g
        else if decide (message = CLUSTER_IN_SPLIT_BRAIN) then
          let g1 := try_connecting_in_any_state g in
          if decide (get_local_node_state g1 = WD_COORDINATOR)
          then Some (send_message_of_type X pool_config None
                       WD_IAM_COORDINATOR_MESSAGE None g1)
          else Some g1
        else if decide (message = CLUSTER_NEEDS_ELECTION) then
          Some (set_state X pool_config now e WD_JOINING g)
        else if decide (message = CLUSTER_IAM_NOT_TRUE_MASTER) then
          if decide (getMasterWatchdogNode g = Some node)
          then Some (set_state X pool_config now e WD_JOINING g)
          else Some g
        else if decide (message = CLUSTER_NODE_INVALID_VERSION) then None
        else Some g
    | _ => Some g
    end.

(** The remote nodes that are not dead, lost or shut down. *)
Definition get_cluster_node_count (g : wd_cluster) : Z :=
  Z.of_nat (length (filter (fun n => is_node_active n = true)
                      (take (Z.to_nat (remoteNodeCount g)) (remoteNodes g)))).

(** The state functions at [WD_EVENT_TIMEOUT]. *)
Definition watchdog_state_machine_joining_timeout (now : timeval) (e : esc_env)
    (g : wd_cluster) : wd_cluster :=
  set_state X pool_config now e WD_INITIALIZING g.

Definition watchdog_state_machine_initializing_timeout (now : timeval)
    (e : esc_env) (g : wd_cluster) : wd_cluster :=
  if decide (getMasterWatchdogNode g <> None) then
    set_state X pool_config now e WD_STANDBY g
  else if decide (get_cluster_node_count g = 0) then
    set_state X pool_config now e WD_COORDINATOR g
  else if existsb (fun n => bool_decide (state n = WD_STAND_FOR_COORDINATOR))
            (take (Z.to_nat (remoteNodeCount g)) (remoteNodes g))
  then set_state X pool_config now e WD_PARTICIPATE_IN_ELECTION g
  else set_state X pool_config now e WD_STAND_FOR_COORDINATOR g.

Definition watchdog_state_machine_voting_timeout (now : timeval) (e : esc_env)
    (g : wd_cluster) : wd_cluster :=
  set_state X pool_config now e WD_JOINING g.

(** The joining and the voting state function at [WD_EVENT_PACKET_RCV];
    the packet comes from the i-th remote node.  [None] is the exit at
    [ereport (FATAL, ...)]. *)
Definition watchdog_state_machine_joining_packet_rcv (i : nat) (pkt : WDPacketData)
    (now : timeval) (e : esc_env) (g : wd_cluster) : option wd_cluster :=
  match remoteNodes g !! i with
  | None => Some g
  | Some sender =>
      let dst := Some (RemoteNode i) in
      if decide (type pkt = WD_REJECT_MESSAGE) then
        if decide (state sender = WD_ADD_MESSAGE_SENT) then None else Some g
      else if decide (type pkt = WD_STAND_FOR_COORDINATOR_MESSAGE) then
        if decide (wd_priority sender < wd_priority (localNode g)) then
          Some (set_state X pool_config now e WD_STAND_FOR_COORDINATOR
                  (reply_with_minimal_message dst WD_REJECT_MESSAGE (Some pkt) g))
        else
          Some (set_state X pool_config now e WD_PARTICIPATE_IN_ELECTION
                  (reply_with_minimal_message dst WD_ACCEPT_MESSAGE (Some pkt) g))
      else Some (standard_packet_processor X (RemoteNode i) pkt g)
  end.

Definition watchdog_state_machine_voting_packet_rcv (i : nat)
    (pkt : option WDPacketData) (now : timeval) (e : esc_env) (g : wd_cluster)
    : wd_cluster :=
  match pkt, remoteNodes g !! i with
  | Some p, Some sender =>
      let dst := Some (RemoteNode i) in
      if decide (type p = WD_STAND_FOR_COORDINATOR_MESSAGE) then
        if decide (wd_priority (localNode g) <= wd_priority sender) then
          reply_with_minimal_message dst WD_ACCEPT_MESSAGE (Some p) g
        else
          set_state X pool_config now e WD_STAND_FOR_COORDINATOR
            (reply_with_minimal_message dst WD_REJECT_MESSAGE (Some p) g)
      else if decide (type p = WD_IAM_COORDINATOR_MESSAGE) then
        set_state X pool_config now e WD_JOINING g
      else if decide (type p = WD_DECLARE_COORDINATOR_MESSAGE) then
        if decide (wd_priority (localNode g) <= wd_priority sender) then
          set_state X pool_config now e WD_INITIALIZING
            (reply_with_minimal_message dst WD_ACCEPT_MESSAGE (Some p) g)
        else
          set_state X pool_config now e WD_STAND_FOR_COORDINATOR
            (reply_with_minimal_message dst WD_REJECT_MESSAGE (Some p) g)
      else standard_packet_processor X (RemoteNode i) p g
  | _, _ => g
  end.

End Handlers.

(** ** Failover commands and failover indications

    What this part takes from outside watchdog.c:
    - [parse_wd_node_function_json] (wd_json_data.c) gives the function
      name, the node ids and the flags of a failover command, or fails;
    - [strcasecmp] is that of the C library;
    - the three function names are those of wd_ipc_defines.h;
    - [failover_result_json r id] is the document that
      [reply_to_failove_command] builds with the JSON writer for the
      result [r] and the failover id [id];
    - [degenerate_backend_set], [send_failback_request] and
      [promote_backend] tell whether the pgpool-II main process accepts
      the request. *)
Record failover_externals := {
  parse_wd_node_function_json : option string -> option (string * list Z * Z);
  strcasecmp : string -> string -> Z;
  WD_FUNCTION_FAILBACK_REQUEST : string;
  WD_FUNCTION_DEGENERATE_REQUEST : string;
  WD_FUNCTION_PROMOTE_REQUEST : string;
  failover_result_json : WDFailoverCMDResults -> Z -> string;
  degenerate_backend_set : list Z -> Z -> bool;
  send_failback_request : Z -> bool -> Z -> bool;
  promote_backend : Z -> Z -> bool
}.

(** The requests made to the pgpool-II main process, in program order. *)
Inductive main_request :=
| call_degenerate_backend_set (node_id_list : list Z) (flags : Z)
| call_send_failback_request (node_id : Z) (throw_error : bool) (flags : Z)
| call_promote_backend (node_id : Z) (flags : Z)
| call_register_inform_quarantine_nodes_req.

Section FailoverCommands.

Variable X : wd_externals.
Variable pool_config : POOL_CONFIG.
Variable D : wd_ipc_defines.
Variable J : ipc_externals.
Variable F : failover_externals.

(** The data of the reply is the JSON text with its terminating NUL
    ([jw_get_json_length (jNode) + 1] bytes).  A command that came neither
    over IPC nor from a remote node gets no reply. *)
Definition reply_to_failove_command (ipcCommand : WDCommandData)
    (cmdResult : WDFailoverCMDResults) (failoverID : Z) (g : wd_cluster)
    : wd_cluster :=
  let d := Some (failover_result_json F cmdResult failoverID
                 ++ String "000" EmptyString)%string in
  if decide (commandSource ipcCommand = COMMAND_SOURCE_IPC) then
    write_ipc_command_with_result_data ipcCommand (WD_IPC_CMD_RESULT_OK D) d g
  else if decide (commandSource ipcCommand = COMMAND_SOURCE_REMOTE) then
    reply_with_message (sourceWdNode ipcCommand) WD_CMD_REPLY_IN_DATA d
      (Some (sourcePacket ipcCommand)) g
  else g.

(** The chain of [strcasecmp] tests of
    [process_failover_command_on_coordinator]. *)
Definition failover_function_kind (func_name : string) : option POOL_REQUEST_KIND :=
  if decide (strcasecmp F (WD_FUNCTION_FAILBACK_REQUEST F) func_name = 0)
  then Some NODE_UP_REQUEST
  else if decide (strcasecmp F (WD_FUNCTION_DEGENERATE_REQUEST F) func_name = 0)
  then Some NODE_DOWN_REQUEST
  else if decide (strcasecmp F (WD_FUNCTION_PROMOTE_REQUEST F) func_name = 0)
  then Some PROMOTE_NODE_REQUEST
  else None.

(** The request to the main process for a failover that may proceed: the
    value of [ret] afterwards and the call made.  [None]: the source reads
    [node_id_list[0]] of an empty list. *)
Definition kick_failover (reqKind : POOL_REQUEST_KIND) (node_id_list : list Z)
    (flags : Z) : option (bool * list main_request) :=
  match reqKind with
  | NODE_DOWN_REQUEST =>
      Some (degenerate_backend_set F node_id_list flags,
            [call_degenerate_backend_set node_id_list flags])
  | NODE_UP_REQUEST =>
      match node_id_list with
      | n :: _ => Some (send_failback_request F n false flags,
                        [call_send_failback_request n false flags])
      | [] => None
      end
  | PROMOTE_NODE_REQUEST =>
      match node_id_list with
      | n :: _ => Some (promote_backend F n flags, [call_promote_backend n flags])
      | [] => None
      end
  | _ => Some (true, [])
  end.

(** The result is the return value, the requests made to the main
    process and the new cluster.  [None]: the command has no source node
    (a command object always has one), or [kick_failover] is [None].
    [flags] is an [unsigned char]. *)
Definition process_failover_command_on_coordinator (ipcCommand : WDCommandData)
    (now : timeval) (e : esc_env) (g : wd_cluster)
    : option (IPC_CMD_PREOCESS_RES * list main_request * wd_cluster) :=
  if decide (get_local_node_state g <> WD_COORDINATOR) then Some (IPC_CMD_ERROR, [], g)
  else
    match parse_wd_node_function_json F (data (sourcePacket ipcCommand)) with
    | None =>
        Some (IPC_CMD_COMPLETE, [],
              reply_to_failove_command ipcCommand FAILOVER_RES_INVALID_FUNCTION 0 g)
    | Some (func_name, node_id_list, flags) =>
        match failover_function_kind func_name with
        | None =>
            Some (IPC_CMD_COMPLETE, [],
                  reply_to_failove_command ipcCommand FAILOVER_RES_INVALID_FUNCTION 0 g)
        | Some reqKind =>
            match sourceWdNode ipcCommand with
            | None => None
            | Some wdNode =>
                let '(res, flags1, g1) :=
                  compute_failover_consensus X pool_config reqKind node_id_list
                    flags wdNode now e g in
                if decide (res = FAILOVER_RES_PROCEED) then
                  if decide (commandSource ipcCommand = COMMAND_SOURCE_REMOTE) then
                    match kick_failover reqKind node_id_list
                            (Z.lor flags1 REQ_DETAIL_WATCHDOG) with
                    | None => None
                    | Some (ret, calls) =>
                        Some (IPC_CMD_COMPLETE, calls,
                              reply_to_failove_command ipcCommand
                                (if ret then FAILOVER_RES_WILL_BE_DONE
                                 else FAILOVER_RES_ERROR) 0 g1)
                    end
                  else
                    Some (IPC_CMD_COMPLETE, [],
                          reply_to_failove_command ipcCommand FAILOVER_RES_PROCEED 0 g1)
                else
                  let '(calls, g2) :=
                    if decide (res = FAILOVER_RES_BUILDING_CONSENSUS) then
                      (if decide (commandSource ipcCommand = COMMAND_SOURCE_REMOTE)
                       then [call_register_inform_quarantine_nodes_req] else [],
                       send_message_of_type X pool_config None
                         WD_FAILOVER_WAITING_FOR_CONSENSUS None g1)
                    else ([], g1) in
                  Some (IPC_CMD_COMPLETE, calls,
                        reply_to_failove_command ipcCommand res 0 g2)
            end
        end
    end.

(** The command object that [process_remote_failover_command_on_coordinator]
    builds for the packet [pkt] of the node [node]. *)
Definition remote_failover_command (node : node_ptr) (pkt : WDPacketData)
    (now : timeval) (g : wd_cluster) : WDCommandData :=
  {| cmd_addr := fresh_cmd_addr g;
     sourcePacket :=
       {| type := type pkt; command_id := command_id pkt;
          data := if decide (0 < len pkt) then data pkt else None |};
     commandPacket := {| type := WD_NO_MESSAGE; command_id := 0; data := None |};
     nodeResults := [];
     sendToNode := None;
     commandStatus := COMMAND_EMPTY;
     commandTimeoutSecs := 0;
     commandTime := now;
     commandSendToCount := 0;
     commandReplyFromCount := 0;
     commandSource := COMMAND_SOURCE_REMOTE;
     sourceIPCSocket := 0;
     sourceWdNode := Some node;
     errorMessage := None |}.

(** [cleanUpIPCCommand] of this command object releases its memory only:
    the command did not come over IPC and is not in
    [g_cluster.ipc_commands]. *)
Definition process_remote_failover_command_on_coordinator (node : node_ptr)
    (pkt : WDPacketData) (now : timeval) (e : esc_env) (g : wd_cluster)
    : option (list main_request * wd_cluster) :=
  if decide (get_local_node_state g <> WD_COORDINATOR) then
    Some ([], reply_with_minimal_message (Some node) WD_ERROR_MESSAGE (Some pkt) g)
  else
    let ipcCommand := remote_failover_command node pkt now g in
    match process_failover_command_on_coordinator ipcCommand now e g with
    | None => None
    | Some (res, calls, g1) =>
        if decide (res = IPC_CMD_PROCESSING)
        then Some (calls, with_ipc_commands (ipc_commands g1 ++ [ipcCommand]) g1)
        else Some (calls, g1)
    end.

Definition failover_start_indication (g : wd_cluster)
    : WDFailoverCMDResults * wd_cluster :=
  if decide (get_local_node_state g = WD_COORDINATOR) then
    (FAILOVER_RES_PROCEED,
     send_message_of_type X pool_config None WD_FAILOVER_START None g)
  else if decide (get_local_node_state g = WD_STANDBY) then (FAILOVER_RES_PROCEED, g)
  else (FAILOVER_RES_TRANSITION, g).

Definition failover_end_indication (g : wd_cluster)
    : WDFailoverCMDResults * wd_cluster :=
  if decide (get_local_node_state g = WD_COORDINATOR) then
    (FAILOVER_RES_PROCEED,
     send_message_of_type X pool_config None WD_FAILOVER_END None g)
  else if decide (get_local_node_state g = WD_STANDBY) then (FAILOVER_RES_PROCEED, g)
  else (FAILOVER_RES_TRANSITION, g).

(** [failoverState] starts at -1 and is set by
    [json_get_int_value_for_key] only when the key is found. *)
Definition process_IPC_failover_indication (ipcCommand : WDCommandData)
    (g : wd_cluster) : IPC_CMD_PREOCESS_RES * wd_cluster :=
  let '(res, g1) :=
    if decide (get_local_node_state g = WD_COORDINATOR) then
      let failoverState :=
        match data (sourcePacket ipcCommand) with
        | None => -1
        | Some d =>
            if decide (len (sourcePacket ipcCommand) <= 0) then -1
            else
              match json_parse J d with
              | Some root =>
                  if json_is_object J root
                  then default (-1)
                         (json_get_int_value_for_key J root "FailoverFuncState")
                  else -1
              | None => -1
              end
        end in
      if decide (failoverState < 0) then (FAILOVER_RES_INVALID_FUNCTION, g)
      else if decide (failoverState = 0) then failover_start_indication g
      else failover_end_indication g
    else (FAILOVER_RES_NOT_ALLOWED, g) in
  (IPC_CMD_COMPLETE, reply_to_failove_command ipcCommand res 0 g1).

(** *** Forwarding a failover command to the master *)

(** The node behind a [WatchdogNode *]. *)
Definition node_at (p : node_ptr) (g : wd_cluster) : option WatchdogNode :=
  match p with
  | LocalNode => Some (localNode g)
  | RemoteNode i => remoteNodes g !! i
  end.

(** The body of the loop of [send_command_packet_to_remote_nodes] for one
    slot: the new state of the slot, whether the packet was sent, and the
    write made.  A node that is not reachable gets the same state as one
    to which the write fails; the local node has no connection. *)
Definition send_command_to_slot (c : WDCommandData) (source_included : bool)
    (g : wd_cluster) (r : WDCommandNodeResult)
    : WDCommandNodeResult * bool * list wd_action :=
  if decide (sendToNode c <> None /\ sendToNode c <> Some (wdNode r)) then
    (with_cmdState COMMAND_STATE_DO_NOT_SEND r, false, [])
  else if negb source_included && bool_decide (sourceWdNode c = Some (wdNode r))
          && bool_decide (commandSource c = COMMAND_SOURCE_REMOTE) then
    (with_cmdState COMMAND_STATE_DO_NOT_SEND r, false, [])
  else
    match node_at (wdNode r) g with
    | Some n =>
        if is_node_active n then
          match wdNode r with
          | RemoteNode i =>
              let ok := socket_write X i (commandPacket c) in
              (with_cmdState (if ok then COMMAND_STATE_SENT
                              else COMMAND_STATE_SEND_ERROR) r, ok,
               [act_send_message_to_node i (commandPacket c) ok])
          | LocalNode => (with_cmdState COMMAND_STATE_SEND_ERROR r, false, [])
          end
        else (with_cmdState COMMAND_STATE_DO_NOT_SEND r, false, [])
    | None => (with_cmdState COMMAND_STATE_DO_NOT_SEND r, false, [])
    end.

Fixpoint send_command_to_slots (c : WDCommandData) (source_included : bool)
    (g : wd_cluster) (slots : list WDCommandNodeResult)
    : list WDCommandNodeResult * Z * list wd_action :=
  match slots with
  | [] => ([], 0, [])
  | r :: rest =>
      let '(r', sent, tr) := send_command_to_slot c source_included g r in
      let '(rs, cnt, tr') := send_command_to_slots c source_included g rest in
      (r' :: rs, (if sent then 1 else 0) + cnt, tr ++ tr')
  end.

(** The result is the return value and the command and cluster after the
    call.  The result slots are allocated when the command has none. *)
Definition send_command_packet_to_remote_nodes (ipcCommand : WDCommandData)
    (source_included : bool) (g : wd_cluster) : Z * WDCommandData * wd_cluster :=
  let n := Z.to_nat (remoteNodeCount g) in
  let slots := match nodeResults ipcCommand with
               | [] => allocate_resultNodes g
               | l => l
               end in
  let '(rs, cnt, tr) :=
    send_command_to_slots ipcCommand source_included g (take n slots) in
  (cnt,
   with_nodeResults (rs ++ drop n slots)
     (with_commandReplyFromCount 0 (with_commandSendToCount cnt ipcCommand)),
   with_trace (trace g ++ tr) g).

Definition is_local_node_true_master (g : wd_cluster) : bool :=
  bool_decide (get_local_node_state g = WD_COORDINATOR
               /\ getMasterWatchdogNode g = Some LocalNode).

(** The result is the return value, the command as the call leaves it,
    the requests made to the main process and the new cluster. *)
Definition process_IPC_failover_command (ipcCommand : WDCommandData)
    (now : timeval) (e : esc_env) (g : wd_cluster)
    : option (IPC_CMD_PREOCESS_RES * WDCommandData * list main_request * wd_cluster) :=
  if is_local_node_true_master g then
    match process_failover_command_on_coordinator ipcCommand now e g with
    | Some (res, calls, g1) => Some (res, ipcCommand, calls, g1)
    | None => None
    end
  else if decide (get_local_node_state g = WD_STANDBY) then
    let '(id, g1) := get_next_commandID g in
    let c1 :=
      with_sendToNode (getMasterWatchdogNode g1)
        (with_commandPacket
           {| type := type (sourcePacket ipcCommand); command_id := id;
              data := data (sourcePacket ipcCommand) |} ipcCommand) in
    let '(cnt, c2, g2) := send_command_packet_to_remote_nodes c1 true g1 in
    if decide (cnt <= 0) then Some (IPC_CMD_ERROR, c2, [], g2)
    else Some (IPC_CMD_PROCESSING, c2, [], g2)
  else Some (IPC_CMD_ERROR, ipcCommand, [], g).

End FailoverCommands.

(** ** Packets on the wire *)

Inductive WD_SOCK_STATE :=
| WD_SOCK_UNINITIALIZED | WD_SOCK_CLOSED | WD_SOCK_ERROR | WD_SOCK_CONNECTED
| WD_SOCK_WAITING_FOR_CONNECT.

#[global] Instance WD_SOCK_STATE_eq_dec : EqDecision WD_SOCK_STATE.
Proof. solve_decision. Defined.

(** The fields of [SocketConnection] that the embedded functions read or
    write. *)
Record SocketConnection := {
  sock : Z;
  sock_state : WD_SOCK_STATE
}.

Definition is_socket_connection_connected (conn : SocketConnection) : bool :=
  bool_decide (0 < sock conn /\ sock_state conn = WD_SOCK_CONNECTED).

(** The descriptor is closed and the record says so. *)
Definition close_socket_connection (conn : SocketConnection) : SocketConnection :=
  if decide ((0 < sock conn /\ sock_state conn = WD_SOCK_CONNECTED)
             \/ sock_state conn = WD_SOCK_WAITING_FOR_CONNECT)
  then {| sock := -1; sock_state := WD_SOCK_CLOSED |}
  else conn.

(** The four bytes in memory of [htonl (x)], in address order: the 32-bit
    value of [x], most significant byte first; and the value that [ntohl]
    gives for four bytes read into an [unsigned int]. *)
Definition htonl_bytes (x : Z) : list ascii :=
  map (fun k => ascii_of_nat (Z.to_nat ((x mod 2 ^ 32) / 2 ^ (8 * k) mod 256)))
      [3; 2; 1; 0].

Definition ntohl_bytes (b : list ascii) : Z :=
  foldl (fun acc c => acc * 256 + Z.of_nat (nat_of_ascii c)) 0 b.

(** The [int] that holds a 32-bit value. *)
Definition int_of_uint32 (x : Z) : Z := if decide (x < 2 ^ 31) then x else x - 2 ^ 32.

(** What [write (sock, buf, n)] puts on the socket when it returns [r]. *)
Definition written (buf : list ascii) (r : Z) : list ascii := take (Z.to_nat r) buf.

(** The loop that writes the data; [rs] are the values that the calls of
    [write] return, in order (a call beyond the list fails). *)
Fixpoint write_packet_data (rest : list ascii) (rs : list Z) : bool * list ascii :=
  match rs with
  | [] => (false, [])
  | r :: rs' =>
      if decide (r <= 0) then (false, [])
      else if decide (Z.of_nat (length rest) <= r) then (true, written rest r)
      else let '(ok, w) := write_packet_data (drop (Z.to_nat r) rest) rs' in
           (ok, written rest r ++ w)
  end.

(** The result is the return value and the bytes that reached the
    socket. *)
Definition write_packet_to_socket (rs : list Z) (pkt : WDPacketData)
    (ipcPacket : bool) : bool * list ascii :=
  let r1 := hd 0 rs in
  let w1 := written [type pkt] r1 in
  if decide (r1 < 1) then (false, w1)
  else
    let '(ok2, w2, rs2) :=
      if ipcPacket then (true, [], tl rs)
      else let r2 := hd 0 (tl rs) in
           (bool_decide (4 <= r2), written (htonl_bytes (command_id pkt)) r2,
            tl (tl rs)) in
    if negb ok2 then (false, w1 ++ w2)
    else
      let r3 := hd 0 rs2 in
      let w3 := written (htonl_bytes (len pkt)) r3 in
      if decide (r3 < 4) then (false, w1 ++ w2 ++ w3)
      else
        match data pkt with
        | Some d =>
            if decide (0 < len pkt) then
              let '(ok, w4) := write_packet_data (String.list_ascii_of_string d) (tl rs2) in
              (ok, w1 ++ w2 ++ w3 ++ w4)
            else (true, w1 ++ w2 ++ w3)
        | None => (true, w1 ++ w2 ++ w3)
        end.

(** - [socket_read input n] stands for [socket_read (conn->sock, buf, n,
      1)] on a connection on which [input] is pending: [Some bs] when it
      returns [n], having stored the [n] bytes [bs], and [None] when it
      returns another value; with what is pending afterwards.
    - [palloc_ok n] tells whether [palloc (n)] grants the request; it
      raises an error otherwise. *)
Record socket_externals := {
  socket_read : list ascii -> Z -> option (list ascii) * list ascii;
  palloc_ok : Z -> bool
}.

Inductive read_result :=
| read_packet_ok (pkt : WDPacketData)
| read_packet_null
| read_packet_error.

Section Wire.

Variable SO : socket_externals.

(** The result is the packet (or NULL, or the error raised by [palloc]),
    the connection and the input still pending. *)
Definition read_packet_of_type (conn : SocketConnection) (ensure_type : ascii)
    (input : list ascii) : read_result * SocketConnection * list ascii :=
  if negb (is_socket_connection_connected conn) then (read_packet_null, conn, input)
  else
    match socket_read SO input 1 with
    | (None, in1) => (read_packet_null, close_socket_connection conn, in1)
    | (Some b1, in1) =>
        let ty := hd "000"%char b1 in
        if decide (ensure_type <> WD_NO_MESSAGE /\ ensure_type <> ty)
        then (read_packet_null, close_socket_connection conn, in1)
        else
          match socket_read SO in1 4 with
          | (None, in2) => (read_packet_null, close_socket_connection conn, in2)
          | (Some b2, in2) =>
              let cmd_id := ntohl_bytes b2 in
              match socket_read SO in2 4 with
              | (None, in3) => (read_packet_null, close_socket_connection conn, in3)
              | (Some b3, in3) =>
                  let len := int_of_uint32 (ntohl_bytes b3) in
                  if negb (palloc_ok SO len) then (read_packet_error, conn, in3)
                  else
                    match socket_read SO in3 len with
                    | (None, in4) =>
                        (read_packet_null, close_socket_connection conn, in4)
                    | (Some buf, in4) =>
                        (read_packet_ok
                           {| type := ty; command_id := cmd_id;
                              data := Some (String.string_of_list_ascii buf) |},
                         conn, in4)
                    end
              end
          end
    end.

Definition read_packet (conn : SocketConnection) (input : list ascii)
    : read_result * SocketConnection * list ascii :=
  read_packet_of_type conn WD_NO_MESSAGE input.

End Wire.

(** ** Notions used to state the properties *)

(** A call of one of the two escalation entry points. *)
Inductive esc_call :=
| call_start_escalated_node (e : esc_env)
| call_resign_from_escalated_node (e : esc_env).

Definition run_esc_call (c : esc_call) (g : wd_cluster) : wd_cluster :=
  match c with
  | call_start_escalated_node e => start_escalated_node e g
  | call_resign_from_escalated_node e => resign_from_escalated_node e g
  end.

Definition run_esc_calls (cs : list esc_call) (g : wd_cluster) : wd_cluster :=
  foldl (fun acc c => run_esc_call c acc) g cs.

(** A trace respects the episodes when an escalation helper is created
    ([fork_escalation_process] returning a pid) only outside an escalated
    episode, and a de-escalation helper is forked only inside one. *)
Fixpoint helper_forks_alternate (esc : bool) (tr : list wd_action) : bool :=
  match tr with
  | [] => true
  | act_fork_escalation_process pid :: rest =>
      if bool_decide (0 < pid)
      then negb esc && helper_forks_alternate true rest
      else helper_forks_alternate esc rest
  | act_fork_plunging_process _ :: rest =>
      esc && helper_forks_alternate false rest
  | _ :: rest => helper_forks_alternate esc rest
  end.



(** The cluster service message [m] in reply to [pkt], sent to [dst]
    (to every reachable node when [dst] is [None]). *)
Definition service_message (dst : option node_ptr) (m : ascii)
    (pkt : WDPacketData) : wd_action :=
  act_send_message dst
    {| type := WD_CLUSTER_SERVICE_MESSAGE; command_id := command_id pkt;
       data := Some (String m EmptyString) |}.

(** The tiebreaker between two coordinators, in its order: the remote node
    [other] is worthier than the local node when it is escalated and the
    local node is not; else, both being alike in that, when its quorum
    status is greater; else when its standby count is greater; else when
    it has been coordinator for longer. *)
Definition remote_is_worthier (other : WatchdogNode) (g : wd_cluster) : Prop :=
  (escalated other = true /\ escalated (localNode g) = false)
  \/ (escalated other = escalated (localNode g)
      /\ (quorum_status g < node_quorum_status other
          \/ (node_quorum_status other = quorum_status g
              /\ (standby_nodes_count (clusterMasterInfo g)
                    < node_standby_nodes_count other
                  \/ (node_standby_nodes_count other
                        = standby_nodes_count (clusterMasterInfo g)
                      /\ tv_sec (current_state_time other)
                          < tv_sec (current_state_time (localNode g))))))).

(** An expired node-down proposal that the local node voted for and that
    names a backend quarantined as primary. *)
Definition resign_cause (X : wd_externals) (shm : POOL_SHARED) (now : timeval)
    (f : WDFailoverObject) : Prop :=
  failover_expired X now f = true
  /\ reqKind f = NODE_DOWN_REQUEST
  /\ LocalNode ∈ requestingNodes f
  /\ exists node_id, node_id ∈ nodeList f /\ quarantined_primary shm node_id = true.

(** A proposal counts each requestor once when its [request_count] is the
    number of its requestors and no requestor is listed twice. *)
Definition failover_votes_wf (f : WDFailoverObject) : Prop :=
  request_count f = Z.of_nat (length (requestingNodes f))
  /\ NoDup (requestingNodes f).

(** Whether [node] is already among the requestors of the proposal that
    a request of kind [k] for the backends [node_id_list] falls on. *)
Definition already_voted (k : POOL_REQUEST_KIND) (node_id_list : list Z)
    (node : node_ptr) (g : wd_cluster) : bool :=
  match get_failover_object k node_id_list g with
  | Some i =>
      match wdCurrentFailovers g !! i with
      | Some f => bool_decide (node ∈ requestingNodes f)
      | None => false
      end
  | None => false
  end.

(** The outcome of [read_ipc_socket_and_process] for a command refused
    with the error text [msg]: the function returns false, the socket is
    to be removed, and the only effect is the [Bad] result frame written
    to the client's socket; its data is the JSON document of the text
    followed by a NUL byte. *)
Definition ipc_bad_reply (D : wd_ipc_defines) (J : ipc_externals) (sock : Z)
    (msg : string) (g : wd_cluster) : option (bool * bool * wd_cluster) :=
  Some (false, true,
        log_action
          (act_write_packet_to_socket sock
             {| type := WD_IPC_CMD_RESULT_BAD D; command_id := 0;
                data := Some (get_wd_simple_message_json J msg
                              ++ String "000" EmptyString)%string |}) g).

(** [only_sends g g']: from [g] to [g'] only packets were built and sent
    and timers set: the command id counter, the command list, the timer
    and the trace may differ, and the trace only grows. *)
Definition only_sends (g g' : wd_cluster) : Prop :=
  localNode g' = localNode g
  /\ remoteNodes g' = remoteNodes g
  /\ clusterMasterInfo g' = clusterMasterInfo g
  /\ remoteNodeCount g' = remoteNodeCount g
  /\ quorum_status g' = quorum_status g
  /\ escalation_pid g' = escalation_pid g
  /\ de_escalation_pid g' = de_escalation_pid g
  /\ ipc_auth_needed g' = ipc_auth_needed g
  /\ ipc_commands g' = ipc_commands g
  /\ wdCurrentFailovers g' = wdCurrentFailovers g
  /\ trace g `prefix_of` trace g'.

(** [keeps_local g g']: the state and priority of the local node are kept
    and the trace only grows. *)
Definition keeps_local (g g' : wd_cluster) : Prop :=
  state (localNode g') = state (localNode g)
  /\ wd_priority (localNode g') = wd_priority (localNode g)
  /\ trace g `prefix_of` trace g'.

(** ** A concrete environment, for the examples

    The clock difference is taken in whole seconds, every socket write
    succeeds, no connection is restored, the JSON documents are empty
    objects, a beacon is read from the table [beacons], and the state
    functions outside the embedding do nothing. *)
Definition example_externals (beacons : list (string * beacon_data)) : wd_externals :=
  {| WD_TIME_DIFF_SEC := fun a b =>
       Z.quot ((tv_sec a - tv_sec b) * 1000000 + (tv_usec a - tv_usec b)) 1000000;
     socket_write := fun _ _ => true;
     node_info_json := fun _ _ => "{}"%string;
     beacon_message_json := fun _ => "{}"%string;
     reconnected := [];
     parse_beacon_message_json := fun d =>
       snd <$> List.find (fun p => bool_decide (fst p = d)) beacons;
     other_states := fun _ _ _ _ _ g => g;
     standard_packet_processor := fun _ _ g => g |}.

Definition example_config (quorum consensus multiple half : bool) : POOL_CONFIG :=
  {| failover_when_quorum_exists := quorum;
     failover_require_consensus := consensus;
     allow_multiple_failover_requests_from_node := multiple;
     enable_consensus_with_half_votes := half;
     cfg_wd_priority := 1;
     wd_authkey := "secret"%string |}.

Definition at_second (t : Z) : timeval := {| tv_sec := t; tv_usec := 0 |}.

Definition example_node (st : WD_STATES) (priority startup since : Z)
    (esc : bool) : WatchdogNode :=
  {| state := st; wd_priority := priority; startup_time := at_second startup;
     current_state_time := at_second since; escalated := esc;
     node_quorum_status := 0; node_standby_nodes_count := 0;
     delegate_ip := ""%string |}.

(** A cluster seen from [local], with the given remote nodes, standby
    count, quorum status, commands and proposals. *)
Definition example_cluster (local : WatchdogNode) (remotes : list WatchdogNode)
    (standby : Z) (quorum : Z) (commands : list WDCommandData)
    (failovers : list WDFailoverObject) : wd_cluster :=
  {| localNode := local;
     remoteNodes := remotes;
     clusterMasterInfo :=
       {| masterNode := None; standbyNodes := replicate (length remotes) None;
          standby_nodes_count := standby; holding_vip := false |};
     remoteNodeCount := Z.of_nat (length remotes);
     quorum_status := quorum;
     nextCommandID := 100;
     escalation_pid := 0;
     de_escalation_pid := 0;
     ipc_auth_needed := true;
     ipc_commands := [];
     clusterCommands := commands;
     wdCurrentFailovers := failovers;
     g_timeout_sec := 0;
     g_tm_set_time := at_second 0;
     trace := [] |}.

Definition quiet : esc_env := {| sigchld := []; fork_pid := 4242 |}.

Definition example_packet (ty : ascii) (id : Z) (d : option string) : WDPacketData :=
  {| type := ty; command_id := id; data := d |}.

(** A command sent to the remote nodes [0 .. n-1], none of which has
    replied. *)
Definition example_command (ty : ascii) (id : Z) (n : nat) : WDCommandData :=
  {| cmd_addr := 1;
     sourcePacket := example_packet WD_NO_MESSAGE 0 None;
     commandPacket := example_packet ty id None;
     nodeResults :=
       map (fun i => {| wdNode := RemoteNode i; cmdState := COMMAND_STATE_SENT;
                        result_type := WD_NO_MESSAGE; result_data := None |})
           (seq 0 n);
     sendToNode := None;
     commandStatus := COMMAND_IN_PROGRESS;
     commandTimeoutSecs := 4;
     commandTime := at_second 0;
     commandSendToCount := Z.of_nat n;
     commandReplyFromCount := 0;
     commandSource := COMMAND_SOURCE_LOCAL;
     sourceIPCSocket := 0;
     sourceWdNode := Some LocalNode;
     errorMessage := None |}.

Definition example_failover (k : POOL_REQUEST_KIND) (nodes : list Z)
    (requestors : list node_ptr) (started : Z) : WDFailoverObject :=
  {| reqKind := k; reqFlags := 0; failoverID := 7; nodeList := nodes;
     requestingNodes := requestors;
     request_count := Z.of_nat (length requestors);
     startTime := at_second started |}.

(** The codes of wd_ipc_defines.h as pgpool-II ships them. *)
Definition example_ipc_defines : wd_ipc_defines :=
  {| WD_REGISTER_FOR_NOTIFICATION := "0"%char;
     WD_NODE_STATUS_CHANGE_COMMAND := "2"%char;
     WD_GET_NODES_LIST_COMMAND := "3"%char;
     WD_GET_RUNTIME_VARIABLE_VALUE := "v"%char;
     WD_IPC_FAILOVER_COMMAND := "f"%char;
     WD_IPC_ONLINE_RECOVERY_COMMAND := "r"%char;
     WD_GET_MASTER_DATA_REQUEST := "d"%char;
     WD_FAILOVER_INDICATION := "i"%char;
     WD_IPC_CMD_CLUSTER_IN_TRAN := "5"%char;
     WD_IPC_CMD_RESULT_BAD := "6"%char;
     WD_IPC_CMD_RESULT_OK := "7"%char;
     WD_IPC_CMD_TIMEOUT := "8"%char;
     WD_IPC_SHARED_KEY := "IPCSharedKey"%string;
     WD_IPC_AUTH_KEY := "IPCAuthKey"%string |}.

(** A JSON library that reads the text of the empty object only; objects
    are lists of integer or string members. *)
Definition example_ipc_externals : ipc_externals :=
  {| json_value := list (string * (Z + string));
     json_parse := fun s => if decide (s = "{}"%string) then Some [] else None;
     json_is_object := fun _ => true;
     json_get_int_value_for_key := fun root key =>
       match List.find (fun p => bool_decide (fst p = key)) root with
       | Some (_, inl z) => Some z
       | _ => None
       end;
     json_get_string_value_for_key := fun root key =>
       match List.find (fun p => bool_decide (fst p = key)) root with
       | Some (_, inr t) => Some t
       | _ => None
       end;
     get_ipc_shared_key := Some 12345;
     get_wd_simple_message_json := fun msg => msg;
     ipc_command_handler := fun _ c g => (IPC_CMD_COMPLETE, c, g) |}.

(** ** Concrete clusters, for the examples *)

Definition plain_externals : wd_externals := example_externals [].

Definition coordinator_node : WatchdogNode :=
  example_node WD_COORDINATOR 1 0 50 false.

Definition standby_node : WatchdogNode := example_node WD_STANDBY 1 0 0 false.

(** Quorum and consensus required, duplicates not counted, no consensus
    with half of the votes. *)
Definition cfg_consensus : POOL_CONFIG := example_config true true false false.

(** As [cfg_consensus], but failover does not wait for the quorum. *)
Definition cfg_no_quorum_needed : POOL_CONFIG := example_config false true false false.

(** As [cfg_consensus], but a node may send several requests. *)
Definition cfg_multiple : POOL_CONFIG := example_config true true true false.

(** A coordinator with two standbys and no pending proposal. *)
Definition coordinator_of_three : wd_cluster :=
  example_cluster coordinator_node [standby_node; standby_node] 2 1 [] [].

(** A coordinator with three standbys (N = 4) and one node-down proposal
    for backend 0 holding the votes of [requestors]. *)
Definition coordinator_of_four (requestors : list node_ptr) : wd_cluster :=
  example_cluster coordinator_node [standby_node; standby_node; standby_node]
    3 1 [] [example_failover NODE_DOWN_REQUEST [0] requestors 0].





(** Split brain after a heal: the local coordinator is not escalated, the
    beacon of remote node 0 says that it is coordinator and escalated. *)
Definition beacon_of_escalated_peer : beacon_data :=
  {| beacon_state := WD_COORDINATOR; seconds_since_node_startup := 100;
     seconds_since_current_state := 30; beacon_quorum_status := 0;
     beacon_standby_nodes_count := 0; beacon_escalated := true |}.

Definition split_brain_externals : wd_externals :=
  example_externals [("beacon"%string, beacon_of_escalated_peer)].

Definition split_brain_cluster : wd_cluster :=
  example_cluster coordinator_node [example_node WD_COORDINATOR 1 0 40 false]
    0 0 [] [].

Definition beacon_packet : WDPacketData :=
  example_packet WD_IAM_COORDINATOR_MESSAGE 77 (Some "beacon"%string).

(** A node standing for coordinator whose stand-for-coordinator command,
    with command id 9, went to [peers] remote nodes. *)
Definition standing_cluster (peers : nat) : wd_cluster :=
  example_cluster (example_node WD_STAND_FOR_COORDINATOR 1 0 0 false)
    (replicate peers (example_node WD_STAND_FOR_COORDINATOR 1 5 0 false)) 0 0
    [example_command WD_STAND_FOR_COORDINATOR_MESSAGE 9 peers] [].

Definition accept_packet : WDPacketData := example_packet WD_ACCEPT_MESSAGE 9 None.

(** An [Accept] of remote node 0 to that command is processed. *)
Definition accept_from_peer_0 (g : wd_cluster) : wd_cluster :=
  (watchdog_internal_command_packet_processor plain_externals cfg_consensus
     (RemoteNode 0) accept_packet (at_second 1) quiet g).2.

(** The middleware holds backend 0 quarantined as primary. *)
Definition primary_quarantined : POOL_SHARED :=
  {| primary_node_id := -1;
     backend_quarantine := fun id => bool_decide (id = 0);
     backend_role := fun id => if decide (id = 0) then ROLE_PRIMARY else ROLE_STANDBY |}.

(** A coordinator whose own node-down proposal for backend 0 was started
    at second 0. *)
Definition coordinator_with_own_proposal : wd_cluster :=
  example_cluster coordinator_node [standby_node; standby_node] 2 1 []
    [example_failover NODE_DOWN_REQUEST [0] [LocalNode] 0].

(** ** Further notions used to state properties *)

(** The proposal that the first vote of a request creates: it takes the
    next command id as its [failoverID]. *)
Definition new_failover (k : POOL_REQUEST_KIND) (node_id_list : list Z)
    (node : node_ptr) (flags : Z) (now : timeval) (g : wd_cluster)
    : WDFailoverObject :=
  {| reqKind := k; reqFlags := flags;
     failoverID := (nextCommandID g + 1) mod 2 ^ 32;
     nodeList := node_id_list; requestingNodes := [node]; request_count := 1;
     startTime := now |}.

(** No backend is named twice in a pending proposal, and no two pending
    proposals are of the same kind for the same backends. *)
Definition failovers_distinct (l : list WDFailoverObject) : Prop :=
  Forall (fun f => NoDup (nodeList f)) l
  /\ forall i j f f', l !! i = Some f -> l !! j = Some f' ->
       reqKind f = reqKind f' -> nodeList f ≡ₚ nodeList f' -> i = j.

(** [other] is what a peer holds about the local node of [h] after a
    beacon of that node: its state, whether it is escalated, its quorum
    status, its standby count and the second its current state began. *)
Definition accurate_view (other : WatchdogNode) (h : wd_cluster) : Prop :=
  state other = state (localNode h)
  /\ escalated other = escalated (localNode h)
  /\ node_quorum_status other = quorum_status h
  /\ node_standby_nodes_count other = standby_nodes_count (clusterMasterInfo h)
  /\ tv_sec (current_state_time other) = tv_sec (current_state_time (localNode h)).

(** The standby list of [g] holds exactly [members], in this order: they
    fill the first slots of the array of [remoteNodeCount] pointers, the
    other slots are NULL, the count is their number, no node is listed
    twice and each is one of the remote nodes. *)
Definition standby_list_holds (g : wd_cluster) (members : list node_ptr) : Prop :=
  let n := Z.to_nat (remoteNodeCount g) in
  (length members <= n)%nat
  /\ standby_nodes_count (clusterMasterInfo g) = Z.of_nat (length members)
  /\ standbyNodes (clusterMasterInfo g)
     = (Some <$> members) ++ replicate (n - length members) None
  /\ NoDup members
  /\ forall p, p ∈ members -> exists i, p = RemoteNode i /\ (i < n)%nat.

(** The states whose state-change handling is embedded above. *)
Definition election_states : list WD_STATES :=
  [ WD_JOINING; WD_INITIALIZING; WD_STAND_FOR_COORDINATOR;
    WD_PARTICIPATE_IN_ELECTION ].

(** The command object that [read_ipc_socket_and_process] builds for a
    frame of type [ty] with payload [payload] read from [sock]. *)
Definition ipc_command_of_frame (sock : Z) (ty : ascii) (payload : option string)
    (now : timeval) (g : wd_cluster) : WDCommandData :=
  {| cmd_addr := fresh_cmd_addr g;
     sourcePacket := {| type := ty; command_id := 0; data := payload |};
     commandPacket := {| type := WD_NO_MESSAGE; command_id := 0; data := None |};
     nodeResults := [];
     sendToNode := None;
     commandStatus := COMMAND_EMPTY;
     commandTimeoutSecs := 0;
     commandTime := now;
     commandSendToCount := 0;
     commandReplyFromCount := 0;
     commandSource := COMMAND_SOURCE_IPC;
     sourceIPCSocket := sock;
     sourceWdNode := Some LocalNode;
     errorMessage := None |}.

(** ** Further concrete clusters, for the examples *)

(** A coordinator of three nodes, accepted as master and escalated, that
    has lost both standbys while its quorum status still says 1. *)
Definition master_without_standbys : wd_cluster :=
  with_clusterMasterInfo
    {| masterNode := Some LocalNode; standbyNodes := [None; None];
       standby_nodes_count := 0; holding_vip := true |}
    (example_cluster (example_node WD_COORDINATOR 1 0 50 true)
       [standby_node; standby_node] 0 1 [] []).

(** A coordinator of three nodes whose standby list is empty. *)
Definition coordinator_without_standbys : wd_cluster :=
  example_cluster coordinator_node [standby_node; standby_node] 0 (-1) [] [].

(** Two coordinators after a heal, each with the other as remote node 0:
    A is not escalated, B is. *)
Definition coordinator_A : wd_cluster :=
  example_cluster (example_node WD_COORDINATOR 1 0 50 false)
    [example_node WD_COORDINATOR 1 0 40 true] 0 0 [] [].
Definition coordinator_B : wd_cluster :=
  example_cluster (example_node WD_COORDINATOR 1 0 40 true)
    [example_node WD_COORDINATOR 1 0 50 false] 0 0 [] [].

(** An environment in which the fork of a helper fails. *)
Definition fork_fails : esc_env := {| sigchld := []; fork_pid := -1 |}.

Definition reject_packet : WDPacketData := example_packet WD_REJECT_MESSAGE 9 None.


(** A coordinator of three nodes whose standby list holds both remote
    nodes, and one whose list holds remote node 0 only. *)
Definition coordinator_of_two_standbys : wd_cluster :=
  with_clusterMasterInfo
    {| masterNode := Some LocalNode;
       standbyNodes := [Some (RemoteNode 0); Some (RemoteNode 1)];
       standby_nodes_count := 2; holding_vip := false |}
    coordinator_of_three.
Definition coordinator_of_one_standby : wd_cluster :=
  with_clusterMasterInfo
    {| masterNode := Some LocalNode;
       standbyNodes := [Some (RemoteNode 0); None];
       standby_nodes_count := 1; holding_vip := false |}
    coordinator_of_three.

(** The escalated master of three nodes with one pending proposal. *)
Definition escalated_coordinator : wd_cluster :=
  with_clusterMasterInfo
    {| masterNode := Some LocalNode;
       standbyNodes := [Some (RemoteNode 0); Some (RemoteNode 1)];
       standby_nodes_count := 2; holding_vip := true |}
    (example_cluster (example_node WD_COORDINATOR 1 0 50 true)
       [standby_node; standby_node] 2 1 []
       [example_failover NODE_DOWN_REQUEST [0] [RemoteNode 0] 0]).

(** ** Notions for the election, the failover commands and the wire *)

(** The reply of type [ty] to the candidacy [pkt] of remote node [i]. *)
Definition candidacy_reply (i : nat) (pkt : WDPacketData) (ty : ascii) : wd_action :=
  act_send_message (Some (RemoteNode i))
    {| type := ty; command_id := command_id pkt; data := None |}.

(** From [g] to [g'] the node has rejected the candidacy [pkt] of remote
    node [i] and has become a candidate itself: the reject is the first
    thing it sent, and its own candidacy is the one command added. *)
Definition stands_against (i : nat) (pkt : WDPacketData) (g g' : wd_cluster) : Prop :=
  get_local_node_state g' = WD_STAND_FOR_COORDINATOR
  /\ (exists tr, trace g' = trace g ++ candidacy_reply i pkt WD_REJECT_MESSAGE :: tr)
  /\ exists c, clusterCommands g' = clusterCommands g ++ [c]
               /\ type (commandPacket c) = WD_STAND_FOR_COORDINATOR_MESSAGE
               /\ commandStatus c = COMMAND_IN_PROGRESS.

(** From [g] to [g'] the node has accepted the candidacy [pkt] of remote
    node [i] and has become a voter; it has queued no command. *)
Definition votes_for (i : nat) (pkt : WDPacketData) (g g' : wd_cluster) : Prop :=
  get_local_node_state g' = WD_PARTICIPATE_IN_ELECTION
  /\ (exists tr, trace g' = trace g ++ candidacy_reply i pkt WD_ACCEPT_MESSAGE :: tr)
  /\ clusterCommands g' = clusterCommands g.

(** The requests that make the main process run a failover. *)
Definition is_failover_call (r : main_request) : bool :=
  match r with
  | call_register_inform_quarantine_nodes_req => false
  | _ => true
  end.

(** The bytes of a packet on a connection between watchdog nodes. *)
Definition packet_bytes (pkt : WDPacketData) : list ascii :=
  type pkt :: htonl_bytes (command_id pkt) ++ htonl_bytes (len pkt)
  ++ String.list_ascii_of_string (default ""%string (data pkt)).


(** ** Further concrete objects, for the examples *)

Definition candidacy_packet : WDPacketData :=
  example_packet WD_STAND_FOR_COORDINATOR_MESSAGE 9 None.

(** A voter of priority 5 that knows one candidate of priority 1. *)
Definition voter_cluster : wd_cluster :=
  example_cluster (example_node WD_PARTICIPATE_IN_ELECTION 5 0 0 false)
    [example_node WD_STAND_FOR_COORDINATOR 1 5 0 false] 0 0 [] [].

(** An initializing node whose two peers are dead. *)
Definition lonely_cluster : wd_cluster :=
  example_cluster (example_node WD_INITIALIZING 1 0 0 false)
    [example_node WD_DEAD 1 0 0 false; example_node WD_DEAD 1 0 0 false] 0 0 [] [].

(** The declaration of a coordinator of three, answered by both peers. *)
Definition declaration_answered : WDCommandData :=
  with_commandStatus COMMAND_FINISHED_ALL_REPLIED
    (example_command WD_DECLARE_COORDINATOR_MESSAGE 9 2).

(** A standby whose master is its remote node 0. *)
Definition standby_cluster : wd_cluster :=
  with_clusterMasterInfo
    {| masterNode := Some (RemoteNode 0); standbyNodes := [None; None];
       standby_nodes_count := 0; holding_vip := false |}
    (example_cluster standby_node [coordinator_node; standby_node] 0 0 [] []).

Definition ascii_lower (c : ascii) : ascii :=
  let n := nat_of_ascii c in
  if (65 <=? n)%nat && (n <=? 90)%nat then ascii_of_nat (n + 32) else c.

Fixpoint string_lower (s : string) : string :=
  match s with
  | EmptyString => EmptyString
  | String c rest => String (ascii_lower c) (string_lower rest)
  end.

(** Every payload is a request to degenerate backend 0 without flags,
    names are compared without regard to case, the reply document is the
    empty object, and the main process accepts every request. *)
Definition example_failover_externals : failover_externals :=
  {| parse_wd_node_function_json := fun d =>
       match d with
       | Some _ => Some ("degenerate_backend_request"%string, [0], 0)
       | None => None
       end;
     strcasecmp := fun a b =>
       if decide (string_lower a = string_lower b) then 0 else 1;
     WD_FUNCTION_FAILBACK_REQUEST := "FAILBACK_BACKEND_REQUEST"%string;
     WD_FUNCTION_DEGENERATE_REQUEST := "DEGENERATE_BACKEND_REQUEST"%string;
     WD_FUNCTION_PROMOTE_REQUEST := "PROMOTE_BACKEND_REQUEST"%string;
     failover_result_json := fun _ _ => "{}"%string;
     degenerate_backend_set := fun _ _ => true;
     send_failback_request := fun _ _ _ => true;
     promote_backend := fun _ _ => true |}.

(** The failover command that the coordinator builds for a request of
    remote node [i]. *)
Definition failover_command_of_peer (i : nat) (g : wd_cluster) : WDCommandData :=
  remote_failover_command (RemoteNode i)
    (example_packet "f" 31 (Some "{}"%string)) (at_second 5) g.

(** An operating system that hands over what is pending when it is
    enough, and a [palloc] that grants up to 1 GB. *)
Definition example_socket_externals : socket_externals :=
  {| socket_read := fun input n =>
       if decide (0 <= n <= Z.of_nat (length input))
       then (Some (take (Z.to_nat n) input), drop (Z.to_nat n) input)
       else (None, input);
     palloc_ok := fun n => bool_decide (0 <= n < 2 ^ 30) |}.

Definition connected_socket : SocketConnection :=
  {| sock := 7; sock_state := WD_SOCK_CONNECTED |}.

Definition hello_packet : WDPacketData :=
  example_packet WD_DATA_MESSAGE 258 (Some "hello"%string).

(** * Properties *)

(** ** Quorum arithmetic *)

(** C2.  In a cluster of [N >= 1] nodes, with [remote = N - 1] remote
    nodes, the minimum number of remote nodes for quorum is [remote / 2]
    when [remote] is even and [(remote - 1) / 2] when it is odd; the
    minimum number of votes for consensus is that quantity plus one, plus
    one more when [N] is even and [enable_consensus_with_half_votes] is
    false.  With [N = 4] and half votes disabled the minimum is 3. *)
Theorem minimum_votes_formula (pool_config : POOL_CONFIG) (g : wd_cluster) (N : Z) :
  1 <= N ->
  remoteNodeCount g = N - 1 ->
  let remote := N - 1 in
  let min_remote := if Z.even remote then remote / 2 else (remote - 1) / 2 in
  get_mimimum_remote_nodes_required_for_quorum g = min_remote
  /\ get_minimum_votes_to_resolve_consensus pool_config g
     = min_remote + 1
       + (if Z.even N && negb (enable_consensus_with_half_votes pool_config)
          then 1 else 0)
  /\ (N = 4 -> enable_consensus_with_half_votes pool_config = false ->
      get_minimum_votes_to_resolve_consensus pool_config g = 3).
Proof.
  intros HN Hr remote min_remote.
  assert (Hq : get_mimimum_remote_nodes_required_for_quorum g = min_remote).
  { unfold get_mimimum_remote_nodes_required_for_quorum, min_remote, remote.
    rewrite Hr. rewrite Z.rem_mod_nonneg by lia.
    destruct (Z.even (N - 1)) eqn:He.
    - rewrite Zmod_even, He. rewrite decide_True by reflexivity.
      apply Z.quot_div_nonneg; lia.
    - rewrite Zmod_even, He. rewrite decide_False by discriminate.
      assert (N - 1 <> 0) by (intros H0; rewrite H0 in He; discriminate).
      apply Z.quot_div_nonneg; lia. }
  assert (Hv : get_minimum_votes_to_resolve_consensus pool_config g
     = min_remote + 1
       + (if Z.even N && negb (enable_consensus_with_half_votes pool_config)
          then 1 else 0)).
  { unfold get_minimum_votes_to_resolve_consensus. rewrite Hq, Hr.
    rewrite Z.rem_mod_nonneg by lia. rewrite Zmod_even.
    replace (Z.even (N - 1)) with (negb (Z.even N)).
    2:{ replace N with (Z.succ (N - 1)) at 1 by lia.
        rewrite Z.even_succ, <- Z.negb_even, negb_involutive. reflexivity. }
    destruct (Z.even N), (enable_consensus_with_half_votes pool_config);
      simpl; repeat case_decide; try discriminate; try congruence; lia. }
  split; [exact Hq|]. split; [exact Hv|].
  intros H4 Hhalf. rewrite Hv. unfold min_remote, remote. subst N.
  rewrite Hhalf. reflexivity.
Qed.

(** ** Escalation entry points *)

Lemma wd_child_signal_handler_frame pids g :
  let g' := wd_child_signal_handler pids g in
  localNode g' = localNode g /\ trace g' = trace g
  /\ clusterMasterInfo g' = clusterMasterInfo g
  /\ wdCurrentFailovers g' = wdCurrentFailovers g
  /\ quorum_status g' = quorum_status g
  /\ remoteNodeCount g' = remoteNodeCount g
  /\ nextCommandID g' = nextCommandID g
  /\ remoteNodes g' = remoteNodes g
  /\ clusterCommands g' = clusterCommands g.
Proof.
  revert g. induction pids as [|pid rest IH]; intros g; simpl; [tauto|].
  destruct (decide (0 < pid)); [|tauto].
  match goal with |- context [wd_child_signal_handler rest ?h] =>
    specialize (IH h); simpl in IH end.
  repeat case_decide; simpl in *; tauto.
Qed.

Lemma check_sigchld_frame s g :
  let g' := check_sigchld s g in
  localNode g' = localNode g /\ trace g' = trace g
  /\ clusterMasterInfo g' = clusterMasterInfo g
  /\ wdCurrentFailovers g' = wdCurrentFailovers g
  /\ quorum_status g' = quorum_status g
  /\ remoteNodeCount g' = remoteNodeCount g
  /\ nextCommandID g' = nextCommandID g
  /\ remoteNodes g' = remoteNodes g
  /\ clusterCommands g' = clusterCommands g.
Proof.
  destruct s as [[pids|]|]; simpl; try tauto.
  apply wd_child_signal_handler_frame.
Qed.

Lemma wait_de_escalation_exit_frame n sig g :
  let g' := wait_de_escalation_exit n sig g in
  localNode g' = localNode g /\ trace g' = trace g
  /\ clusterMasterInfo g' = clusterMasterInfo g
  /\ wdCurrentFailovers g' = wdCurrentFailovers g
  /\ quorum_status g' = quorum_status g
  /\ remoteNodeCount g' = remoteNodeCount g
  /\ nextCommandID g' = nextCommandID g
  /\ remoteNodes g' = remoteNodes g
  /\ clusterCommands g' = clusterCommands g.
Proof.
  revert sig g. induction n as [|n IH]; intros sig g; simpl.
  - case_decide; tauto.
  - case_decide; [|tauto].
    specialize (IH (tail sig) (check_sigchld (head sig) g)). simpl in IH.
    pose proof (check_sigchld_frame (head sig) g) as Hc. simpl in Hc.
    destruct IH as (?&?&?&?&?&?&?&?&?), Hc as (?&?&?&?&?&?&?&?&?).
    repeat split; congruence.
Qed.

Lemma wait_escalation_exit_frame n sig g :
  let g' := wait_escalation_exit n sig g in
  localNode g' = localNode g /\ trace g' = trace g
  /\ clusterMasterInfo g' = clusterMasterInfo g
  /\ wdCurrentFailovers g' = wdCurrentFailovers g
  /\ quorum_status g' = quorum_status g
  /\ remoteNodeCount g' = remoteNodeCount g
  /\ nextCommandID g' = nextCommandID g
  /\ remoteNodes g' = remoteNodes g
  /\ clusterCommands g' = clusterCommands g.
Proof.
  revert sig g. induction n as [|n IH]; intros sig g; simpl.
  - case_decide; tauto.
  - case_decide; [|tauto].
    specialize (IH (tail sig) (check_sigchld (head sig) g)). simpl in IH.
    pose proof (check_sigchld_frame (head sig) g) as Hc. simpl in Hc.
    destruct IH as (?&?&?&?&?&?&?&?&?), Hc as (?&?&?&?&?&?&?&?&?).
    repeat split; congruence.
Qed.

Lemma run_esc_call_trace c g :
  exists tr,
    trace (run_esc_call c g) = trace g ++ tr
    /\ forall rest,
         helper_forks_alternate (escalated (localNode (run_esc_call c g))) rest = true ->
         helper_forks_alternate (escalated (localNode g)) (tr ++ rest) = true.
Proof.
  destruct c as [e|e]; unfold run_esc_call.
  - unfold start_escalated_node.
    destruct (escalated (localNode g)) eqn:Hesc.
    + exists []. rewrite app_nil_r, Hesc. auto.
    + pose proof (wait_de_escalation_exit_frame MAX_SECS_ESC_PROC_EXIT_WAIT (sigchld e) g)
        as (Hl & Ht & _).
      set (g1 := wait_de_escalation_exit _ _ g) in *. clearbody g1.
      cbn [escalation_pid with_escalation_pid].
      destruct (decide (0 < fork_pid e)) as [Hpid|Hpid].
      * exists [act_fork_escalation_process (fork_pid e); act_set_watchdog_node_escalated].
        split.
        { case_decide; simpl; rewrite Ht, <- app_assoc; reflexivity. }
        intros rest. case_decide; simpl; rewrite bool_decide_true by done; auto.
      * exists [act_fork_escalation_process (fork_pid e)].
        split; [simpl; rewrite Ht; reflexivity|].
        intros rest. simpl. rewrite bool_decide_false by done.
        rewrite Hl, Hesc. auto.
  - unfold resign_from_escalated_node.
    destruct (escalated (localNode g)) eqn:Hesc.
    + pose proof (wait_escalation_exit_frame MAX_SECS_ESC_PROC_EXIT_WAIT (sigchld e) g)
        as (Hl & Ht & _).
      set (g1 := wait_escalation_exit _ _ g) in *. clearbody g1.
      exists [act_fork_plunging_process (fork_pid e); act_reset_watchdog_node_escalated].
      split; [simpl; rewrite Ht, <- app_assoc; reflexivity|].
      intros rest. simpl. auto.
    + exists []. rewrite app_nil_r, Hesc. auto.
Qed.

(** C9.  [start_escalated_node] on an escalated node and
    [resign_from_escalated_node] on a node that is not escalated return at
    once: the cluster, pids, [holding_vip] and trace included, is
    unchanged, so no helper is forked.  Hence, over any sequence of calls
    of the two entry points, whatever the operating system answers, an
    escalation helper is created only outside an escalated episode and a
    de-escalation helper only inside one: at most one of each per
    episode. *)
Theorem escalation_entry_points_idempotent :
  (forall e g, escalated (localNode g) = true -> start_escalated_node e g = g)
  /\ (forall e g, escalated (localNode g) = false ->
        resign_from_escalated_node e g = g)
  /\ (forall cs g, exists tr,
        trace (run_esc_calls cs g) = trace g ++ tr
        /\ helper_forks_alternate (escalated (localNode g)) tr = true).
Proof.
  split; [|split].
  - intros e g H. unfold start_escalated_node. rewrite H. reflexivity.
  - intros e g H. unfold resign_from_escalated_node. rewrite H. reflexivity.
  - induction cs as [|c cs IH]; intros g.
    + exists []. simpl. rewrite app_nil_r. auto.
    + destruct (run_esc_call_trace c g) as (tr1 & Ht1 & Hstep).
      destruct (IH (run_esc_call c g)) as (tr2 & Ht2 & Halt).
      exists (tr1 ++ tr2). split.
      * change (run_esc_calls (c :: cs) g) with (run_esc_calls cs (run_esc_call c g)).
        rewrite Ht2, Ht1, app_assoc. reflexivity.
      * apply Hstep, Halt.
Qed.

(** ** What sending leaves alone *)

Lemma only_sends_refl g : only_sends g g.
Proof. unfold only_sends. repeat split; reflexivity. Qed.

Lemma only_sends_trans g1 g2 g3 :
  only_sends g1 g2 -> only_sends g2 g3 -> only_sends g1 g3.
Proof.
  unfold only_sends. intros (?&?&?&?&?&?&?&?&?&?&?) (?&?&?&?&?&?&?&?&?&?&?).
  repeat split; try congruence. etrans; eassumption.
Qed.

Lemma keeps_local_refl g : keeps_local g g.
Proof. unfold keeps_local. repeat split; reflexivity. Qed.

Lemma keeps_local_trans g1 g2 g3 :
  keeps_local g1 g2 -> keeps_local g2 g3 -> keeps_local g1 g3.
Proof.
  unfold keeps_local. intros (?&?&?) (?&?&?).
  repeat split; try congruence. etrans; eassumption.
Qed.

Lemma only_sends_keeps_local g g' : only_sends g g' -> keeps_local g g'.
Proof.
  unfold only_sends, keeps_local. intros (Hl&_&_&_&_&_&_&_&_&_&Ht).
  rewrite Hl. auto.
Qed.

Lemma only_sends_log_action a g : only_sends g (log_action a g).
Proof.
  unfold only_sends, log_action. simpl. repeat split; try reflexivity.
  apply prefix_app_r. reflexivity.
Qed.

Lemma only_sends_get_next_commandID g : only_sends g (get_next_commandID g).2.
Proof. unfold only_sends. simpl. repeat split; reflexivity. Qed.

Lemma only_sends_reply_commandID r g : only_sends g (reply_commandID r g).2.
Proof.
  destruct r; simpl; [apply only_sends_refl|apply only_sends_get_next_commandID].
Qed.

Lemma only_sends_send_message dst pkt g : only_sends g (send_message dst pkt g).
Proof.
  unfold send_message. destruct dst as [[|i]|];
    first [apply only_sends_refl | apply only_sends_log_action].
Qed.

Lemma only_sends_get_minimum_message ty r g :
  only_sends g (get_minimum_message ty r g).2.
Proof.
  unfold get_minimum_message.
  pose proof (only_sends_reply_commandID r g).
  destruct (reply_commandID r g); assumption.
Qed.

Lemma only_sends_reply_with_minimal_message dst ty r g :
  only_sends g (reply_with_minimal_message dst ty r g).
Proof.
  unfold reply_with_minimal_message.
  pose proof (only_sends_get_minimum_message ty r g) as H.
  destruct (get_minimum_message ty r g) as [p g1]. simpl in H.
  eapply only_sends_trans; [exact H|apply only_sends_send_message].
Qed.

Lemma only_sends_reply_with_message dst ty d r g :
  only_sends g (reply_with_message dst ty d r g).
Proof.
  unfold reply_with_message.
  pose proof (only_sends_reply_commandID r g) as H.
  destruct (reply_commandID r g) as [id g1]. simpl in H.
  eapply only_sends_trans; [exact H|apply only_sends_send_message].
Qed.

Lemma only_sends_send_cluster_service_message dst r m g :
  only_sends g (send_cluster_service_message dst r m g).
Proof. apply only_sends_reply_with_message. Qed.

Section SendingFrames.

Variable X : wd_externals.
Variable pool_config : POOL_CONFIG.

Lemma only_sends_get_message_of_type ty r g :
  only_sends g (get_message_of_type X pool_config ty r g).2.
Proof.
  unfold get_message_of_type, get_mynode_info_message, get_addnode_message,
    get_beacon_message, get_minimum_message.
  pose proof (only_sends_reply_commandID r g) as H.
  pose proof (only_sends_get_next_commandID g) as H'.
  destruct (reply_commandID r g), (get_next_commandID g).
  repeat case_decide; simpl in *; first [assumption | apply only_sends_refl].
Qed.

Lemma only_sends_send_message_of_type dst ty r g :
  only_sends g (send_message_of_type X pool_config dst ty r g).
Proof.
  unfold send_message_of_type.
  pose proof (only_sends_get_message_of_type ty r g) as H.
  destruct (get_message_of_type X pool_config ty r g) as [[p|] g1]; simpl in H;
    [|assumption].
  eapply only_sends_trans; [exact H|apply only_sends_send_message].
Qed.

Lemma only_sends_issue_watchdog_internal_command dst pkt t now g :
  only_sends g (issue_watchdog_internal_command X dst pkt t now g).2.
Proof.
  unfold issue_watchdog_internal_command.
  destruct dst as [[|i]|].
  - apply only_sends_refl.
  - case_decide; [|apply only_sends_refl]. simpl.
    unfold only_sends. simpl. repeat split; try reflexivity.
    apply prefix_app_r. reflexivity.
  - destruct (issue_to_all X pkt (remoteNodes g) (allocate_resultNodes g) 0)
      as [[[rs cnt] save] tr]. simpl.
    unfold only_sends. simpl. repeat split; try reflexivity.
    apply prefix_app_r. reflexivity.
Qed.

Lemma only_sends_send_cluster_command dst ty t now g :
  only_sends g (send_cluster_command X pool_config dst ty t now g).
Proof.
  unfold send_cluster_command.
  pose proof (only_sends_get_message_of_type ty None g) as H.
  destruct (get_message_of_type X pool_config ty None g) as [[p|] g1]; simpl in H;
    [|assumption].
  eapply only_sends_trans; [exact H|].
  apply only_sends_issue_watchdog_internal_command.
Qed.

Lemma only_sends_set_timeout sec now g : only_sends g (set_timeout sec now g).
Proof. unfold only_sends. simpl. repeat split; reflexivity. Qed.

Lemma only_sends_try_connecting g :
  only_sends g (try_connecting_with_all_unreachable_nodes X pool_config g).
Proof.
  unfold try_connecting_with_all_unreachable_nodes.
  eapply only_sends_trans; [apply (only_sends_log_action act_connect_to_unreachable_nodes)|].
  generalize (log_action act_connect_to_unreachable_nodes g). clear g.
  induction (reconnected X) as [|i l IH]; intros g; simpl.
  - apply only_sends_refl.
  - eapply only_sends_trans; [|apply IH].
    unfold new_outbound_connection_when_joining, get_addnode_message.
    pose proof (only_sends_get_next_commandID g) as H.
    destruct (get_next_commandID g) as [id g1]. simpl in H.
    eapply only_sends_trans; [exact H|apply only_sends_send_message].
Qed.

Lemma keeps_local_resign_from_escalated_node e g :
  keeps_local g (resign_from_escalated_node e g).
Proof.
  unfold resign_from_escalated_node.
  destruct (escalated (localNode g)); [|apply keeps_local_refl].
  pose proof (wait_escalation_exit_frame MAX_SECS_ESC_PROC_EXIT_WAIT (sigchld e) g)
    as (Hl & Ht & _).
  set (g1 := wait_escalation_exit _ _ g) in *. clearbody g1.
  unfold keeps_local, log_action. simpl. rewrite Hl, Ht.
  repeat split; try reflexivity.
  apply prefix_app_r, prefix_app_r. reflexivity.
Qed.

Lemma keeps_local_joining_state_changed now g :
  keeps_local g (watchdog_state_machine_joining_state_changed X pool_config now g).
Proof.
  unfold watchdog_state_machine_joining_state_changed.
  eapply keeps_local_trans with (g2 := set_cluster_master_node None g).
  { unfold keeps_local. simpl. repeat split; reflexivity. }
  apply only_sends_keeps_local.
  eapply only_sends_trans; [apply only_sends_try_connecting|].
  eapply only_sends_trans; [apply only_sends_send_cluster_command|].
  apply only_sends_set_timeout.
Qed.

(** Leaving for [WD_JOINING]: the node ends in that state, with its
    priority, and nothing is taken back from the trace. *)
Lemma set_state_joining now e g :
  get_local_node_state g <> WD_JOINING ->
  let g' := set_state X pool_config now e WD_JOINING g in
  get_local_node_state g' = WD_JOINING
  /\ wd_priority (localNode g') = wd_priority (localNode g)
  /\ trace g `prefix_of` trace g'
  /\ (get_local_node_state g = WD_COORDINATOR -> wdCurrentFailovers g' = []).
Proof.
  intros Hne. unfold set_state. rewrite decide_True by exact Hne.
  set (g2 := with_localNode _ (with_localNode _ g)).
  assert (H2 : state (localNode g2) = WD_JOINING
               /\ wd_priority (localNode g2) = wd_priority (localNode g)
               /\ trace g2 = trace g) by (simpl; auto).
  destruct H2 as (Hs2 & Hp2 & Ht2).
  set (g3 := if decide (get_local_node_state g = WD_COORDINATOR)
             then clear_all_failovers
                    (clear_standby_nodes_list (resign_from_escalated_node e g2))
             else g2).
  assert (H3 : keeps_local g2 g3
               /\ (get_local_node_state g = WD_COORDINATOR ->
                   wdCurrentFailovers g3 = [])).
  { unfold g3. case_decide; [|split; [apply keeps_local_refl|tauto]].
    split; [|reflexivity].
    destruct (keeps_local_resign_from_escalated_node e g2) as (?&?&?).
    unfold keeps_local. simpl. auto. }
  destruct H3 as ((Hs3 & Hp3 & Ht3) & Hf3).
  unfold watchdog_state_machine_state_changed, get_local_node_state.
  rewrite Hs3, Hs2. cbv beta iota zeta.
  pose proof (keeps_local_joining_state_changed now g3) as (Hs4 & Hp4 & Ht4).
  set (g4 := watchdog_state_machine_joining_state_changed X pool_config now g3) in *.
  assert (Hf4 : wdCurrentFailovers g4 = wdCurrentFailovers g3).
  { unfold g4, watchdog_state_machine_joining_state_changed.
    set (h := set_cluster_master_node None g3).
    assert (Hh : only_sends h
      (set_timeout MAX_SECS_WAIT_FOR_REPLY_FROM_NODE now
         (send_cluster_command X pool_config None WD_REQ_INFO_MESSAGE 4 now
            (try_connecting_with_all_unreachable_nodes X pool_config h)))).
    { eapply only_sends_trans; [apply only_sends_try_connecting|].
      eapply only_sends_trans; [apply only_sends_send_cluster_command|].
      apply only_sends_set_timeout. }
    destruct Hh as (_&_&_&_&_&_&_&_&_&Hh&_). rewrite Hh. reflexivity. }
  pose proof (only_sends_send_message_of_type None WD_INFO_MESSAGE None g4)
    as (Hl5 &_&_&_&_&_&_&_&_& Hf5 & Ht5).
  rewrite Hl5, Hf5, Hf4.
  repeat split; try congruence.
  - rewrite <- Ht2. etrans; [exact Ht3|]. etrans; [exact Ht4|exact Ht5].
  - exact Hf3.
Qed.


End SendingFrames.

(** ** Election: the reply to a stand-for-coordinator message *)

Section Election.

Variable X : wd_externals.
Variable pool_config : POOL_CONFIG.







End Election.

(** ** Split brain *)

Section SplitBrain.

Variable X : wd_externals.
Variable pool_config : POOL_CONFIG.

Lemma split_brain_decision other g :
  get_local_node_state g = WD_COORDINATOR ->
  state other = WD_COORDINATOR ->
  tv_sec (current_state_time other) <> 0 ->
  (remote_is_worthier other g ->
     I_am_master_and_cluser_in_split_brain other g = -1)
  /\ (~ remote_is_worthier other g ->
        I_am_master_and_cluser_in_split_brain other g = 1).
Proof.
  intros Hs Ho Ht. unfold I_am_master_and_cluser_in_split_brain, remote_is_worthier.
  rewrite decide_False by (rewrite Hs; auto).
  rewrite decide_False by (rewrite Ho; auto).
  rewrite decide_False by exact Ht.
  destruct (escalated other), (escalated (localNode g)); simpl;
    repeat case_decide; (split; intros Hw; [|]); try reflexivity; exfalso;
    try congruence;
    first [ solve [intuition (try discriminate; try congruence; try lia)]
          | solve [apply Hw; intuition (try discriminate; try congruence; try lia)] ].
Qed.

Lemma split_brain_no_decision other g :
  state other <> WD_COORDINATOR \/ tv_sec (current_state_time other) = 0 ->
  I_am_master_and_cluser_in_split_brain other g = 0.
Proof.
  intros H. unfold I_am_master_and_cluser_in_split_brain.
  repeat case_decide; try reflexivity; tauto.
Qed.

Lemma service_message_then_joining_gen now e g dst m r :
  get_local_node_state g = WD_COORDINATOR ->
  dst <> Some LocalNode ->
  let g' := set_state X pool_config now e WD_JOINING
              (send_cluster_service_message dst r m g) in
  get_local_node_state g' = WD_JOINING
  /\ wd_priority (localNode g') = wd_priority (localNode g)
  /\ wdCurrentFailovers g' = []
  /\ (trace g ++ [act_send_message dst
                    {| type := WD_CLUSTER_SERVICE_MESSAGE;
                       command_id := (reply_commandID r g).1;
                       data := Some (String m EmptyString) |}])
       `prefix_of` trace g'.
Proof.
  intros Hs Hdst. set (h := send_cluster_service_message dst r m g).
  destruct (only_sends_send_cluster_service_message dst r m g) as (Hl & _).
  fold h in Hl.
  assert (Hh : get_local_node_state h = WD_COORDINATOR).
  { unfold get_local_node_state. rewrite Hl. exact Hs. }
  assert (Hne : get_local_node_state h <> WD_JOINING) by (rewrite Hh; discriminate).
  destruct (set_state_joining X pool_config now e h Hne) as (H1 & H2 & H3 & H4).
  assert (Htr : trace h = trace g ++ [act_send_message dst
                    {| type := WD_CLUSTER_SERVICE_MESSAGE;
                       command_id := (reply_commandID r g).1;
                       data := Some (String m EmptyString) |}]).
  { unfold h, send_cluster_service_message, reply_with_message, send_message.
    destruct r; simpl; destruct dst as [[|k]|]; try reflexivity; congruence. }
  cbv zeta. rewrite <- Htr, H2, Hl. auto.
Qed.

Lemma service_message_then_joining now e g dst m pkt :
  get_local_node_state g = WD_COORDINATOR ->
  dst <> Some LocalNode ->
  let g' := set_state X pool_config now e WD_JOINING
              (send_cluster_service_message dst (Some pkt) m g) in
  get_local_node_state g' = WD_JOINING
  /\ wd_priority (localNode g') = wd_priority (localNode g)
  /\ wdCurrentFailovers g' = []
  /\ (trace g ++ [service_message dst m pkt]) `prefix_of` trace g'.
Proof. apply service_message_then_joining_gen. Qed.

(** C3.  A coordinator receives an [IAmCoordinator] beacon from the i-th
    remote node.  When the beacon carries its fields, claims the
    coordinator state and gives a state time, the tiebreaker is applied in
    this order: escalated beats not escalated; else the greater quorum
    status wins; else the greater standby count wins; else the older
    coordinator wins (the local node when the times are equal).  If the
    remote node wins, the local node broadcasts [IamNotTrueMaster] and
    moves to [WD_JOINING]; if the local node wins it sends the peer
    [IamTrueMaster] and stays coordinator; if no decision is possible
    (the peer does not claim the coordinator state, gives no state time,
    or the beacon has no readable fields) it sends the peer
    [NeedsElection] and moves to [WD_JOINING]. *)
Theorem split_brain_tiebreak i pkt now e g n0 :
  get_local_node_state g = WD_COORDINATOR ->
  type pkt = WD_IAM_COORDINATOR_MESSAGE ->
  remoteNodes g !! i = Some n0 ->
  let g' := watchdog_state_machine_coordinator_packet_rcv X pool_config i pkt now e g in
  let peer := Some (RemoteNode i) in
  (forall d b,
      data pkt = Some d -> 0 < len pkt ->
      parse_beacon_message_json X d = Some b ->
      let other := apply_beacon b now n0 in
      (state other = WD_COORDINATOR ->
       tv_sec (current_state_time other) <> 0 ->
         (remote_is_worthier other g ->
            get_local_node_state g' = WD_JOINING
            /\ (trace g ++ [service_message None CLUSTER_IAM_NOT_TRUE_MASTER pkt])
                 `prefix_of` trace g')
         /\ (~ remote_is_worthier other g ->
               get_local_node_state g' = WD_COORDINATOR
               /\ trace g' = trace g
                     ++ [service_message peer CLUSTER_IAM_TRUE_MASTER pkt]))
      /\ (state other <> WD_COORDINATOR
            \/ tv_sec (current_state_time other) = 0 ->
          get_local_node_state g' = WD_JOINING
          /\ (trace g ++ [service_message peer CLUSTER_NEEDS_ELECTION pkt])
               `prefix_of` trace g'))
  /\ (data pkt = None \/ len pkt <= 0
        \/ (exists d, data pkt = Some d /\ parse_beacon_message_json X d = None) ->
      get_local_node_state g' = WD_JOINING
      /\ (trace g ++ [service_message peer CLUSTER_NEEDS_ELECTION pkt])
           `prefix_of` trace g').
Proof.
  intros Hs Hty Hn g' peer.
  assert (Hg' : g' = match beacon_message_received_from_node X i pkt now g with
                     | (true, g1) => handle_split_brain X pool_config i pkt now e g1
                     | (false, g1) =>
                         set_state X pool_config now e WD_JOINING
                           (send_cluster_service_message peer (Some pkt)
                              CLUSTER_NEEDS_ELECTION g1)
                     end).
  { unfold g', watchdog_state_machine_coordinator_packet_rcv.
    rewrite Hty. reflexivity. }
  assert (Hpeer : peer <> Some LocalNode) by discriminate.
  assert (Hnone : None <> Some LocalNode) by discriminate.
  split.
  - intros d b Hd Hlen Hb other.
    assert (Hrcv : beacon_message_received_from_node X i pkt now g
                   = (true, with_remoteNodes
                              (alter (apply_beacon b now) i (remoteNodes g)) g)).
    { unfold beacon_message_received_from_node. rewrite Hd.
      rewrite decide_False by lia. rewrite Hb. reflexivity. }
    rewrite Hrcv in Hg'.
    set (g1 := with_remoteNodes (alter (apply_beacon b now) i (remoteNodes g)) g) in *.
    assert (Hs1 : get_local_node_state g1 = WD_COORDINATOR) by exact Hs.
    assert (Hn1 : remoteNodes g1 !! i = Some other).
    { unfold g1. simpl. rewrite list_lookup_alter, Hn.
      rewrite decide_True by reflexivity. reflexivity. }
    unfold handle_split_brain in Hg'. rewrite Hn1 in Hg'.
    split.
    + intros Ho Ht.
      destruct (split_brain_decision other g1 Hs1 Ho Ht) as [Hw Hl].
      split.
      * intros Hworth. rewrite (Hw Hworth) in Hg'.
        rewrite decide_False in Hg' by discriminate.
        rewrite decide_True in Hg' by reflexivity.
        destruct (service_message_then_joining now e g1 None
                    CLUSTER_IAM_NOT_TRUE_MASTER pkt Hs1 Hnone) as (H1 & _ & _ & H4).
        rewrite Hg'. split; [exact H1|exact H4].
      * intros Hworth. rewrite (Hl Hworth) in Hg'.
        rewrite decide_False in Hg' by discriminate.
        rewrite decide_False in Hg' by discriminate.
        rewrite Hg'. split; [exact Hs|reflexivity].
    + intros Hno. rewrite (split_brain_no_decision other g1 Hno) in Hg'.
      rewrite decide_True in Hg' by reflexivity.
      destruct (service_message_then_joining now e g1 peer
                  CLUSTER_NEEDS_ELECTION pkt Hs1 Hpeer) as (H1 & _ & _ & H4).
      rewrite Hg'. split; [exact H1|exact H4].
  - intros Habsent.
    assert (Hrcv : beacon_message_received_from_node X i pkt now g = (false, g)).
    { unfold beacon_message_received_from_node.
      destruct Habsent as [Hd|[Hl|(d & Hd & Hp)]].
      - rewrite Hd. reflexivity.
      - destruct (data pkt); [|reflexivity]. rewrite decide_True by exact Hl.
        reflexivity.
      - rewrite Hd. case_decide; [reflexivity|]. rewrite Hp. reflexivity. }
    rewrite Hrcv in Hg'.
    destruct (service_message_then_joining now e g peer
                CLUSTER_NEEDS_ELECTION pkt Hs Hpeer) as (H1 & _ & _ & H4).
    rewrite Hg'. split; [exact H1|exact H4].
Qed.

End SplitBrain.

(** ** Expiry of failover proposals *)

Section Expiry.

Variable X : wd_externals.
Variable pool_config : POOL_CONFIG.

Lemma local_vote_for_quarantined_primary_spec shm f :
  local_vote_for_quarantined_primary shm f = true
  <-> LocalNode ∈ requestingNodes f
      /\ exists node_id, node_id ∈ nodeList f /\ quarantined_primary shm node_id = true.
Proof.
  unfold local_vote_for_quarantined_primary. rewrite existsb_exists. split.
  - intros (r & Hin & Hb). apply andb_true_iff in Hb as [Hr Hq].
    apply bool_decide_eq_true in Hr. subst r.
    apply existsb_exists in Hq as (id & Hid & Hq).
    split; [apply list_elem_of_In; exact Hin|].
    exists id. split; [apply list_elem_of_In; exact Hid|exact Hq].
  - intros (Hin & id & Hid & Hq). exists LocalNode.
    split; [apply list_elem_of_In; exact Hin|].
    apply andb_true_iff. split; [apply bool_decide_eq_true; reflexivity|].
    apply existsb_exists. exists id.
    split; [apply list_elem_of_In; exact Hid|exact Hq].
Qed.

Lemma mark_expired_failovers_spec shm now l need :
  mark_expired_failovers X shm now l need
  = (filter (fun f => failover_expired X now f = false) l,
     need || existsb (fun f => failover_expired X now f
                               && bool_decide (reqKind f = NODE_DOWN_REQUEST)
                               && local_vote_for_quarantined_primary shm f) l).
Proof.
  revert need. induction l as [|f l IH]; intros need; simpl.
  - rewrite orb_false_r. reflexivity.
  - destruct (failover_expired X now f) eqn:He.
    + rewrite IH. rewrite filter_cons_False by (rewrite He; discriminate).
      f_equal.
      destruct need, (bool_decide (reqKind f = NODE_DOWN_REQUEST)),
        (local_vote_for_quarantined_primary shm f); reflexivity.
    + rewrite IH. rewrite filter_cons_True by exact He. simpl.
      reflexivity.
Qed.

Lemma need_to_resign_spec shm now l :
  existsb (fun f => failover_expired X now f
                    && bool_decide (reqKind f = NODE_DOWN_REQUEST)
                    && local_vote_for_quarantined_primary shm f) l = true
  <-> exists f, f ∈ l /\ resign_cause X shm now f.
Proof.
  rewrite existsb_exists. unfold resign_cause. split.
  - intros (f & Hin & Hb).
    apply andb_true_iff in Hb as [Hb Hv]. apply andb_true_iff in Hb as [He Hk].
    apply bool_decide_eq_true in Hk.
    apply local_vote_for_quarantined_primary_spec in Hv.
    exists f. split; [apply list_elem_of_In; exact Hin|tauto].
  - intros (f & Hin & He & Hk & Hv).
    exists f. split; [apply list_elem_of_In; exact Hin|].
    rewrite He, (bool_decide_eq_true_2 _ Hk). simpl.
    apply local_vote_for_quarantined_primary_spec. exact Hv.
Qed.

(** C7.  On the coordinator the expiry pass removes every proposal whose
    age, [WD_TIME_DIFF_SEC (now, startTime)], has reached
    [FAILOVER_COMMAND_FINISH_TIMEOUT] = 15 seconds, so every proposal
    older than 15 seconds.  If one of the expired proposals is a node-down
    proposal that the local node voted for and that names a backend the
    middleware holds quarantined as primary (no primary known, the
    backend's quarantine flag set and its role primary), the coordinator
    sets its own [wd_priority] to -1, broadcasts
    [IamResigningFromMaster] and moves to [WD_JOINING].  Otherwise the
    pass changes nothing else and keeps the other proposals. *)
Theorem expired_failovers_and_resignation shm now e g :
  get_local_node_state g = WD_COORDINATOR ->
  let g' := service_expired_failovers X pool_config shm now e g in
  (forall f, f ∈ wdCurrentFailovers g' ->
     f ∈ wdCurrentFailovers g /\ failover_expired X now f = false)
  /\ ((exists f, f ∈ wdCurrentFailovers g /\ resign_cause X shm now f) ->
      wd_priority (localNode g') = -1
      /\ get_local_node_state g' = WD_JOINING
      /\ (trace g ++ [act_send_message None
                        {| type := WD_CLUSTER_SERVICE_MESSAGE;
                           command_id := (nextCommandID g + 1) mod 2 ^ 32;
                           data := Some (String CLUSTER_IAM_RESIGNING_FROM_MASTER
                                           EmptyString) |}])
           `prefix_of` trace g')
  /\ (~ (exists f, f ∈ wdCurrentFailovers g /\ resign_cause X shm now f) ->
      g' = with_wdCurrentFailovers
             (filter (fun f => failover_expired X now f = false)
                     (wdCurrentFailovers g)) g).
Proof.
  intros Hs g'. unfold g', service_expired_failovers.
  rewrite decide_False by (rewrite Hs; auto).
  rewrite mark_expired_failovers_spec. simpl.
  pose proof (need_to_resign_spec shm now (wdCurrentFailovers g)) as Hneed.
  destruct (existsb _ (wdCurrentFailovers g)) eqn:Hex.
  - assert (Hcause : exists f, f ∈ wdCurrentFailovers g /\ resign_cause X shm now f)
      by (apply Hneed; reflexivity).
    set (g2 := with_localNode _ (with_wdCurrentFailovers _ g)).
    assert (Hs2 : get_local_node_state g2 = WD_COORDINATOR) by exact Hs.
    assert (Hnone : (None : option node_ptr) <> Some LocalNode) by discriminate.
    destruct (service_message_then_joining_gen X pool_config now e g2 None
                CLUSTER_IAM_RESIGNING_FROM_MASTER None Hs2 Hnone)
      as (H1 & H2 & H3 & H4).
    split; [|split].
    + intros f Hf. rewrite H3 in Hf. apply elem_of_nil in Hf. contradiction.
    + intros _. split; [exact H2|]. split; [exact H1|exact H4].
    + intros Hno. contradiction.
  - split; [|split].
    + intros f Hf. simpl in Hf. apply list_elem_of_filter in Hf. tauto.
    + intros Hcause. apply Hneed in Hcause. discriminate.
    + intros _. reflexivity.
Qed.

End Expiry.

(** ** Failover consensus *)

Lemma does_int_array_contains_value_spec l v :
  does_int_array_contains_value l v = true <-> v ∈ l.
Proof.
  induction l as [|x l IH]; simpl.
  - split; [discriminate|]. intros H. apply elem_of_nil in H. contradiction.
  - case_decide.
    + subst. split; [intros _; apply list_elem_of_here|reflexivity].
    + rewrite IH. split.
      * intros Hin. apply list_elem_of_further. exact Hin.
      * intros Hin. apply elem_of_cons in Hin as [->|Hin]; [congruence|exact Hin].
Qed.

Lemma get_failover_object_from_lookup k nl l s i :
  get_failover_object_from k nl l s = Some i ->
  exists j f, i = (s + j)%nat /\ l !! j = Some f
              /\ failover_object_matches k nl f = true.
Proof.
  revert s. induction l as [|f l IH]; intros s; simpl; [discriminate|].
  destruct (failover_object_matches k nl f) eqn:Hm.
  - intros [= <-]. exists 0%nat, f. split; [lia|]. split; [reflexivity|exact Hm].
  - intros H. destruct (IH _ H) as (j & f' & -> & Hl & Hm').
    exists (S j), f'. split; [lia|]. split; [exact Hl|exact Hm'].
Qed.

Lemma get_failover_object_from_ext k nl l l' s :
  map (failover_object_matches k nl) l = map (failover_object_matches k nl) l' ->
  get_failover_object_from k nl l s = get_failover_object_from k nl l' s.
Proof.
  revert l' s. induction l as [|f l IH]; intros [|f' l'] s; simpl;
    try discriminate; [reflexivity|].
  intros [= Hf Hl]. rewrite Hf. destruct (failover_object_matches k nl f');
    [reflexivity|]. apply IH. exact Hl.
Qed.

Lemma get_failover_object_from_app k nl l l' s :
  get_failover_object_from k nl l s = None ->
  get_failover_object_from k nl (l ++ l') s
  = get_failover_object_from k nl l' (s + length l).
Proof.
  revert s. induction l as [|f l IH]; intros s; simpl.
  - intros _. f_equal. lia.
  - destruct (failover_object_matches k nl f); [discriminate|].
    intros H. rewrite (IH _ H). f_equal. lia.
Qed.

Lemma failover_object_matches_new k nl flags id node now :
  failover_object_matches k nl
    {| reqKind := k; reqFlags := flags; failoverID := id; nodeList := nl;
       requestingNodes := [node]; request_count := 1; startTime := now |} = true.
Proof.
  unfold failover_object_matches, nodesCount. simpl.
  rewrite !bool_decide_eq_true_2 by reflexivity. simpl.
  apply forallb_forall. intros v Hv.
  apply does_int_array_contains_value_spec, list_elem_of_In, Hv.
Qed.

Section Consensus.

Variable X : wd_externals.
Variable pool_config : POOL_CONFIG.

(** What [add_failover] returns: the proposal voted on exists, the
    requestor is among its requestors, [duplicate] tells whether it was
    so before, and the same request falls on the same proposal again. *)
Lemma add_failover_result k nl node flags now g i dup g2 :
  add_failover pool_config k nl node flags now g = (i, dup, g2) ->
  dup = already_voted k nl node g
  /\ get_failover_object k nl g2 = Some i
  /\ exists f2, wdCurrentFailovers g2 !! i = Some f2
                /\ node ∈ requestingNodes f2.
Proof.
  unfold add_failover, already_voted, get_failover_object.
  destruct (get_failover_object_from k nl (wdCurrentFailovers g) 0) as [i0|] eqn:Hget.
  - destruct (get_failover_object_from_lookup _ _ _ _ _ Hget) as (j & f & Hi & Hl & Hm).
    simpl in Hi. subst j. rewrite Hl.
    assert (Hkeep : forall f',
      failover_object_matches k nl f' = failover_object_matches k nl f ->
      get_failover_object_from k nl (<[i0 := f']> (wdCurrentFailovers g)) 0 = Some i0).
    { intros f' Hf'. rewrite <- Hget. apply get_failover_object_from_ext.
      rewrite list_fmap_insert, Hf'. apply list_insert_id.
      rewrite list_lookup_fmap, Hl. reflexivity. }
    assert (Hlt : (i0 < length (wdCurrentFailovers g))%nat)
      by (eapply lookup_lt_Some; exact Hl).
    case_decide as Hin.
    + rewrite bool_decide_eq_true_2 by exact Hin.
      destruct (allow_multiple_failover_requests_from_node pool_config).
      * intros [= <- <- <-]. split; [reflexivity|]. simpl.
        split; [apply Hkeep; reflexivity|].
        eexists. rewrite list_lookup_insert_eq by exact Hlt.
        split; [reflexivity|exact Hin].
      * intros [= <- <- <-]. split; [reflexivity|].
        split; [exact Hget|]. exists f. split; [exact Hl|exact Hin].
    + rewrite bool_decide_eq_false_2 by exact Hin.
      intros [= <- <- <-]. split; [reflexivity|]. simpl.
      split; [apply Hkeep; reflexivity|].
      eexists. rewrite list_lookup_insert_eq by exact Hlt.
      split; [reflexivity|]. simpl. apply elem_of_app. right.
      apply list_elem_of_here.
  - simpl. intros [= <- <- <-]. split; [reflexivity|]. simpl.
    split.
    + rewrite (get_failover_object_from_app _ _ _ _ _ Hget). simpl.
      rewrite failover_object_matches_new. reflexivity.
    + eexists. rewrite lookup_app_r by lia. rewrite Nat.sub_diag. simpl.
      split; [reflexivity|]. apply list_elem_of_here.
Qed.

Lemma add_failover_votes_wf k nl node flags now g i dup g2 :
  allow_multiple_failover_requests_from_node pool_config = false ->
  Forall failover_votes_wf (wdCurrentFailovers g) ->
  add_failover pool_config k nl node flags now g = (i, dup, g2) ->
  Forall failover_votes_wf (wdCurrentFailovers g2).
Proof.
  intros Hallow Hwf. unfold add_failover. rewrite Hallow.
  destruct (get_failover_object k nl g) as [i0|].
  - destruct (wdCurrentFailovers g !! i0) as [f|] eqn:Hl.
    + case_decide as Hin.
      * intros [= <- <- <-]. exact Hwf.
      * intros [= <- <- <-]. simpl. apply Forall_insert; [exact Hwf|].
        destruct (proj1 (Forall_lookup _ _) Hwf _ _ Hl) as [Hc Hnd].
        unfold failover_votes_wf. simpl. split.
        -- rewrite length_app. simpl. lia.
        -- apply NoDup_app. split; [exact Hnd|]. split.
           ++ intros x Hx Hx'. apply list_elem_of_singleton in Hx'. subst x.
              contradiction.
           ++ apply NoDup_singleton.
    + intros [= <- <- <-]. exact Hwf.
  - simpl. intros [= <- <- <-]. simpl. apply Forall_app. split; [exact Hwf|].
    apply Forall_singleton. unfold failover_votes_wf. simpl.
    split; [reflexivity|apply NoDup_singleton].
Qed.

(** C5.  With [allow_multiple_failover_requests_from_node] off, a vote
    from a requestor that is already among the requestors of the proposal
    it falls on changes nothing: the proposal keeps its [request_count]
    and the whole cluster is unchanged.  After any vote the same
    requestor's next vote on the same request is such a duplicate, so a
    requestor raises the count of a proposal at most once; accordingly
    proposals whose count is the number of their distinct requestors stay
    so. *)
Theorem duplicate_vote_counted_once k nl node flags now g :
  allow_multiple_failover_requests_from_node pool_config = false ->
  (forall i f,
      get_failover_object k nl g = Some i ->
      wdCurrentFailovers g !! i = Some f ->
      node ∈ requestingNodes f ->
      add_failover pool_config k nl node flags now g = (i, true, g))
  /\ (forall i dup g2,
        add_failover pool_config k nl node flags now g = (i, dup, g2) ->
        forall flags' now',
          add_failover pool_config k nl node flags' now' g2 = (i, true, g2))
  /\ (forall i dup g2,
        Forall failover_votes_wf (wdCurrentFailovers g) ->
        add_failover pool_config k nl node flags now g = (i, dup, g2) ->
        Forall failover_votes_wf (wdCurrentFailovers g2)).
Proof.
  intros Hallow.
  assert (Hdup : forall flags0 now0 g0 i f,
            get_failover_object k nl g0 = Some i ->
            wdCurrentFailovers g0 !! i = Some f ->
            node ∈ requestingNodes f ->
            add_failover pool_config k nl node flags0 now0 g0 = (i, true, g0)).
  { intros flags0 now0 g0 i f Hget Hl Hin. unfold add_failover.
    rewrite Hget, Hl, Hallow. rewrite decide_True by exact Hin. reflexivity. }
  split; [apply Hdup|]. split.
  - intros i dup g2 Hadd flags' now'.
    destruct (add_failover_result _ _ _ _ _ _ _ _ _ Hadd) as (_ & Hget & f2 & Hl & Hin).
    exact (Hdup flags' now' g2 i f2 Hget Hl Hin).
  - intros i dup g2 Hwf Hadd.
    exact (add_failover_votes_wf _ _ _ _ _ _ _ _ _ Hallow Hwf Hadd).
Qed.

(** C10.  When the request is subject to consensus
    ([failover_when_quorum_exists] and [failover_require_consensus] are on
    and the request is not flagged confirmed), the quorum holds and the
    proposal's [request_count], this vote included, is still below the
    minimum number of votes, the result tells duplicates apart:
    [FAILOVER_RES_CONSENSUS_MAY_FAIL] when the requestor was already
    recorded on the proposal and
    [allow_multiple_failover_requests_from_node] is off,
    [FAILOVER_RES_BUILDING_CONSENSUS] otherwise (first-time votes, and
    duplicates when multiple requests are allowed). *)
Theorem consensus_may_fail_for_duplicate k nl flags node now e g i dup g2 f2 :
  failover_when_quorum_exists pool_config = true ->
  Z.land flags REQ_DETAIL_CONFIRMED = 0 ->
  failover_require_consensus pool_config = true ->
  0 <= quorum_status (update_quorum_status X pool_config e g) ->
  add_failover pool_config k nl node flags now
    (update_quorum_status X pool_config e g) = (i, dup, g2) ->
  wdCurrentFailovers g2 !! i = Some f2 ->
  request_count f2 < get_minimum_votes_to_resolve_consensus pool_config g2 ->
  compute_failover_consensus X pool_config k nl flags node now e g
  = (if already_voted k nl node (update_quorum_status X pool_config e g)
        && negb (allow_multiple_failover_requests_from_node pool_config)
     then FAILOVER_RES_CONSENSUS_MAY_FAIL
     else FAILOVER_RES_BUILDING_CONSENSUS, flags, g2).
Proof.
  intros Hq Hflag Hcons Hquorum Hadd Hl Hlt.
  destruct (add_failover_result _ _ _ _ _ _ _ _ _ Hadd) as (Hdup & _).
  unfold compute_failover_consensus.
  rewrite decide_False by (rewrite Hq; discriminate).
  rewrite decide_False by (rewrite Hflag; auto).
  rewrite decide_False by lia.
  rewrite decide_True by exact Hcons.
  rewrite Hadd, Hl. rewrite decide_True by exact Hlt.
  rewrite <- Hdup. destruct (dup && _); reflexivity.
Qed.

(** C1, as the code has it.  A failover request is answered
    [FAILOVER_RES_PROCEED] only if [failover_when_quorum_exists] is off,
    or the request carries [REQ_DETAIL_CONFIRMED], or
    [failover_require_consensus] is off, or the proposal it falls on has,
    with this vote, a [request_count] of at least the minimum number of
    votes.  When duplicates are not counted
    ([allow_multiple_failover_requests_from_node] off) and every pending
    proposal counts each requestor once, that many distinct requestors
    have voted. *)
Theorem proceed_needs_votes k nl flags node now e g :
  (compute_failover_consensus X pool_config k nl flags node now e g).1.1
    = FAILOVER_RES_PROCEED ->
  failover_when_quorum_exists pool_config = false
  \/ Z.land flags REQ_DETAIL_CONFIRMED <> 0
  \/ failover_require_consensus pool_config = false
  \/ exists i dup g2 f2,
       add_failover pool_config k nl node flags now
         (update_quorum_status X pool_config e g) = (i, dup, g2)
       /\ wdCurrentFailovers g2 !! i = Some f2
       /\ node ∈ requestingNodes f2
       /\ get_minimum_votes_to_resolve_consensus pool_config g2 <= request_count f2
       /\ (allow_multiple_failover_requests_from_node pool_config = false ->
           Forall failover_votes_wf
             (wdCurrentFailovers (update_quorum_status X pool_config e g)) ->
           get_minimum_votes_to_resolve_consensus pool_config g2
             <= Z.of_nat (length (requestingNodes f2))
           /\ NoDup (requestingNodes f2)).
Proof.
  unfold compute_failover_consensus.
  destruct (decide (failover_when_quorum_exists pool_config = false)) as [|Hq];
    [auto|].
  destruct (decide (Z.land flags REQ_DETAIL_CONFIRMED <> 0)) as [|Hf]; [auto|].
  set (g1 := update_quorum_status X pool_config e g).
  destruct (decide (quorum_status g1 < 0)); [discriminate|].
  destruct (decide (failover_require_consensus pool_config = true)) as [Hc|Hc].
  2:{ intros _. right. right. left.
      destruct (failover_require_consensus pool_config); congruence. }
  destruct (add_failover pool_config k nl node flags now g1) as [[i dup] g2] eqn:Hadd.
  destruct (add_failover_result _ _ _ _ _ _ _ _ _ Hadd) as (_ & _ & f2 & Hl & Hin).
  rewrite Hl.
  destruct (decide (request_count f2
                    < get_minimum_votes_to_resolve_consensus pool_config g2))
    as [Hlt|Hge].
  { destruct (dup && _); discriminate. }
  intros _. right. right. right. exists i, dup, g2, f2.
  split; [reflexivity|]. split; [exact Hl|]. split; [exact Hin|].
  split; [lia|]. intros Hallow Hwf.
  pose proof (add_failover_votes_wf _ _ _ _ _ _ _ _ _ Hallow Hwf Hadd) as Hwf2.
  destruct (proj1 (Forall_lookup _ _) Hwf2 _ _ Hl) as [Hcnt Hnd].
  split; [lia|exact Hnd].
Qed.

End Consensus.

(** ** Replies to cluster commands *)

Section Replies.

Variable X : wd_externals.
Variable pool_config : POOL_CONFIG.

(** Packets of the other types are left to the state functions: the
    beacon and the stand-for-coordinator message among them. *)
Lemma internal_command_processor_declines node pkt now e g :
  type pkt ∉ reply_message_types ->
  watchdog_internal_command_packet_processor X pool_config node pkt now e g
  = (false, g).
Proof.
  intros Hty. unfold watchdog_internal_command_packet_processor.
  destruct (get_wd_cluster_command_from_reply pkt g); [|reflexivity].
  case_decide; [reflexivity|]. rewrite decide_True by exact Hty. reflexivity.
Qed.

(** C6, as the code has it.  A reply is matched to the command in
    progress that carries its command id; without one it is not consumed
    and changes nothing.  An [Accept] from a peer that has a result slot is
    written into the slot and raises [commandReplyFromCount] by one
    whatever the slot held, a reply already recorded for that peer
    included: below [commandSendToCount] the command stays in progress
    with the raised count, and once the count reaches it the command is
    finished as [COMMAND_FINISHED_ALL_REPLIED], the state machine is told,
    and the command is removed. *)
Theorem reply_counted_each_time j slots node pkt now e g cmd :
  let run := watchdog_internal_command_packet_processor X pool_config node pkt now e in
  (get_wd_cluster_command_from_reply pkt g = None -> run g = (false, g))
  /\ (get_wd_cluster_command_from_reply pkt g = Some cmd ->
      commandStatus cmd <> COMMAND_IN_PROGRESS -> run g = (false, g))
  /\ (get_wd_cluster_command_from_reply pkt g = Some cmd ->
      commandStatus cmd = COMMAND_IN_PROGRESS ->
      load_command (cmd_addr cmd) g = Some cmd ->
      type pkt = WD_ACCEPT_MESSAGE ->
      find_node_result node (Z.to_nat (remoteNodeCount g)) (nodeResults cmd) 0
        = (slots, Some j) ->
      let counted := count_reply pkt j slots cmd in
      commandReplyFromCount counted = (commandReplyFromCount cmd + 1) mod 2 ^ 32
      /\ (commandReplyFromCount counted < commandSendToCount cmd ->
          run g = (true, store_command counted g))
      /\ (commandSendToCount cmd <= commandReplyFromCount counted ->
          let finished :=
            with_commandStatus COMMAND_FINISHED_ALL_REPLIED counted in
          run g = (true,
                   delete_command (cmd_addr cmd)
                     (watchdog_state_machine_command_finished X pool_config
                        (Some node) (Some pkt) finished now e
                        (store_command finished g))))).
Proof.
  intros run. unfold run, watchdog_internal_command_packet_processor.
  split; [|split].
  - intros ->. reflexivity.
  - intros -> Hst. rewrite decide_True by exact Hst. reflexivity.
  - intros -> Hst Hload Hty Hfind.
    rewrite decide_False by (rewrite Hst; auto).
    rewrite decide_False.
    2:{ intros Hn. apply Hn. rewrite Hty. unfold reply_message_types.
        apply list_elem_of_further, list_elem_of_here. }
    rewrite decide_False by (rewrite Hty; discriminate).
    rewrite Hload. change (default cmd (Some cmd)) with cmd. rewrite Hfind.
    assert (Hnre : is_reject_or_error pkt = false).
    { unfold is_reject_or_error. apply bool_decide_eq_false_2.
      rewrite Hty. intros [H|H]; discriminate. }
    rewrite Hnre.
    assert (Hsend : commandSendToCount (count_reply pkt j slots cmd)
                    = commandSendToCount cmd) by reflexivity.
    split; [reflexivity|]. split.
    + intros Hlt. rewrite decide_False by lia. reflexivity.
    + intros Hge. rewrite decide_True by lia. reflexivity.
Qed.

End Replies.

(** ** IPC authentication *)

Section IPCAuth.

Variable pool_config : POOL_CONFIG.
Variable D : wd_ipc_defines.
Variable J : ipc_externals.

Lemma failover_command_is_internal :
  NoDup (ipc_authenticated_types D) ->
  WD_IPC_FAILOVER_COMMAND D
    ∉ [ WD_NODE_STATUS_CHANGE_COMMAND D; WD_REGISTER_FOR_NOTIFICATION D;
        WD_GET_NODES_LIST_COMMAND D; WD_GET_RUNTIME_VARIABLE_VALUE D ].
Proof.
  intros Hnd Hin. apply list_elem_of_lookup in Hin as [i Hi].
  assert (H4 : ipc_authenticated_types D !! 4%nat = Some (WD_IPC_FAILOVER_COMMAND D))
    by reflexivity.
  assert (Hi' : ipc_authenticated_types D !! i = Some (WD_IPC_FAILOVER_COMMAND D)).
  { destruct i as [|[|[|[|i]]]]; try exact Hi. destruct i; discriminate. }
  pose proof (NoDup_lookup _ _ _ _ Hnd Hi' H4) as Heq. subst i. discriminate.
Qed.

(** The authentication of a failover command comes down to the payload
    and the shared key. *)
Lemma failover_command_authentication c g :
  NoDup (ipc_authenticated_types D) ->
  type (sourcePacket c) = WD_IPC_FAILOVER_COMMAND D ->
  check_and_report_IPC_authentication pool_config D J c g
  = match data (sourcePacket c) with
    | None =>
        Some (false, with_errorMessage
                       (Some "authentication failed: invalid data"%string) c)
    | Some d =>
        if decide (len (sourcePacket c) <= 0)
        then Some (false, with_errorMessage
                            (Some "authentication failed: invalid data"%string) c)
        else
          match json_parse J d with
          | None =>
              Some (false, with_errorMessage
                             (Some "authentication failed: invalid data"%string) c)
          | Some root =>
              if json_is_object J root then
                match check_IPC_client_authentication pool_config D J root true g with
                | None => None
                | Some true => Some (true, c)
                | Some false =>
                    Some (false,
                          with_errorMessage
                            (Some "authentication failed: invalid KEY"%string) c)
                end
              else Some (false,
                         with_errorMessage
                           (Some "authentication failed: invalid data"%string) c)
          end
    end.
Proof.
  intros Hnd Hty. unfold check_and_report_IPC_authentication. rewrite Hty.
  rewrite decide_False by exact (failover_command_is_internal Hnd).
  rewrite decide_True by apply list_elem_of_here.
  reflexivity.
Qed.

(** C8, as the code has it.  A failover command is internal: it needs
    the shared key of the pgpool-II processes, whether or not an
    [auth_key] is configured and whatever [IPCAuthKey] it carries.  When
    its payload is a JSON object without a valid shared key (none in the
    payload, none initialized, or a different one) the command is refused
    before any processing: the reply is a [Bad] result carrying
    "authentication failed: invalid KEY".  When the payload is empty or is
    not a JSON object, the reply is a [Bad] result carrying
    "authentication failed: invalid data".  In both cases the data of
    the reply is the JSON document of the text with its terminating NUL,
    and nothing but the reply written to the client's socket changes. *)
Theorem failover_command_refused sock payload now g :
  NoDup (ipc_authenticated_types D) ->
  0 < sock ->
  let run := read_ipc_socket_and_process pool_config D J sock
               (WD_IPC_FAILOVER_COMMAND D) payload now g in
  (forall d root,
      payload = Some d -> (0 < String.length d)%nat ->
      json_parse J d = Some root -> json_is_object J root = true ->
      (forall sk pk,
          get_ipc_shared_key J = Some sk ->
          json_get_int_value_for_key J root (WD_IPC_SHARED_KEY D) = Some pk ->
          sk <> pk mod 2 ^ 32) ->
      run = ipc_bad_reply D J sock "authentication failed: invalid KEY" g)
  /\ (payload = None \/ payload = Some ""%string
      \/ (exists d, payload = Some d
                    /\ (json_parse J d = None
                        \/ exists root, json_parse J d = Some root
                                        /\ json_is_object J root = false)) ->
      run = ipc_bad_reply D J sock "authentication failed: invalid data" g).
Proof.
  intros Hnd Hsock run.
  assert (Hreply : forall c msg,
    commandSource c = COMMAND_SOURCE_IPC -> sourceIPCSocket c = sock ->
    write_ipc_command_with_result_data (with_errorMessage (Some msg) c)
      (WD_IPC_CMD_RESULT_BAD D) (Some (error_reply_data J msg)) g
    = log_action
        (act_write_packet_to_socket sock
           {| type := WD_IPC_CMD_RESULT_BAD D; command_id := 0;
              data := Some (get_wd_simple_message_json J msg
                            ++ String "000" EmptyString)%string |}) g).
  { intros c msg Hsrc Hs. unfold write_ipc_command_with_result_data. simpl.
    rewrite Hsrc, Hs. rewrite decide_False; [reflexivity|].
    intros [H|H]; [congruence|lia]. }
  unfold run, read_ipc_socket_and_process, process_IPC_command, ipc_bad_reply.
  rewrite (failover_command_authentication _ g Hnd) by reflexivity.
  cbn [sourcePacket data].
  split.
  - intros d root -> Hlen Hparse Hobj Hkey.
    rewrite decide_False by (unfold len; simpl; lia).
    rewrite Hparse, Hobj.
    assert (Hauth : check_IPC_client_authentication pool_config D J root true g
                    = Some false).
    { unfold check_IPC_client_authentication.
      destruct (get_ipc_shared_key J) as [sk|]; [|reflexivity].
      destruct (json_get_int_value_for_key J root (WD_IPC_SHARED_KEY D)) as [pk|];
        [|reflexivity].
      simpl. f_equal. apply bool_decide_eq_false_2. apply Hkey; reflexivity. }
    rewrite Hauth. cbn [errorMessage with_errorMessage fmap option_fmap option_map].
    rewrite Hreply by reflexivity. reflexivity.
  - intros Hbad.
    destruct Hbad as [->|[->|(d & -> & Hd)]].
    + cbn [errorMessage with_errorMessage fmap option_fmap option_map].
      rewrite Hreply by reflexivity. reflexivity.
    + rewrite decide_True by (unfold len; simpl; lia).
      cbn [errorMessage with_errorMessage fmap option_fmap option_map].
      rewrite Hreply by reflexivity. reflexivity.
    + case_decide.
      * cbn [errorMessage with_errorMessage fmap option_fmap option_map].
        rewrite Hreply by reflexivity. reflexivity.
      * destruct Hd as [->|(root & -> & ->)];
          cbn [errorMessage with_errorMessage fmap option_fmap option_map];
          rewrite Hreply by reflexivity; reflexivity.
Qed.

End IPCAuth.

(** ** The quorum status *)

Section QuorumStatus.

Variable X : wd_externals.
Variable pool_config : POOL_CONFIG.

Lemma start_escalated_node_frame e g :
  let g' := start_escalated_node e g in
  quorum_status g' = quorum_status g
  /\ node_quorum_status (localNode g') = node_quorum_status (localNode g)
  /\ state (localNode g') = state (localNode g)
  /\ wdCurrentFailovers g' = wdCurrentFailovers g
  /\ remoteNodeCount g' = remoteNodeCount g
  /\ masterNode (clusterMasterInfo g') = masterNode (clusterMasterInfo g)
  /\ standby_nodes_count (clusterMasterInfo g')
     = standby_nodes_count (clusterMasterInfo g)
  /\ standbyNodes (clusterMasterInfo g') = standbyNodes (clusterMasterInfo g).
Proof.
  unfold start_escalated_node. destruct (escalated (localNode g)); [tauto|].
  pose proof (wait_de_escalation_exit_frame MAX_SECS_ESC_PROC_EXIT_WAIT (sigchld e) g)
    as (Hl & _ & Hm & Hf & Hq & Hn & _).
  set (g1 := wait_de_escalation_exit _ _ g) in *. clearbody g1.
  cbn [escalation_pid with_escalation_pid].
  repeat case_decide; simpl; rewrite ?Hl, ?Hm, ?Hf, ?Hq, ?Hn; tauto.
Qed.

Lemma resign_from_escalated_node_frame e g :
  let g' := resign_from_escalated_node e g in
  quorum_status g' = quorum_status g
  /\ node_quorum_status (localNode g') = node_quorum_status (localNode g)
  /\ state (localNode g') = state (localNode g)
  /\ wdCurrentFailovers g' = wdCurrentFailovers g
  /\ remoteNodeCount g' = remoteNodeCount g
  /\ masterNode (clusterMasterInfo g') = masterNode (clusterMasterInfo g)
  /\ standby_nodes_count (clusterMasterInfo g')
     = standby_nodes_count (clusterMasterInfo g)
  /\ standbyNodes (clusterMasterInfo g') = standbyNodes (clusterMasterInfo g).
Proof.
  unfold resign_from_escalated_node. destruct (escalated (localNode g)); [|tauto].
  pose proof (wait_escalation_exit_frame MAX_SECS_ESC_PROC_EXIT_WAIT (sigchld e) g)
    as (Hl & _ & Hm & Hf & Hq & Hn & _).
  set (g1 := wait_escalation_exit _ _ g) in *. clearbody g1.
  simpl. rewrite ?Hl, ?Hm, ?Hf, ?Hq, ?Hn; tauto.
Qed.

Lemma coordinator_quorum_changed_frame e g :
  let g' := watchdog_state_machine_coordinator_quorum_changed X pool_config e g in
  quorum_status g' = quorum_status g
  /\ node_quorum_status (localNode g') = node_quorum_status (localNode g)
  /\ state (localNode g') = state (localNode g)
  /\ wdCurrentFailovers g' = wdCurrentFailovers g
  /\ remoteNodeCount g' = remoteNodeCount g
  /\ masterNode (clusterMasterInfo g') = masterNode (clusterMasterInfo g)
  /\ standby_nodes_count (clusterMasterInfo g')
     = standby_nodes_count (clusterMasterInfo g)
  /\ standbyNodes (clusterMasterInfo g') = standbyNodes (clusterMasterInfo g).
Proof.
  unfold watchdog_state_machine_coordinator_quorum_changed.
  case_decide; [|tauto].
  set (g1 := if decide (quorum_status g = -1) then _ else _).
  assert (H1 : quorum_status g1 = quorum_status g
    /\ node_quorum_status (localNode g1) = node_quorum_status (localNode g)
    /\ state (localNode g1) = state (localNode g)
    /\ wdCurrentFailovers g1 = wdCurrentFailovers g
    /\ remoteNodeCount g1 = remoteNodeCount g
    /\ masterNode (clusterMasterInfo g1) = masterNode (clusterMasterInfo g)
    /\ standby_nodes_count (clusterMasterInfo g1)
       = standby_nodes_count (clusterMasterInfo g)
    /\ standbyNodes (clusterMasterInfo g1) = standbyNodes (clusterMasterInfo g)).
  { unfold g1. repeat case_decide; try tauto.
    - apply resign_from_escalated_node_frame.
    - destruct (escalated (localNode g)); [tauto|apply start_escalated_node_frame]. }
  clearbody g1.
  pose proof (only_sends_send_message_of_type X pool_config None WD_INFO_MESSAGE None g1)
    as (Hl & _ & Hm & Hn & Hq & _ & _ & _ & _ & Hf & _).
  set (g2 := send_message_of_type _ _ _ _ _ g1) in *. clearbody g2.
  simpl. rewrite Hl, Hm, Hn, Hq, Hf. exact H1.
Qed.

(** On the coordinator the quorum check leaves the proposals, the state,
    the master and the standby list alone. *)
Lemma update_quorum_status_frame e g :
  get_local_node_state g = WD_COORDINATOR ->
  let g' := update_quorum_status X pool_config e g in
  wdCurrentFailovers g' = wdCurrentFailovers g
  /\ get_local_node_state g' = WD_COORDINATOR
  /\ remoteNodeCount g' = remoteNodeCount g
  /\ masterNode (clusterMasterInfo g') = masterNode (clusterMasterInfo g)
  /\ standby_nodes_count (clusterMasterInfo g')
     = standby_nodes_count (clusterMasterInfo g)
  /\ standbyNodes (clusterMasterInfo g') = standbyNodes (clusterMasterInfo g).
Proof.
  intros Hs. unfold update_quorum_status.
  set (q := if decide (_ < _) then 1 else _).
  set (g1 := with_localNode _ (with_quorum_status q g)).
  assert (Hs1 : get_local_node_state g1 = WD_COORDINATOR) by exact Hs.
  destruct (decide (q <> quorum_status g)); [|simpl; auto 10].
  unfold watchdog_state_machine_quorum_changed. rewrite Hs1.
  pose proof (coordinator_quorum_changed_frame e g1)
    as (_ & _ & H3 & H4 & H5 & H6 & H7 & H8).
  cbv zeta in *. unfold get_local_node_state in *.
  rewrite H3, H4, H5, H6, H7, H8. simpl. auto 10.
Qed.

(** X1.  On the coordinator of a cluster of [N] nodes that counts [s]
    standbys, [update_quorum_status] sets the quorum status to 1 when the
    coordinator and its standbys are more than half of the cluster
    ([N < 2 (s + 1)]); when they are exactly half, to 0 if
    [enable_consensus_with_half_votes] is on and to -1 if it is off; and
    to -1 when they are fewer.  The local node's own [quorum_status], the
    one its beacons carry, is set to the same value. *)
Theorem quorum_status_by_majority e g N :
  1 <= N ->
  remoteNodeCount g = N - 1 ->
  get_local_node_state g = WD_COORDINATOR ->
  let s := standby_nodes_count (clusterMasterInfo g) in
  let g' := update_quorum_status X pool_config e g in
  quorum_status g'
  = (if decide (N < 2 * (s + 1)) then 1
     else if decide (2 * (s + 1) = N)
          then (if enable_consensus_with_half_votes pool_config then 0 else -1)
          else -1)
  /\ node_quorum_status (localNode g') = quorum_status g'.
Proof.
  intros HN Hr Hs s g'.
  destruct (minimum_votes_formula pool_config g N HN Hr) as (Hmin & _).
  cbv zeta in Hmin.
  set (q := if decide (N < 2 * (s + 1)) then 1 else _).
  assert (Hq : (if decide (get_mimimum_remote_nodes_required_for_quorum g < s) then 1
       else if decide (s = get_mimimum_remote_nodes_required_for_quorum g) then
         (if decide (Z.rem (remoteNodeCount g) 2 <> 0)
          then (if enable_consensus_with_half_votes pool_config then 0 else -1)
          else 1)
       else -1) = q).
  { rewrite Hmin, Hr. unfold q.
    rewrite Z.rem_mod_nonneg by lia. rewrite Zmod_even.
    destruct (Z.even (N - 1)) eqn:He.
    - apply Z.even_spec in He as [m Hm].
      replace ((N - 1) / 2) with m by (rewrite Hm, Z.mul_comm, Z.div_mul; lia).
      repeat case_decide; try reflexivity; try lia; try congruence.
    - assert (Ho : Z.odd (N - 1) = true) by (rewrite <- Z.negb_even, He; reflexivity).
      apply Z.odd_spec in Ho as [m Hm].
      replace ((N - 1 - 1) / 2) with m
        by (replace (N - 1 - 1) with (m * 2) by lia; rewrite Z.div_mul; lia).
      repeat case_decide; try reflexivity; try lia; try congruence. }
  unfold g', update_quorum_status. fold s. rewrite Hq.
  set (g1 := with_localNode _ (with_quorum_status q g)).
  assert (H1 : quorum_status g1 = q /\ node_quorum_status (localNode g1) = q
               /\ get_local_node_state g1 = WD_COORDINATOR) by (simpl; auto).
  destruct H1 as (Hq1 & Hn1 & Hs1).
  destruct (decide (q <> quorum_status g)) as [Hch|Hsame];
    [|split; [exact Hq1|rewrite Hq1; exact Hn1]].
  unfold watchdog_state_machine_quorum_changed. rewrite Hs1.
  pose proof (coordinator_quorum_changed_frame e g1) as (H2 & H3 & _).
  cbv zeta in H2, H3. rewrite H3, H2, Hn1, Hq1. split; reflexivity.
Qed.

(** X2.  The quorum check of the coordinator acts only on a change, and
    only once the node is the accepted master: when the status it
    computes is the one it had, or the master is not the local node,
    nothing is sent and escalation is untouched.  When the status
    changes to -1 the master gives up the escalation (an escalated node
    forks the de-escalation helper and no longer holds the virtual IP);
    when it changes to 0 or 1 a node that is not escalated escalates,
    provided the fork succeeds.  After either it broadcasts its node info
    and raises the quorum-change interrupt of the main process. *)
Theorem quorum_change_drives_escalation e g :
  get_local_node_state g = WD_COORDINATOR ->
  let g' := update_quorum_status X pool_config e g in
  (quorum_status g' = quorum_status g \/ getMasterWatchdogNode g <> Some LocalNode ->
   trace g' = trace g
   /\ escalated (localNode g') = escalated (localNode g)
   /\ clusterMasterInfo g' = clusterMasterInfo g)
  /\ (getMasterWatchdogNode g = Some LocalNode ->
      quorum_status g' <> quorum_status g ->
      (quorum_status g' = -1 ->
       escalated (localNode g') = false
       /\ (escalated (localNode g) = true ->
           holding_vip (clusterMasterInfo g') = false
           /\ de_escalation_pid g' = fork_pid e))
      /\ (0 <= quorum_status g' ->
          escalated (localNode g) = false -> 0 < fork_pid e ->
          escalated (localNode g') = true /\ escalation_pid g' = fork_pid e)
      /\ exists tr pkt,
           trace g' = trace g ++ tr
                      ++ [act_send_message None pkt;
                          act_register_watchdog_quorum_change_interupt]
           /\ type pkt = WD_INFO_MESSAGE
           /\ data pkt = Some (node_info_json X pool_config (localNode g'))).
Proof.
  intros Hs g'. unfold g', update_quorum_status.
  set (q := if decide (_ < _) then 1 else _).
  set (g1 := with_localNode _ (with_quorum_status q g)).
  assert (Hs1 : get_local_node_state g1 = WD_COORDINATOR) by exact Hs.
  destruct (decide (q <> quorum_status g)) as [Hch|Hsame].
  2:{ split; [intros _; simpl; auto|]. intros _ Hne. simpl in Hne.
      exfalso. apply Hsame. exact Hne. }
  unfold watchdog_state_machine_quorum_changed. rewrite Hs1.
  unfold watchdog_state_machine_coordinator_quorum_changed.
  change (getMasterWatchdogNode g1) with (getMasterWatchdogNode g).
  destruct (decide (getMasterWatchdogNode g = Some LocalNode)) as [Hm|Hm].
  2:{ split; [intros _; simpl; auto|]. intros Hm'. contradiction. }
  change (quorum_status g1) with q.
  set (g2 := if decide (q = -1) then _ else _).
  assert (Hq2 : quorum_status g2 = q).
  { unfold g2. repeat case_decide; try reflexivity.
    - apply resign_from_escalated_node_frame.
    - destruct (escalated (localNode g1)); [reflexivity|].
      apply start_escalated_node_frame. }
  pose proof (only_sends_send_message_of_type X pool_config None WD_INFO_MESSAGE None g2)
    as (Hl3 & _ & Hm3 & _ & Hq3 & He3 & Hd3 & _).
  assert (Hsend : exists pkt,
    trace (send_message_of_type X pool_config None WD_INFO_MESSAGE None g2)
    = trace g2 ++ [act_send_message None pkt]
    /\ type pkt = WD_INFO_MESSAGE
    /\ data pkt = Some (node_info_json X pool_config (localNode g2))).
  { unfold send_message_of_type, get_message_of_type.
    rewrite decide_True by reflexivity.
    unfold get_mynode_info_message. simpl. eexists. split; [reflexivity|]. auto. }
  destruct Hsend as (pkt & Ht3 & Hty & Hdata).
  set (g3 := send_message_of_type _ _ _ _ _ g2) in *. clearbody g3.
  cbn [log_action localNode with_trace clusterMasterInfo de_escalation_pid
       escalation_pid trace quorum_status].
  rewrite Hl3, Hm3, He3, Hd3, Ht3, Hq3, Hq2.
  assert (Htr : exists tr, trace g2 = trace g ++ tr).
  { unfold g2. destruct (decide (q = -1)).
    - destruct (keeps_local_resign_from_escalated_node e g1) as (_ & _ & [tr Htr]).
      exists tr. exact Htr.
    - destruct (decide (0 <= q)); [|exists []; rewrite app_nil_r; reflexivity].
      destruct (escalated (localNode g1)) eqn:He1;
        [exists []; rewrite app_nil_r; reflexivity|].
      destruct (run_esc_call_trace (call_start_escalated_node e) g1) as (tr & Htr & _).
      exists tr. exact Htr. }
  split.
  { intros [Hsm|Hnm]; [|contradiction]. exfalso. apply Hch. exact Hsm. }
  intros _ _.
  split; [|split].
  - intros Hq. unfold g2. rewrite decide_True by exact Hq.
    unfold resign_from_escalated_node.
    change (escalated (localNode g1)) with (escalated (localNode g)).
    destruct (escalated (localNode g)) eqn:He0.
    + simpl. split; [reflexivity|]. intros _. split; reflexivity.
    + simpl. split; [exact He0|]. discriminate.
  - intros Hq He0 Hpid. unfold g2.
    rewrite decide_False by lia. rewrite decide_True by exact Hq.
    change (escalated (localNode g1)) with (escalated (localNode g)).
    rewrite He0. unfold start_escalated_node.
    change (escalated (localNode g1)) with (escalated (localNode g)).
    rewrite He0.
    set (g1' := wait_de_escalation_exit _ _ g1). clearbody g1'.
    cbn [escalation_pid with_escalation_pid].
    rewrite decide_True by exact Hpid.
    case_decide; simpl; split; reflexivity.
  - destruct Htr as (tr & Htr). exists tr, pkt. rewrite Htr, <- !app_assoc.
    split; [reflexivity|]. split; [exact Hty|exact Hdata].
Qed.

End QuorumStatus.

(** ** Which proposal a failover request falls on *)

Lemma failover_object_matches_spec k nl f :
  failover_object_matches k nl f = true
  <-> reqKind f = k /\ length (nodeList f) = length nl
      /\ (forall v, v ∈ nodeList f -> v ∈ nl).
Proof.
  unfold failover_object_matches, nodesCount.
  rewrite !andb_true_iff, !bool_decide_eq_true, forallb_forall.
  split.
  - intros [[Hk Hl] Hall]. split; [exact Hk|]. split; [lia|].
    intros v Hv. apply does_int_array_contains_value_spec, Hall, list_elem_of_In, Hv.
  - intros (Hk & Hl & Hall). split; [split; [exact Hk|lia]|].
    intros v Hv. apply does_int_array_contains_value_spec, Hall, list_elem_of_In, Hv.
Qed.

Lemma failover_object_matches_NoDup k nl f :
  NoDup (nodeList f) ->
  failover_object_matches k nl f = true <-> reqKind f = k /\ nodeList f ≡ₚ nl.
Proof.
  intros Hnd. rewrite failover_object_matches_spec. split.
  - intros (Hk & Hl & Hall). split; [exact Hk|].
    apply submseteq_length_Permutation; [|lia].
    apply NoDup_submseteq; assumption.
  - intros (Hk & Hp). split; [exact Hk|]. split.
    + apply Permutation_length. exact Hp.
    + intros v Hv. rewrite <- Hp. exact Hv.
Qed.

Lemma get_failover_object_from_None k nl l s :
  get_failover_object_from k nl l s = None
  <-> forall f, f ∈ l -> failover_object_matches k nl f = false.
Proof.
  revert s. induction l as [|f l IH]; intros s; simpl.
  - split; [|reflexivity]. intros _ f Hf. apply elem_of_nil in Hf. contradiction.
  - destruct (failover_object_matches k nl f) eqn:Hm.
    + split; [discriminate|]. intros H. rewrite (H f) in Hm; [discriminate|].
      apply list_elem_of_here.
    + rewrite IH. split.
      * intros H f' Hf'. apply elem_of_cons in Hf' as [->|Hf']; [exact Hm|apply H, Hf'].
      * intros H f' Hf'. apply H. apply list_elem_of_further, Hf'.
Qed.

(** X3.  A request of kind [k] for the backends [nl] falls on a pending
    proposal exactly when the proposal has that kind, names as many
    backends, and each backend it names occurs in [nl].  For a proposal
    that names no backend twice this is: the same kind and the same
    backends in any order.  Accordingly the proposal found does not depend
    on the order in which the request lists the backends. *)
Theorem failover_request_matching k nl nl' f g :
  (failover_object_matches k nl f = true
   <-> reqKind f = k /\ length (nodeList f) = length nl
       /\ (forall v, v ∈ nodeList f -> v ∈ nl))
  /\ (NoDup (nodeList f) ->
      (failover_object_matches k nl f = true
       <-> reqKind f = k /\ nodeList f ≡ₚ nl))
  /\ (nl ≡ₚ nl' -> get_failover_object k nl g = get_failover_object k nl' g).
Proof.
  split; [apply failover_object_matches_spec|].
  split; [apply failover_object_matches_NoDup|].
  intros Hp. unfold get_failover_object. generalize 0%nat.
  induction (wdCurrentFailovers g) as [|f0 l IH]; intros s; simpl; [reflexivity|].
  rewrite IH.
  assert (Hm : failover_object_matches k nl f0 = failover_object_matches k nl' f0);
    [|rewrite Hm; reflexivity].
  destruct (failover_object_matches k nl f0) eqn:H1;
    destruct (failover_object_matches k nl' f0) eqn:H2; try reflexivity.
  - apply failover_object_matches_spec in H1 as (Hk & Hl & Hall).
    assert (failover_object_matches k nl' f0 = true); [|congruence].
    apply failover_object_matches_spec. split; [exact Hk|]. split.
    + rewrite Hl. apply Permutation_length. exact Hp.
    + intros v Hv. rewrite <- Hp. apply Hall, Hv.
  - apply failover_object_matches_spec in H2 as (Hk & Hl & Hall).
    assert (failover_object_matches k nl f0 = true); [|congruence].
    apply failover_object_matches_spec. split; [exact Hk|]. split.
    + rewrite Hl. symmetry. apply Permutation_length. exact Hp.
    + intros v Hv. rewrite Hp. apply Hall, Hv.
Qed.

(** ** Recording votes *)

Section Proposals.

Variable X : wd_externals.
Variable pool_config : POOL_CONFIG.

(** How [add_failover] changes the list of proposals. *)
Lemma add_failover_shape k nl node flags now g i dup g2 :
  add_failover pool_config k nl node flags now g = (i, dup, g2) ->
  match get_failover_object k nl g with
  | None =>
      dup = false
      /\ wdCurrentFailovers g2
         = wdCurrentFailovers g ++ [new_failover k nl node flags now g]
      /\ i = length (wdCurrentFailovers g)
  | Some i0 =>
      i = i0
      /\ exists f f2,
           wdCurrentFailovers g !! i = Some f
           /\ wdCurrentFailovers g2 = <[i := f2]> (wdCurrentFailovers g)
           /\ reqKind f2 = reqKind f /\ nodeList f2 = nodeList f
           /\ reqFlags f2 = reqFlags f /\ failoverID f2 = failoverID f
           /\ startTime f2 = startTime f
           /\ dup = bool_decide (node ∈ requestingNodes f)
           /\ requestingNodes f2
              = (if dup then requestingNodes f else requestingNodes f ++ [node])
           /\ request_count f2
              = request_count f
                + (if dup && negb (allow_multiple_failover_requests_from_node
                                     pool_config)
                   then 0 else 1)
  end.
Proof.
  unfold add_failover, get_failover_object.
  destruct (get_failover_object_from k nl (wdCurrentFailovers g) 0) as [i0|] eqn:Hget.
  - destruct (get_failover_object_from_lookup _ _ _ _ _ Hget) as (j & f & Hi & Hl & Hm).
    simpl in Hi. subst j. rewrite Hl.
    case_decide as Hin.
    + destruct (allow_multiple_failover_requests_from_node pool_config).
      * intros [= <- <- <-]. split; [reflexivity|]. eexists f, _.
        split; [exact Hl|]. split; [reflexivity|]. simpl.
        rewrite bool_decide_eq_true_2 by exact Hin. repeat split; reflexivity.
      * intros [= <- <- <-]. split; [reflexivity|]. exists f, f.
        split; [exact Hl|]. split; [symmetry; apply list_insert_id; exact Hl|].
        rewrite bool_decide_eq_true_2 by exact Hin. simpl.
        repeat split; try reflexivity. lia.
    + intros [= <- <- <-]. split; [reflexivity|]. eexists f, _.
      split; [exact Hl|]. split; [reflexivity|]. simpl.
      rewrite bool_decide_eq_false_2 by exact Hin. repeat split; reflexivity.
  - simpl. intros [= <- <- <-]. repeat split; reflexivity.
Qed.

(** X4.  [add_failover] records the vote on the first pending proposal
    that the request falls on, or, when there is none, on a new proposal
    appended to the list, which takes the flags of this request, the
    next command id as its id and the current time as its start.  A vote
    on an existing proposal keeps the proposal's kind, backends, flags, id
    and start time (so the expiry runs from the first request); the
    requestor is appended unless it is listed already, and the count is
    raised unless it is listed already and multiple requests are not
    allowed.  The other proposals are untouched, and the same request
    falls on the proposal voted on. *)
Theorem add_failover_records_vote k nl node flags now g :
  let '(i, dup, g2) := add_failover pool_config k nl node flags now g in
  get_failover_object k nl g2 = Some i
  /\ match get_failover_object k nl g with
     | None =>
         dup = false
         /\ wdCurrentFailovers g2
            = wdCurrentFailovers g ++ [new_failover k nl node flags now g]
         /\ i = length (wdCurrentFailovers g)
     | Some i0 =>
         i = i0
         /\ exists f f2,
              wdCurrentFailovers g !! i = Some f
              /\ wdCurrentFailovers g2 = <[i := f2]> (wdCurrentFailovers g)
              /\ reqKind f2 = reqKind f /\ nodeList f2 = nodeList f
              /\ reqFlags f2 = reqFlags f /\ failoverID f2 = failoverID f
              /\ startTime f2 = startTime f
              /\ dup = bool_decide (node ∈ requestingNodes f)
              /\ requestingNodes f2
                 = (if dup then requestingNodes f else requestingNodes f ++ [node])
              /\ request_count f2
                 = request_count f
                   + (if dup && negb (allow_multiple_failover_requests_from_node
                                        pool_config)
                      then 0 else 1)
     end.
Proof.
  destruct (add_failover pool_config k nl node flags now g) as [[i dup] g2] eqn:Hadd.
  destruct (add_failover_result pool_config _ _ _ _ _ _ _ _ _ Hadd) as (_ & Hget2 & _).
  split; [exact Hget2|].
  exact (add_failover_shape _ _ _ _ _ _ _ _ _ Hadd).
Qed.

Lemma failovers_distinct_insert l i f f2 :
  failovers_distinct l -> l !! i = Some f ->
  reqKind f2 = reqKind f -> nodeList f2 = nodeList f ->
  failovers_distinct (<[i := f2]> l).
Proof.
  intros [Hnd Hu] Hl Hk Hn. split.
  - apply Forall_insert; [exact Hnd|]. rewrite Hn.
    exact (proj1 (Forall_lookup _ _) Hnd _ _ Hl).
  - assert (Hlook : forall j x, <[i := f2]> l !! j = Some x ->
              exists y, l !! j = Some y /\ reqKind x = reqKind y
                        /\ nodeList x = nodeList y).
    { intros j x Hj. destruct (decide (i = j)) as [->|Hne].
      - rewrite list_lookup_insert_eq in Hj by (eapply lookup_lt_Some; exact Hl).
        injection Hj as <-. exists f. auto.
      - rewrite list_lookup_insert_ne in Hj by exact Hne. exists x. auto. }
    intros a b x y Ha Hb Hkk Hpp.
    destruct (Hlook _ _ Ha) as (x' & Ha' & Hk1 & Hn1).
    destruct (Hlook _ _ Hb) as (y' & Hb' & Hk2 & Hn2).
    apply (Hu a b x' y' Ha' Hb'); [congruence|]. rewrite <- Hn1, <- Hn2. exact Hpp.
Qed.

Lemma failovers_distinct_delete l i :
  failovers_distinct l -> failovers_distinct (delete i l).
Proof.
  intros [Hnd Hu]. split.
  - apply Forall_delete. exact Hnd.
  - intros a b x y Ha Hb Hk Hp.
    rewrite list_lookup_delete in Ha, Hb.
    pose proof (Hu _ _ _ _ Ha Hb Hk Hp) as Heq.
    repeat case_decide; lia.
Qed.

Lemma add_failover_distinct k nl node flags now g i dup g2 :
  NoDup nl -> failovers_distinct (wdCurrentFailovers g) ->
  add_failover pool_config k nl node flags now g = (i, dup, g2) ->
  failovers_distinct (wdCurrentFailovers g2).
Proof.
  intros Hnl Hd Hadd.
  pose proof (add_failover_shape _ _ _ _ _ _ _ _ _ Hadd) as H.
  destruct (get_failover_object k nl g) as [i0|] eqn:Hget.
  - destruct H as (-> & f & f2 & Hl & -> & Hk & Hn & _).
    eapply failovers_distinct_insert; eassumption.
  - destruct H as (_ & -> & _). destruct Hd as [Hnd Hu]. split.
    + apply Forall_app. split; [exact Hnd|]. apply Forall_singleton. exact Hnl.
    + assert (Hnone : forall j f, wdCurrentFailovers g !! j = Some f ->
                reqKind f = k -> nodeList f ≡ₚ nl -> False).
      { intros j f Hj Hk Hp.
        unfold get_failover_object in Hget.
        rewrite get_failover_object_from_None in Hget.
        assert (Hm : failover_object_matches k nl f = true).
        { apply failover_object_matches_NoDup; [|auto].
          exact (proj1 (Forall_lookup _ _) Hnd _ _ Hj). }
        rewrite Hget in Hm; [discriminate|]. eapply list_elem_of_lookup_2; exact Hj. }
      intros a b x y Ha Hb Hk Hp.
      apply lookup_app_Some in Ha as [Ha|[Hal Ha]];
        apply lookup_app_Some in Hb as [Hb|[Hbl Hb]].
      * exact (Hu _ _ _ _ Ha Hb Hk Hp).
      * apply list_lookup_singleton_Some in Hb as [_ <-]. simpl in *.
        exfalso. exact (Hnone _ _ Ha Hk Hp).
      * apply list_lookup_singleton_Some in Ha as [_ <-]. simpl in *.
        exfalso. apply (Hnone _ _ Hb); [congruence|symmetry; exact Hp].
      * apply list_lookup_singleton_Some in Ha as [Ha _].
        apply list_lookup_singleton_Some in Hb as [Hb _]. lia.
Qed.

(** X5.  On the coordinator [compute_failover_consensus] gives one of
    four answers: proceed, no quorum, building consensus, consensus may
    fail.  It answers no quorum exactly when
    [failover_when_quorum_exists] is on, the request is not flagged
    confirmed and the quorum status just computed is -1; this is so
    whether or not [failover_require_consensus] is on, and then no vote is
    recorded: the pending proposals and the flags are as before. *)
Theorem failover_refused_without_quorum k nl flags node now e g :
  get_local_node_state g = WD_COORDINATOR ->
  let '(res, flags', g') :=
    compute_failover_consensus X pool_config k nl flags node now e g in
  res ∈ [FAILOVER_RES_PROCEED; FAILOVER_RES_NO_QUORUM;
         FAILOVER_RES_BUILDING_CONSENSUS; FAILOVER_RES_CONSENSUS_MAY_FAIL]
  /\ (res = FAILOVER_RES_NO_QUORUM
      <-> failover_when_quorum_exists pool_config = true
          /\ Z.land flags REQ_DETAIL_CONFIRMED = 0
          /\ quorum_status (update_quorum_status X pool_config e g) < 0)
  /\ (res = FAILOVER_RES_NO_QUORUM ->
      wdCurrentFailovers g' = wdCurrentFailovers g /\ flags' = flags).
Proof.
  intros Hs. unfold compute_failover_consensus.
  assert (H1 : FAILOVER_RES_PROCEED
               ∈ [FAILOVER_RES_PROCEED; FAILOVER_RES_NO_QUORUM;
                  FAILOVER_RES_BUILDING_CONSENSUS; FAILOVER_RES_CONSENSUS_MAY_FAIL])
    by apply list_elem_of_here.
  assert (H2 : FAILOVER_RES_NO_QUORUM
               ∈ [FAILOVER_RES_PROCEED; FAILOVER_RES_NO_QUORUM;
                  FAILOVER_RES_BUILDING_CONSENSUS; FAILOVER_RES_CONSENSUS_MAY_FAIL])
    by apply list_elem_of_further, list_elem_of_here.
  assert (H3 : FAILOVER_RES_BUILDING_CONSENSUS
               ∈ [FAILOVER_RES_PROCEED; FAILOVER_RES_NO_QUORUM;
                  FAILOVER_RES_BUILDING_CONSENSUS; FAILOVER_RES_CONSENSUS_MAY_FAIL])
    by apply list_elem_of_further, list_elem_of_further, list_elem_of_here.
  assert (H4 : FAILOVER_RES_CONSENSUS_MAY_FAIL
               ∈ [FAILOVER_RES_PROCEED; FAILOVER_RES_NO_QUORUM;
                  FAILOVER_RES_BUILDING_CONSENSUS; FAILOVER_RES_CONSENSUS_MAY_FAIL])
    by apply list_elem_of_further, list_elem_of_further, list_elem_of_further,
         list_elem_of_here.
  destruct (decide (failover_when_quorum_exists pool_config = false)) as [Hq|Hq].
  { split; [exact H1|]. split; [|discriminate].
    split; [discriminate|]. intros (Hq' & _). congruence. }
  destruct (decide (Z.land flags REQ_DETAIL_CONFIRMED <> 0)) as [Hf|Hf].
  { split; [exact H1|]. split; [|discriminate].
    split; [discriminate|]. intros (_ & Hf' & _). contradiction. }
  assert (Hq' : failover_when_quorum_exists pool_config = true)
    by (destruct (failover_when_quorum_exists pool_config); congruence).
  assert (Hf' : Z.land flags REQ_DETAIL_CONFIRMED = 0)
    by (destruct (decide (Z.land flags REQ_DETAIL_CONFIRMED = 0)); tauto).
  pose proof (update_quorum_status_frame X pool_config e g Hs) as (Hfl & _).
  cbv zeta in Hfl.
  set (g1 := update_quorum_status X pool_config e g) in *. clearbody g1.
  destruct (decide (quorum_status g1 < 0)) as [Hlt|Hge].
  { split; [exact H2|]. split; [tauto|]. intros _. auto. }
  destruct (decide (failover_require_consensus pool_config = true)) as [Hc|Hc].
  2:{ split; [exact H1|]. split; [|discriminate].
      split; [discriminate|]. intros (_ & _ & Hlt). contradiction. }
  destruct (add_failover pool_config k nl node flags now g1) as [[i dup] g2] eqn:Hadd.
  destruct (add_failover_result pool_config _ _ _ _ _ _ _ _ _ Hadd)
    as (_ & _ & f2 & Hl2 & _).
  rewrite Hl2.
  destruct (decide (request_count f2 < _)).
  - destruct (dup && _); (split; [assumption|]); (split; [|discriminate]);
      (split; [discriminate|]); intros (_ & _ & Hlt); contradiction.
  - split; [exact H1|]. split; [|discriminate].
    split; [discriminate|]. intros (_ & _ & Hlt). contradiction.
Qed.

(** X6.  Let every pending proposal name each backend once and no two
    be of the same kind for the same backends; a request that names each
    backend once keeps it so.  If such a request is answered proceed
    because its proposal reached the minimum number of votes, the
    proposal is removed from the pending list and nothing else is: the
    same request no longer falls on any proposal, so a later one starts a
    new count.  The flags handed back are those of the proposal, that is
    of the first request, and not those of the request that completed the
    votes. *)
Theorem consensus_reached_removes_proposal k nl flags node now e g :
  get_local_node_state g = WD_COORDINATOR ->
  NoDup nl ->
  failovers_distinct (wdCurrentFailovers g) ->
  let '(res, flags', g') :=
    compute_failover_consensus X pool_config k nl flags node now e g in
  failovers_distinct (wdCurrentFailovers g')
  /\ (failover_when_quorum_exists pool_config = true ->
      Z.land flags REQ_DETAIL_CONFIRMED = 0 ->
      failover_require_consensus pool_config = true ->
      res = FAILOVER_RES_PROCEED ->
      get_failover_object k nl g' = None
      /\ match get_failover_object k nl g with
         | Some i =>
             wdCurrentFailovers g' = delete i (wdCurrentFailovers g)
             /\ exists f, wdCurrentFailovers g !! i = Some f
                          /\ flags' = reqFlags f
         | None =>
             wdCurrentFailovers g' = wdCurrentFailovers g /\ flags' = flags
         end).
Proof.
  intros Hs Hnl Hd. unfold compute_failover_consensus.
  destruct (decide (failover_when_quorum_exists pool_config = false)) as [Hq|Hq].
  { split; [exact Hd|]. intros Hq'. congruence. }
  destruct (decide (Z.land flags REQ_DETAIL_CONFIRMED <> 0)) as [Hf|Hf].
  { split; [exact Hd|]. intros _ Hf'. contradiction. }
  pose proof (update_quorum_status_frame X pool_config e g Hs) as (Hfl & Hs1 & _).
  cbv zeta in Hfl, Hs1.
  set (g1 := update_quorum_status X pool_config e g) in *. clearbody g1.
  assert (Hget1 : get_failover_object k nl g1 = get_failover_object k nl g)
    by (unfold get_failover_object; rewrite Hfl; reflexivity).
  destruct (decide (quorum_status g1 < 0)).
  { split; [rewrite Hfl; exact Hd|]. discriminate. }
  destruct (decide (failover_require_consensus pool_config = true)) as [Hc|Hc].
  2:{ split; [rewrite Hfl; exact Hd|]. intros _ _ Hc'. contradiction. }
  destruct (add_failover pool_config k nl node flags now g1) as [[i dup] g2] eqn:Hadd.
  pose proof (add_failover_shape _ _ _ _ _ _ _ _ _ Hadd) as Hrec.
  assert (Hd2 : failovers_distinct (wdCurrentFailovers g2)).
  { eapply add_failover_distinct; [exact Hnl| |exact Hadd]. rewrite Hfl. exact Hd. }
  destruct (add_failover_result pool_config _ _ _ _ _ _ _ _ _ Hadd)
    as (_ & Hget2 & f2 & Hl2 & _).
  rewrite Hl2.
  destruct (decide (request_count f2
                    < get_minimum_votes_to_resolve_consensus pool_config g2)).
  { destruct (dup && _); (split; [exact Hd2|discriminate]). }
  split; [apply failovers_distinct_delete; exact Hd2|].
  intros _ _ _ _. split.
  - unfold get_failover_object, remove_failover_object. simpl.
    apply get_failover_object_from_None. intros f' Hf'.
    destruct (failover_object_matches k nl f') eqn:Hm; [|reflexivity]. exfalso.
    apply list_elem_of_lookup in Hf' as [j Hj].
    destruct Hd2 as [Hnd2 Hu2].
    rewrite list_lookup_delete in Hj.
    unfold get_failover_object in Hget2.
    destruct (get_failover_object_from_lookup _ _ _ _ _ Hget2)
      as (i' & f2' & Hi & Hl2' & Hm2).
    simpl in Hi. subst i'. rewrite Hl2 in Hl2'. injection Hl2' as <-.
    apply failover_object_matches_NoDup in Hm
      as [Hk Hp]; [|exact (proj1 (Forall_lookup _ _) Hnd2 _ _ Hj)].
    apply failover_object_matches_NoDup in Hm2
      as [Hk2 Hp2]; [|exact (proj1 (Forall_lookup _ _) Hnd2 _ _ Hl2)].
    assert (Heq : (if decide (j < i)%nat then j else S j) = i).
    { apply (Hu2 _ _ _ _ Hj Hl2); [congruence|]. rewrite Hp, Hp2. reflexivity. }
    case_decide; lia.
  - rewrite Hget1 in Hrec. unfold remove_failover_object. simpl.
    destruct (get_failover_object k nl g) as [i0|] eqn:Hget.
    + destruct Hrec as (-> & f & f2' & Hl & Hl2eq & _ & _ & Hfl2 & _).
      rewrite Hl2eq. rewrite Hfl in Hl |- *. split.
      * apply list_eq. intros j. rewrite !list_lookup_delete.
        case_decide; rewrite list_lookup_insert_ne by lia; reflexivity.
      * exists f. split; [exact Hl|]. rewrite Hl2eq, Hfl in Hl2.
        rewrite list_lookup_insert_eq in Hl2 by (eapply lookup_lt_Some; exact Hl).
        injection Hl2 as <-. exact Hfl2.
    + destruct Hrec as (_ & Hl2eq & ->). rewrite Hl2eq, Hfl. split.
      * rewrite delete_middle. apply app_nil_r.
      * rewrite Hl2eq in Hl2. rewrite Hfl in Hl2.
        rewrite lookup_app_r in Hl2 by lia. rewrite Nat.sub_diag in Hl2.
        injection Hl2 as <-. reflexivity.
Qed.

End Proposals.

(** ** Two coordinators judging each other *)

(** X7.  Let A and B both be coordinators and each hold an accurate view
    of the other, with state times that are not 0.  Then each of them
    reaches a decision (never "no decision"), they never both decide to
    step down, and they both decide to stay only when they are alike in
    escalation, quorum status and standby count and became coordinator in
    the same second; with different state times exactly one of them
    stays. *)
Theorem split_brain_decisions_consistent gA gB viewB viewA :
  accurate_view viewB gB -> accurate_view viewA gA ->
  get_local_node_state gA = WD_COORDINATOR ->
  get_local_node_state gB = WD_COORDINATOR ->
  tv_sec (current_state_time (localNode gA)) <> 0 ->
  tv_sec (current_state_time (localNode gB)) <> 0 ->
  let dA := I_am_master_and_cluser_in_split_brain viewB gA in
  let dB := I_am_master_and_cluser_in_split_brain viewA gB in
  (dA = 1 \/ dA = -1) /\ (dB = 1 \/ dB = -1)
  /\ ~ (dA = -1 /\ dB = -1)
  /\ (dA = 1 /\ dB = 1 ->
      escalated (localNode gA) = escalated (localNode gB)
      /\ quorum_status gA = quorum_status gB
      /\ standby_nodes_count (clusterMasterInfo gA)
         = standby_nodes_count (clusterMasterInfo gB)
      /\ tv_sec (current_state_time (localNode gA))
         = tv_sec (current_state_time (localNode gB)))
  /\ (tv_sec (current_state_time (localNode gA))
      <> tv_sec (current_state_time (localNode gB)) -> dA + dB = 0).
Proof.
  intros (HsB & HeB & HqB & HcB & HtB) (HsA & HeA & HqA & HcA & HtA) HA HB HtA0 HtB0.
  unfold I_am_master_and_cluser_in_split_brain. cbv zeta.
  rewrite HsB, HeB, HqB, HcB, HtB, HsA, HeA, HqA, HcA, HtA.
  unfold get_local_node_state in *. rewrite HA, HB.
  rewrite !(decide_False (P := WD_COORDINATOR <> WD_COORDINATOR)) by auto.
  rewrite (decide_False (P := tv_sec (current_state_time (localNode gB)) = 0))
    by exact HtB0.
  rewrite (decide_False (P := tv_sec (current_state_time (localNode gA)) = 0))
    by exact HtA0.
  destruct (escalated (localNode gA)), (escalated (localNode gB)); simpl;
    repeat case_decide; try congruence;
    repeat split; try tauto; try lia; try (intros [? ?]; lia); try (intros; lia).
Qed.

(** ** The standby list of the coordinator *)

Lemma insert_after_fmap {A B} (f : A -> B) (pre : list A) k x rest :
  <[(length pre + k)%nat := x]> ((f <$> pre) ++ rest) = (f <$> pre) ++ <[k := x]> rest.
Proof.
  rewrite insert_app_r_alt by (rewrite length_fmap; lia).
  rewrite length_fmap. replace (length pre + k - length pre)%nat with k by lia.
  reflexivity.
Qed.

Lemma filter_ne_notin (p : node_ptr) (ms : list node_ptr) :
  p ∉ ms -> filter (fun q => q <> p) ms = ms.
Proof.
  induction ms as [|m ms IH]; intros Hn; [reflexivity|].
  apply not_elem_of_cons in Hn as [Hne Hn].
  rewrite filter_cons_True by auto. rewrite IH by exact Hn. reflexivity.
Qed.

Lemma filter_ne_length (p : node_ptr) (ms : list node_ptr) :
  NoDup ms -> p ∈ ms ->
  (length (filter (fun q => q <> p) ms) + 1 = length ms)%nat.
Proof.
  induction ms as [|m ms IH]; intros Hnd Hin.
  - apply elem_of_nil in Hin. contradiction.
  - apply NoDup_cons in Hnd as [Hm Hnd].
    destruct (decide (m = p)) as [->|Hne].
    + rewrite filter_cons_False by auto.
      rewrite filter_ne_notin by exact Hm. simpl. lia.
    + rewrite filter_cons_True by exact Hne. simpl.
      apply elem_of_cons in Hin as [->|Hin]; [congruence|].
      rewrite <- (IH Hnd Hin). lia.
Qed.

(** Distinct remote nodes that do not include the remote node [p] are
    fewer than the remote nodes. *)
Lemma members_below n (members : list node_ptr) p :
  NoDup members ->
  (forall q, q ∈ members -> exists i, q = RemoteNode i /\ (i < n)%nat) ->
  (exists i, p = RemoteNode i /\ (i < n)%nat) ->
  p ∉ members ->
  (length members < n)%nat.
Proof.
  intros Hnd Hall (ip & -> & Hip) Hnin.
  assert (Hsub : (RemoteNode ip :: members) ⊆+ (RemoteNode <$> seq 0 n)).
  { apply NoDup_submseteq.
    - apply NoDup_cons. split; assumption.
    - intros q Hq. apply elem_of_cons in Hq as [->|Hq].
      + apply list_elem_of_fmap. exists ip. split; [reflexivity|].
        apply elem_of_seq. lia.
      + destruct (Hall q Hq) as (i & -> & Hi).
        apply list_elem_of_fmap. exists i. split; [reflexivity|].
        apply elem_of_seq. lia. }
  apply submseteq_length in Hsub. rewrite length_fmap, length_seq in Hsub.
  simpl in Hsub. lia.
Qed.

Lemma standby_list_take g members :
  standby_list_holds g members ->
  take (Z.to_nat (standby_nodes_count (clusterMasterInfo g)))
    (standbyNodes (clusterMasterInfo g)) = Some <$> members.
Proof.
  intros (_ & Hcnt & Harr & _).
  rewrite Hcnt, Nat2Z.id, Harr. rewrite take_app_length'; [reflexivity|].
  rewrite length_fmap. reflexivity.
Qed.

Lemma standby_join_holds p members g :
  get_local_node_state g = WD_COORDINATOR ->
  standby_list_holds g members ->
  (exists i, p = RemoteNode i /\ (i < Z.to_nat (remoteNodeCount g))%nat) ->
  standby_list_holds (standby_node_join_cluster p g)
    (if decide (p ∈ members) then members else members ++ [p]).
Proof.
  intros Hs Hw Hp.
  pose proof (standby_list_take g members Hw) as Htake.
  destruct Hw as (Hlen & Hcnt & Harr & Hnd & Hall).
  unfold standby_node_join_cluster. rewrite decide_True by exact Hs.
  rewrite Htake.
  destruct (decide (p ∈ members)) as [Hin|Hnin].
  - rewrite decide_True by (apply list_elem_of_fmap; exists p; auto).
    repeat split; assumption.
  - rewrite decide_False.
    2:{ intros H. apply list_elem_of_fmap in H as (q & [= ->] & Hq). contradiction. }
    pose proof (members_below _ _ _ Hnd Hall Hp Hnin) as Hlt.
    unfold standby_list_holds. simpl. rewrite length_app. simpl.
    split; [lia|]. split; [lia|]. split.
    + rewrite Hcnt, Nat2Z.id, Harr.
      replace (Z.to_nat (remoteNodeCount g) - length members)%nat
        with (S (Z.to_nat (remoteNodeCount g) - (length members + 1)))%nat by lia.
      simpl replicate.
      replace (length members) with (length members + 0)%nat at 1 by lia.
      rewrite insert_after_fmap. simpl.
      rewrite fmap_app, <- app_assoc. reflexivity.
    + split.
      * apply NoDup_app. split; [exact Hnd|]. split; [|apply NoDup_singleton].
        intros x Hx Hx'. apply list_elem_of_singleton in Hx'. subst. contradiction.
      * intros q Hq. apply elem_of_app in Hq as [Hq|Hq]; [apply Hall, Hq|].
        apply list_elem_of_singleton in Hq. subst q. exact Hp.
Qed.

(** X8.  On the coordinator, whose standby list holds [members],
    [standby_node_join_cluster] appends a remote node that is not listed
    and does nothing at all for one that is: a node is never listed
    twice.  The slot written for a new node lies inside the array of
    [remoteNodeCount] pointers, and the local node's own standby count
    follows the new count. *)
Theorem standby_node_join_cluster_adds p members g :
  get_local_node_state g = WD_COORDINATOR ->
  standby_list_holds g members ->
  (exists i, p = RemoteNode i /\ (i < Z.to_nat (remoteNodeCount g))%nat) ->
  let g' := standby_node_join_cluster p g in
  standby_list_holds g' (if decide (p ∈ members) then members else members ++ [p])
  /\ (p ∉ members ->
      (Z.to_nat (standby_nodes_count (clusterMasterInfo g))
       < length (standbyNodes (clusterMasterInfo g)))%nat
      /\ node_standby_nodes_count (localNode g')
         = standby_nodes_count (clusterMasterInfo g) + 1)
  /\ (p ∈ members -> g' = g).
Proof.
  intros Hs Hw Hp g'.
  split; [exact (standby_join_holds p members g Hs Hw Hp)|].
  pose proof (standby_list_take g members Hw) as Htake.
  destruct Hw as (Hlen & Hcnt & Harr & Hnd & Hall).
  unfold g', standby_node_join_cluster. rewrite decide_True by exact Hs.
  rewrite Htake. split.
  - intros Hnin. rewrite decide_False.
    2:{ intros H. apply list_elem_of_fmap in H as (q & [= ->] & Hq). contradiction. }
    pose proof (members_below _ _ _ Hnd Hall Hp Hnin) as Hlt.
    simpl. split; [|reflexivity].
    rewrite Hcnt, Nat2Z.id, Harr, length_app, length_fmap, length_replicate. lia.
  - intros Hin.
    rewrite decide_True by (apply list_elem_of_fmap; exists p; auto). reflexivity.
Qed.

Lemma standby_left_loop_removed p (rest pre : list node_ptr) tl cnt :
  standby_left_loop p (seq (S (length pre)) (length rest)) true
    ((Some <$> pre) ++ None :: (Some <$> rest) ++ tl) cnt
  = ((Some <$> (pre ++ rest)) ++ None :: tl, cnt).
Proof.
  revert pre. induction rest as [|r rest IH]; intros pre.
  - simpl. rewrite app_nil_r. reflexivity.
  - rewrite fmap_cons, <- app_comm_cons.
    cbn [length seq standby_left_loop Init.Nat.pred].
    assert (Hl : ((Some <$> pre) ++ None :: Some r :: (Some <$> rest) ++ tl)
                   !! S (length pre) = Some (Some r)).
    { rewrite lookup_app_r by (rewrite length_fmap; lia).
      rewrite length_fmap. replace (S (length pre) - length pre)%nat with 1%nat by lia.
      reflexivity. }
    rewrite Hl.
    replace (<[S (length pre) := None]>
               (<[length pre := Some r]>
                  ((Some <$> pre) ++ None :: Some r :: (Some <$> rest) ++ tl)))
      with ((Some <$> (pre ++ [r])) ++ None :: (Some <$> rest) ++ tl).
    + specialize (IH (pre ++ [r])). rewrite length_app in IH. simpl in IH.
      replace (length pre + 1)%nat with (S (length pre)) in IH by lia.
      rewrite IH. rewrite <- app_assoc. reflexivity.
    + replace (<[length pre := Some r]>
                 ((Some <$> pre) ++ None :: Some r :: (Some <$> rest) ++ tl))
        with ((Some <$> pre) ++ Some r :: Some r :: (Some <$> rest) ++ tl).
      2:{ replace (length pre) with (length pre + 0)%nat at 1 by lia.
          rewrite insert_after_fmap. reflexivity. }
      replace (S (length pre)) with (length pre + 1)%nat by lia.
      rewrite insert_after_fmap. simpl.
      rewrite fmap_app, <- app_assoc. reflexivity.
Qed.

Lemma standby_left_loop_scan p (ms pre : list node_ptr) tl cnt :
  NoDup ms ->
  standby_left_loop p (seq (length pre) (length ms)) false
    ((Some <$> pre) ++ (Some <$> ms) ++ tl) cnt
  = if decide (p ∈ ms)
    then ((Some <$> (pre ++ filter (fun q => q <> p) ms)) ++ None :: tl, cnt - 1)
    else ((Some <$> pre) ++ (Some <$> ms) ++ tl, cnt).
Proof.
  revert pre. induction ms as [|m ms IH]; intros pre Hnd.
  - cbn [length seq standby_left_loop].
    rewrite decide_False by (apply not_elem_of_nil). reflexivity.
  - rewrite fmap_cons, <- app_comm_cons.
    cbn [length seq standby_left_loop Init.Nat.pred].
    apply NoDup_cons in Hnd as [Hm Hnd].
    assert (Hl : ((Some <$> pre) ++ Some m :: (Some <$> ms) ++ tl) !! length pre
                 = Some (Some m)).
    { rewrite lookup_app_r by (rewrite length_fmap; lia).
      rewrite length_fmap, Nat.sub_diag. reflexivity. }
    rewrite Hl. destruct (decide (m = p)) as [->|Hne].
    + rewrite decide_True by apply list_elem_of_here.
      replace (<[length pre := None]>
                 ((Some <$> pre) ++ Some p :: (Some <$> ms) ++ tl))
        with ((Some <$> pre) ++ None :: (Some <$> ms) ++ tl).
      2:{ replace (length pre) with (length pre + 0)%nat at 1 by lia.
          rewrite insert_after_fmap. reflexivity. }
      rewrite standby_left_loop_removed.
      rewrite filter_cons_False by auto.
      rewrite filter_ne_notin by exact Hm. reflexivity.
    + specialize (IH (pre ++ [m]) Hnd). rewrite length_app in IH. simpl in IH.
      replace (length pre + 1)%nat with (S (length pre)) in IH by lia.
      rewrite fmap_app, <- app_assoc in IH. simpl in IH. rewrite IH.
      destruct (decide (p ∈ ms)) as [Hin|Hnin].
      * rewrite decide_True by (apply list_elem_of_further; exact Hin).
        rewrite filter_cons_True by exact Hne. rewrite <- app_assoc. reflexivity.
      * rewrite decide_False; [reflexivity|].
        intros H. apply elem_of_cons in H as [->|H]; [congruence|contradiction].
Qed.

(** What the loop of [standby_node_left_cluster] makes of a standby list
    that holds [members]. *)
Lemma standby_left_loop_run p members g :
  standby_list_holds g members ->
  standby_left_loop p
    (seq 0 (Z.to_nat (standby_nodes_count (clusterMasterInfo g)))) false
    (standbyNodes (clusterMasterInfo g))
    (standby_nodes_count (clusterMasterInfo g))
  = if decide (p ∈ members)
    then ((Some <$> filter (fun q => q <> p) members)
            ++ None :: replicate (Z.to_nat (remoteNodeCount g) - length members) None,
          Z.of_nat (length members) - 1)
    else (standbyNodes (clusterMasterInfo g),
          standby_nodes_count (clusterMasterInfo g)).
Proof.
  intros (Hlen & Hcnt & Harr & Hnd & Hall).
  rewrite Hcnt, Nat2Z.id, Harr.
  exact (standby_left_loop_scan p members []
           (replicate (Z.to_nat (remoteNodeCount g) - length members) None)
           (Z.of_nat (length members)) Hnd).
Qed.

Lemma standby_left_holds p members g :
  get_local_node_state g = WD_COORDINATOR ->
  standby_list_holds g members ->
  standby_list_holds (standby_node_left_cluster p g)
    (filter (fun q => q <> p) members).
Proof.
  intros Hs Hw. pose proof (standby_left_loop_run p members g Hw) as Hloop.
  destruct Hw as (Hlen & Hcnt & Harr & Hnd & Hall).
  unfold standby_node_left_cluster. rewrite decide_True by exact Hs.
  rewrite Hloop.
  destruct (decide (p ∈ members)) as [Hin|Hnin].
  - pose proof (filter_ne_length p members Hnd Hin) as Hflen.
    unfold standby_list_holds. simpl.
    split; [lia|]. split; [lia|]. split.
    + replace (Z.to_nat (remoteNodeCount g)
               - length (filter (fun q => q <> p) members))%nat
        with (S (Z.to_nat (remoteNodeCount g) - length members)) by lia.
      reflexivity.
    + split.
      * apply NoDup_filter. exact Hnd.
      * intros q Hq. apply list_elem_of_filter in Hq as [_ Hq]. apply Hall, Hq.
  - rewrite filter_ne_notin by exact Hnin.
    unfold standby_list_holds. simpl. repeat split; assumption.
Qed.

(** X9.  On the coordinator, whose standby list holds [members],
    [standby_node_left_cluster] removes the node and moves the nodes
    listed after it one slot down, keeping their order, so that the
    listed nodes still fill the first slots; the local node's own standby
    count is set to the new count.  For a node that is not listed the
    master info is unchanged. *)
Theorem standby_node_left_cluster_removes p members g :
  get_local_node_state g = WD_COORDINATOR ->
  standby_list_holds g members ->
  let g' := standby_node_left_cluster p g in
  standby_list_holds g' (filter (fun q => q <> p) members)
  /\ node_standby_nodes_count (localNode g')
     = standby_nodes_count (clusterMasterInfo g')
  /\ (p ∉ members -> clusterMasterInfo g' = clusterMasterInfo g).
Proof.
  intros Hs Hw g'.
  split; [exact (standby_left_holds p members g Hs Hw)|].
  pose proof (standby_left_loop_run p members g Hw) as Hloop.
  unfold g', standby_node_left_cluster. rewrite decide_True by exact Hs.
  rewrite Hloop. split.
  - case_decide; reflexivity.
  - intros Hnin. rewrite decide_False by exact Hnin. simpl.
    destruct (clusterMasterInfo g). reflexivity.
Qed.

(** X10.  On the coordinator, a remote node that is not on the standby
    list and joins it and then leaves it again leaves the master info
    (master, standby list, count, virtual IP) as it was. *)
Theorem standby_join_then_left_restores p members g :
  get_local_node_state g = WD_COORDINATOR ->
  standby_list_holds g members ->
  (exists i, p = RemoteNode i /\ (i < Z.to_nat (remoteNodeCount g))%nat) ->
  p ∉ members ->
  clusterMasterInfo (standby_node_left_cluster p (standby_node_join_cluster p g))
  = clusterMasterInfo g.
Proof.
  intros Hs Hw Hp Hnin.
  pose proof (standby_join_holds p members g Hs Hw Hp) as Hw1.
  rewrite decide_False in Hw1 by exact Hnin.
  set (g1 := standby_node_join_cluster p g) in *.
  assert (Hs1 : get_local_node_state g1 = WD_COORDINATOR).
  { unfold g1, standby_node_join_cluster. rewrite decide_True by exact Hs.
    case_decide; [exact Hs|exact Hs]. }
  assert (Hn1 : remoteNodeCount g1 = remoteNodeCount g).
  { unfold g1, standby_node_join_cluster. rewrite decide_True by exact Hs.
    case_decide; reflexivity. }
  assert (Hm1 : masterNode (clusterMasterInfo g1) = masterNode (clusterMasterInfo g)
                /\ holding_vip (clusterMasterInfo g1)
                   = holding_vip (clusterMasterInfo g)).
  { unfold g1, standby_node_join_cluster. rewrite decide_True by exact Hs.
    case_decide; split; reflexivity. }
  pose proof (standby_left_holds p _ g1 Hs1 Hw1) as Hw2.
  rewrite filter_app, filter_ne_notin in Hw2 by exact Hnin.
  rewrite filter_cons_False, filter_nil, app_nil_r in Hw2 by auto.
  set (g2 := standby_node_left_cluster p g1) in *.
  assert (Hn2 : remoteNodeCount g2 = remoteNodeCount g1
                /\ masterNode (clusterMasterInfo g2) = masterNode (clusterMasterInfo g1)
                /\ holding_vip (clusterMasterInfo g2)
                   = holding_vip (clusterMasterInfo g1)).
  { unfold g2, standby_node_left_cluster. rewrite decide_True by exact Hs1.
    destruct (standby_left_loop _ _ _ _ _). repeat split; reflexivity. }
  destruct Hw as (_ & Hc & Ha & _), Hw2 as (_ & Hc2 & Ha2 & _).
  destruct Hn2 as (Hn2 & Hm2 & Hv2), Hm1 as (Hm1 & Hv1).
  rewrite Hn2, Hn1 in Ha2. clearbody g2 g1.
  destruct (clusterMasterInfo g2), (clusterMasterInfo g). simpl in *. congruence.
Qed.

(** ** Leaving the coordinator state, escalation *)

Section StateChange.

Variable X : wd_externals.
Variable pool_config : POOL_CONFIG.

(** What entering one of the four election states leaves alone. *)
Lemma state_changed_frame now g :
  get_local_node_state g ∈ election_states ->
  let g' := watchdog_state_machine_state_changed X pool_config now g in
  localNode g' = localNode g
  /\ wdCurrentFailovers g' = wdCurrentFailovers g
  /\ standbyNodes (clusterMasterInfo g') = standbyNodes (clusterMasterInfo g)
  /\ standby_nodes_count (clusterMasterInfo g')
     = standby_nodes_count (clusterMasterInfo g)
  /\ holding_vip (clusterMasterInfo g') = holding_vip (clusterMasterInfo g)
  /\ remoteNodeCount g' = remoteNodeCount g
  /\ escalation_pid g' = escalation_pid g
  /\ de_escalation_pid g' = de_escalation_pid g
  /\ (get_local_node_state g = WD_JOINING ->
      masterNode (clusterMasterInfo g') = None)
  /\ trace g `prefix_of` trace g'.
Proof.
  intros Hs. unfold watchdog_state_machine_state_changed.
  assert (Hos : forall h, only_sends g h ->
    localNode h = localNode g
    /\ wdCurrentFailovers h = wdCurrentFailovers g
    /\ standbyNodes (clusterMasterInfo h) = standbyNodes (clusterMasterInfo g)
    /\ standby_nodes_count (clusterMasterInfo h)
       = standby_nodes_count (clusterMasterInfo g)
    /\ holding_vip (clusterMasterInfo h) = holding_vip (clusterMasterInfo g)
    /\ remoteNodeCount h = remoteNodeCount g
    /\ escalation_pid h = escalation_pid g
    /\ de_escalation_pid h = de_escalation_pid g
    /\ trace g `prefix_of` trace h).
  { intros h (Hl & _ & Hm & Hn & _ & He & Hd & _ & _ & Hf & Ht).
    rewrite Hl, Hm, Hn, He, Hd, Hf. repeat split; try reflexivity. exact Ht. }
  unfold election_states in Hs.
  repeat (apply elem_of_cons in Hs as [Hs|Hs]);
    [| | | |apply elem_of_nil in Hs; contradiction];
    rewrite Hs; cbv beta iota.
  - unfold watchdog_state_machine_joining_state_changed.
    set (h := set_cluster_master_node None g).
    assert (Hh : only_sends h
      (set_timeout MAX_SECS_WAIT_FOR_REPLY_FROM_NODE now
         (send_cluster_command X pool_config None WD_REQ_INFO_MESSAGE 4 now
            (try_connecting_with_all_unreachable_nodes X pool_config h)))).
    { eapply only_sends_trans; [apply only_sends_try_connecting|].
      eapply only_sends_trans; [apply only_sends_send_cluster_command|].
      apply only_sends_set_timeout. }
    destruct Hh as (Hl & _ & Hm & Hn & _ & He & Hd & _ & _ & Hf & Ht).
    rewrite Hl, Hm, Hn, He, Hd, Hf. simpl. repeat split; try reflexivity. exact Ht.
  - destruct (Hos _ (only_sends_set_timeout 1 now g)) as (?&?&?&?&?&?&?&?&?).
    unfold watchdog_state_machine_initializing_state_changed.
    repeat split; try assumption. discriminate.
  - unfold watchdog_state_machine_standForCord_state_changed.
    assert (Hh : only_sends g
      (set_timeout MAX_SECS_WAIT_FOR_REPLY_FROM_NODE now
         (send_cluster_command X pool_config None
            WD_STAND_FOR_COORDINATOR_MESSAGE 4 now g))).
    { eapply only_sends_trans; [apply only_sends_send_cluster_command|].
      apply only_sends_set_timeout. }
    destruct (Hos _ Hh) as (?&?&?&?&?&?&?&?&?).
    repeat split; try assumption. discriminate.
  - destruct (Hos _ (only_sends_set_timeout MAX_SECS_WAIT_FOR_REPLY_FROM_NODE now g))
      as (?&?&?&?&?&?&?&?&?).
    unfold watchdog_state_machine_voting_state_changed.
    repeat split; try assumption. discriminate.
Qed.

(** What [set_state] does to a coordinator that is moved to one of the
    election states. *)
Lemma leaving_coordinator now e s g :
  get_local_node_state g = WD_COORDINATOR ->
  s ∈ election_states ->
  let g' := set_state X pool_config now e s g in
  get_local_node_state g' = s
  /\ current_state_time (localNode g') = now
  /\ escalated (localNode g') = false
  /\ (escalated (localNode g) = true ->
      holding_vip (clusterMasterInfo g') = false
      /\ de_escalation_pid g' = fork_pid e
      /\ act_fork_plunging_process (fork_pid e) ∈ trace g')
  /\ wdCurrentFailovers g' = []
  /\ standby_nodes_count (clusterMasterInfo g') = 0
  /\ node_standby_nodes_count (localNode g') = 0
  /\ (forall i x, (i < Z.to_nat (remoteNodeCount g))%nat ->
        standbyNodes (clusterMasterInfo g') !! i = Some x -> x = None)
  /\ (s = WD_JOINING -> getMasterWatchdogNode g' = None).
Proof.
  intros Hs Hin g'. unfold g', set_state. rewrite Hs.
  assert (Hne : WD_COORDINATOR <> s).
  { intros <-. unfold election_states in Hin.
    repeat (apply elem_of_cons in Hin as [Hin|Hin]); try discriminate.
    apply elem_of_nil in Hin. contradiction. }
  rewrite decide_True by exact Hne. rewrite decide_True by reflexivity.
  set (g2 := with_localNode _ (with_localNode _ g)).
  set (g3 := clear_all_failovers (clear_standby_nodes_list
                                    (resign_from_escalated_node e g2))).
  assert (H3 : state (localNode g3) = s
    /\ current_state_time (localNode g3) = now
    /\ escalated (localNode g3) = false
    /\ (escalated (localNode g) = true ->
        holding_vip (clusterMasterInfo g3) = false
        /\ de_escalation_pid g3 = fork_pid e
        /\ act_fork_plunging_process (fork_pid e) ∈ trace g3)
    /\ wdCurrentFailovers g3 = []
    /\ standby_nodes_count (clusterMasterInfo g3) = 0
    /\ node_standby_nodes_count (localNode g3) = 0
    /\ remoteNodeCount g3 = remoteNodeCount g
    /\ (forall i x, (i < Z.to_nat (remoteNodeCount g))%nat ->
          standbyNodes (clusterMasterInfo g3) !! i = Some x -> x = None)).
  { unfold g3, clear_all_failovers, clear_standby_nodes_list.
    unfold resign_from_escalated_node.
    change (escalated (localNode g2)) with (escalated (localNode g)).
    assert (Hnone : forall n (old : list (option node_ptr)) i x,
      (i < n)%nat ->
      (replicate (Nat.min n (length old)) None ++ drop n old) !! i = Some x ->
      x = None).
    { intros n old i x Hi Hl. apply lookup_app_Some in Hl as [Hl|[Hge Hl]].
      - apply lookup_replicate in Hl as [-> _]. reflexivity.
      - rewrite length_replicate in Hge, Hl. rewrite lookup_drop in Hl.
        apply lookup_lt_Some in Hl. lia. }
    destruct (escalated (localNode g)) eqn:He0.
    - pose proof (wait_escalation_exit_frame MAX_SECS_ESC_PROC_EXIT_WAIT (sigchld e) g2)
        as (Hl & Ht & Hm & _ & _ & Hn & _).
      set (h := wait_escalation_exit _ _ g2) in *. clearbody h.
      simpl. rewrite Hl, Hn. simpl.
      repeat split; try reflexivity.
      + rewrite elem_of_app. left. rewrite elem_of_app. right. apply list_elem_of_here.
      + apply Hnone.
    - simpl. repeat split; try reflexivity; try exact He0; try discriminate.
      apply Hnone. }
  destruct H3 as (Hs3 & Ht3 & He3 & Hv3 & Hf3 & Hc3 & Hnc3 & Hn3 & Ha3).
  assert (Hin3 : get_local_node_state g3 ∈ election_states)
    by (unfold get_local_node_state; rewrite Hs3; exact Hin).
  pose proof (state_changed_frame now g3 Hin3)
    as (Hl4 & Hf4 & Ha4 & Hc4 & Hv4 & Hn4 & He4 & Hd4 & Hm4 & Ht4).
  cbv zeta in *.
  set (g4 := watchdog_state_machine_state_changed X pool_config now g3) in *.
  pose proof (only_sends_send_message_of_type X pool_config None WD_INFO_MESSAGE None g4)
    as (Hl5 & _ & Hm5 & _ & _ & He5 & Hd5 & _ & _ & Hf5 & Ht5).
  set (g5 := send_message_of_type X pool_config None WD_INFO_MESSAGE None g4) in *.
  clearbody g5 g4 g3.
  unfold get_local_node_state, getMasterWatchdogNode in *.
  rewrite Hl5, Hm5, Hd5, Hf5, Hl4, Hf4, Ha4, Hc4, Hv4, Hd4.
  split; [exact Hs3|]. split; [exact Ht3|]. split; [exact He3|].
  split.
  { intros Hesc. destruct (Hv3 Hesc) as (Hv & Hd & Hin').
    split; [exact Hv|]. split; [exact Hd|].
    eapply elem_of_prefix; [exact Hin'|]. etrans; [exact Ht4|exact Ht5]. }
  split; [exact Hf3|]. split; [exact Hc3|]. split; [exact Hnc3|].
  split; [exact Ha3|].
  intros ->. apply Hm4. exact Hs3.
Qed.

(** X11.  When the coordinator is moved by [set_state] to the joining,
    initializing, candidate or voting state, the new state and its time
    are recorded, an escalated node gives up the escalation (the
    de-escalation helper is forked and the virtual IP is no longer
    held), every pending failover proposal is dropped, and the standby
    list is emptied with both standby counts at 0.  Entering the joining
    state also forgets the master.  The last thing the node does is to
    broadcast its node info, which carries the new state. *)
Theorem leaving_coordinator_state now e s g :
  get_local_node_state g = WD_COORDINATOR ->
  s ∈ election_states ->
  let g' := set_state X pool_config now e s g in
  (get_local_node_state g' = s
   /\ current_state_time (localNode g') = now
   /\ escalated (localNode g') = false
   /\ (escalated (localNode g) = true ->
       holding_vip (clusterMasterInfo g') = false
       /\ de_escalation_pid g' = fork_pid e
       /\ act_fork_plunging_process (fork_pid e) ∈ trace g')
   /\ wdCurrentFailovers g' = []
   /\ standby_nodes_count (clusterMasterInfo g') = 0
   /\ node_standby_nodes_count (localNode g') = 0
   /\ (forall i x, (i < Z.to_nat (remoteNodeCount g))%nat ->
         standbyNodes (clusterMasterInfo g') !! i = Some x -> x = None)
   /\ (s = WD_JOINING -> getMasterWatchdogNode g' = None))
  /\ exists tr pkt,
       trace g' = trace g ++ tr ++ [act_send_message None pkt]
       /\ type pkt = WD_INFO_MESSAGE
       /\ data pkt = Some (node_info_json X pool_config (localNode g')).
Proof.
  intros Hs Hin g'. split; [exact (leaving_coordinator now e s g Hs Hin)|].
  unfold g', set_state. rewrite Hs.
  assert (Hne : WD_COORDINATOR <> s).
  { intros <-. unfold election_states in Hin.
    repeat (apply elem_of_cons in Hin as [Hin|Hin]); try discriminate.
    apply elem_of_nil in Hin. contradiction. }
  rewrite decide_True by exact Hne. rewrite decide_True by reflexivity.
  set (g2 := with_localNode _ (with_localNode _ g)).
  set (g3 := clear_all_failovers (clear_standby_nodes_list
                                    (resign_from_escalated_node e g2))).
  assert (Ht3 : trace g `prefix_of` trace g3).
  { destruct (keeps_local_resign_from_escalated_node e g2) as (_ & _ & Hp).
    exact Hp. }
  assert (Hin3 : get_local_node_state g3 ∈ election_states).
  { unfold g3, clear_all_failovers, clear_standby_nodes_list, get_local_node_state.
    cbn [localNode with_wdCurrentFailovers with_localNode with_clusterMasterInfo
         state with_node_standby_nodes_count].
    destruct (keeps_local_resign_from_escalated_node e g2) as (Hst & _).
    rewrite Hst. exact Hin. }
  pose proof (state_changed_frame now g3 Hin3) as (_ & _ & _ & _ & _ & _ & _ & _ & _ & Ht4).
  cbv zeta in Ht4.
  set (g4 := watchdog_state_machine_state_changed X pool_config now g3) in *.
  clearbody g4 g3.
  pose proof (only_sends_send_message_of_type X pool_config None WD_INFO_MESSAGE None g4)
    as (Hl5 & _).
  unfold send_message_of_type, get_message_of_type in *.
  rewrite decide_True in * by reflexivity.
  unfold get_mynode_info_message in *. cbn [reply_commandID] in *.
  destruct (get_next_commandID g4) as [id g4'] eqn:Hid.
  unfold get_next_commandID in Hid. injection Hid as <- <-.
  cbn [send_message log_action trace with_trace with_nextCommandID localNode] in *.
  assert (Hp : trace g `prefix_of` trace g4) by (etrans; [exact Ht3|exact Ht4]).
  destruct Hp as [tr Htr]. rewrite Htr.
  exists tr. eexists. rewrite <- app_assoc. split; [reflexivity|].
  split; reflexivity.
Qed.

(** X12.  Escalation follows the fork of the helper process.  On a node
    that is not escalated [start_escalated_node] records the pid the fork
    returned and marks the node escalated only when that pid is positive;
    the virtual IP then counts as held when a delegate IP is configured,
    and a failed fork changes neither flag.  On an escalated node
    [resign_from_escalated_node] forks the de-escalation helper, records
    its pid whatever it is, and clears both the escalated flag and the
    holding of the virtual IP even when the fork failed. *)
Theorem escalation_follows_the_fork e g :
  (escalated (localNode g) = false ->
   let g' := start_escalated_node e g in
   escalation_pid g' = fork_pid e
   /\ escalated (localNode g') = bool_decide (0 < fork_pid e)
   /\ holding_vip (clusterMasterInfo g')
      = (bool_decide (0 < fork_pid e)
         && bool_decide (delegate_ip (localNode g) <> ""%string)
         || holding_vip (clusterMasterInfo g))
   /\ (fork_pid e <= 0 ->
       trace g' = trace g ++ [act_fork_escalation_process (fork_pid e)]))
  /\ (escalated (localNode g) = true ->
      let g' := resign_from_escalated_node e g in
      de_escalation_pid g' = fork_pid e
      /\ escalated (localNode g') = false
      /\ holding_vip (clusterMasterInfo g') = false
      /\ trace g' = trace g ++ [act_fork_plunging_process (fork_pid e);
                                act_reset_watchdog_node_escalated]).
Proof.
  split.
  - intros He g'. unfold g', start_escalated_node. rewrite He.
    pose proof (wait_de_escalation_exit_frame MAX_SECS_ESC_PROC_EXIT_WAIT (sigchld e) g)
      as (Hl & Ht & Hm & _).
    set (g1 := wait_de_escalation_exit _ _ g) in *. clearbody g1.
    cbn [escalation_pid with_escalation_pid].
    destruct (decide (0 < fork_pid e)) as [Hpid|Hpid].
    + rewrite (bool_decide_eq_true_2 _ Hpid).
      cbn [log_action localNode with_localNode with_escalation_pid with_trace
           with_escalated delegate_ip].
      rewrite Hl.
      destruct (decide (0 < Z.of_nat (String.length (delegate_ip (localNode g)))))
        as [Hip|Hip].
      * rewrite bool_decide_eq_true_2.
        2:{ intros Heq. rewrite Heq in Hip. simpl in Hip. lia. }
        simpl. repeat split; try reflexivity. lia.
      * rewrite bool_decide_eq_false_2.
        2:{ intros Hne. apply Hip. destruct (delegate_ip (localNode g)); [congruence|].
            simpl. lia. }
        simpl. rewrite Hm. repeat split; try reflexivity. lia.
    + rewrite (bool_decide_eq_false_2 _ Hpid). simpl. rewrite Hl, Hm, Ht, He.
      repeat split; reflexivity.
  - intros He g'. unfold g', resign_from_escalated_node. rewrite He.
    pose proof (wait_escalation_exit_frame MAX_SECS_ESC_PROC_EXIT_WAIT (sigchld e) g)
      as (Hl & Ht & Hm & _).
    set (g1 := wait_escalation_exit _ _ g) in *. clearbody g1.
    simpl. rewrite Ht, <- app_assoc. repeat split; reflexivity.
Qed.

End StateChange.

(** ** A candidate that is refused *)

Section RejectedCandidate.

Variable X : wd_externals.
Variable pool_config : POOL_CONFIG.

Lemma find_none_intro {A} (f : A -> bool) l :
  (forall x, In x l -> f x = false) -> List.find f l = None.
Proof.
  induction l as [|a l IH]; intros H; simpl; [reflexivity|].
  rewrite (H a) by (left; reflexivity). apply IH. intros x Hx. apply H. right. exact Hx.
Qed.

Lemma load_after_delete addr l :
  NoDup (cmd_addr <$> l) ->
  List.find (fun c => bool_decide (cmd_addr c = addr)) (list_delete_ptr l addr) = None.
Proof.
  induction l as [|c l IH]; intros Hnd; simpl; [reflexivity|].
  rewrite fmap_cons in Hnd. apply NoDup_cons in Hnd as [Hc Hnd].
  case_decide as Heq.
  - apply find_none_intro. intros c' Hc'. apply bool_decide_eq_false_2. intros Heq'.
    apply Hc. apply list_elem_of_fmap. exists c'. split; [congruence|].
    apply list_elem_of_In. exact Hc'.
  - simpl. rewrite bool_decide_eq_false_2 by exact Heq. apply IH, Hnd.
Qed.

Lemma list_delete_ptr_app l l' addr :
  addr ∈ (cmd_addr <$> l) ->
  list_delete_ptr (l ++ l') addr = list_delete_ptr l addr ++ l'.
Proof.
  induction l as [|c l IH]; intros Hin; simpl.
  - apply elem_of_nil in Hin. contradiction.
  - case_decide; [reflexivity|]. rewrite fmap_cons in Hin.
    apply elem_of_cons in Hin as [Hin|Hin]; [congruence|].
    rewrite IH by exact Hin. reflexivity.
Qed.

Lemma store_command_addrs c g :
  cmd_addr <$> clusterCommands (store_command c g) = cmd_addr <$> clusterCommands g.
Proof.
  unfold store_command. simpl. rewrite <- list_fmap_compose.
  apply list_fmap_ext. intros i c0 _. simpl. case_decide; congruence.
Qed.

Lemma fresh_cmd_addr_new g :
  fresh_cmd_addr g ∉ (cmd_addr <$> clusterCommands g).
Proof.
  unfold fresh_cmd_addr.
  assert (H : forall l a, a ∈ l -> (a <= foldr Nat.max 0 l)%nat).
  { induction l as [|b l IH]; intros a Ha; [apply elem_of_nil in Ha; contradiction|].
    simpl. apply elem_of_cons in Ha as [->|Ha]; [lia|]. specialize (IH _ Ha). lia. }
  intros Hin. apply H in Hin.
  change (map cmd_addr) with (fmap (M:=list) cmd_addr) in Hin. lia.
Qed.

(** The reply that refuses a candidacy in progress ends it. *)
Lemma candidate_refused node pkt now e g cmd slots j :
  get_local_node_state g = WD_STAND_FOR_COORDINATOR ->
  NoDup (cmd_addr <$> clusterCommands g) ->
  get_wd_cluster_command_from_reply pkt g = Some cmd ->
  load_command (cmd_addr cmd) g = Some cmd ->
  commandStatus cmd = COMMAND_IN_PROGRESS ->
  type (commandPacket cmd) = WD_STAND_FOR_COORDINATOR_MESSAGE ->
  find_node_result node (Z.to_nat (remoteNodeCount g)) (nodeResults cmd) 0
    = (slots, Some j) ->
  type pkt = WD_REJECT_MESSAGE \/ type pkt = WD_ERROR_MESSAGE ->
  exists g',
    watchdog_internal_command_packet_processor X pool_config node pkt now e g
    = (true, g')
    /\ get_local_node_state g'
       = (if decide (type pkt = WD_REJECT_MESSAGE)
          then WD_PARTICIPATE_IN_ELECTION else WD_JOINING)
    /\ load_command (cmd_addr cmd) g' = None.
Proof.
  intros Hs Hnd Hget Hload Hst Hcty Hfind Hty.
  unfold watchdog_internal_command_packet_processor. rewrite Hget.
  rewrite decide_False by (rewrite Hst; auto).
  rewrite decide_False.
  2:{ intros Hn. apply Hn. unfold reply_message_types.
      destruct Hty as [-> | ->];
        repeat first [apply list_elem_of_here | apply list_elem_of_further]. }
  rewrite decide_False by (destruct Hty as [-> | ->]; discriminate).
  rewrite Hload. change (default cmd (Some cmd)) with cmd. rewrite Hfind.
  assert (Hre : is_reject_or_error pkt = true)
    by (apply bool_decide_eq_true_2; exact Hty).
  rewrite Hre.
  set (c1 := count_reply pkt j slots cmd).
  set (c2 := with_commandStatus COMMAND_FINISHED_NODE_REJECTED c1).
  assert (Hrun : (if decide (commandSendToCount c1 <= commandReplyFromCount c1)
                  then (true, delete_command (cmd_addr c2)
                          (watchdog_state_machine_command_finished X pool_config
                             (Some node) (Some pkt) c2 now e (store_command c2 g)))
                  else (true, delete_command (cmd_addr c2)
                          (watchdog_state_machine_command_finished X pool_config
                             (Some node) (Some pkt) c2 now e (store_command c2 g))))
                 = (true, delete_command (cmd_addr cmd)
                          (watchdog_state_machine_command_finished X pool_config
                             (Some node) (Some pkt) c2 now e (store_command c2 g))))
    by (case_decide; reflexivity).
  rewrite Hrun. clear Hrun.
  eexists. split; [reflexivity|].
  set (g0 := store_command c2 g).
  assert (Hs0 : get_local_node_state g0 = WD_STAND_FOR_COORDINATOR) by exact Hs.
  assert (Hnd0 : NoDup (cmd_addr <$> clusterCommands g0))
    by (unfold g0; rewrite store_command_addrs; exact Hnd).
  assert (Hin0 : cmd_addr cmd ∈ (cmd_addr <$> clusterCommands g0)).
  { unfold g0. rewrite store_command_addrs.
    unfold load_command in Hload. apply find_some in Hload as [Hin _].
    apply list_elem_of_fmap. exists cmd. split; [reflexivity|].
    apply list_elem_of_In. exact Hin. }
  clearbody g0.
  unfold watchdog_state_machine_command_finished. rewrite Hs0.
  unfold watchdog_state_machine_standForCord_command_finished.
  change (type (commandPacket c2)) with (type (commandPacket cmd)).
  rewrite decide_True by exact Hcty.
  rewrite decide_False by (simpl; intros [H|H]; discriminate).
  destruct (decide (type pkt = WD_REJECT_MESSAGE)) as [Hrej|Hrej].
  - rewrite decide_False by (rewrite Hrej; discriminate).
    unfold set_state. rewrite Hs0.
    rewrite decide_True by discriminate. rewrite decide_False by discriminate.
    unfold watchdog_state_machine_state_changed, get_local_node_state.
    unfold delete_command, load_command. simpl.
    split; [reflexivity|]. apply load_after_delete. exact Hnd0.
  - assert (Herr : type pkt = WD_ERROR_MESSAGE) by tauto.
    rewrite decide_True by exact Herr.
    assert (Hne : get_local_node_state g0 <> WD_JOINING) by (rewrite Hs0; discriminate).
    unfold set_state. rewrite Hs0.
    rewrite decide_True by discriminate. rewrite decide_False by discriminate.
    set (g2 := with_localNode _ (with_localNode _ g0)).
    unfold watchdog_state_machine_state_changed.
    change (get_local_node_state g2) with WD_JOINING. cbv beta iota.
    unfold watchdog_state_machine_joining_state_changed.
    set (g3 := try_connecting_with_all_unreachable_nodes X pool_config
                 (set_cluster_master_node None g2)).
    assert (H3 : state (localNode g3) = WD_JOINING
                 /\ clusterCommands g3 = clusterCommands g0).
    { pose proof (only_sends_try_connecting X pool_config
                    (set_cluster_master_node None g2)) as (Hl & _).
      fold g3 in Hl. rewrite Hl. split; [reflexivity|].
      unfold g3, try_connecting_with_all_unreachable_nodes.
      set (h := log_action act_connect_to_unreachable_nodes _).
      assert (Hh : clusterCommands h = clusterCommands g0) by reflexivity.
      clearbody h. revert h Hh.
      induction (reconnected X) as [|i l IH]; intros h Hh; simpl; [exact Hh|].
      apply IH. rewrite <- Hh. reflexivity. }
    destruct H3 as (Hs3 & Hc3). clearbody g3.
    unfold send_cluster_command, get_message_of_type.
    rewrite decide_False by discriminate. rewrite decide_False by discriminate.
    rewrite decide_False by discriminate.
    rewrite decide_True
      by (unfold minimum_message_types;
          repeat first [apply list_elem_of_here | apply list_elem_of_further]).
    unfold get_minimum_message. cbn [reply_commandID get_next_commandID].
    unfold issue_watchdog_internal_command.
    set (g4 := with_nextCommandID _ g3).
    destruct (issue_to_all X _ (remoteNodes g4) (allocate_resultNodes g4) 0)
      as [[[rs cnt] save] tr].
    cbn [snd].
    set (cnew := new_command _ _ _ _ _ _ _ _).
    assert (Hnew : cmd_addr cnew = fresh_cmd_addr g0).
    { unfold cnew, new_command, fresh_cmd_addr. simpl. rewrite Hc3. reflexivity. }
    clearbody cnew.
    unfold send_message_of_type, get_message_of_type.
    rewrite decide_True by reflexivity.
    unfold get_mynode_info_message, delete_command, load_command, get_local_node_state.
    simpl. rewrite Hs3, Hc3. split; [reflexivity|].
    rewrite list_delete_ptr_app by exact Hin0.
    apply find_none_intro. intros c Hc. apply bool_decide_eq_false_2.
    apply in_app_or in Hc as [Hc|Hc].
    + pose proof (load_after_delete (cmd_addr cmd) _ Hnd0) as Hnone.
      pose proof (find_none _ _ Hnone c Hc) as Hnone'. cbv beta in Hnone'.
      clear Hnone. rename Hnone' into Hnone.
      apply bool_decide_eq_false in Hnone. exact Hnone.
    + destruct Hc as [<-|[]]. rewrite Hnew. intros Heq.
      apply (fresh_cmd_addr_new g0). rewrite Heq. exact Hin0.
Qed.

(** X13.  A candidate (state STAND_FOR_COORDINATOR) whose candidacy is
    still in progress and that receives a reject or an error reply to it
    from a node it was sent to steps down at once, without waiting for
    the other replies: on a reject it goes to PARTICIPATE_IN_ELECTION, on
    an error it goes back to JOINING.  The reply is consumed and the
    candidacy command is removed from the list of commands. *)
Theorem rejected_candidate_steps_down node pkt now e g cmd slots j :
  get_local_node_state g = WD_STAND_FOR_COORDINATOR ->
  NoDup (cmd_addr <$> clusterCommands g) ->
  get_wd_cluster_command_from_reply pkt g = Some cmd ->
  load_command (cmd_addr cmd) g = Some cmd ->
  commandStatus cmd = COMMAND_IN_PROGRESS ->
  type (commandPacket cmd) = WD_STAND_FOR_COORDINATOR_MESSAGE ->
  find_node_result node (Z.to_nat (remoteNodeCount g)) (nodeResults cmd) 0
    = (slots, Some j) ->
  type pkt = WD_REJECT_MESSAGE \/ type pkt = WD_ERROR_MESSAGE ->
  let '(consumed, g') :=
    watchdog_internal_command_packet_processor X pool_config node pkt now e g in
  consumed = true
  /\ get_local_node_state g'
     = (if decide (type pkt = WD_REJECT_MESSAGE)
        then WD_PARTICIPATE_IN_ELECTION else WD_JOINING)
  /\ load_command (cmd_addr cmd) g' = None.
Proof.
  intros Hs Hnd Hget Hload Hst Hcty Hfind Hty.
  destruct (candidate_refused node pkt now e g cmd slots j
              Hs Hnd Hget Hload Hst Hcty Hfind Hty) as (g' & Hrun & Hstate & Hgone).
  rewrite Hrun. split; [reflexivity|]. split; [exact Hstate|exact Hgone].
Qed.

End RejectedCandidate.

(** ** Commands on the IPC socket *)

Section IPCCommands.

Variable pool_config : POOL_CONFIG.
Variable D : wd_ipc_defines.
Variable J : ipc_externals.

(** X14.  A frame on the IPC socket whose type is none of the handled
    command types is refused: the client is sent a BAD result whose data
    is the JSON document of the error text "unknown IPC command type"
    with its terminating NUL, whether or not authentication is switched
    on, and nothing is queued. *)
Theorem unknown_ipc_command_refused sock ty payload now g :
  ty ∉ ipc_handled_types D ->
  0 < sock ->
  read_ipc_socket_and_process pool_config D J sock ty payload now g
  = ipc_bad_reply D J sock "unknown IPC command type" g.
Proof.
  intros Hty Hsock.
  unfold read_ipc_socket_and_process, process_IPC_command,
    check_and_report_IPC_authentication.
  cbn [sourcePacket type].
  rewrite decide_False.
  2:{ intros Hin. apply Hty. unfold ipc_handled_types.
      repeat (apply elem_of_cons in Hin as [->|Hin]);
        [| | | |apply elem_of_nil in Hin; contradiction];
        repeat first [apply list_elem_of_here | apply list_elem_of_further]. }
  rewrite decide_False.
  2:{ intros Hin. apply Hty. unfold ipc_handled_types.
      repeat (apply elem_of_cons in Hin as [->|Hin]);
        [| | |apply elem_of_nil in Hin; contradiction];
        repeat first [apply list_elem_of_here | apply list_elem_of_further]. }
  cbn [sourcePacket type]. rewrite decide_False by exact Hty.
  cbn [errorMessage with_errorMessage fmap option_fmap option_map].
  unfold write_ipc_command_with_result_data, ipc_bad_reply. simpl.
  rewrite decide_False; [reflexivity|]. intros [H|H]; [congruence|lia].
Qed.

(** X15.  The four commands open to external clients (node status
    change, register for notification, get nodes list, get runtime
    variable) reach their handler without any check when authentication
    is not needed.  When it is needed and the payload is a JSON object
    without a shared key, the handler runs exactly when the payload
    carries an auth key equal to [wd_authkey].  When the payload carries
    a shared key and the shared key of this pgpool-II instance is
    initialized, the handler runs exactly when the two keys are equal or
    the payload carries an auth key equal to [wd_authkey].  In both cases
    a command that is not let through fails with "authentication failed:
    invalid KEY".  When the payload carries a shared key and the shared
    key of the instance is not initialized, the check reads through the
    NULL pointer that [get_ipc_shared_key] returned: the run has no
    defined result. *)
Theorem external_command_authentication sock ty payload now g :
  ty ∈ [ WD_NODE_STATUS_CHANGE_COMMAND D; WD_REGISTER_FOR_NOTIFICATION D;
         WD_GET_NODES_LIST_COMMAND D; WD_GET_RUNTIME_VARIABLE_VALUE D ] ->
  let c := ipc_command_of_frame sock ty payload now g in
  let run := process_IPC_command pool_config D J c g in
  (ipc_auth_needed g = false -> run = Some (ipc_command_handler J ty c g))
  /\ (forall d root,
        ipc_auth_needed g = true ->
        payload = Some d -> (0 < String.length d)%nat ->
        json_parse J d = Some root -> json_is_object J root = true ->
        let auth_ok :=
          bool_decide (json_get_string_value_for_key J root (WD_IPC_AUTH_KEY D)
                       = Some (wd_authkey pool_config)) in
        let decided (ok : bool) :=
          Some (if ok then ipc_command_handler J ty c g
                else (IPC_CMD_ERROR,
                      with_errorMessage
                        (Some "authentication failed: invalid KEY"%string) c, g)) in
        match json_get_int_value_for_key J root (WD_IPC_SHARED_KEY D),
              get_ipc_shared_key J with
        | None, _ => run = decided auth_ok
        | Some pk, Some sk => run = decided (bool_decide (sk = pk mod 2 ^ 32) || auth_ok)
        | Some pk, None => run = None
        end).
Proof.
  intros Hty c run.
  assert (Hh : ty ∈ ipc_handled_types D).
  { unfold ipc_handled_types.
    repeat (apply elem_of_cons in Hty as [->|Hty]);
      [| | | |apply elem_of_nil in Hty; contradiction];
      repeat first [apply list_elem_of_here | apply list_elem_of_further]. }
  split.
  - intros Hna.
    unfold run, process_IPC_command, check_and_report_IPC_authentication.
    change (type (sourcePacket c)) with ty.
    rewrite decide_True by exact Hty.
    rewrite Hna. simpl negb. cbn [andb].
    change (type (sourcePacket c)) with ty.
    rewrite decide_True by exact Hh. reflexivity.
  - intros d root Ha -> Hlen Hparse Hobj auth_ok decided.
    unfold run, process_IPC_command, check_and_report_IPC_authentication.
    change (type (sourcePacket c)) with ty.
    rewrite decide_True by exact Hty.
    rewrite Ha. cbn [negb andb]. cbn [c ipc_command_of_frame sourcePacket data].
    rewrite decide_False by (unfold len; simpl; lia).
    rewrite Hparse, Hobj.
    unfold check_IPC_client_authentication. rewrite Ha. cbn [negb].
    assert (Hauth :
      match json_get_string_value_for_key J root (WD_IPC_AUTH_KEY D) with
      | Some packet_auth_key => bool_decide (wd_authkey pool_config = packet_auth_key)
      | None => false
      end = auth_ok).
    { unfold auth_ok.
      destruct (json_get_string_value_for_key J root (WD_IPC_AUTH_KEY D)) as [k|].
      - apply bool_decide_ext. split; [intros ->; reflexivity|intros [= ->]; reflexivity].
      - symmetry. apply bool_decide_eq_false_2. discriminate. }
    rewrite Hauth.
    assert (Hdecided : forall ok : bool,
      match (if ok then Some (true, ipc_command_of_frame sock ty (Some d) now g)
             else Some (false,
                        with_errorMessage
                          (Some "authentication failed: invalid KEY"%string)
                          (ipc_command_of_frame sock ty (Some d) now g))) with
      | Some (true, c0) =>
          if decide (type (sourcePacket c0) ∈ ipc_handled_types D)
          then Some (ipc_command_handler J (type (sourcePacket c0)) c0 g)
          else Some (IPC_CMD_ERROR,
                     with_errorMessage (Some "unknown IPC command type"%string) c0, g)
      | Some (false, c0) => Some (IPC_CMD_ERROR, c0, g)
      | None => None
      end = decided ok).
    { intros [|]; [|reflexivity].
      change (type (sourcePacket (ipc_command_of_frame sock ty (Some d) now g)))
        with ty.
      rewrite decide_True by exact Hh. reflexivity. }
    destruct (json_get_int_value_for_key J root (WD_IPC_SHARED_KEY D)) as [pk|];
      cbn [fmap option_fmap option_map].
    + destruct (get_ipc_shared_key J) as [sk|]; [|reflexivity].
      rewrite <- Hdecided.
      destruct (decide (sk = pk mod 2 ^ 32)) as [Heq|Hne].
      * rewrite (bool_decide_eq_true_2 _ Heq). reflexivity.
      * rewrite (bool_decide_eq_false_2 _ Hne). cbn [orb].
        destruct auth_ok; reflexivity.
    + rewrite <- Hdecided. destruct auth_ok; reflexivity.
Qed.

End IPCCommands.

(** ** Cluster service messages *)

Section ServiceMessages.

Variable X : wd_externals.
Variable pool_config : POOL_CONFIG.

(** Entering the joining state from another state forgets the master. *)
Lemma set_state_joining_forgets_master now e g :
  get_local_node_state g <> WD_JOINING ->
  let g' := set_state X pool_config now e WD_JOINING g in
  get_local_node_state g' = WD_JOINING /\ getMasterWatchdogNode g' = None.
Proof.
  intros Hne g'. unfold g', set_state.
  rewrite decide_True by exact Hne.
  set (g2 := with_localNode _ (with_localNode _ g)).
  set (g3 := if decide (get_local_node_state g = WD_COORDINATOR) then _ else g2).
  assert (Hs3 : get_local_node_state g3 = WD_JOINING).
  { unfold g3. case_decide; [|reflexivity].
    unfold clear_all_failovers, clear_standby_nodes_list, get_local_node_state.
    cbn [localNode with_wdCurrentFailovers with_localNode with_clusterMasterInfo
         state with_node_standby_nodes_count].
    destruct (keeps_local_resign_from_escalated_node e g2) as (Hst & _).
    rewrite Hst. reflexivity. }
  assert (Hin3 : get_local_node_state g3 ∈ election_states)
    by (rewrite Hs3; apply list_elem_of_here).
  pose proof (state_changed_frame X pool_config now g3 Hin3)
    as (Hl4 & _ & _ & _ & _ & _ & _ & _ & Hm4 & _).
  cbv zeta in Hl4, Hm4.
  set (g4 := watchdog_state_machine_state_changed X pool_config now g3) in *.
  clearbody g4 g3.
  pose proof (only_sends_send_message_of_type X pool_config None WD_INFO_MESSAGE None g4)
    as (Hl5 & _ & Hm5 & _).
  unfold get_local_node_state, getMasterWatchdogNode in *.
  rewrite Hl5, Hm5, Hl4. split; [exact Hs3|]. apply Hm4. exact Hs3.
Qed.

(** X16.  A well-formed cluster service message ends the process only
    when it says that this node's messages have an invalid version.  A
    message by which a node resigns as master or says that it is not the
    true master sends the receiver to the joining state exactly when the
    sender is the receiver's master, and is otherwise ignored; joining
    from another state forgets the master.  A message that asks for an
    election always sends the receiver to the joining state.  The claim
    to be the true master is ignored by a node that is not coordinator
    and has no master or has the sender as its master. *)
Theorem service_message_dispatch node pkt m now e g :
  type pkt = WD_CLUSTER_SERVICE_MESSAGE ->
  data pkt = Some (String m EmptyString) ->
  let r := cluster_service_message_processor X pool_config node pkt now e g in
  (r = None <-> m = CLUSTER_NODE_INVALID_VERSION)
  /\ (m = CLUSTER_IAM_RESIGNING_FROM_MASTER \/ m = CLUSTER_IAM_NOT_TRUE_MASTER ->
      (getMasterWatchdogNode g <> Some node -> r = Some g)
      /\ (getMasterWatchdogNode g = Some node ->
          exists g', r = Some g' /\ get_local_node_state g' = WD_JOINING
                     /\ (get_local_node_state g <> WD_JOINING ->
                         getMasterWatchdogNode g' = None)))
  /\ (m = CLUSTER_NEEDS_ELECTION ->
      exists g', r = Some g' /\ get_local_node_state g' = WD_JOINING)
  /\ (m = CLUSTER_IAM_TRUE_MASTER ->
      get_local_node_state g <> WD_COORDINATOR ->
      getMasterWatchdogNode g = None \/ getMasterWatchdogNode g = Some node ->
      r = Some g).
Proof.
  intros Hty Hd r.
  assert (Hjoin : forall h, exists g',
            Some (set_state X pool_config now e WD_JOINING h) = Some g'
            /\ get_local_node_state g' = WD_JOINING
            /\ (get_local_node_state h <> WD_JOINING ->
                getMasterWatchdogNode g' = None)).
  { intros h. eexists. split; [reflexivity|].
    destruct (decide (get_local_node_state h = WD_JOINING)) as [Hj|Hj].
    - split; [|contradiction]. unfold set_state. rewrite Hj.
      rewrite decide_False by auto. reflexivity.
    - destruct (set_state_joining_forgets_master now e h Hj) as (H1 & H2).
      split; [exact H1|]. intros _. exact H2. }
  unfold r, cluster_service_message_processor.
  rewrite decide_False by (intros H; apply H; exact Hty). rewrite Hd.
  split; [|split; [|split]].
  - split.
    + intros H. repeat case_decide; try discriminate. assumption.
    + intros ->. repeat (rewrite decide_False by discriminate).
      rewrite decide_True by reflexivity. reflexivity.
  - intros [-> | ->].
    + rewrite decide_False by discriminate. rewrite decide_True by reflexivity.
      split.
      * intros Hm. rewrite decide_False by exact Hm. reflexivity.
      * intros Hm. rewrite decide_True by exact Hm.
        destruct (Hjoin g) as (g' & Hg' & H1 & H2). exists g'. auto.
    + repeat (rewrite decide_False by discriminate).
      rewrite decide_True by reflexivity.
      split.
      * intros Hm. rewrite decide_False by exact Hm. reflexivity.
      * intros Hm. rewrite decide_True by exact Hm.
        destruct (Hjoin g) as (g' & Hg' & H1 & H2). exists g'. auto.
  - intros ->. repeat (rewrite decide_False by discriminate).
    rewrite decide_True by reflexivity.
    destruct (Hjoin g) as (g' & Hg' & H1 & _). exists g'. auto.
  - intros -> Hs Hm. rewrite decide_True by reflexivity.
    rewrite decide_False by exact Hs.
    rewrite decide_False; [reflexivity|]. intros [H1 H2]. destruct Hm; contradiction.
Qed.

End ServiceMessages.

Section SplitBrainResolved.

Variables XA XB : wd_externals.
Variables cfgA cfgB : POOL_CONFIG.

(** X17.  The two sides of a split brain.  When coordinator A decides, on
    the beacon of the coordinator it knows as its remote node [i], that
    it stays master, all it does is to send that node the claim to be the
    true master, as a reply to the beacon.  Coordinator B, which receives
    this claim from the node it knows as [j], broadcasts that it resigns
    from master and goes to the joining state: it forgets its master, is
    no longer escalated, and has dropped its failover proposals and its
    standby list. *)
Theorem split_brain_loser_resigns i beacon nowA eA gA viewB j nowB eB gB :
  remoteNodes gA !! i = Some viewB ->
  I_am_master_and_cluser_in_split_brain viewB gA = 1 ->
  get_local_node_state gB = WD_COORDINATOR ->
  let claim := {| type := WD_CLUSTER_SERVICE_MESSAGE; command_id := command_id beacon;
                  data := Some (String CLUSTER_IAM_TRUE_MASTER EmptyString) |} in
  handle_split_brain XA cfgA i beacon nowA eA gA
  = log_action (act_send_message (Some (RemoteNode i)) claim) gA
  /\ exists gB',
       cluster_service_message_processor XB cfgB (RemoteNode j) claim nowB eB gB
       = Some gB'
       /\ get_local_node_state gB' = WD_JOINING
       /\ getMasterWatchdogNode gB' = None
       /\ escalated (localNode gB') = false
       /\ wdCurrentFailovers gB' = []
       /\ standby_nodes_count (clusterMasterInfo gB') = 0
       /\ exists tr,
            trace gB' = trace gB
                        ++ service_message None CLUSTER_IAM_RESIGNING_FROM_MASTER claim
                        :: tr.
Proof.
  intros Hi Hdec HB claim. split.
  - unfold handle_split_brain. rewrite Hi, Hdec.
    rewrite decide_False by discriminate. rewrite decide_False by discriminate.
    reflexivity.
  - unfold cluster_service_message_processor.
    rewrite decide_False by (intros H; apply H; reflexivity).
    cbn [data claim]. rewrite decide_True by reflexivity.
    rewrite decide_True by exact HB.
    eexists. split; [reflexivity|].
    set (g1 := send_cluster_service_message None (Some claim)
                 CLUSTER_IAM_RESIGNING_FROM_MASTER gB).
    assert (Hs1 : get_local_node_state g1 = WD_COORDINATOR) by exact HB.
    assert (Hin : WD_JOINING ∈ election_states) by apply list_elem_of_here.
    pose proof (leaving_coordinator XB cfgB nowB eB WD_JOINING g1 Hs1 Hin)
      as (H1 & _ & H3 & _ & H5 & H6 & _ & _ & H9).
    cbv zeta in *.
    split; [exact H1|]. split; [exact (H9 eq_refl)|]. split; [exact H3|].
    split; [exact H5|]. split; [exact H6|].
    destruct (set_state_joining XB cfgB nowB eB g1) as (_ & _ & [tr Htr] & _).
    { rewrite Hs1. discriminate. }
    exists tr. rewrite Htr. unfold g1. simpl. rewrite <- app_assoc. reflexivity.
Qed.

End SplitBrainResolved.

(** ** The election: joining, initializing and voting nodes *)

Section ElectionStates.

Variable X : wd_externals.
Variable pool_config : POOL_CONFIG.

(** A node that enters the candidate state from another state that is
    not the coordinator state queues its candidacy. *)
Lemma set_state_stand_for_coordinator now e g :
  get_local_node_state g <> WD_STAND_FOR_COORDINATOR ->
  get_local_node_state g <> WD_COORDINATOR ->
  let g' := set_state X pool_config now e WD_STAND_FOR_COORDINATOR g in
  get_local_node_state g' = WD_STAND_FOR_COORDINATOR
  /\ trace g `prefix_of` trace g'
  /\ exists c,
       clusterCommands g' = clusterCommands g ++ [c]
       /\ type (commandPacket c) = WD_STAND_FOR_COORDINATOR_MESSAGE
       /\ command_id (commandPacket c) = (nextCommandID g + 1) mod 2 ^ 32
       /\ commandStatus c = COMMAND_IN_PROGRESS.
Proof.
  intros Hne Hnc g'. unfold g', set_state.
  rewrite decide_True by exact Hne. rewrite decide_False by exact Hnc.
  set (g2 := with_localNode _ (with_localNode _ g)).
  unfold watchdog_state_machine_state_changed.
  change (get_local_node_state g2) with WD_STAND_FOR_COORDINATOR. cbv beta iota.
  unfold watchdog_state_machine_standForCord_state_changed.
  unfold send_cluster_command, get_message_of_type.
  rewrite decide_False by discriminate. rewrite decide_False by discriminate.
  rewrite decide_False by discriminate.
  rewrite decide_True
    by (unfold minimum_message_types;
        repeat first [apply list_elem_of_here | apply list_elem_of_further]).
  unfold get_minimum_message. cbn [reply_commandID get_next_commandID].
  unfold issue_watchdog_internal_command.
  set (g4 := with_nextCommandID _ g2).
  destruct (issue_to_all X _ (remoteNodes g4) (allocate_resultNodes g4) 0)
    as [[[rs cnt] save] tr].
  cbn [snd].
  unfold send_message_of_type, get_message_of_type.
  rewrite decide_True by reflexivity.
  unfold get_mynode_info_message, get_local_node_state. simpl.
  split; [reflexivity|]. split.
  - eexists. rewrite <- app_assoc. reflexivity.
  - eexists. split; [reflexivity|]. simpl. auto.
Qed.

Lemma set_state_voting now e g :
  get_local_node_state g <> WD_PARTICIPATE_IN_ELECTION ->
  get_local_node_state g <> WD_COORDINATOR ->
  let g' := set_state X pool_config now e WD_PARTICIPATE_IN_ELECTION g in
  get_local_node_state g' = WD_PARTICIPATE_IN_ELECTION
  /\ trace g `prefix_of` trace g'
  /\ clusterCommands g' = clusterCommands g.
Proof.
  intros Hne Hnc g'. unfold g', set_state.
  rewrite decide_True by exact Hne. rewrite decide_False by exact Hnc.
  set (g2 := with_localNode _ (with_localNode _ g)).
  unfold watchdog_state_machine_state_changed.
  change (get_local_node_state g2) with WD_PARTICIPATE_IN_ELECTION. cbv beta iota.
  unfold watchdog_state_machine_voting_state_changed.
  unfold send_message_of_type, get_message_of_type.
  rewrite decide_True by reflexivity.
  unfold get_mynode_info_message, get_local_node_state. simpl.
  split; [reflexivity|]. split; [|reflexivity].
  eexists. reflexivity.
Qed.

(** X18.  A joining or voting node answers the candidacy of a remote
    node by priority.  To a candidate of lower priority it replies with a
    reject, under the command id of the candidacy, and stands for
    coordinator itself, queueing its own candidacy.  To a candidate of
    equal or higher priority it replies with an accept: a joining node
    then becomes a voter, and a voting node does nothing else at all. *)
Theorem candidacy_answered_by_priority i pkt now e g sender :
  remoteNodes g !! i = Some sender ->
  type pkt = WD_STAND_FOR_COORDINATOR_MESSAGE ->
  (get_local_node_state g = WD_JOINING ->
   exists g', watchdog_state_machine_joining_packet_rcv X pool_config i pkt now e g
              = Some g'
     /\ (wd_priority sender < wd_priority (localNode g) ->
         stands_against i pkt g g')
     /\ (wd_priority (localNode g) <= wd_priority sender -> votes_for i pkt g g'))
  /\ (get_local_node_state g = WD_PARTICIPATE_IN_ELECTION ->
      let g' := watchdog_state_machine_voting_packet_rcv X pool_config i (Some pkt)
                  now e g in
      (wd_priority sender < wd_priority (localNode g) ->
       stands_against i pkt g g')
      /\ (wd_priority (localNode g) <= wd_priority sender ->
          g' = log_action (candidacy_reply i pkt WD_ACCEPT_MESSAGE) g)).
Proof.
  intros Hi Hty.
  assert (Htake : get_local_node_state g <> WD_STAND_FOR_COORDINATOR ->
            get_local_node_state g <> WD_COORDINATOR ->
            stands_against i pkt g (set_state X pool_config now e WD_STAND_FOR_COORDINATOR
                          (reply_with_minimal_message (Some (RemoteNode i))
                             WD_REJECT_MESSAGE (Some pkt) g))).
  { intros H1 H2.
    set (g1 := reply_with_minimal_message _ _ _ g).
    destruct (set_state_stand_for_coordinator now e g1 H1 H2)
      as (Hs & [tr Htr] & c & Hc & Hcty & _ & Hcst).
    split; [exact Hs|]. split.
    - exists tr. rewrite Htr. unfold g1. simpl. rewrite <- app_assoc. reflexivity.
    - exists c. auto. }
  split.
  - intros Hs. unfold watchdog_state_machine_joining_packet_rcv. rewrite Hi.
    rewrite decide_False by (rewrite Hty; discriminate).
    rewrite decide_True by exact Hty.
    destruct (decide (wd_priority sender < wd_priority (localNode g))) as [Hlt|Hge].
    + eexists. split; [reflexivity|]. split; [|intros; lia].
      intros _. apply Htake; rewrite Hs; discriminate.
    + eexists. split; [reflexivity|]. split; [intros; lia|]. intros _.
      set (g1 := reply_with_minimal_message _ _ _ g).
      destruct (set_state_voting now e g1) as (Hs' & [tr Htr] & Hc).
      { change (get_local_node_state g1) with (get_local_node_state g).
        rewrite Hs. discriminate. }
      { change (get_local_node_state g1) with (get_local_node_state g).
        rewrite Hs. discriminate. }
      split; [exact Hs'|]. split; [|exact Hc].
      exists tr. rewrite Htr. unfold g1. simpl. rewrite <- app_assoc. reflexivity.
  - intros Hs g'. unfold g', watchdog_state_machine_voting_packet_rcv. rewrite Hi.
    rewrite decide_True by exact Hty.
    destruct (decide (wd_priority (localNode g) <= wd_priority sender)) as [Hle|Hgt].
    + split; [intros; lia|]. intros _. reflexivity.
    + split; [|intros; lia]. intros _.
      apply Htake; rewrite Hs; discriminate.
Qed.

(** A command for all nodes reaches none when no node is active. *)
Lemma issue_to_all_inactive pkt nodes slots i :
  (forall k nd, (i <= k < i + length slots)%nat -> nodes !! k = Some nd ->
                is_node_active nd = false) ->
  let '(rs, cnt, save, tr) := issue_to_all X pkt nodes slots i in
  cnt = 0 /\ save = false /\ tr = [].
Proof.
  revert i. induction slots as [|r rest IH]; intros i H; simpl; [auto|].
  specialize (IH (S i)).
  destruct (issue_to_all X pkt nodes rest (S i)) as [[[rs cnt] save] tr].
  destruct IH as (-> & -> & ->).
  { intros k nd Hk. apply H. simpl. lia. }
  destruct (nodes !! i) as [n|] eqn:Hn; [|auto].
  rewrite (H i n) by (simpl; lia || exact Hn). auto.
Qed.

(** X19.  What a node without a known master does when the
    initializing state times out.  If no remote node is alive it becomes
    coordinator at once, takes the configured priority, and its
    declaration is sent to no one.  Otherwise, if some remote node is
    standing for coordinator it becomes a voter and queues no command; if
    none is, it stands for coordinator and queues its candidacy. *)
Theorem initializing_timeout_starts_election now e g :
  get_local_node_state g = WD_INITIALIZING ->
  getMasterWatchdogNode g = None ->
  let g' := watchdog_state_machine_initializing_timeout X pool_config now e g in
  let candidates :=
    filter (fun n => state n = WD_STAND_FOR_COORDINATOR)
      (take (Z.to_nat (remoteNodeCount g)) (remoteNodes g)) in
  (get_cluster_node_count g = 0 ->
   get_local_node_state g' = WD_COORDINATOR
   /\ wd_priority (localNode g') = cfg_wd_priority pool_config
   /\ exists c, clusterCommands g' = clusterCommands g ++ [c]
                /\ type (commandPacket c) = WD_DECLARE_COORDINATOR_MESSAGE
                /\ commandStatus c = COMMAND_IN_PROGRESS
                /\ commandSendToCount c = 0)
  /\ (get_cluster_node_count g <> 0 -> candidates <> [] ->
      get_local_node_state g' = WD_PARTICIPATE_IN_ELECTION
      /\ clusterCommands g' = clusterCommands g)
  /\ (get_cluster_node_count g <> 0 -> candidates = [] ->
      get_local_node_state g' = WD_STAND_FOR_COORDINATOR
      /\ exists c, clusterCommands g' = clusterCommands g ++ [c]
                   /\ type (commandPacket c) = WD_STAND_FOR_COORDINATOR_MESSAGE
                   /\ commandStatus c = COMMAND_IN_PROGRESS).
Proof.
  intros Hs Hm g' candidates.
  unfold g', watchdog_state_machine_initializing_timeout.
  rewrite decide_False by (rewrite Hm; auto).
  assert (Hex : existsb (fun n => bool_decide (state n = WD_STAND_FOR_COORDINATOR))
                  (take (Z.to_nat (remoteNodeCount g)) (remoteNodes g))
                = bool_decide (candidates <> [])).
  { unfold candidates.
    induction (take (Z.to_nat (remoteNodeCount g)) (remoteNodes g)) as [|n l IH];
      [reflexivity|].
    simpl. destruct (decide (state n = WD_STAND_FOR_COORDINATOR)) as [Hn|Hn].
    - rewrite (bool_decide_eq_true_2 _ Hn), filter_cons_True by exact Hn. reflexivity.
    - rewrite (bool_decide_eq_false_2 _ Hn), filter_cons_False by exact Hn.
      exact IH. }
  split; [|split].
  - intros Hcount. rewrite decide_True by exact Hcount.
    unfold set_state. rewrite Hs.
    rewrite decide_True by discriminate. rewrite decide_False by discriminate.
    set (g2 := with_localNode _ (with_localNode _ g)).
    unfold watchdog_state_machine_state_changed.
    change (get_local_node_state g2) with WD_COORDINATOR. cbv beta iota.
    unfold watchdog_state_machine_coordinator_state_changed.
    unfold send_cluster_command, get_message_of_type.
    rewrite decide_False by discriminate. rewrite decide_False by discriminate.
    rewrite decide_False by discriminate.
    rewrite decide_True
      by (unfold minimum_message_types;
          repeat first [apply list_elem_of_here | apply list_elem_of_further]).
    unfold get_minimum_message. cbn [reply_commandID get_next_commandID].
    unfold issue_watchdog_internal_command.
    set (g4 := with_nextCommandID _ g2).
    set (pkt := {| type := WD_DECLARE_COORDINATOR_MESSAGE; command_id := _;
                   data := None |}).
    pose proof (issue_to_all_inactive pkt (remoteNodes g4) (allocate_resultNodes g4) 0)
      as Hall.
    destruct (issue_to_all X pkt (remoteNodes g4) (allocate_resultNodes g4) 0)
      as [[[rs cnt] save] tr].
    destruct Hall as (-> & -> & ->).
    { intros k nd Hk Hnd. unfold allocate_resultNodes in Hk.
      rewrite length_map, length_seq in Hk.
      change (remoteNodeCount g4) with (remoteNodeCount g) in Hk.
      change (remoteNodes g4) with (remoteNodes g) in Hnd.
      unfold get_cluster_node_count in Hcount.
      assert (Hnil : filter (fun n => is_node_active n = true)
                       (take (Z.to_nat (remoteNodeCount g)) (remoteNodes g)) = []).
      { apply length_zero_iff_nil. lia. }
      destruct (is_node_active nd) eqn:Hact; [|reflexivity]. exfalso.
      assert (Hin : nd ∈ filter (fun n => is_node_active n = true)
                          (take (Z.to_nat (remoteNodeCount g)) (remoteNodes g))).
      { apply list_elem_of_filter. split; [exact Hact|].
        apply list_elem_of_lookup. exists k. rewrite lookup_take_lt by lia. exact Hnd. }
      rewrite Hnil in Hin. apply elem_of_nil in Hin. exact Hin. }
    cbn [snd].
    unfold send_message_of_type, get_message_of_type.
    rewrite decide_True by reflexivity.
    unfold get_mynode_info_message, get_local_node_state. simpl.
    split; [reflexivity|]. split; [reflexivity|].
    eexists. split; [reflexivity|]. simpl. auto.
  - intros Hcount Hcand. rewrite decide_False by exact Hcount.
    rewrite Hex, bool_decide_eq_true_2 by exact Hcand.
    destruct (set_state_voting now e g) as (H1 & _ & H2).
    { rewrite Hs. discriminate. }
    { rewrite Hs. discriminate. }
    split; [exact H1|exact H2].
  - intros Hcount Hcand. rewrite decide_False by exact Hcount.
    rewrite Hex, bool_decide_eq_false_2 by (intros H; apply H; exact Hcand).
    destruct (set_state_stand_for_coordinator now e g)
      as (H1 & _ & c & Hc & Hty & _ & Hst).
    { rewrite Hs. discriminate. }
    { rewrite Hs. discriminate. }
    split; [exact H1|]. exists c. auto.
Qed.

(** The quorum check of a coordinator that is not the accepted master
    only stores the status. *)
Lemma update_quorum_status_not_master e g :
  get_local_node_state g = WD_COORDINATOR ->
  getMasterWatchdogNode g <> Some LocalNode ->
  let g1 := update_quorum_status X pool_config e g in
  g1 = with_localNode (with_node_quorum_status (quorum_status g1) (localNode g))
         (with_quorum_status (quorum_status g1) g).
Proof.
  intros Hs Hm. unfold update_quorum_status.
  set (q := if decide (_ < _) then 1 else _).
  set (g1 := with_localNode _ (with_quorum_status q g)).
  assert (H : watchdog_state_machine_quorum_changed X pool_config e g1 = g1).
  { unfold watchdog_state_machine_quorum_changed.
    change (get_local_node_state g1) with (get_local_node_state g). rewrite Hs.
    unfold watchdog_state_machine_coordinator_quorum_changed.
    rewrite decide_False by exact Hm. reflexivity. }
  case_decide; [rewrite H|]; reflexivity.
Qed.

(** X20.  A coordinator that is not yet the accepted master and not
    escalated, whose declaration has been answered by all nodes or has
    timed out, becomes the master and raises the state-change interrupt.
    It escalates only with a quorum: when the quorum status it computes is
    -1 no helper is forked and the node stays as it is; otherwise the
    escalation helper is forked and the node is escalated when the fork
    succeeds.  When the declaration ended in any other way (a node
    rejected it) the node goes back to the joining state. *)
Theorem new_coordinator_escalates_only_with_quorum node cmd now e g :
  get_local_node_state g = WD_COORDINATOR ->
  getMasterWatchdogNode g <> Some LocalNode ->
  escalated (localNode g) = false ->
  type (commandPacket cmd) = WD_DECLARE_COORDINATOR_MESSAGE ->
  let g' := watchdog_state_machine_coordinator_command_finished X pool_config
              node cmd now e g in
  let q := quorum_status (update_quorum_status X pool_config e g) in
  (commandStatus cmd = COMMAND_FINISHED_ALL_REPLIED
   \/ commandStatus cmd = COMMAND_FINISHED_TIMEOUT ->
   getMasterWatchdogNode g' = Some LocalNode
   /\ get_local_node_state g' = WD_COORDINATOR
   /\ quorum_status g' = q
   /\ (q = -1 ->
       escalated (localNode g') = false
       /\ holding_vip (clusterMasterInfo g') = holding_vip (clusterMasterInfo g)
       /\ escalation_pid g' = escalation_pid g
       /\ trace g' = trace g ++ [act_register_watchdog_state_change_interupt])
   /\ (q <> -1 ->
       escalation_pid g' = fork_pid e
       /\ escalated (localNode g') = bool_decide (0 < fork_pid e)
       /\ trace g' = trace g
                     ++ [act_register_watchdog_state_change_interupt;
                         act_fork_escalation_process (fork_pid e)]
                     ++ (if decide (0 < fork_pid e)
                         then [act_set_watchdog_node_escalated] else [])))
  /\ (commandStatus cmd <> COMMAND_FINISHED_ALL_REPLIED ->
      commandStatus cmd <> COMMAND_FINISHED_TIMEOUT ->
      get_local_node_state g' = WD_JOINING
      /\ getMasterWatchdogNode g' = None
      /\ escalated (localNode g') = false).
Proof.
  intros Hs Hm He Hty g' q.
  unfold g', watchdog_state_machine_coordinator_command_finished.
  rewrite decide_True by exact Hty.
  split.
  - intros Hst. rewrite decide_True by exact Hst.
    pose proof (update_quorum_status_not_master e g Hs Hm) as Hg1. cbv zeta in Hg1.
    fold q in Hg1.
    set (g1 := update_quorum_status X pool_config e g) in *.
    assert (Hde : de_escalation_pid g1 = de_escalation_pid g) by (rewrite Hg1; reflexivity).
    set (g3 := log_action act_register_watchdog_state_change_interupt
                 (set_cluster_master_node (Some LocalNode) g1)).
    assert (H3 : getMasterWatchdogNode g3 = Some LocalNode
                 /\ get_local_node_state g3 = WD_COORDINATOR
                 /\ quorum_status g3 = q
                 /\ escalated (localNode g3) = false
                 /\ holding_vip (clusterMasterInfo g3)
                    = holding_vip (clusterMasterInfo g)
                 /\ escalation_pid g3 = escalation_pid g
                 /\ trace g3 = trace g ++ [act_register_watchdog_state_change_interupt]).
    { unfold g3. rewrite Hg1. simpl. repeat split; try reflexivity; assumption. }
    destruct H3 as (Hm3 & Hs3 & Hq3 & He3 & Hv3 & Hp3 & Ht3).
    rewrite Hq3.
    destruct (decide (q = -1)) as [Hq|Hq].
    + split; [exact Hm3|]. split; [exact Hs3|]. split; [exact Hq3|].
      split; [|intros; contradiction]. intros _. auto.
    + assert (Hstart :
        getMasterWatchdogNode (start_escalated_node e g3) = Some LocalNode
        /\ get_local_node_state (start_escalated_node e g3) = WD_COORDINATOR
        /\ quorum_status (start_escalated_node e g3) = q
        /\ escalation_pid (start_escalated_node e g3) = fork_pid e
        /\ escalated (localNode (start_escalated_node e g3))
           = bool_decide (0 < fork_pid e)
        /\ trace (start_escalated_node e g3)
           = trace g3 ++ [act_fork_escalation_process (fork_pid e)]
             ++ (if decide (0 < fork_pid e)
                 then [act_set_watchdog_node_escalated] else [])).
      { pose proof (start_escalated_node_frame e g3) as (Hq4 & _ & Hs4 & _ & _ & Hm4 & _).
        cbv zeta in Hq4, Hs4, Hm4.
        unfold getMasterWatchdogNode, get_local_node_state in *.
        rewrite Hm4, Hs4, Hq4.
        split; [exact Hm3|]. split; [exact Hs3|]. split; [exact Hq3|].
        unfold start_escalated_node. rewrite He3.
        pose proof (wait_de_escalation_exit_frame MAX_SECS_ESC_PROC_EXIT_WAIT
                      (sigchld e) g3) as (Hl & Ht & _).
        set (h := wait_de_escalation_exit _ _ g3) in *. clearbody h.
        cbn [escalation_pid with_escalation_pid].
        destruct (decide (0 < fork_pid e)) as [Hpid|Hpid].
        - rewrite (bool_decide_eq_true_2 _ Hpid).
          case_decide; simpl; rewrite Ht, <- app_assoc; repeat split; reflexivity.
        - rewrite (bool_decide_eq_false_2 _ Hpid). simpl.
          rewrite Hl, Ht, He3. repeat split; reflexivity. }
      destruct Hstart as (H1 & H2 & H3 & H4 & H5 & H6).
      split; [exact H1|]. split; [exact H2|]. split; [exact H3|].
      split; [intros; contradiction|]. intros _.
      split; [exact H4|]. split; [exact H5|]. rewrite H6, Ht3, <- app_assoc.
      reflexivity.
  - intros H1 H2. rewrite decide_False by (intros [H|H]; contradiction).
    assert (Hin : WD_JOINING ∈ election_states) by apply list_elem_of_here.
    pose proof (leaving_coordinator X pool_config now e WD_JOINING g Hs Hin)
      as (Hs' & _ & He' & _ & _ & _ & _ & _ & Hm').
    cbv zeta in *. split; [exact Hs'|]. split; [exact (Hm' eq_refl)|exact He'].
Qed.

End ElectionStates.

Section Takeover.

Variables XV XC : wd_externals.
Variables cfgV cfgC : POOL_CONFIG.

(** X21.  A candidacy moves to the node of higher priority.  The voter
    V receives the candidacy of C, whose priority it holds to be lower
    than its own; the reply that V sends ends C's candidacy when C, still
    a candidate with that command in progress, processes it.  Afterwards
    V stands for coordinator and C participates in the election. *)
Theorem candidacy_moves_to_higher_priority
    i pkt nowV eV gV sender j nowC eC gC cmd slots k :
  get_local_node_state gV = WD_PARTICIPATE_IN_ELECTION ->
  remoteNodes gV !! i = Some sender ->
  wd_priority sender < wd_priority (localNode gV) ->
  type pkt = WD_STAND_FOR_COORDINATOR_MESSAGE ->
  command_id pkt = command_id (commandPacket cmd) ->
  get_local_node_state gC = WD_STAND_FOR_COORDINATOR ->
  NoDup (cmd_addr <$> clusterCommands gC) ->
  get_wd_cluster_command_from_reply pkt gC = Some cmd ->
  load_command (cmd_addr cmd) gC = Some cmd ->
  commandStatus cmd = COMMAND_IN_PROGRESS ->
  type (commandPacket cmd) = WD_STAND_FOR_COORDINATOR_MESSAGE ->
  find_node_result (RemoteNode j) (Z.to_nat (remoteNodeCount gC)) (nodeResults cmd) 0
    = (slots, Some k) ->
  let gV' := watchdog_state_machine_voting_packet_rcv XV cfgV i (Some pkt) nowV eV gV in
  exists reply tr gC',
    trace gV' = trace gV ++ act_send_message (Some (RemoteNode i)) reply :: tr
    /\ get_local_node_state gV' = WD_STAND_FOR_COORDINATOR
    /\ watchdog_internal_command_packet_processor XC cfgC (RemoteNode j) reply
         nowC eC gC = (true, gC')
    /\ get_local_node_state gC' = WD_PARTICIPATE_IN_ELECTION
    /\ load_command (cmd_addr cmd) gC' = None.
Proof.
  intros HsV Hi Hlt Hty Hid HsC Hnd Hget Hload Hst Hcty Hfind gV'.
  set (reply := {| type := WD_REJECT_MESSAGE; command_id := command_id pkt;
                   data := None |}).
  assert (HV : get_local_node_state gV' = WD_STAND_FOR_COORDINATOR
               /\ exists tr, trace gV'
                    = trace gV ++ act_send_message (Some (RemoteNode i)) reply :: tr).
  { unfold gV', watchdog_state_machine_voting_packet_rcv. rewrite Hi.
    rewrite decide_True by exact Hty. rewrite decide_False by lia.
    set (g1 := reply_with_minimal_message _ _ _ gV).
    destruct (set_state_stand_for_coordinator XV cfgV nowV eV g1)
      as (Hs & [tr Htr] & _).
    { change (get_local_node_state g1) with (get_local_node_state gV).
      rewrite HsV. discriminate. }
    { change (get_local_node_state g1) with (get_local_node_state gV).
      rewrite HsV. discriminate. }
    split; [exact Hs|]. exists tr. rewrite Htr. unfold g1. simpl.
    rewrite <- app_assoc. reflexivity. }
  destruct HV as (HsV' & tr & Htr).
  assert (Hget' : get_wd_cluster_command_from_reply reply gC = Some cmd) by exact Hget.
  destruct (candidate_refused XC cfgC (RemoteNode j) reply nowC eC gC cmd slots k
              HsC Hnd Hget' Hload Hst Hcty Hfind (or_introl eq_refl))
    as (gC' & Hrun & HsC' & Hgone).
  exists reply, tr, gC'. split; [exact Htr|]. split; [exact HsV'|].
  split; [exact Hrun|]. split; [exact HsC'|exact Hgone].
Qed.

End Takeover.

(** ** Failover commands *)

Section FailoverCommandProperties.

Variable X : wd_externals.
Variable pool_config : POOL_CONFIG.
Variable D : wd_ipc_defines.
Variable J : ipc_externals.
Variable F : failover_externals.

Lemma only_sends_write_ipc_command_with_result_data c ty d g :
  only_sends g (write_ipc_command_with_result_data c ty d g).
Proof.
  unfold write_ipc_command_with_result_data.
  case_decide; [apply only_sends_refl|apply only_sends_log_action].
Qed.

Lemma only_sends_reply_to_failove_command c res id g :
  only_sends g (reply_to_failove_command D F c res id g).
Proof.
  unfold reply_to_failove_command. repeat case_decide.
  - apply only_sends_write_ipc_command_with_result_data.
  - apply only_sends_reply_with_message.
  - apply only_sends_refl.
Qed.

(** X22.  A node that is not coordinator returns an error for a
    failover command and neither replies nor changes; the coordinator
    always completes the command.  The main process is asked to run a
    failover only for a command of a remote node for which the consensus
    computation answered that it may proceed, and then once, for the
    backends of the command (the first of them for a failback or a
    promotion) and with the flags that the consensus computation handed
    back, marked as coming from the watchdog.  For a command that did not
    come from a remote node the main process is asked nothing. *)
Theorem failover_kicked_only_on_consensus c now e g r calls g' :
  process_failover_command_on_coordinator X pool_config D F c now e g
    = Some (r, calls, g') ->
  (get_local_node_state g <> WD_COORDINATOR ->
   r = IPC_CMD_ERROR /\ calls = [] /\ g' = g)
  /\ (get_local_node_state g = WD_COORDINATOR -> r = IPC_CMD_COMPLETE)
  /\ (commandSource c <> COMMAND_SOURCE_REMOTE -> calls = [])
  /\ (forall call, call ∈ calls -> is_failover_call call = true ->
      exists fn nl fl k node fl1 g1,
        parse_wd_node_function_json F (data (sourcePacket c)) = Some (fn, nl, fl)
        /\ failover_function_kind F fn = Some k
        /\ sourceWdNode c = Some node
        /\ compute_failover_consensus X pool_config k nl fl node now e g
           = (FAILOVER_RES_PROCEED, fl1, g1)
        /\ calls = [call]
        /\ call ∈ [ call_degenerate_backend_set nl (Z.lor fl1 REQ_DETAIL_WATCHDOG);
                    call_send_failback_request (hd 0 nl) false
                      (Z.lor fl1 REQ_DETAIL_WATCHDOG);
                    call_promote_backend (hd 0 nl) (Z.lor fl1 REQ_DETAIL_WATCHDOG) ]).
Proof.
  unfold process_failover_command_on_coordinator.
  destruct (decide (get_local_node_state g <> WD_COORDINATOR)) as [Hs|Hs].
  { intros [= <- <- <-]. split; [auto|]. split; [intros; contradiction|].
    split; [auto|]. intros call Hc. apply elem_of_nil in Hc. contradiction. }
  assert (Hs' : get_local_node_state g = WD_COORDINATOR)
    by (destruct (decide (get_local_node_state g = WD_COORDINATOR)); tauto).
  assert (Hnone : forall g0, Some (IPC_CMD_COMPLETE, @nil main_request, g0)
                             = Some (r, calls, g') ->
    (get_local_node_state g <> WD_COORDINATOR ->
     r = IPC_CMD_ERROR /\ calls = [] /\ g' = g)
    /\ (get_local_node_state g = WD_COORDINATOR -> r = IPC_CMD_COMPLETE)
    /\ (commandSource c <> COMMAND_SOURCE_REMOTE -> calls = [])
    /\ (forall call, call ∈ calls -> is_failover_call call = true ->
        exists fn nl fl k node fl1 g1,
          parse_wd_node_function_json F (data (sourcePacket c)) = Some (fn, nl, fl)
          /\ failover_function_kind F fn = Some k
          /\ sourceWdNode c = Some node
          /\ compute_failover_consensus X pool_config k nl fl node now e g
             = (FAILOVER_RES_PROCEED, fl1, g1)
          /\ calls = [call]
          /\ call ∈ [ call_degenerate_backend_set nl (Z.lor fl1 REQ_DETAIL_WATCHDOG);
                      call_send_failback_request (hd 0 nl) false
                        (Z.lor fl1 REQ_DETAIL_WATCHDOG);
                      call_promote_backend (hd 0 nl)
                        (Z.lor fl1 REQ_DETAIL_WATCHDOG) ])).
  { intros g0 [= <- <- <-]. split; [intros; contradiction|]. split; [auto|].
    split; [auto|]. intros call Hc. apply elem_of_nil in Hc. contradiction. }
  destruct (parse_wd_node_function_json F (data (sourcePacket c)))
    as [[[fn nl] fl]|] eqn:Hparse; [|apply Hnone].
  destruct (failover_function_kind F fn) as [k|] eqn:Hkind; [|apply Hnone].
  destruct (sourceWdNode c) as [node|] eqn:Hnode; [|discriminate].
  destruct (compute_failover_consensus X pool_config k nl fl node now e g)
    as [[res fl1] g1] eqn:Hcomp.
  destruct (decide (res = FAILOVER_RES_PROCEED)) as [->|Hres].
  - destruct (decide (commandSource c = COMMAND_SOURCE_REMOTE)) as [Hsrc|Hsrc];
      [|apply Hnone].
    destruct (kick_failover F k nl (Z.lor fl1 REQ_DETAIL_WATCHDOG))
      as [[ret kicked]|] eqn:Hkick; [|discriminate].
    intros [= <- <- <-]. split; [intros; contradiction|]. split; [auto|].
    split; [intros; contradiction|].
    intros call Hc _. exists fn, nl, fl, k, node, fl1, g1.
    split; [reflexivity|]. split; [exact Hkind|]. split; [reflexivity|].
    split; [exact Hcomp|].
    unfold kick_failover in Hkick.
    destruct k; try (injection Hkick as <- <-; apply elem_of_nil in Hc; contradiction).
    + destruct nl as [|n nl']; [discriminate|]. injection Hkick as <- <-.
      apply list_elem_of_singleton in Hc as ->. split; [reflexivity|].
      apply list_elem_of_further, list_elem_of_here.
    + injection Hkick as <- <-.
      apply list_elem_of_singleton in Hc as ->. split; [reflexivity|].
      apply list_elem_of_here.
    + destruct nl as [|n nl']; [discriminate|]. injection Hkick as <- <-.
      apply list_elem_of_singleton in Hc as ->. split; [reflexivity|].
      apply list_elem_of_further, list_elem_of_further, list_elem_of_here.
  - destruct (decide (res = FAILOVER_RES_BUILDING_CONSENSUS)) as [->|Hb].
    + intros [= <- <- <-]. split; [intros; contradiction|]. split; [auto|].
      split.
      * intros Hsrc. rewrite decide_False by exact Hsrc. reflexivity.
      * intros call Hc Hcall. case_decide.
        -- apply list_elem_of_singleton in Hc as ->. discriminate.
        -- apply elem_of_nil in Hc. contradiction.
    + apply Hnone.
Qed.

Lemma compute_failover_consensus_no_quorum k nl fl node now e g :
  failover_when_quorum_exists pool_config = true ->
  Z.land fl REQ_DETAIL_CONFIRMED = 0 ->
  quorum_status (update_quorum_status X pool_config e g) < 0 ->
  compute_failover_consensus X pool_config k nl fl node now e g
  = (FAILOVER_RES_NO_QUORUM, fl, update_quorum_status X pool_config e g).
Proof.
  intros Hq Hf Hlt. unfold compute_failover_consensus.
  rewrite decide_False by (rewrite Hq; discriminate).
  rewrite decide_False by (intros H; apply H; exact Hf).
  rewrite decide_True by exact Hlt. reflexivity.
Qed.

(** What the quorum check of a coordinator writes when the status it
    computes is -1: nothing when that was the status already or the node
    is not the accepted master; otherwise the de-escalation of an
    escalated node, the node info and the quorum-change interrupt. *)
Lemma update_quorum_status_lost e g :
  get_local_node_state g = WD_COORDINATOR ->
  quorum_status (update_quorum_status X pool_config e g) < 0 ->
  let g1 := update_quorum_status X pool_config e g in
  (quorum_status g = -1 \/ getMasterWatchdogNode g <> Some LocalNode ->
   trace g1 = trace g /\ escalated (localNode g1) = escalated (localNode g))
  /\ (quorum_status g <> -1 -> getMasterWatchdogNode g = Some LocalNode ->
      escalated (localNode g1) = false
      /\ exists pkt,
           type pkt = WD_INFO_MESSAGE
           /\ data pkt = Some (node_info_json X pool_config (localNode g1))
           /\ trace g1
              = trace g
                ++ (if escalated (localNode g)
                    then [act_fork_plunging_process (fork_pid e);
                          act_reset_watchdog_node_escalated]
                    else [])
                ++ [act_send_message None pkt;
                    act_register_watchdog_quorum_change_interupt]).
Proof.
  intros Hs. unfold update_quorum_status.
  set (q := if decide (_ < _) then 1 else _).
  set (g0 := with_localNode _ (with_quorum_status q g)).
  assert (Hs0 : get_local_node_state g0 = WD_COORDINATOR) by exact Hs.
  assert (Hq0 : quorum_status g0 = q) by reflexivity.
  assert (Hqv : q = 1 \/ q = 0 \/ q = -1).
  { unfold q. repeat case_decide; try destruct (enable_consensus_with_half_votes _);
      auto. }
  assert (Hchanged : quorum_status
                       (watchdog_state_machine_quorum_changed X pool_config e g0) = q).
  { unfold watchdog_state_machine_quorum_changed. rewrite Hs0.
    pose proof (coordinator_quorum_changed_frame X pool_config e g0) as (H & _).
    cbv zeta in H. rewrite H. exact Hq0. }
  destruct (decide (q <> quorum_status g)) as [Hch|Hsame].
  - rewrite Hchanged. intros Hlt. assert (Hq : q = -1) by lia.
    unfold watchdog_state_machine_quorum_changed. rewrite Hs0.
    unfold watchdog_state_machine_coordinator_quorum_changed.
    change (getMasterWatchdogNode g0) with (getMasterWatchdogNode g).
    split.
    + intros [Hold|Hm]; [exfalso; apply Hch; rewrite Hq, Hold; reflexivity|].
      rewrite decide_False by exact Hm. split; reflexivity.
    + intros _ Hm. rewrite decide_True by exact Hm.
      rewrite decide_True by (rewrite Hq0; exact Hq).
      set (g2 := resign_from_escalated_node e g0).
      assert (H2 : escalated (localNode g2) = false
                   /\ trace g2
                      = trace g
                        ++ (if escalated (localNode g)
                            then [act_fork_plunging_process (fork_pid e);
                                  act_reset_watchdog_node_escalated]
                            else [])).
      { unfold g2, resign_from_escalated_node.
        change (escalated (localNode g0)) with (escalated (localNode g)).
        destruct (escalated (localNode g)) eqn:Hesc.
        - pose proof (wait_escalation_exit_frame MAX_SECS_ESC_PROC_EXIT_WAIT
                        (sigchld e) g0) as (_ & Ht & _).
          cbv zeta in Ht. split; [reflexivity|].
          set (w := wait_escalation_exit _ _ g0) in *. clearbody w.
          unfold log_action; simpl. rewrite Ht.
          change (trace g0) with (trace g). rewrite <- app_assoc. reflexivity.
        - split; [exact Hesc|]. rewrite app_nil_r. reflexivity. }
      destruct H2 as (He2 & Ht2). clearbody g2.
      unfold send_message_of_type, get_message_of_type.
      rewrite decide_True by reflexivity.
      unfold get_mynode_info_message. cbn [reply_commandID get_next_commandID].
      cbn [send_message]. split; [exact He2|].
      eexists. split; [|split].
      3:{ unfold log_action; simpl. rewrite Ht2. rewrite <- !app_assoc. reflexivity. }
      all: reflexivity.
  - rewrite Hq0. intros Hlt. split; [intros _; split; reflexivity|].
    intros Hne _. exfalso. apply Hne.
    assert (Heq : q = quorum_status g)
      by (destruct (decide (q = quorum_status g)); tauto).
    lia.
Qed.

(** X23.  When failover needs the quorum, the command is not flagged as
    confirmed and the coordinator finds itself without quorum, a failover
    command is completed without any request to the main process and
    without a vote being recorded; the coordinator stays coordinator, and
    the last thing written is the reply that carries the no-quorum
    result: to the remote node under the command id of its request, or to
    the IPC client on its socket.  The reply is the only thing written
    when the quorum status was -1 already or the node is not the accepted
    master.  Otherwise the loss of the quorum is handled before the reply:
    an escalated master forks the de-escalation helper and is no longer
    escalated, the node info is broadcast and the quorum-change interrupt
    of the main process is raised. *)
Theorem failover_command_answered_no_quorum c now e g fn nl fl k node :
  get_local_node_state g = WD_COORDINATOR ->
  parse_wd_node_function_json F (data (sourcePacket c)) = Some (fn, nl, fl) ->
  failover_function_kind F fn = Some k ->
  sourceWdNode c = Some node ->
  failover_when_quorum_exists pool_config = true ->
  Z.land fl REQ_DETAIL_CONFIRMED = 0 ->
  quorum_status (update_quorum_status X pool_config e g) < 0 ->
  let reply := {| type := WD_CMD_REPLY_IN_DATA; command_id := command_id (sourcePacket c);
                  data := Some (failover_result_json F FAILOVER_RES_NO_QUORUM 0
                                ++ String "000" EmptyString)%string |} in
  exists g' before,
    process_failover_command_on_coordinator X pool_config D F c now e g
    = Some (IPC_CMD_COMPLETE, [], g')
    /\ wdCurrentFailovers g' = wdCurrentFailovers g
    /\ get_local_node_state g' = WD_COORDINATOR
    /\ (commandSource c = COMMAND_SOURCE_REMOTE -> node <> LocalNode ->
        trace g' = trace g ++ before ++ [act_send_message (Some node) reply])
    /\ (commandSource c = COMMAND_SOURCE_IPC -> 0 < sourceIPCSocket c ->
        trace g' = trace g ++ before
                   ++ [act_write_packet_to_socket (sourceIPCSocket c)
                         {| type := WD_IPC_CMD_RESULT_OK D; command_id := 0;
                            data := data reply |}])
    /\ (quorum_status g = -1 \/ getMasterWatchdogNode g <> Some LocalNode ->
        before = [] /\ escalated (localNode g') = escalated (localNode g))
    /\ (quorum_status g <> -1 -> getMasterWatchdogNode g = Some LocalNode ->
        escalated (localNode g') = false
        /\ exists pkt,
             type pkt = WD_INFO_MESSAGE
             /\ data pkt = Some (node_info_json X pool_config (localNode g'))
             /\ before
                = (if escalated (localNode g)
                   then [act_fork_plunging_process (fork_pid e);
                         act_reset_watchdog_node_escalated]
                   else [])
                  ++ [act_send_message None pkt;
                      act_register_watchdog_quorum_change_interupt]).
Proof.
  intros Hs Hparse Hkind Hnode Hq Hf Hlt reply.
  unfold process_failover_command_on_coordinator.
  rewrite decide_False by (intros H; apply H; exact Hs).
  rewrite Hparse, Hkind, Hnode.
  rewrite (compute_failover_consensus_no_quorum k nl fl node now e g Hq Hf Hlt).
  rewrite decide_False by discriminate. rewrite decide_False by discriminate.
  pose proof (update_quorum_status_frame X pool_config e g Hs) as (Hfl & Hs1 & _).
  pose proof (update_quorum_status_lost e g Hs Hlt) as (Hquiet & Hlost).
  cbv zeta in Hfl, Hs1, Hquiet, Hlost.
  set (g1 := update_quorum_status X pool_config e g) in *.
  pose proof (only_sends_reply_to_failove_command c FAILOVER_RES_NO_QUORUM 0 g1)
    as (Hl & _ & _ & _ & _ & _ & _ & _ & _ & Hf2 & Hpre).
  assert (Hbefore : exists before, trace g1 = trace g ++ before).
  { destruct (decide (quorum_status g = -1 \/ getMasterWatchdogNode g <> Some LocalNode))
      as [Hc|Hc].
    - exists []. rewrite app_nil_r. apply Hquiet. exact Hc.
    - destruct (Hlost ltac:(tauto)) as (_ & pkt & _ & _ & Ht).
      + destruct (decide (getMasterWatchdogNode g = Some LocalNode)); tauto.
      + eexists. exact Ht. }
  destruct Hbefore as (before & Hbefore).
  eexists. exists before. split; [reflexivity|].
  split; [rewrite Hf2; exact Hfl|].
  split; [unfold get_local_node_state in *; rewrite Hl; exact Hs1|].
  split; [|split; [|split]].
  - intros Hsrc Hloc. unfold reply_to_failove_command.
    rewrite decide_False by (rewrite Hsrc; discriminate).
    rewrite decide_True by exact Hsrc. rewrite Hnode.
    unfold reply_with_message. cbn [reply_commandID].
    destruct node as [|i]; [contradiction|].
    unfold send_message, log_action. cbn [trace with_trace].
    rewrite Hbefore, <- app_assoc. reflexivity.
  - intros Hsrc Hsock. unfold reply_to_failove_command.
    rewrite decide_True by exact Hsrc.
    unfold write_ipc_command_with_result_data.
    rewrite decide_False by (intros [H|H]; [contradiction|lia]).
    unfold log_action. cbn [trace with_trace].
    rewrite Hbefore, <- app_assoc. reflexivity.
  - intros Hc. destruct (Hquiet Hc) as (Ht & He). split.
    + rewrite Ht in Hbefore. apply (app_inv_head (trace g)).
      rewrite <- Hbefore, app_nil_r. reflexivity.
    + rewrite Hl. exact He.
  - intros Hne Hm. destruct (Hlost Hne Hm) as (He & pkt & Hty & Hd & Ht).
    split; [rewrite Hl; exact He|].
    exists pkt. split; [exact Hty|]. split; [rewrite Hl; exact Hd|].
    rewrite Ht in Hbefore. apply (app_inv_head (trace g)). symmetry. exact Hbefore.
Qed.

(** On the coordinator a failover command is completed, and the last
    thing done is the reply. *)
Lemma process_failover_command_replies c now e g r calls g' :
  get_local_node_state g = WD_COORDINATOR ->
  process_failover_command_on_coordinator X pool_config D F c now e g
    = Some (r, calls, g') ->
  r = IPC_CMD_COMPLETE
  /\ exists res g2, g' = reply_to_failove_command D F c res 0 g2.
Proof.
  intros Hs. unfold process_failover_command_on_coordinator.
  rewrite decide_False by (intros H; apply H; exact Hs).
  destruct (parse_wd_node_function_json F (data (sourcePacket c)))
    as [[[fn nl] fl]|]; [|intros [= <- <- <-]; eauto].
  destruct (failover_function_kind F fn) as [k|]; [|intros [= <- <- <-]; eauto].
  destruct (sourceWdNode c) as [node|]; [|discriminate].
  destruct (compute_failover_consensus X pool_config k nl fl node now e g)
    as [[res fl1] g1].
  destruct (decide (res = FAILOVER_RES_PROCEED)).
  - destruct (decide (commandSource c = COMMAND_SOURCE_REMOTE)).
    + destruct (kick_failover F k nl (Z.lor fl1 REQ_DETAIL_WATCHDOG))
        as [[ret kicked]|]; [|discriminate].
      intros [= <- <- <-]. eauto.
    + intros [= <- <- <-]. eauto.
  - destruct (decide (res = FAILOVER_RES_BUILDING_CONSENSUS));
      intros [= <- <- <-]; eauto.
Qed.

(** X24.  A failover request of a remote node is always answered to
    that node, under the command id of the request, and the answer is the
    last thing done.  A node that is not coordinator answers with an error
    message and does nothing else; the coordinator answers with a
    command reply whose data is the result document. *)
Theorem remote_failover_request_is_answered i pkt now e g calls g' :
  process_remote_failover_command_on_coordinator X pool_config D F (RemoteNode i)
    pkt now e g = Some (calls, g') ->
  exists tr reply,
    trace g' = tr ++ [act_send_message (Some (RemoteNode i)) reply]
    /\ command_id reply = command_id pkt
    /\ (get_local_node_state g <> WD_COORDINATOR ->
        type reply = WD_ERROR_MESSAGE /\ data reply = None
        /\ tr = trace g /\ calls = []
        /\ g' = log_action (act_send_message (Some (RemoteNode i)) reply) g)
    /\ (get_local_node_state g = WD_COORDINATOR ->
        type reply = WD_CMD_REPLY_IN_DATA
        /\ exists res,
             data reply = Some (failover_result_json F res 0
                                ++ String "000" EmptyString)%string).
Proof.
  unfold process_remote_failover_command_on_coordinator.
  destruct (decide (get_local_node_state g <> WD_COORDINATOR)) as [Hs|Hs].
  - intros [= <- <-].
    exists (trace g), {| type := WD_ERROR_MESSAGE; command_id := command_id pkt;
                         data := None |}.
    split; [reflexivity|]. split; [reflexivity|].
    split; [|intros; contradiction]. intros _. repeat split; reflexivity.
  - assert (Hs' : get_local_node_state g = WD_COORDINATOR)
      by (destruct (decide (get_local_node_state g = WD_COORDINATOR)); tauto).
    set (c := remote_failover_command (RemoteNode i) pkt now g).
    destruct (process_failover_command_on_coordinator X pool_config D F c now e g)
      as [[[r calls0] g1]|] eqn:Hrun; [|discriminate].
    destruct (process_failover_command_replies c now e g r calls0 g1 Hs' Hrun)
      as (-> & res & g2 & ->).
    rewrite decide_False by discriminate. intros [= <- <-].
    exists (trace g2),
      {| type := WD_CMD_REPLY_IN_DATA; command_id := command_id pkt;
         data := Some (failover_result_json F res 0 ++ String "000" EmptyString)%string |}.
    split; [reflexivity|]. split; [reflexivity|].
    split; [intros; contradiction|]. intros _. split; [reflexivity|].
    exists res. reflexivity.
Qed.

(** X25.  A failover indication of the main process is always
    completed and answered.  On a node that is not coordinator the answer
    is that it is not allowed, and nothing is sent to the cluster (the
    standby branches of the start and end functions are never reached).
    On the coordinator an indication whose JSON payload gives a
    [FailoverFuncState] that is not negative is answered with proceed
    after the start of the failover (state 0) or its end (any other
    state) has been broadcast under the next command id; any other
    payload is answered as an invalid function, and nothing is
    broadcast. *)
Theorem failover_indication_only_on_coordinator c g :
  let '(r, g') := process_IPC_failover_indication X pool_config D J F c g in
  let announced v :=
    exists d root,
      data (sourcePacket c) = Some d /\ 0 < len (sourcePacket c)
      /\ json_parse J d = Some root /\ json_is_object J root = true
      /\ json_get_int_value_for_key J root "FailoverFuncState" = Some v
      /\ 0 <= v in
  r = IPC_CMD_COMPLETE
  /\ (get_local_node_state g <> WD_COORDINATOR ->
      g' = reply_to_failove_command D F c FAILOVER_RES_NOT_ALLOWED 0 g)
  /\ (get_local_node_state g = WD_COORDINATOR ->
      (forall v, announced v ->
       let ty := if decide (v = 0) then WD_FAILOVER_START else WD_FAILOVER_END in
       let id := (nextCommandID g + 1) mod 2 ^ 32 in
       g' = reply_to_failove_command D F c FAILOVER_RES_PROCEED 0
              (log_action
                 (act_send_message None {| type := ty; command_id := id; data := None |})
                 (with_nextCommandID id g)))
      /\ ((forall v, ~ announced v) ->
          g' = reply_to_failove_command D F c FAILOVER_RES_INVALID_FUNCTION 0 g)).
Proof.
  unfold process_IPC_failover_indication.
  destruct (decide (get_local_node_state g = WD_COORDINATOR)) as [Hs|Hs].
  2:{ split; [reflexivity|]. split; [reflexivity|]. intros; contradiction. }
  set (st := match data (sourcePacket c) with None => -1 | Some d => _ end).
  assert (Hst : (forall v, (exists d root,
      data (sourcePacket c) = Some d /\ 0 < len (sourcePacket c)
      /\ json_parse J d = Some root /\ json_is_object J root = true
      /\ json_get_int_value_for_key J root "FailoverFuncState" = Some v
      /\ 0 <= v) -> st = v)
    /\ (0 <= st -> exists d root,
      data (sourcePacket c) = Some d /\ 0 < len (sourcePacket c)
      /\ json_parse J d = Some root /\ json_is_object J root = true
      /\ json_get_int_value_for_key J root "FailoverFuncState" = Some st
      /\ 0 <= st)).
  { unfold st. split.
    - intros v (d & root & -> & Hlen & Hp & Ho & Hv & _).
      rewrite decide_False by lia. rewrite Hp, Ho, Hv. reflexivity.
    - destruct (data (sourcePacket c)) as [d|] eqn:Hd; [|lia].
      case_decide; [lia|].
      destruct (json_parse J d) as [root|] eqn:Hp; [|lia].
      destruct (json_is_object J root) eqn:Ho; [|lia].
      destruct (json_get_int_value_for_key J root "FailoverFuncState") as [v|] eqn:Hv;
        simpl; [|lia].
      intros Hge. exists d, root.
      repeat split; try reflexivity; try assumption; try lia. }
  clearbody st. destruct Hst as (Hst1 & Hst2).
  assert (Hmsg : forall ty, ty = WD_FAILOVER_START \/ ty = WD_FAILOVER_END ->
            send_message_of_type X pool_config None ty None g
            = log_action
                (act_send_message None
                   {| type := ty; command_id := (nextCommandID g + 1) mod 2 ^ 32;
                      data := None |})
                (with_nextCommandID ((nextCommandID g + 1) mod 2 ^ 32) g)).
  { intros ty [-> | ->]; unfold send_message_of_type, get_message_of_type;
      repeat (rewrite decide_False by discriminate);
      (rewrite decide_True
         by (unfold minimum_message_types;
             repeat first [apply list_elem_of_here | apply list_elem_of_further]));
      reflexivity. }
  destruct (decide (st < 0)) as [Hneg|Hpos].
  - split; [reflexivity|]. split; [intros; contradiction|]. intros _. split.
    + intros v Hv. rewrite (Hst1 v Hv) in Hneg. destruct Hv as (_ & _ & _ & _ & _ & _ & _ & Hv).
      lia.
    + intros _. reflexivity.
  - assert (Hann := Hst2 ltac:(lia)).
    destruct (decide (st = 0)) as [H0|H0].
    + unfold failover_start_indication. rewrite decide_True by exact Hs.
      split; [reflexivity|]. split; [intros; contradiction|]. intros _. split.
      * intros v Hv. rewrite <- (Hst1 v Hv). rewrite decide_True by exact H0.
        rewrite Hmsg by (left; reflexivity). reflexivity.
      * intros Hno. exfalso. exact (Hno st Hann).
    + unfold failover_end_indication. rewrite decide_True by exact Hs.
      split; [reflexivity|]. split; [intros; contradiction|]. intros _. split.
      * intros v Hv. rewrite <- (Hst1 v Hv). rewrite decide_False by exact H0.
        rewrite Hmsg by (right; reflexivity). reflexivity.
      * intros Hno. exfalso. exact (Hno st Hann).
Qed.

(** A command for the remote node [m] is written to that node only. *)
Lemma send_command_to_one c g m nd a k :
  sendToNode c = Some (RemoteNode m) ->
  remoteNodes g !! m = Some nd -> is_node_active nd = true ->
  let ok := socket_write X m (commandPacket c) in
  let '(rs, cnt, tr) :=
    send_command_to_slots X c true g
      (map (fun i => {| wdNode := RemoteNode i; cmdState := COMMAMD_STATE_INIT;
                        result_type := WD_NO_MESSAGE; result_data := None |})
           (seq a k)) in
  length rs = k
  /\ (forall i r, rs !! i = Some r -> (a + i)%nat <> m ->
      cmdState r = COMMAND_STATE_DO_NOT_SEND)
  /\ if decide (a <= m < a + k)%nat
     then cnt = (if ok then 1 else 0)
          /\ tr = [act_send_message_to_node m (commandPacket c) ok]
     else cnt = 0 /\ tr = [].
Proof.
  intros Hto Hnd Hact ok. revert a. induction k as [|k IH]; intros a.
  - simpl. split; [reflexivity|]. split.
    + intros i r Hi. rewrite lookup_nil in Hi. discriminate.
    + rewrite decide_False by lia. auto.
  - cbn [seq map send_command_to_slots].
    specialize (IH (S a)).
    destruct (send_command_to_slots X c true g _) as [[rs cnt] tr].
    destruct IH as (Hlen & Hother & Hm).
    unfold send_command_to_slot. cbn [wdNode]. rewrite Hto.
    destruct (decide (a = m)) as [->|Hne].
    + rewrite decide_False by (intros [_ H]; apply H; reflexivity).
      cbn [negb andb node_at]. rewrite Hnd, Hact.
      rewrite decide_False in Hm by lia. destruct Hm as (-> & ->).
      split; [simpl; lia|]. split.
      * intros [|i] r Hi Hne; [lia|]. simpl in Hi.
        apply (Hother i r Hi). lia.
      * rewrite decide_True by lia. fold ok.
        split; [destruct ok; reflexivity|reflexivity].
    + rewrite decide_True by (split; [discriminate|intros [= H]; lia]).
      split; [simpl; lia|]. split.
      * intros [|i] r Hi Hne'.
        -- simpl in Hi. injection Hi as <-. reflexivity.
        -- simpl in Hi. apply (Hother i r Hi). lia.
      * destruct (decide (S a <= m < S a + k)%nat) as [Hin|Hout].
        -- rewrite decide_True by lia. destruct Hm as (-> & ->). auto.
        -- rewrite decide_False by lia. destruct Hm as (-> & ->). auto.
Qed.

(** X26.  A standby whose master is an active remote node forwards a
    failover command that arrived over IPC to the master only: the packet
    keeps its type and data and takes the next command id, one write goes
    to the master, and every other result slot is marked as not to be
    sent.  The command is kept as processing when the write succeeds and
    fails when it does not; no vote is recorded locally.  A node that is
    neither the accepted master nor a standby, such as a coordinator that
    is not yet the master, returns an error and changes nothing. *)
Theorem standby_forwards_failover_to_master c now e g :
  (forall m nd,
     get_local_node_state g = WD_STANDBY ->
     getMasterWatchdogNode g = Some (RemoteNode m) ->
     (m < Z.to_nat (remoteNodeCount g))%nat ->
     remoteNodes g !! m = Some nd -> is_node_active nd = true ->
     nodeResults c = [] ->
     let id := (nextCommandID g + 1) mod 2 ^ 32 in
     let fwd := {| type := type (sourcePacket c); command_id := id;
                   data := data (sourcePacket c) |} in
     let ok := socket_write X m fwd in
     exists c' g',
       process_IPC_failover_command X pool_config D F c now e g
       = Some (if ok then IPC_CMD_PROCESSING else IPC_CMD_ERROR, c', [], g')
       /\ commandPacket c' = fwd
       /\ sendToNode c' = Some (RemoteNode m)
       /\ commandSendToCount c' = (if ok then 1 else 0)
       /\ trace g' = trace g ++ [act_send_message_to_node m fwd ok]
       /\ nextCommandID g' = id
       /\ wdCurrentFailovers g' = wdCurrentFailovers g
       /\ forall i r, nodeResults c' !! i = Some r -> i <> m ->
                      cmdState r = COMMAND_STATE_DO_NOT_SEND)
  /\ (is_local_node_true_master g = false ->
      get_local_node_state g <> WD_STANDBY ->
      process_IPC_failover_command X pool_config D F c now e g
      = Some (IPC_CMD_ERROR, c, [], g)).
Proof.
  split.
  - intros m nd Hs Hm Hlt Hnd Hact Hres id fwd ok.
    unfold process_IPC_failover_command.
    assert (Hnm : is_local_node_true_master g = false).
    { apply bool_decide_eq_false_2. intros [H _]. rewrite Hs in H. discriminate. }
    rewrite Hnm. rewrite decide_True by exact Hs.
    cbn [get_next_commandID]. fold id.
    set (g1 := with_nextCommandID id g).
    change (getMasterWatchdogNode g1) with (getMasterWatchdogNode g). rewrite Hm.
    set (c1 := with_sendToNode _ (with_commandPacket _ c)).
    unfold send_command_packet_to_remote_nodes.
    assert (Hslots : nodeResults c1 = []) by exact Hres. rewrite Hslots.
    change (remoteNodeCount g1) with (remoteNodeCount g).
    assert (Htake : take (Z.to_nat (remoteNodeCount g)) (allocate_resultNodes g1)
                    = allocate_resultNodes g1).
    { apply take_ge. unfold allocate_resultNodes.
      rewrite length_map, length_seq. reflexivity. }
    assert (Hdrop : drop (Z.to_nat (remoteNodeCount g)) (allocate_resultNodes g1) = []).
    { apply drop_ge. unfold allocate_resultNodes.
      rewrite length_map, length_seq. reflexivity. }
    rewrite Htake, Hdrop.
    pose proof (send_command_to_one c1 g1 m nd 0 (Z.to_nat (remoteNodeCount g))
                  eq_refl Hnd Hact) as Hone.
    cbv zeta in Hone. unfold allocate_resultNodes.
    change (remoteNodeCount g1) with (remoteNodeCount g).
    destruct (send_command_to_slots X c1 true g1 _) as [[rs cnt] tr].
    destruct Hone as (Hlen & Hother & Hthis).
    rewrite decide_True in Hthis by lia. destruct Hthis as (-> & ->).
    change (socket_write X m (commandPacket c1)) with ok in *.
    change (commandPacket c1) with fwd.
    clearbody ok.
    destruct ok; [rewrite decide_False by lia|rewrite decide_True by lia];
      (eexists _, _; split; [reflexivity|]; simpl; rewrite app_nil_r;
       repeat split; try reflexivity;
       intros i r Hi Hne; apply (Hother i r Hi); simpl; exact Hne).
  - intros Hnm Hs. unfold process_IPC_failover_command.
    rewrite Hnm. rewrite decide_False by exact Hs. reflexivity.
Qed.

End FailoverCommandProperties.

(** ** Packets on the wire *)

Lemma ntohl_htonl x : 0 <= x < 2 ^ 32 -> ntohl_bytes (htonl_bytes x) = x.
Proof.
  intros Hx. unfold ntohl_bytes, htonl_bytes. simpl.
  rewrite !nat_ascii_embedding.
  2-5: (apply Nat2Z.inj_lt; rewrite Z2Nat.id by (apply Z.mod_pos_bound; lia);
        apply Z.mod_pos_bound; lia).
  rewrite !Z2Nat.id by (apply Z.mod_pos_bound; lia).
  rewrite (Z.mod_small x) by lia.
  change (2 ^ (8 * 3)) with 16777216. change (2 ^ (8 * 2)) with 65536.
  change (2 ^ (8 * 1)) with 256. change (2 ^ (8 * 0)) with 1.
  rewrite Z.div_1_r.
  pose proof (Z.div_mod x 16777216 ltac:(lia)).
  pose proof (Z.div_mod x 65536 ltac:(lia)).
  pose proof (Z.div_mod x 256 ltac:(lia)).
  pose proof (Z.div_mod (x / 65536) 256 ltac:(lia)).
  pose proof (Z.div_mod (x / 256) 256 ltac:(lia)).
  pose proof (Z.div_mod (x / 16777216) 256 ltac:(lia)).
  rewrite !Z.div_div in * by lia.
  change (65536 * 256) with 16777216 in *. change (256 * 256) with 65536 in *.
  change (2 ^ 32) with 4294967296 in *.
  assert (x / 16777216 < 256) by (apply Z.div_lt_upper_bound; lia).
  rewrite (Z.mod_small (x / 16777216)) by (split; [apply Z.div_pos; lia|lia]).
  pose proof (Z.mod_pos_bound x 256 ltac:(lia)).
  pose proof (Z.mod_pos_bound (x / 256) 256 ltac:(lia)).
  pose proof (Z.mod_pos_bound (x / 65536) 256 ltac:(lia)).
  lia.
Qed.

Lemma length_htonl_bytes x : length (htonl_bytes x) = 4%nat.
Proof. reflexivity. Qed.

Lemma written_all buf r : Z.of_nat (length buf) <= r -> written buf r = buf.
Proof. intros H. unfold written. apply take_ge. lia. Qed.

Lemma length_list_ascii_of_string s :
  length (String.list_ascii_of_string s) = String.length s.
Proof. induction s as [|a s IH]; simpl; [reflexivity|]. rewrite IH. reflexivity. Qed.

(** However the calls of [write] split the data, all of it is written
    when the loop reports success. *)
Lemma write_packet_data_all rs rest w :
  write_packet_data rest rs = (true, w) -> w = rest.
Proof.
  revert rest w. induction rs as [|r rs IH]; intros rest w; simpl; [discriminate|].
  case_decide; [discriminate|].
  case_decide.
  - intros [= <-]. apply written_all. assumption.
  - destruct (write_packet_data (drop (Z.to_nat r) rest) rs) as [ok w'] eqn:Hrec.
    intros [= -> <-]. rewrite (IH _ _ Hrec). apply take_drop.
Qed.

Lemma write_packet_to_socket_bytes rs pkt w :
  write_packet_to_socket rs pkt false = (true, w) -> w = packet_bytes pkt.
Proof.
  unfold write_packet_to_socket, packet_bytes.
  case_decide as H1; [discriminate|].
  destruct (bool_decide (4 <= hd 0 (tl rs))) eqn:H2; [|discriminate].
  apply bool_decide_eq_true in H2. cbn [negb].
  case_decide as H3; [discriminate|].
  rewrite (written_all [type pkt]) by (simpl; lia).
  rewrite (written_all (htonl_bytes (command_id pkt)))
    by (rewrite length_htonl_bytes; lia).
  rewrite (written_all (htonl_bytes (len pkt))) by (rewrite length_htonl_bytes; lia).
  destruct (data pkt) as [d|] eqn:Hd; simpl.
  - case_decide as Hlen.
    + destruct (write_packet_data (String.list_ascii_of_string d) (tl (tl (tl rs))))
        as [ok w4] eqn:Hw.
      intros [= -> <-]. rewrite (write_packet_data_all _ _ _ Hw). reflexivity.
    + intros [= <-]. unfold len in Hlen. rewrite Hd in Hlen.
      destruct d; [reflexivity|simpl in Hlen; lia].
  - intros [= <-]. reflexivity.
Qed.

Lemma app_prefix_split {A} (l1 l2 w m : list A) :
  l1 ++ l2 = w ++ m -> (length l1 <= length w)%nat ->
  exists w2, w = l1 ++ w2 /\ l2 = w2 ++ m.
Proof.
  revert w. induction l1 as [|a l1 IH]; intros w H Hlen.
  - exists w. split; [reflexivity|exact H].
  - destruct w as [|b w]; [simpl in Hlen; lia|].
    simpl in H. injection H as -> H.
    destruct (IH w H) as (w2 & -> & ->); [simpl in Hlen; lia|].
    exists w2. split; reflexivity.
Qed.

Lemma cons_eq_inv {A} (a b : A) (l k : list A) : a :: l = b :: k -> a = b /\ l = k.
Proof. intros [= -> ->]. auto. Qed.

Section WireProperties.

Variable SO : socket_externals.

(** A read of [n] bytes when at least [n] bytes are pending returns
    them. *)
Hypothesis socket_read_pending : forall bs rest,
  socket_read SO (bs ++ rest) (Z.of_nat (length bs)) = (Some bs, rest).

(** X27.  What [write_packet_to_socket] writes, [read_packet_of_type]
    reads back.  When the write of a packet to a node succeeds, the bytes
    on the socket are the type, the command id and the length in network
    byte order, and the data, however the operating system split the
    writes of the data.  A connected reader that expects any type or this
    type gets a packet with the same type, command id and data (NULL data
    comes back as empty data), keeps its connection, and leaves what
    follows the packet pending. *)
Theorem written_packet_is_read_back rs pkt w conn ensure_type rest :
  write_packet_to_socket rs pkt false = (true, w) ->
  0 <= command_id pkt < 2 ^ 32 ->
  len pkt < 2 ^ 31 ->
  palloc_ok SO (len pkt) = true ->
  is_socket_connection_connected conn = true ->
  ensure_type = WD_NO_MESSAGE \/ ensure_type = type pkt ->
  w = packet_bytes pkt
  /\ read_packet_of_type SO conn ensure_type (w ++ rest)
     = (read_packet_ok
          {| type := type pkt; command_id := command_id pkt;
             data := Some (default ""%string (data pkt)) |},
        conn, rest).
Proof.
  intros Hw Hid Hlen Hpalloc Hconn Hens.
  pose proof (write_packet_to_socket_bytes rs pkt w Hw) as ->.
  split; [reflexivity|].
  assert (Hlen0 : 0 <= len pkt).
  { unfold len. destruct (data pkt); lia. }
  assert (Hdlen : Z.of_nat (length (String.list_ascii_of_string
                                      (default ""%string (data pkt)))) = len pkt).
  { rewrite length_list_ascii_of_string. unfold len.
    destruct (data pkt); reflexivity. }
  unfold read_packet_of_type, packet_bytes. rewrite Hconn. cbn [negb].
  change ((type pkt :: htonl_bytes (command_id pkt) ++ htonl_bytes (len pkt)
           ++ String.list_ascii_of_string (default ""%string (data pkt))) ++ rest)
    with ([type pkt] ++ (htonl_bytes (command_id pkt) ++ htonl_bytes (len pkt)
           ++ String.list_ascii_of_string (default ""%string (data pkt))) ++ rest).
  rewrite (socket_read_pending [type pkt]). cbn [hd].
  rewrite decide_False by (intros [H1 H2]; destruct Hens; contradiction).
  rewrite <- !app_assoc.
  change 4 with (Z.of_nat (length (htonl_bytes (command_id pkt)))) at 1.
  rewrite socket_read_pending.
  change 4 with (Z.of_nat (length (htonl_bytes (len pkt)))) at 1.
  rewrite socket_read_pending.
  rewrite !ntohl_htonl by (change (2 ^ 32) with 4294967296;
                           change (2 ^ 31) with 2147483648 in Hlen; lia).
  unfold int_of_uint32. rewrite decide_True by exact Hlen.
  rewrite Hpalloc. cbn [negb].
  rewrite <- Hdlen at 1. rewrite socket_read_pending.
  rewrite String.string_of_list_ascii_of_string. reflexivity.
Qed.

(** A read of more bytes than are pending, and will be within the
    timeout, does not return the number asked for. *)
Hypothesis socket_read_short : forall input n,
  Z.of_nat (length input) < n -> (socket_read SO input n).1 = None.

(** X28.  A packet of which only a part arrives is not delivered: the
    reader returns NULL, whatever part it was, and closes the
    connection. *)
Theorem truncated_packet_is_not_delivered pkt conn w missing :
  0 <= command_id pkt < 2 ^ 32 ->
  len pkt < 2 ^ 31 ->
  palloc_ok SO (len pkt) = true ->
  is_socket_connection_connected conn = true ->
  packet_bytes pkt = w ++ missing ->
  missing <> [] ->
  let '(r, conn', _) := read_packet SO conn w in
  r = read_packet_null
  /\ conn' = {| sock := -1; sock_state := WD_SOCK_CLOSED |}
  /\ is_socket_connection_connected conn' = false.
Proof.
  intros Hid Hlen Hpalloc Hconn Hw Hmiss.
  assert (Hclose : close_socket_connection conn
                   = {| sock := -1; sock_state := WD_SOCK_CLOSED |}).
  { unfold close_socket_connection. apply bool_decide_eq_true in Hconn.
    rewrite decide_True by (left; exact Hconn). reflexivity. }
  assert (Hshort : forall input n, Z.of_nat (length input) < n ->
            exists in', socket_read SO input n = (None, in')).
  { intros input n H. pose proof (socket_read_short input n H) as Hs.
    destruct (socket_read SO input n) as [o in']. simpl in Hs. subst o.
    exists in'. reflexivity. }
  assert (Hlen0 : 0 <= len pkt).
  { unfold len. destruct (data pkt); lia. }
  assert (Hdlen : Z.of_nat (length (String.list_ascii_of_string
                                      (default ""%string (data pkt)))) = len pkt).
  { rewrite length_list_ascii_of_string. unfold len.
    destruct (data pkt); reflexivity. }
  unfold read_packet, read_packet_of_type. rewrite Hconn. cbn [negb].
  unfold packet_bytes in Hw.
  destruct w as [|ty w1].
  { destruct (Hshort [] 1) as (in' & ->); [simpl; lia|].
    rewrite Hclose. auto. }
  change ((ty :: w1) ++ missing) with (ty :: (w1 ++ missing)) in Hw.
  apply cons_eq_inv in Hw as [<- Hw].
  change (type pkt :: w1) with ([type pkt] ++ w1).
  rewrite (socket_read_pending [type pkt]). cbn [hd].
  rewrite decide_False by (intros [H _]; apply H; reflexivity).
  destruct (decide (length w1 < 4)%nat) as [H4|H4].
  { destruct (Hshort w1 4) as (in' & ->); [lia|]. rewrite Hclose. auto. }
  destruct (app_prefix_split _ _ _ _ Hw) as (w2 & -> & Hw2);
    [rewrite length_htonl_bytes; lia|].
  change 4 with (Z.of_nat (length (htonl_bytes (command_id pkt)))) at 1.
  rewrite socket_read_pending.
  destruct (decide (length w2 < 4)%nat) as [H4'|H4'].
  { destruct (Hshort w2 4) as (in' & ->); [lia|]. rewrite Hclose. auto. }
  destruct (app_prefix_split _ _ _ _ Hw2) as (w3 & -> & Hw3);
    [rewrite length_htonl_bytes; lia|].
  change 4 with (Z.of_nat (length (htonl_bytes (len pkt)))) at 1.
  rewrite socket_read_pending.
  rewrite ntohl_htonl by (change (2 ^ 32) with 4294967296;
                          change (2 ^ 31) with 2147483648 in Hlen; lia).
  unfold int_of_uint32. rewrite decide_True by exact Hlen.
  rewrite Hpalloc. cbn [negb].
  destruct (Hshort w3 (len pkt)) as (in' & ->).
  { rewrite <- Hdlen, Hw3, length_app.
    destruct missing; [contradiction|]. simpl. lia. }
  rewrite Hclose. auto.
Qed.

End WireProperties.

(** * Examples *)

(** The scenario N = 4 of the quorum arithmetic. *)
Lemma minimum_votes_formula_witness :
  1 <= 4
  /\ remoteNodeCount (coordinator_of_four []) = 4 - 1
  /\ get_mimimum_remote_nodes_required_for_quorum (coordinator_of_four []) = 1
  /\ get_minimum_votes_to_resolve_consensus cfg_consensus (coordinator_of_four []) = 3.
Proof.
  assert (H1 : 1 <= 4) by lia.
  assert (H2 : remoteNodeCount (coordinator_of_four []) = 4 - 1) by reflexivity.
  destruct (minimum_votes_formula cfg_consensus (coordinator_of_four []) 4 H1 H2)
    as (Hq & _ & H4).
  split; [exact H1|]. split; [exact H2|]. split; [exact Hq|].
  exact (H4 eq_refl eq_refl).
Defined.

(** An escalated node asked to escalate, and a node that is not escalated
    asked to resign. *)
Lemma escalation_entry_points_idempotent_witness :
  start_escalated_node quiet
    (with_localNode (with_escalated true coordinator_node) coordinator_of_three)
  = with_localNode (with_escalated true coordinator_node) coordinator_of_three
  /\ resign_from_escalated_node quiet coordinator_of_three = coordinator_of_three.
Proof.
  destruct escalation_entry_points_idempotent as (Hs & Hr & _).
  split; [apply Hs; reflexivity|apply Hr; reflexivity].
Defined.


(** Split brain by heal: the peer is escalated, the local node is not. *)
Lemma split_brain_tiebreak_witness :
  get_local_node_state split_brain_cluster = WD_COORDINATOR
  /\ type beacon_packet = WD_IAM_COORDINATOR_MESSAGE
  /\ get_local_node_state
       (watchdog_state_machine_coordinator_packet_rcv split_brain_externals
          cfg_consensus 0 beacon_packet (at_second 1000) quiet split_brain_cluster)
     = WD_JOINING
  /\ (trace split_brain_cluster
        ++ [service_message None CLUSTER_IAM_NOT_TRUE_MASTER beacon_packet])
       `prefix_of`
       trace (watchdog_state_machine_coordinator_packet_rcv split_brain_externals
                cfg_consensus 0 beacon_packet (at_second 1000) quiet
                split_brain_cluster).
Proof.
  assert (Hs : get_local_node_state split_brain_cluster = WD_COORDINATOR)
    by reflexivity.
  assert (Hty : type beacon_packet = WD_IAM_COORDINATOR_MESSAGE) by reflexivity.
  assert (Hn : remoteNodes split_brain_cluster !! 0%nat
               = Some (example_node WD_COORDINATOR 1 0 40 false)) by reflexivity.
  destruct (split_brain_tiebreak split_brain_externals cfg_consensus 0 beacon_packet
              (at_second 1000) quiet split_brain_cluster _ Hs Hty Hn) as (H & _).
  assert (Hlen : 0 < len beacon_packet) by (vm_compute; reflexivity).
  destruct (H "beacon"%string beacon_of_escalated_peer eq_refl Hlen eq_refl)
    as (Hdecided & _).
  assert (Hnz : tv_sec (current_state_time
                  (apply_beacon beacon_of_escalated_peer (at_second 1000)
                     (example_node WD_COORDINATOR 1 0 40 false))) <> 0)
    by (vm_compute; discriminate).
  destruct (Hdecided eq_refl Hnz) as (Hremote & _).
  assert (Hw : remote_is_worthier
                 (apply_beacon beacon_of_escalated_peer (at_second 1000)
                    (example_node WD_COORDINATOR 1 0 40 false))
                 split_brain_cluster)
    by (left; split; reflexivity).
  destruct (Hremote Hw) as (H1 & H2).
  repeat split; assumption.
Defined.

(** Stale-proposal resignation: at second 16 the coordinator's own
    node-down proposal for the quarantined primary has expired. *)
Lemma expired_failovers_and_resignation_witness :
  get_local_node_state coordinator_with_own_proposal = WD_COORDINATOR
  /\ wdCurrentFailovers
       (service_expired_failovers plain_externals cfg_consensus primary_quarantined
          (at_second 16) quiet coordinator_with_own_proposal) = []
  /\ wd_priority (localNode
       (service_expired_failovers plain_externals cfg_consensus primary_quarantined
          (at_second 16) quiet coordinator_with_own_proposal)) = -1
  /\ get_local_node_state
       (service_expired_failovers plain_externals cfg_consensus primary_quarantined
          (at_second 16) quiet coordinator_with_own_proposal) = WD_JOINING.
Proof.
  assert (Hs : get_local_node_state coordinator_with_own_proposal = WD_COORDINATOR)
    by reflexivity.
  destruct (expired_failovers_and_resignation plain_externals cfg_consensus
              primary_quarantined (at_second 16) quiet
              coordinator_with_own_proposal Hs) as (_ & Hresign & _).
  assert (Hcause : exists f, f ∈ wdCurrentFailovers coordinator_with_own_proposal
                     /\ resign_cause plain_externals primary_quarantined
                          (at_second 16) f).
  { exists (example_failover NODE_DOWN_REQUEST [0] [LocalNode] 0).
    split; [apply list_elem_of_here|].
    split; [reflexivity|]. split; [reflexivity|].
    split; [apply list_elem_of_here|].
    exists 0. split; [apply list_elem_of_here|reflexivity]. }
  destruct (Hresign Hcause) as (Hp & Hj & _).
  split; [exact Hs|]. split; [vm_compute; reflexivity|].
  split; [exact Hp|exact Hj].
Defined.

(** Failover consensus with N = 4: two peers have voted, the coordinator's
    own vote is the third. *)
Lemma proceed_needs_votes_witness :
  (compute_failover_consensus plain_externals cfg_consensus NODE_DOWN_REQUEST [0]
     0 LocalNode (at_second 5) quiet
     (coordinator_of_four [RemoteNode 0; RemoteNode 1])).1.1
    = FAILOVER_RES_PROCEED
  /\ (failover_when_quorum_exists cfg_consensus = false
      \/ Z.land 0 REQ_DETAIL_CONFIRMED <> 0
      \/ failover_require_consensus cfg_consensus = false
      \/ exists i dup g2 f2,
           add_failover cfg_consensus NODE_DOWN_REQUEST [0] LocalNode 0 (at_second 5)
             (update_quorum_status plain_externals cfg_consensus quiet
                (coordinator_of_four [RemoteNode 0; RemoteNode 1])) = (i, dup, g2)
           /\ wdCurrentFailovers g2 !! i = Some f2
           /\ LocalNode ∈ requestingNodes f2
           /\ get_minimum_votes_to_resolve_consensus cfg_consensus g2
                <= request_count f2
           /\ (allow_multiple_failover_requests_from_node cfg_consensus = false ->
               Forall failover_votes_wf
                 (wdCurrentFailovers
                    (update_quorum_status plain_externals cfg_consensus quiet
                       (coordinator_of_four [RemoteNode 0; RemoteNode 1]))) ->
               get_minimum_votes_to_resolve_consensus cfg_consensus g2
                 <= Z.of_nat (length (requestingNodes f2))
               /\ NoDup (requestingNodes f2))).
Proof.
  assert (H : (compute_failover_consensus plain_externals cfg_consensus
                 NODE_DOWN_REQUEST [0] 0 LocalNode (at_second 5) quiet
                 (coordinator_of_four [RemoteNode 0; RemoteNode 1])).1.1
              = FAILOVER_RES_PROCEED) by (vm_compute; reflexivity).
  split; [exact H|].
  exact (proceed_needs_votes plain_externals cfg_consensus NODE_DOWN_REQUEST [0] 0
           LocalNode (at_second 5) quiet
           (coordinator_of_four [RemoteNode 0; RemoteNode 1]) H).
Defined.

(** C1 as stated fails: with [failover_when_quorum_exists] off, a request
    that is not flagged confirmed proceeds although
    [failover_require_consensus] is on, no vote has been recorded and the
    minimum number of votes is 2. *)
Lemma proceed_without_votes :
  (compute_failover_consensus plain_externals cfg_no_quorum_needed
     NODE_DOWN_REQUEST [0] 0 (RemoteNode 0) (at_second 5) quiet
     coordinator_of_three).1.1 = FAILOVER_RES_PROCEED
  /\ Z.land 0 REQ_DETAIL_CONFIRMED = 0
  /\ failover_require_consensus cfg_no_quorum_needed = true
  /\ wdCurrentFailovers
       (compute_failover_consensus plain_externals cfg_no_quorum_needed
          NODE_DOWN_REQUEST [0] 0 (RemoteNode 0) (at_second 5) quiet
          coordinator_of_three).2 = []
  /\ get_minimum_votes_to_resolve_consensus cfg_no_quorum_needed
       coordinator_of_three = 2.
Proof. vm_compute. repeat split; reflexivity. Qed.

(** With several requests allowed per node, one peer voting three times
    reaches the minimum of 3 votes of a four-node cluster on its own. *)
Example proceed_with_repeated_votes :
  (compute_failover_consensus plain_externals cfg_multiple NODE_DOWN_REQUEST [0]
     0 (RemoteNode 0) (at_second 5) quiet
     (example_cluster coordinator_node [standby_node; standby_node; standby_node]
        3 1 []
        [with_request_count 2
           (example_failover NODE_DOWN_REQUEST [0] [RemoteNode 0] 0)])).1.1
    = FAILOVER_RES_PROCEED.
Proof. vm_compute. reflexivity. Qed.

(** A peer that has voted votes again. *)
Lemma duplicate_vote_counted_once_witness :
  allow_multiple_failover_requests_from_node cfg_consensus = false
  /\ add_failover cfg_consensus NODE_DOWN_REQUEST [0] (RemoteNode 0) 0 (at_second 5)
       (coordinator_of_four [RemoteNode 0])
     = (0%nat, true, coordinator_of_four [RemoteNode 0]).
Proof.
  assert (Hallow : allow_multiple_failover_requests_from_node cfg_consensus = false)
    by reflexivity.
  destruct (duplicate_vote_counted_once cfg_consensus NODE_DOWN_REQUEST [0]
              (RemoteNode 0) 0 (at_second 5) (coordinator_of_four [RemoteNode 0])
              Hallow) as (Hdup & _).
  split; [exact Hallow|].
  apply (Hdup 0%nat (example_failover NODE_DOWN_REQUEST [0] [RemoteNode 0] 0));
    [reflexivity|reflexivity|apply list_elem_of_here].
Defined.

(** The duplicate vote below the minimum: the answer is
    [FAILOVER_RES_CONSENSUS_MAY_FAIL]. *)
Lemma consensus_may_fail_for_duplicate_witness :
  failover_when_quorum_exists cfg_consensus = true
  /\ Z.land 0 REQ_DETAIL_CONFIRMED = 0
  /\ failover_require_consensus cfg_consensus = true
  /\ compute_failover_consensus plain_externals cfg_consensus NODE_DOWN_REQUEST [0]
       0 (RemoteNode 0) (at_second 5) quiet (coordinator_of_four [RemoteNode 0])
     = (FAILOVER_RES_CONSENSUS_MAY_FAIL, 0,
        update_quorum_status plain_externals cfg_consensus quiet
          (coordinator_of_four [RemoteNode 0])).
Proof.
  split; [reflexivity|]. split; [reflexivity|]. split; [reflexivity|].
  assert (Hq : 0 <= quorum_status
                 (update_quorum_status plain_externals cfg_consensus quiet
                    (coordinator_of_four [RemoteNode 0])))
    by (vm_compute; discriminate).
  assert (Hadd : add_failover cfg_consensus NODE_DOWN_REQUEST [0] (RemoteNode 0) 0
                   (at_second 5)
                   (update_quorum_status plain_externals cfg_consensus quiet
                      (coordinator_of_four [RemoteNode 0]))
                 = (0%nat, true,
                    update_quorum_status plain_externals cfg_consensus quiet
                      (coordinator_of_four [RemoteNode 0])))
    by (vm_compute; reflexivity).
  assert (Hl : wdCurrentFailovers
                 (update_quorum_status plain_externals cfg_consensus quiet
                    (coordinator_of_four [RemoteNode 0])) !! 0%nat
               = Some (example_failover NODE_DOWN_REQUEST [0] [RemoteNode 0] 0))
    by (vm_compute; reflexivity).
  assert (Hlt : request_count (example_failover NODE_DOWN_REQUEST [0] [RemoteNode 0] 0)
                < get_minimum_votes_to_resolve_consensus cfg_consensus
                    (update_quorum_status plain_externals cfg_consensus quiet
                       (coordinator_of_four [RemoteNode 0])))
    by (vm_compute; reflexivity).
  exact (consensus_may_fail_for_duplicate plain_externals cfg_consensus
           NODE_DOWN_REQUEST [0] 0 (RemoteNode 0) (at_second 5) quiet
           (coordinator_of_four [RemoteNode 0]) 0%nat true _ _
           eq_refl eq_refl eq_refl Hq Hadd Hl Hlt).
Defined.

(** C6 as stated fails.  Of three peers only peer 0 answers, twice: the
    reply count goes to 1 and then to 2.  Of two peers only peer 0
    answers, twice: the second reply finishes the command as if all had
    replied, and the node declares itself coordinator. *)
Lemma second_reply_is_counted :
  commandReplyFromCount
    <$> load_command 1 (accept_from_peer_0 (standing_cluster 3)) = Some 1
  /\ commandReplyFromCount
       <$> load_command 1 (accept_from_peer_0 (accept_from_peer_0 (standing_cluster 3)))
     = Some 2
  /\ commandStatus <$> load_command 1 (accept_from_peer_0 (standing_cluster 2))
     = Some COMMAND_IN_PROGRESS
  /\ get_local_node_state (accept_from_peer_0 (standing_cluster 2))
     = WD_STAND_FOR_COORDINATOR
  /\ load_command 1 (accept_from_peer_0 (accept_from_peer_0 (standing_cluster 2)))
     = None
  /\ get_local_node_state (accept_from_peer_0 (accept_from_peer_0 (standing_cluster 2)))
     = WD_COORDINATOR.
Proof. vm_compute. repeat split; reflexivity. Qed.

(** The second [Accept] of peer 0, whose slot already holds its reply. *)
Lemma reply_counted_each_time_witness :
  exists cmd slots,
    load_command 1 (accept_from_peer_0 (standing_cluster 3)) = Some cmd
    /\ cmdState <$> nodeResults cmd !! 0%nat = Some COMMAND_STATE_REPLIED
    /\ commandReplyFromCount cmd = 1
    /\ commandReplyFromCount (count_reply accept_packet 0 slots cmd) = 2
    /\ watchdog_internal_command_packet_processor plain_externals cfg_consensus
         (RemoteNode 0) accept_packet (at_second 1) quiet
         (accept_from_peer_0 (standing_cluster 3))
       = (true, store_command (count_reply accept_packet 0 slots cmd)
                  (accept_from_peer_0 (standing_cluster 3))).
Proof.
  destruct (load_command 1 (accept_from_peer_0 (standing_cluster 3)))
    as [cmd|] eqn:Hload; [|vm_compute in Hload; discriminate].
  assert (Hcmd : Some cmd = load_command 1 (accept_from_peer_0 (standing_cluster 3)))
    by (symmetry; exact Hload).
  vm_compute in Hcmd. injection Hcmd as Hcmd.
  exists cmd, (find_node_result (RemoteNode 0) 3 (nodeResults cmd) 0).1.
  destruct (reply_counted_each_time plain_externals cfg_consensus 0
              (find_node_result (RemoteNode 0) 3 (nodeResults cmd) 0).1
              (RemoteNode 0) accept_packet (at_second 1) quiet
              (accept_from_peer_0 (standing_cluster 3)) cmd) as (_ & _ & H).
  destruct H as (Hcount & Hstay & _).
  - rewrite Hcmd. vm_compute. reflexivity.
  - rewrite Hcmd. reflexivity.
  - rewrite Hcmd. vm_compute. reflexivity.
  - reflexivity.
  - rewrite Hcmd. vm_compute. reflexivity.
  - split; [reflexivity|].
    split; [rewrite Hcmd; reflexivity|].
    split; [rewrite Hcmd; reflexivity|].
    split; [rewrite Hcount, Hcmd; reflexivity|].
    apply Hstay. rewrite Hcount, Hcmd. vm_compute. reflexivity.
Defined.

(** IPC auth failure: a failover command whose payload is a JSON object
    with no key at all, while an [auth_key] is configured. *)
Lemma failover_command_refused_witness :
  NoDup (ipc_authenticated_types example_ipc_defines)
  /\ 0 < 9
  /\ read_ipc_socket_and_process cfg_consensus example_ipc_defines
       example_ipc_externals 9 (WD_IPC_FAILOVER_COMMAND example_ipc_defines)
       (Some "{}"%string) (at_second 1) coordinator_of_three
     = ipc_bad_reply example_ipc_defines example_ipc_externals 9
         "authentication failed: invalid KEY" coordinator_of_three.
Proof.
  assert (Hnd : NoDup (ipc_authenticated_types example_ipc_defines)).
  { apply (bool_decide_unpack _). vm_compute. exact I. }
  assert (Hsock : 0 < 9) by lia.
  destruct (failover_command_refused cfg_consensus example_ipc_defines
              example_ipc_externals 9 (Some "{}"%string) (at_second 1)
              coordinator_of_three Hnd Hsock) as (Hkey & _).
  split; [exact Hnd|]. split; [exact Hsock|].
  apply (Hkey "{}"%string []).
  - reflexivity.
  - simpl. lia.
  - reflexivity.
  - reflexivity.
  - intros sk pk _ Hpk. simpl in Hpk. discriminate.
Defined.

(** C8 as stated fails: a failover command with an empty payload, sent
    while an [auth_key] is configured, is refused with the text
    "authentication failed: invalid data", not with
    "authentication failed: invalid KEY". *)
Lemma empty_failover_command_invalid_data :
  ipc_auth_needed coordinator_of_three = true
  /\ wd_authkey cfg_consensus = "secret"%string
  /\ read_ipc_socket_and_process cfg_consensus example_ipc_defines
       example_ipc_externals 9 (WD_IPC_FAILOVER_COMMAND example_ipc_defines)
       None (at_second 1) coordinator_of_three
     = ipc_bad_reply example_ipc_defines example_ipc_externals 9
         "authentication failed: invalid data" coordinator_of_three
  /\ read_ipc_socket_and_process cfg_consensus example_ipc_defines
       example_ipc_externals 9 (WD_IPC_FAILOVER_COMMAND example_ipc_defines)
       None (at_second 1) coordinator_of_three
     <> ipc_bad_reply example_ipc_defines example_ipc_externals 9
          "authentication failed: invalid KEY" coordinator_of_three.
Proof.
  split; [reflexivity|]. split; [reflexivity|].
  split; [vm_compute; reflexivity|]. vm_compute. discriminate.
Qed.

(** ** Examples for the further properties *)

(** A coordinator of four with three standbys has the quorum. *)
Lemma quorum_status_by_majority_witness :
  1 <= 4
  /\ remoteNodeCount (coordinator_of_four []) = 4 - 1
  /\ get_local_node_state (coordinator_of_four []) = WD_COORDINATOR
  /\ quorum_status
       (update_quorum_status plain_externals cfg_consensus quiet
          (coordinator_of_four [])) = 1.
Proof.
  assert (H1 : 1 <= 4) by lia.
  assert (H2 : remoteNodeCount (coordinator_of_four []) = 4 - 1) by reflexivity.
  assert (H3 : get_local_node_state (coordinator_of_four []) = WD_COORDINATOR)
    by reflexivity.
  destruct (quorum_status_by_majority plain_externals cfg_consensus quiet
              (coordinator_of_four []) 4 H1 H2 H3) as (Hq & _).
  split; [exact H1|]. split; [exact H2|]. split; [exact H3|]. exact Hq.
Defined.

(** The escalated master of three nodes finds both standbys gone: the
    quorum is lost and it gives up the escalation. *)
Lemma quorum_change_drives_escalation_witness :
  get_local_node_state master_without_standbys = WD_COORDINATOR
  /\ getMasterWatchdogNode master_without_standbys = Some LocalNode
  /\ quorum_status
       (update_quorum_status plain_externals cfg_consensus quiet
          master_without_standbys) = -1
  /\ escalated (localNode
       (update_quorum_status plain_externals cfg_consensus quiet
          master_without_standbys)) = false
  /\ holding_vip (clusterMasterInfo
       (update_quorum_status plain_externals cfg_consensus quiet
          master_without_standbys)) = false
  /\ de_escalation_pid
       (update_quorum_status plain_externals cfg_consensus quiet
          master_without_standbys) = 4242.
Proof.
  assert (Hs : get_local_node_state master_without_standbys = WD_COORDINATOR)
    by reflexivity.
  assert (Hm : getMasterWatchdogNode master_without_standbys = Some LocalNode)
    by reflexivity.
  assert (Hq : quorum_status
                 (update_quorum_status plain_externals cfg_consensus quiet
                    master_without_standbys) = -1) by (vm_compute; reflexivity).
  destruct (quorum_change_drives_escalation plain_externals cfg_consensus quiet
              master_without_standbys Hs) as (_ & H).
  assert (Hne : quorum_status
                  (update_quorum_status plain_externals cfg_consensus quiet
                     master_without_standbys)
                <> quorum_status master_without_standbys)
    by (rewrite Hq; discriminate).
  destruct (H Hm Hne) as (Hlost & _).
  destruct (Hlost Hq) as (He & Hv).
  destruct (Hv eq_refl) as (Hvip & Hpid).
  split; [exact Hs|]. split; [exact Hm|]. split; [exact Hq|].
  split; [exact He|]. split; [exact Hvip|exact Hpid].
Defined.

(** A node-down request for the backends 0 and 1 falls on the proposal
    for the backends 1 and 0. *)
Lemma failover_request_matching_witness :
  NoDup (nodeList (example_failover NODE_DOWN_REQUEST [1; 0] [] 0))
  /\ [0; 1] ≡ₚ [1; 0]
  /\ failover_object_matches NODE_DOWN_REQUEST [0; 1]
       (example_failover NODE_DOWN_REQUEST [1; 0] [] 0) = true
  /\ get_failover_object NODE_DOWN_REQUEST [0; 1] (coordinator_of_four [])
     = get_failover_object NODE_DOWN_REQUEST [1; 0] (coordinator_of_four []).
Proof.
  assert (Hnd : NoDup (nodeList (example_failover NODE_DOWN_REQUEST [1; 0] [] 0))).
  { apply NoDup_cons. split.
    - intros H. apply list_elem_of_singleton in H. discriminate.
    - apply NoDup_singleton. }
  assert (Hp : [0; 1] ≡ₚ [1; 0]) by apply perm_swap.
  destruct (failover_request_matching NODE_DOWN_REQUEST [0; 1] [1; 0]
              (example_failover NODE_DOWN_REQUEST [1; 0] [] 0)
              (coordinator_of_four [])) as (_ & Hm & Hget).
  split; [exact Hnd|]. split; [exact Hp|]. split.
  - apply (Hm Hnd). split; [reflexivity|]. symmetry. exact Hp.
  - exact (Hget Hp).
Defined.

(** A coordinator of three nodes without standbys refuses a node-down
    request. *)
Lemma failover_refused_without_quorum_witness :
  get_local_node_state coordinator_without_standbys = WD_COORDINATOR
  /\ let '(res, flags', g') :=
       compute_failover_consensus plain_externals cfg_consensus NODE_DOWN_REQUEST
         [0] 0 (RemoteNode 0) (at_second 5) quiet coordinator_without_standbys in
     res = FAILOVER_RES_NO_QUORUM
     /\ wdCurrentFailovers g' = wdCurrentFailovers coordinator_without_standbys
     /\ flags' = 0.
Proof.
  assert (Hs : get_local_node_state coordinator_without_standbys = WD_COORDINATOR)
    by reflexivity.
  split; [exact Hs|].
  pose proof (failover_refused_without_quorum plain_externals cfg_consensus
                NODE_DOWN_REQUEST [0] 0 (RemoteNode 0) (at_second 5) quiet
                coordinator_without_standbys Hs) as H.
  destruct (compute_failover_consensus plain_externals cfg_consensus
              NODE_DOWN_REQUEST [0] 0 (RemoteNode 0) (at_second 5) quiet
              coordinator_without_standbys) as [[res flags'] g'].
  destruct H as (_ & Hiff & Hkeep).
  assert (Hres : res = FAILOVER_RES_NO_QUORUM).
  { apply Hiff. split; [reflexivity|]. split; [reflexivity|].
    vm_compute. reflexivity. }
  destruct (Hkeep Hres) as (Hf & Hfl).
  split; [exact Hres|]. split; [exact Hf|exact Hfl].
Defined.

(** With N = 4 and the votes of two peers recorded, the coordinator's own
    vote completes the consensus and the proposal is removed. *)
Lemma consensus_reached_removes_proposal_witness :
  get_local_node_state (coordinator_of_four [RemoteNode 0; RemoteNode 1])
    = WD_COORDINATOR
  /\ NoDup [0]
  /\ failovers_distinct
       (wdCurrentFailovers (coordinator_of_four [RemoteNode 0; RemoteNode 1]))
  /\ let '(res, flags', g') :=
       compute_failover_consensus plain_externals cfg_consensus NODE_DOWN_REQUEST
         [0] 0 LocalNode (at_second 5) quiet
         (coordinator_of_four [RemoteNode 0; RemoteNode 1]) in
     res = FAILOVER_RES_PROCEED
     /\ get_failover_object NODE_DOWN_REQUEST [0] g' = None.
Proof.
  assert (Hs : get_local_node_state (coordinator_of_four [RemoteNode 0; RemoteNode 1])
               = WD_COORDINATOR) by reflexivity.
  assert (Hnl : NoDup [0]) by apply NoDup_singleton.
  assert (Hd : failovers_distinct
                 (wdCurrentFailovers
                    (coordinator_of_four [RemoteNode 0; RemoteNode 1]))).
  { split.
    - apply Forall_singleton. apply NoDup_singleton.
    - intros i j f f' Hi Hj _ _.
      apply list_lookup_singleton_Some in Hi as [Hi _].
      apply list_lookup_singleton_Some in Hj as [Hj _]. lia. }
  split; [exact Hs|]. split; [exact Hnl|]. split; [exact Hd|].
  pose proof (consensus_reached_removes_proposal plain_externals cfg_consensus
                NODE_DOWN_REQUEST [0] 0 LocalNode (at_second 5) quiet
                (coordinator_of_four [RemoteNode 0; RemoteNode 1]) Hs Hnl Hd) as H.
  assert (Hres : (compute_failover_consensus plain_externals cfg_consensus
                    NODE_DOWN_REQUEST [0] 0 LocalNode (at_second 5) quiet
                    (coordinator_of_four [RemoteNode 0; RemoteNode 1])).1.1
                 = FAILOVER_RES_PROCEED) by (vm_compute; reflexivity).
  destruct (compute_failover_consensus plain_externals cfg_consensus
              NODE_DOWN_REQUEST [0] 0 LocalNode (at_second 5) quiet
              (coordinator_of_four [RemoteNode 0; RemoteNode 1]))
    as [[res flags'] g'].
  simpl in Hres. destruct H as (_ & H).
  destruct (H eq_refl eq_refl eq_refl Hres) as (Hnone & _).
  split; [exact Hres|exact Hnone].
Defined.

(** After a heal the coordinator that is not escalated yields to the one
    that is. *)
Lemma split_brain_decisions_consistent_witness :
  I_am_master_and_cluser_in_split_brain
    (example_node WD_COORDINATOR 1 0 40 true) coordinator_A
  + I_am_master_and_cluser_in_split_brain
      (example_node WD_COORDINATOR 1 0 50 false) coordinator_B = 0
  /\ I_am_master_and_cluser_in_split_brain
       (example_node WD_COORDINATOR 1 0 40 true) coordinator_A = -1.
Proof.
  assert (HvB : accurate_view (example_node WD_COORDINATOR 1 0 40 true) coordinator_B)
    by (repeat split; reflexivity).
  assert (HvA : accurate_view (example_node WD_COORDINATOR 1 0 50 false) coordinator_A)
    by (repeat split; reflexivity).
  assert (HtA : tv_sec (current_state_time (localNode coordinator_A)) <> 0)
    by (simpl; lia).
  assert (HtB : tv_sec (current_state_time (localNode coordinator_B)) <> 0)
    by (simpl; lia).
  destruct (split_brain_decisions_consistent coordinator_A coordinator_B _ _
              HvB HvA eq_refl eq_refl HtA HtB) as (_ & _ & _ & _ & Hsum).
  split; [apply Hsum; simpl; lia|reflexivity].
Defined.

(** Remote node 0 joins the empty standby list of a coordinator of
    three. *)
Lemma standby_node_join_cluster_adds_witness :
  get_local_node_state coordinator_without_standbys = WD_COORDINATOR
  /\ standby_list_holds coordinator_without_standbys []
  /\ standby_list_holds
       (standby_node_join_cluster (RemoteNode 0) coordinator_without_standbys)
       [RemoteNode 0].
Proof.
  assert (Hs : get_local_node_state coordinator_without_standbys = WD_COORDINATOR)
    by reflexivity.
  assert (Hw : standby_list_holds coordinator_without_standbys []).
  { split; [simpl; lia|]. split; [reflexivity|]. split; [reflexivity|].
    split; [apply NoDup_nil_2|]. intros p Hp. apply elem_of_nil in Hp. contradiction. }
  assert (Hp : exists i, RemoteNode 0 = RemoteNode i
                 /\ (i < Z.to_nat (remoteNodeCount coordinator_without_standbys))%nat)
    by (exists 0%nat; split; [reflexivity|simpl; lia]).
  destruct (standby_node_join_cluster_adds (RemoteNode 0) []
              coordinator_without_standbys Hs Hw Hp) as (H & _).
  split; [exact Hs|]. split; [exact Hw|]. exact H.
Defined.

(** Remote node 0 leaves a standby list that holds the remote nodes 0
    and 1: node 1 moves to the first slot. *)
Lemma standby_node_left_cluster_removes_witness :
  get_local_node_state coordinator_of_two_standbys = WD_COORDINATOR
  /\ standby_list_holds coordinator_of_two_standbys [RemoteNode 0; RemoteNode 1]
  /\ standby_list_holds
       (standby_node_left_cluster (RemoteNode 0) coordinator_of_two_standbys)
       [RemoteNode 1].
Proof.
  assert (Hs : get_local_node_state coordinator_of_two_standbys = WD_COORDINATOR)
    by reflexivity.
  assert (Hw : standby_list_holds coordinator_of_two_standbys
                 [RemoteNode 0; RemoteNode 1]).
  { split; [simpl; lia|]. split; [reflexivity|]. split; [reflexivity|]. split.
    - apply NoDup_cons. split; [|apply NoDup_singleton].
      intros H. apply list_elem_of_singleton in H. discriminate.
    - intros p Hp. apply elem_of_cons in Hp as [->|Hp].
      + exists 0%nat. split; [reflexivity|simpl; lia].
      + apply list_elem_of_singleton in Hp as ->.
        exists 1%nat. split; [reflexivity|simpl; lia]. }
  destruct (standby_node_left_cluster_removes (RemoteNode 0) _
              coordinator_of_two_standbys Hs Hw) as (H & _).
  split; [exact Hs|]. split; [exact Hw|]. exact H.
Defined.

(** Remote node 1 joins the standby list that holds remote node 0 and
    leaves it again. *)
Lemma standby_join_then_left_restores_witness :
  clusterMasterInfo
    (standby_node_left_cluster (RemoteNode 1)
       (standby_node_join_cluster (RemoteNode 1) coordinator_of_one_standby))
  = clusterMasterInfo coordinator_of_one_standby.
Proof.
  assert (Hw : standby_list_holds coordinator_of_one_standby [RemoteNode 0]).
  { split; [simpl; lia|]. split; [reflexivity|]. split; [reflexivity|]. split.
    - apply NoDup_singleton.
    - intros p Hp. apply list_elem_of_singleton in Hp as ->.
      exists 0%nat. split; [reflexivity|simpl; lia]. }
  apply (standby_join_then_left_restores (RemoteNode 1) [RemoteNode 0]
           coordinator_of_one_standby eq_refl Hw).
  - exists 1%nat. split; [reflexivity|simpl; lia].
  - intros H. apply list_elem_of_singleton in H. discriminate.
Defined.

(** An escalated coordinator with a pending proposal and two standbys is
    sent back to the joining state. *)
Lemma leaving_coordinator_state_witness :
  get_local_node_state escalated_coordinator = WD_COORDINATOR
  /\ WD_JOINING ∈ election_states
  /\ get_local_node_state
       (set_state plain_externals cfg_consensus (at_second 60) quiet WD_JOINING
          escalated_coordinator) = WD_JOINING
  /\ wdCurrentFailovers
       (set_state plain_externals cfg_consensus (at_second 60) quiet WD_JOINING
          escalated_coordinator) = []
  /\ escalated (localNode
       (set_state plain_externals cfg_consensus (at_second 60) quiet WD_JOINING
          escalated_coordinator)) = false
  /\ standby_nodes_count (clusterMasterInfo
       (set_state plain_externals cfg_consensus (at_second 60) quiet WD_JOINING
          escalated_coordinator)) = 0.
Proof.
  assert (Hs : get_local_node_state escalated_coordinator = WD_COORDINATOR)
    by reflexivity.
  assert (Hin : WD_JOINING ∈ election_states) by apply list_elem_of_here.
  destruct (leaving_coordinator_state plain_externals cfg_consensus (at_second 60)
              quiet WD_JOINING escalated_coordinator Hs Hin)
    as ((H1 & _ & H3 & _ & H5 & H6 & _) & _).
  split; [exact Hs|]. split; [exact Hin|]. split; [exact H1|].
  split; [exact H5|]. split; [exact H3|exact H6].
Defined.

(** A failed fork: the node does not become escalated; an escalated node
    resigns all the same. *)
Lemma escalation_follows_the_fork_witness :
  escalated (localNode (start_escalated_node fork_fails coordinator_of_three)) = false
  /\ escalation_pid (start_escalated_node fork_fails coordinator_of_three) = -1
  /\ escalated (localNode
       (resign_from_escalated_node fork_fails escalated_coordinator)) = false.
Proof.
  destruct (escalation_follows_the_fork fork_fails coordinator_of_three)
    as (Hstart & _).
  destruct (Hstart eq_refl) as (Hpid & Hesc & _).
  destruct (escalation_follows_the_fork fork_fails escalated_coordinator)
    as (_ & Hresign).
  destruct (Hresign eq_refl) as (_ & Hesc' & _).
  split; [exact Hesc|]. split; [exact Hpid|exact Hesc'].
Defined.

(** The first of two peers rejects the candidacy. *)
Lemma rejected_candidate_steps_down_witness :
  let '(consumed, g') :=
    watchdog_internal_command_packet_processor plain_externals cfg_consensus
      (RemoteNode 0) reject_packet (at_second 1) quiet (standing_cluster 2) in
  consumed = true
  /\ get_local_node_state g' = WD_PARTICIPATE_IN_ELECTION
  /\ load_command 1 g' = None.
Proof.
  assert (Hnd : NoDup (cmd_addr <$> clusterCommands (standing_cluster 2)))
    by apply NoDup_singleton.
  exact (rejected_candidate_steps_down plain_externals cfg_consensus (RemoteNode 0)
           reject_packet (at_second 1) quiet (standing_cluster 2)
           (example_command WD_STAND_FOR_COORDINATOR_MESSAGE 9 2) _ 0%nat
           eq_refl Hnd eq_refl eq_refl eq_refl eq_refl eq_refl
           (or_introl eq_refl)).
Defined.

(** A frame of type "z" is no IPC command. *)
Lemma unknown_ipc_command_refused_witness :
  ("z"%char ∉ ipc_handled_types example_ipc_defines)
  /\ 0 < 9
  /\ read_ipc_socket_and_process cfg_consensus example_ipc_defines
       example_ipc_externals 9 "z" (Some "{}"%string) (at_second 1)
       coordinator_of_three
     = ipc_bad_reply example_ipc_defines example_ipc_externals 9
         "unknown IPC command type" coordinator_of_three.
Proof.
  assert (Hty : "z"%char ∉ ipc_handled_types example_ipc_defines).
  { intros H. unfold ipc_handled_types in H.
    repeat (apply elem_of_cons in H as [H|H]; [discriminate|]).
    apply elem_of_nil in H. exact H. }
  assert (Hsock : 0 < 9) by lia.
  split; [exact Hty|]. split; [exact Hsock|].
  exact (unknown_ipc_command_refused cfg_consensus example_ipc_defines
           example_ipc_externals 9 "z" (Some "{}"%string) (at_second 1)
           coordinator_of_three Hty Hsock).
Defined.

(** A get-nodes-list command whose payload is the empty object carries no
    key: with authentication needed it is refused. *)
Lemma external_command_authentication_witness :
  ipc_auth_needed coordinator_of_three = true
  /\ process_IPC_command cfg_consensus example_ipc_defines example_ipc_externals
       (ipc_command_of_frame 9 "3" (Some "{}"%string) (at_second 1)
          coordinator_of_three) coordinator_of_three
     = Some (IPC_CMD_ERROR,
             with_errorMessage (Some "authentication failed: invalid KEY"%string)
               (ipc_command_of_frame 9 "3" (Some "{}"%string) (at_second 1)
                  coordinator_of_three),
             coordinator_of_three).
Proof.
  assert (Hty : "3"%char
                ∈ [ WD_NODE_STATUS_CHANGE_COMMAND example_ipc_defines;
                    WD_REGISTER_FOR_NOTIFICATION example_ipc_defines;
                    WD_GET_NODES_LIST_COMMAND example_ipc_defines;
                    WD_GET_RUNTIME_VARIABLE_VALUE example_ipc_defines ])
    by apply list_elem_of_further, list_elem_of_further, list_elem_of_here.
  destruct (external_command_authentication cfg_consensus example_ipc_defines
              example_ipc_externals 9 "3" (Some "{}"%string) (at_second 1)
              coordinator_of_three Hty) as (_ & H).
  assert (Hlen : (0 < String.length "{}")%nat) by (simpl; lia).
  split; [reflexivity|].
  exact (H "{}"%string [] eq_refl eq_refl Hlen eq_refl eq_refl).
Defined.


(** Coordinator B, escalated, stays master and tells A so; A resigns. *)
Lemma split_brain_loser_resigns_witness :
  remoteNodes coordinator_B !! 0%nat = Some (example_node WD_COORDINATOR 1 0 50 false)
  /\ get_local_node_state coordinator_A = WD_COORDINATOR
  /\ exists g',
       cluster_service_message_processor plain_externals cfg_consensus (RemoteNode 0)
         {| type := WD_CLUSTER_SERVICE_MESSAGE; command_id := command_id beacon_packet;
            data := Some (String CLUSTER_IAM_TRUE_MASTER EmptyString) |}
         (at_second 61) quiet coordinator_A = Some g'
       /\ get_local_node_state g' = WD_JOINING.
Proof.
  assert (Hi : remoteNodes coordinator_B !! 0%nat
               = Some (example_node WD_COORDINATOR 1 0 50 false)) by reflexivity.
  assert (HB : get_local_node_state coordinator_A = WD_COORDINATOR) by reflexivity.
  destruct (split_brain_loser_resigns plain_externals plain_externals cfg_consensus
              cfg_consensus 0 beacon_packet (at_second 60) quiet coordinator_B _
              0 (at_second 61) quiet coordinator_A Hi eq_refl HB)
    as (_ & g' & Hrun & Hs & _).
  split; [exact Hi|]. split; [exact HB|]. exists g'. split; [exact Hrun|exact Hs].
Defined.

(** A coordinator that is asked for an election goes to the joining
    state. *)
Lemma service_message_dispatch_witness :
  exists g',
    cluster_service_message_processor plain_externals cfg_consensus (RemoteNode 0)
      (example_packet WD_CLUSTER_SERVICE_MESSAGE 5
         (Some (String CLUSTER_NEEDS_ELECTION EmptyString)))
      (at_second 60) quiet coordinator_of_three = Some g'
    /\ get_local_node_state g' = WD_JOINING.
Proof.
  destruct (service_message_dispatch plain_externals cfg_consensus (RemoteNode 0)
              (example_packet WD_CLUSTER_SERVICE_MESSAGE 5
                 (Some (String CLUSTER_NEEDS_ELECTION EmptyString)))
              CLUSTER_NEEDS_ELECTION (at_second 60) quiet coordinator_of_three
              eq_refl eq_refl) as (_ & _ & H & _).
  exact (H eq_refl).
Defined.

(** The voter of priority 5 rejects the candidate of priority 1 and
    stands itself. *)
Lemma candidacy_answered_by_priority_witness :
  remoteNodes voter_cluster !! 0%nat
    = Some (example_node WD_STAND_FOR_COORDINATOR 1 5 0 false)
  /\ stands_against 0 candidacy_packet voter_cluster
       (watchdog_state_machine_voting_packet_rcv plain_externals cfg_consensus 0
          (Some candidacy_packet) (at_second 7) quiet voter_cluster).
Proof.
  assert (Hi : remoteNodes voter_cluster !! 0%nat
               = Some (example_node WD_STAND_FOR_COORDINATOR 1 5 0 false))
    by reflexivity.
  destruct (candidacy_answered_by_priority plain_externals cfg_consensus 0
              candidacy_packet (at_second 7) quiet voter_cluster _ Hi eq_refl)
    as (_ & Hvoting).
  destruct (Hvoting eq_refl) as (Htakes & _).
  split; [exact Hi|]. apply Htakes. simpl. lia.
Defined.

(** The same voter and the candidate whose candidacy went to two peers. *)
Lemma candidacy_moves_to_higher_priority_witness :
  exists reply tr gC',
    trace (watchdog_state_machine_voting_packet_rcv plain_externals cfg_consensus 0
             (Some candidacy_packet) (at_second 7) quiet voter_cluster)
    = trace voter_cluster ++ act_send_message (Some (RemoteNode 0)) reply :: tr
    /\ watchdog_internal_command_packet_processor plain_externals cfg_consensus
         (RemoteNode 0) reply (at_second 8) quiet (standing_cluster 2) = (true, gC')
    /\ get_local_node_state gC' = WD_PARTICIPATE_IN_ELECTION.
Proof.
  assert (Hnd : NoDup (cmd_addr <$> clusterCommands (standing_cluster 2)))
    by apply NoDup_singleton.
  assert (Hlt : wd_priority (example_node WD_STAND_FOR_COORDINATOR 1 5 0 false)
                < wd_priority (localNode voter_cluster)) by (simpl; lia).
  destruct (candidacy_moves_to_higher_priority plain_externals plain_externals
              cfg_consensus cfg_consensus 0 candidacy_packet (at_second 7) quiet
              voter_cluster _ 0 (at_second 8) quiet (standing_cluster 2)
              (example_command WD_STAND_FOR_COORDINATOR_MESSAGE 9 2) _ 0%nat
              eq_refl eq_refl Hlt eq_refl eq_refl eq_refl Hnd eq_refl eq_refl
              eq_refl eq_refl eq_refl)
    as (reply & tr & gC' & Htr & _ & Hrun & Hs & _).
  exists reply, tr, gC'. split; [exact Htr|]. split; [exact Hrun|exact Hs].
Defined.

(** A node whose peers are dead becomes coordinator at once. *)
Lemma initializing_timeout_starts_election_witness :
  get_cluster_node_count lonely_cluster = 0
  /\ get_local_node_state
       (watchdog_state_machine_initializing_timeout plain_externals cfg_consensus
          (at_second 3) quiet lonely_cluster) = WD_COORDINATOR.
Proof.
  assert (Hcount : get_cluster_node_count lonely_cluster = 0) by reflexivity.
  destruct (initializing_timeout_starts_election plain_externals cfg_consensus
              (at_second 3) quiet lonely_cluster eq_refl eq_refl) as (Hsole & _).
  destruct (Hsole Hcount) as (Hs & _).
  split; [exact Hcount|exact Hs].
Defined.

(** The new coordinator of three, with both standbys counted, has the
    quorum and escalates. *)
Lemma new_coordinator_escalates_only_with_quorum_witness :
  quorum_status (update_quorum_status plain_externals cfg_consensus quiet
                   coordinator_of_three) <> -1
  /\ getMasterWatchdogNode
       (watchdog_state_machine_coordinator_command_finished plain_externals
          cfg_consensus None declaration_answered (at_second 9) quiet
          coordinator_of_three) = Some LocalNode
  /\ escalation_pid
       (watchdog_state_machine_coordinator_command_finished plain_externals
          cfg_consensus None declaration_answered (at_second 9) quiet
          coordinator_of_three) = 4242.
Proof.
  assert (Hq : quorum_status (update_quorum_status plain_externals cfg_consensus quiet
                                coordinator_of_three) <> -1)
    by (vm_compute; discriminate).
  assert (Hm : getMasterWatchdogNode coordinator_of_three <> Some LocalNode)
    by discriminate.
  destruct (new_coordinator_escalates_only_with_quorum plain_externals cfg_consensus
              None declaration_answered (at_second 9) quiet coordinator_of_three
              eq_refl Hm eq_refl eq_refl) as (Hdone & _).
  destruct (Hdone (or_introl eq_refl)) as (Hmaster & _ & _ & _ & Hesc).
  destruct (Hesc Hq) as (Hpid & _).
  split; [exact Hq|]. split; [exact Hmaster|exact Hpid].
Defined.

(** The third vote, of remote node 2, completes the consensus: the main
    process is asked to degenerate backend 0 on behalf of the watchdog. *)
Lemma failover_kicked_only_on_consensus_witness :
  exists g',
    process_failover_command_on_coordinator plain_externals cfg_consensus
      example_ipc_defines example_failover_externals
      (failover_command_of_peer 2 (coordinator_of_four [RemoteNode 0; RemoteNode 1]))
      (at_second 5) quiet (coordinator_of_four [RemoteNode 0; RemoteNode 1])
    = Some (IPC_CMD_COMPLETE, [call_degenerate_backend_set [0] REQ_DETAIL_WATCHDOG], g')
    /\ exists fl1 g1,
         compute_failover_consensus plain_externals cfg_consensus NODE_DOWN_REQUEST
           [0] 0 (RemoteNode 2) (at_second 5) quiet
           (coordinator_of_four [RemoteNode 0; RemoteNode 1])
         = (FAILOVER_RES_PROCEED, fl1, g1).
Proof.
  destruct (process_failover_command_on_coordinator plain_externals cfg_consensus
              example_ipc_defines example_failover_externals
              (failover_command_of_peer 2
                 (coordinator_of_four [RemoteNode 0; RemoteNode 1]))
              (at_second 5) quiet (coordinator_of_four [RemoteNode 0; RemoteNode 1]))
    as [[[r calls] g']|] eqn:Hrun; [|vm_compute in Hrun; discriminate].
  assert (Hcalls : calls = [call_degenerate_backend_set [0] REQ_DETAIL_WATCHDOG]).
  { assert (H : Some calls = Some [call_degenerate_backend_set [0] REQ_DETAIL_WATCHDOG]).
    { change (Some calls) with ((fun x => x.1.2) <$> Some (r, calls, g')).
      rewrite <- Hrun. vm_compute. reflexivity. }
    injection H as H. exact H. }
  destruct (failover_kicked_only_on_consensus plain_externals cfg_consensus
              example_ipc_defines example_failover_externals _ _ _ _ r calls g' Hrun)
    as (_ & Hcomplete & _ & Hkick).
  rewrite (Hcomplete eq_refl), Hcalls in *.
  exists g'. split; [reflexivity|].
  destruct (Hkick (call_degenerate_backend_set [0] REQ_DETAIL_WATCHDOG)
              ltac:(apply list_elem_of_here) eq_refl)
    as (fn & nl & fl & k & node & fl1 & g1 & Hp & Hk & Hn & Hc & _).
  vm_compute in Hp. injection Hp as <- <- <-.
  vm_compute in Hk. injection Hk as <-.
  vm_compute in Hn. injection Hn as <-.
  exists fl1, g1. exact Hc.
Defined.

(** A master of three that has lost its standbys, escalated and with
    the quorum status 1: the request of remote node 0 is answered with
    the no-quorum result after the node has given up the escalation. *)
Lemma failover_command_answered_no_quorum_witness :
  exists g',
    process_failover_command_on_coordinator plain_externals cfg_consensus
      example_ipc_defines example_failover_externals
      (failover_command_of_peer 0 master_without_standbys)
      (at_second 5) quiet master_without_standbys
    = Some (IPC_CMD_COMPLETE, [], g')
    /\ wdCurrentFailovers g' = []
    /\ escalated (localNode g') = false.
Proof.
  assert (Hlt : quorum_status (update_quorum_status plain_externals cfg_consensus quiet
                                 master_without_standbys) < 0)
    by (vm_compute; reflexivity).
  destruct (failover_command_answered_no_quorum plain_externals cfg_consensus
              example_ipc_defines example_failover_externals
              (failover_command_of_peer 0 master_without_standbys)
              (at_second 5) quiet master_without_standbys
              "degenerate_backend_request" [0] 0 NODE_DOWN_REQUEST (RemoteNode 0)
              eq_refl eq_refl eq_refl eq_refl eq_refl eq_refl Hlt)
    as (g' & before & Hrun & Hf & _ & _ & _ & _ & Hlost).
  destruct Hlost as (Hesc & _); [discriminate|reflexivity|].
  exists g'. split; [exact Hrun|]. split; [exact Hf|exact Hesc].
Defined.

(** A candidate answers the failover request of remote node 0 with an
    error. *)
Lemma remote_failover_request_is_answered_witness :
  process_remote_failover_command_on_coordinator plain_externals cfg_consensus
    example_ipc_defines example_failover_externals (RemoteNode 0)
    (example_packet "f" 31 (Some "{}"%string)) (at_second 5) quiet (standing_cluster 2)
  = Some ([], log_action
                (act_send_message (Some (RemoteNode 0))
                   {| type := WD_ERROR_MESSAGE; command_id := 31; data := None |})
                (standing_cluster 2)).
Proof.
  destruct (process_remote_failover_command_on_coordinator plain_externals
              cfg_consensus example_ipc_defines example_failover_externals
              (RemoteNode 0) (example_packet "f" 31 (Some "{}"%string)) (at_second 5)
              quiet (standing_cluster 2))
    as [[calls g']|] eqn:Hrun; [|vm_compute in Hrun; discriminate].
  destruct (remote_failover_request_is_answered plain_externals cfg_consensus
              example_ipc_defines example_failover_externals 0 _ _ _ _ calls g' Hrun)
    as (tr & reply & _ & Hid & Hnot & _).
  destruct Hnot as (Hty & Hd & _ & -> & ->); [discriminate|].
  destruct reply as [ty id d]. simpl in Hid, Hty, Hd. subst ty id d. reflexivity.
Defined.

(** A candidate is not allowed a failover indication. *)
Lemma failover_indication_only_on_coordinator_witness :
  (process_IPC_failover_indication plain_externals cfg_consensus example_ipc_defines
     example_ipc_externals example_failover_externals
     (ipc_command_of_frame 9 "i" (Some "{}"%string) (at_second 1) (standing_cluster 2))
     (standing_cluster 2)).2
  = reply_to_failove_command example_ipc_defines example_failover_externals
      (ipc_command_of_frame 9 "i" (Some "{}"%string) (at_second 1) (standing_cluster 2))
      FAILOVER_RES_NOT_ALLOWED 0 (standing_cluster 2).
Proof.
  pose proof (failover_indication_only_on_coordinator plain_externals cfg_consensus
                example_ipc_defines example_ipc_externals example_failover_externals
                (ipc_command_of_frame 9 "i" (Some "{}"%string) (at_second 1)
                   (standing_cluster 2)) (standing_cluster 2)) as H.
  destruct (process_IPC_failover_indication plain_externals cfg_consensus
              example_ipc_defines example_ipc_externals example_failover_externals _
              (standing_cluster 2)) as [r g'].
  destruct H as (_ & Hnot & _). apply Hnot. discriminate.
Defined.

(** The standby forwards the failover command of its main process to the
    master, remote node 0. *)
Lemma standby_forwards_failover_to_master_witness :
  exists c' g',
    process_IPC_failover_command plain_externals cfg_consensus example_ipc_defines
      example_failover_externals
      (ipc_command_of_frame 9 "f" (Some "{}"%string) (at_second 1) standby_cluster)
      (at_second 1) quiet standby_cluster
    = Some (IPC_CMD_PROCESSING, c', [], g')
    /\ trace g' = [act_send_message_to_node 0
                     {| type := "f"; command_id := 101; data := Some "{}"%string |}
                     true].
Proof.
  destruct (standby_forwards_failover_to_master plain_externals cfg_consensus
              example_ipc_defines example_failover_externals
              (ipc_command_of_frame 9 "f" (Some "{}"%string) (at_second 1)
                 standby_cluster) (at_second 1) quiet standby_cluster) as (H & _).
  assert (Hlt : (0 < Z.to_nat (remoteNodeCount standby_cluster))%nat)
    by (simpl; lia).
  destruct (H 0%nat coordinator_node eq_refl eq_refl Hlt eq_refl eq_refl eq_refl)
    as (c' & g' & Hrun & _ & _ & _ & Htr & _).
  exists c', g'. split; [exact Hrun|exact Htr].
Defined.

Lemma example_socket_read_pending bs rest :
  socket_read example_socket_externals (bs ++ rest) (Z.of_nat (length bs))
  = (Some bs, rest).
Proof.
  unfold example_socket_externals. cbn [socket_read].
  rewrite decide_True by (rewrite length_app; lia).
  rewrite Nat2Z.id, take_app_length, drop_app_length. reflexivity.
Qed.

Lemma example_socket_read_short input n :
  Z.of_nat (length input) < n ->
  (socket_read example_socket_externals input n).1 = None.
Proof.
  intros H. unfold example_socket_externals. cbn [socket_read].
  rewrite decide_False by lia. reflexivity.
Qed.

(** A data packet whose five bytes of data go out in two writes. *)
Lemma written_packet_is_read_back_witness :
  write_packet_to_socket [1; 4; 4; 2; 3] hello_packet false
  = (true, packet_bytes hello_packet)
  /\ read_packet_of_type example_socket_externals connected_socket WD_NO_MESSAGE
       (packet_bytes hello_packet ++ packet_bytes candidacy_packet)
     = (read_packet_ok hello_packet, connected_socket, packet_bytes candidacy_packet).
Proof.
  assert (Hw : write_packet_to_socket [1; 4; 4; 2; 3] hello_packet false
               = (true, packet_bytes hello_packet)) by (vm_compute; reflexivity).
  assert (Hid : 0 <= command_id hello_packet < 2 ^ 32) by (simpl; lia).
  assert (Hlen : len hello_packet < 2 ^ 31) by (vm_compute; reflexivity).
  destruct (written_packet_is_read_back example_socket_externals
              example_socket_read_pending [1; 4; 4; 2; 3] hello_packet
              (packet_bytes hello_packet) connected_socket WD_NO_MESSAGE
              (packet_bytes candidacy_packet) Hw Hid Hlen eq_refl eq_refl
              (or_introl eq_refl)) as (_ & Hread).
  split; [exact Hw|exact Hread].
Defined.

(** The same packet without its last two bytes. *)
Lemma truncated_packet_is_not_delivered_witness :
  (read_packet example_socket_externals connected_socket
     (take 12 (packet_bytes hello_packet))).1
  = (read_packet_null, {| sock := -1; sock_state := WD_SOCK_CLOSED |}).
Proof.
  assert (Hid : 0 <= command_id hello_packet < 2 ^ 32) by (simpl; lia).
  assert (Hlen : len hello_packet < 2 ^ 31) by (vm_compute; reflexivity).
  assert (Hsplit : packet_bytes hello_packet
                   = take 12 (packet_bytes hello_packet)
                     ++ drop 12 (packet_bytes hello_packet))
    by (symmetry; apply take_drop).
  assert (Hmiss : drop 12 (packet_bytes hello_packet) <> [])
    by (vm_compute; discriminate).
  pose proof (truncated_packet_is_not_delivered example_socket_externals
                example_socket_read_pending example_socket_read_short hello_packet
                connected_socket _ _ Hid Hlen eq_refl eq_refl Hsplit Hmiss) as H.
  destruct (read_packet example_socket_externals connected_socket
              (take 12 (packet_bytes hello_packet))) as [[r conn'] rest].
  destruct H as (-> & -> & _). reflexivity.
Defined.
